(** * rm-bridge: the change-set calculator [rm_bridge/changeset/change.py]

    A shallow embedding of [TrackerChange] and its helpers, and the
    properties of the reconciliation engine that were checked against it.

    Python objects are embedded as follows.
    - YAML values and action fragments are terms of [Value]; a [dict] is an
      insertion-ordered association list with unique keys and is updated
      with [dict_set], which overwrites in place or appends, as CPython does.
    - Exceptions are the constructors of [Exn]; fallible code returns
      [Result].
    - The action dictionaries that [yield_requirements_mod_actions] builds
      are shared between [self.actions] and [self._req_deletions] and are
      mutated after they were yielded: they live in a store of cells and
      are referred to by their address. *)

From Stdlib Require Import String Ascii List ZArith QArith Bool Arith.
Import ListNotations.
Close Scope Q_scope.
Open Scope string_scope.
Open Scope list_scope.

Set Implicit Arguments.

(** ** Python values *)

Module Py.

(** What a [decl.UUIDReference] holds: the UUID string it was made from.
    The constructor checks what it is given, see [UUIDReference] below. *)
Inductive RefArg : Type :=
| ByUUID (uuid : string).

Scheme All for list.
Scheme All for prod.
Scheme All for option.

(** A finite float is represented by the rational it denotes, a
    [datetime.datetime] by its timestamp. *)
Inductive Value : Type :=
| VNone
| VBool (b : bool)
| VInt (z : Z)
| VFloat (q : Q)
| VStr (s : string)
| VDateTime (t : Z)
| VRef (r : RefArg)
| VPromise (label : string)
| VList (l : list Value)
| VDict (d : list (string * Value)).

Definition Dict : Type := list (string * Value).

Inductive Exn : Type :=
| KeyError
| ValueError
| TypeError
| AttributeError
| AssertionError
| InvalidFieldValue (key name : string) (value : Value).

Inductive Result (A : Type) : Type :=
| Ok (a : A)
| Raise (e : Exn).
Arguments Ok {A} a.
Arguments Raise {A} e.

Definition bind {A B} (r : Result A) (k : A -> Result B) : Result B :=
  match r with
  | Ok a => k a
  | Raise e => Raise e
  end.

(** [try: ... except KeyError: handler] *)
Definition except_KeyError {A} (r : Result A) (handler : Result A) : Result A :=
  match r with
  | Raise KeyError => handler
  | _ => r
  end.

(** *** Ordered dictionaries *)

Section Dicts.
Context {A : Type}.

Fixpoint dict_get (d : list (string * A)) (k : string) : option A :=
  match d with
  | [] => None
  | (k', v) :: d' => if String.eqb k k' then Some v else dict_get d' k
  end.

Fixpoint dict_set (d : list (string * A)) (k : string) (v : A)
  : list (string * A) :=
  match d with
  | [] => [(k, v)]
  | (k', v') :: d' =>
      if String.eqb k k' then (k', v) :: d' else (k', v') :: dict_set d' k v
  end.

Fixpoint dict_del (d : list (string * A)) (k : string) : list (string * A) :=
  match d with
  | [] => []
  | (k', v') :: d' =>
      if String.eqb k k' then d' else (k', v') :: dict_del d' k
  end.

Definition dict_keys (d : list (string * A)) : list string := map fst d.

Definition dict_has (d : list (string * A)) (k : string) : bool :=
  match dict_get d k with Some _ => true | None => false end.

(** [d[k]] *)
Definition dict_item (d : list (string * A)) (k : string) : Result A :=
  match dict_get d k with Some v => Ok v | None => Raise KeyError end.
End Dicts.

Definition str_in (s : string) (l : list string) : bool :=
  existsb (String.eqb s) l.

Fixpoint nodupb (l : list string) : bool :=
  match l with
  | [] => true
  | x :: l' => negb (str_in x l') && nodupb l'
  end.

(** [set(d) == {"parent"}] *)
Definition only_parent (d : Dict) : bool :=
  str_in "parent" (dict_keys d) && forallb (String.eqb "parent") (dict_keys d).

(** Every dictionary inside the value has unique keys. *)
Fixpoint wf_value (v : Value) : bool :=
  match v with
  | VList l => forallb wf_value l
  | VDict d =>
      nodupb (dict_keys d) && forallb (fun kv => wf_value (snd kv)) d
  | _ => true
  end.

(** *** Truthiness and equality *)

Definition truthy (v : Value) : bool :=
  match v with
  | VNone => false
  | VBool b => b
  | VInt z => negb (Z.eqb z 0)
  | VFloat q => negb (Qeq_bool q 0%Q)
  | VStr s => negb (String.eqb s EmptyString)
  | VList [] => false
  | VDict [] => false
  | _ => true
  end.

Definition ref_eqb (a b : RefArg) : bool :=
  match a, b with
  | ByUUID x, ByUUID y => String.eqb x y
  end.

(** The number a bool, int or float stands for in a comparison. *)
Definition numeric (v : Value) : option Q :=
  match v with
  | VBool b => Some (inject_Z (Z.b2z b))
  | VInt z => Some (inject_Z z)
  | VFloat q => Some q
  | _ => None
  end.

(** [a == b]: numbers compare by value across bool, int and float; lists
    pointwise; dictionaries by size and by key, whatever the order. *)
Fixpoint py_eqb (a b : Value) {struct a} : bool :=
  match a, b with
  | VNone, VNone => true
  | VStr x, VStr y => String.eqb x y
  | VDateTime x, VDateTime y => Z.eqb x y
  | VRef x, VRef y => ref_eqb x y
  | VPromise x, VPromise y => String.eqb x y
  | VList l, VList m =>
      (fix go (l m : list Value) : bool :=
         match l, m with
         | [], [] => true
         | x :: l', y :: m' => py_eqb x y && go l' m'
         | _, _ => false
         end) l m
  | VDict d, VDict e =>
      Nat.eqb (length d) (length e) &&
      (fix go (d : list (string * Value)) : bool :=
         match d with
         | [] => true
         | (k, v) :: d' =>
             match dict_get e k with
             | Some w => py_eqb v w
             | None => false
             end && go d'
         end) d
  | (VBool _ | VInt _ | VFloat _), _ =>
      match numeric a, numeric b with
      | Some x, Some y => Qeq_bool x y
      | _, _ => false
      end
  | _, _ => false
  end.

(** [list.remove(x)]: drops the first element equal to [x]. *)
Fixpoint list_remove (x : Value) (l : list Value) : Result (list Value) :=
  match l with
  | [] => Raise ValueError
  | y :: l' =>
      if py_eqb y x then Ok l'
      else bind (list_remove x l') (fun r => Ok (y :: r))
  end.

Definition to_lower_ascii (c : ascii) : ascii :=
  let n := nat_of_ascii c in
  if (Nat.leb 65 n && Nat.leb n 90)%bool then ascii_of_nat (n + 32) else c.

Fixpoint lower (s : string) : string :=
  match s with
  | EmptyString => EmptyString
  | String c s' => String (to_lower_ascii c) (lower s')
  end.

(** *** Snapshot values

    [act.Primitive | None]: what the snapshot may hold as the value of an
    attribute, [int | float | str | list[str] | bool | datetime.datetime]
    or [None]. *)
Inductive Primitive : Type :=
| PNone
| PInt (z : Z)
| PFloat (q : Q)
| PStr (s : string)
| PList (l : list string)
| PBool (b : bool)
| PDateTime (t : Z).

Definition to_value (p : Primitive) : Value :=
  match p with
  | PNone => VNone
  | PInt z => VInt z
  | PFloat q => VFloat q
  | PStr s => VStr s
  | PList l => VList (map VStr l)
  | PBool b => VBool b
  | PDateTime t => VDateTime t
  end.

End Py.
Export Py.

(** ** The tracker snapshot *)

Module Snapshot.

(** [act.AttributeDefinition | act.EnumAttributeDefinition]: the key
    [type], and [multi_values] when the key is present. *)
Record AttributeDefinition : Type := {
  adef_type : string;
  multi_values : option Value;
}.

(** [act.RequirementType]; [attributes] is [None] when the key is absent. *)
Record RequirementType : Type := {
  rt_long_name : string;
  rt_attributes : option (list (string * AttributeDefinition));
}.

(** [act.WorkItem]. [text], [type] and [children] are [None] when the key
    is absent; an absent [attributes] key and an empty mapping are read
    alike by the code ([item.get("attributes", {})]). The identifier is
    taken as a string, so that [str(item["id"])] is the identity.
    [text_first] tells whether the key [text] comes before the key
    [long_name] in the mapping: a mapping is gone through in the order of
    its keys. A mapping with a key that [act.WorkItem] has not is not
    covered. *)
Inductive WorkItem : Type := {
  id : string;
  long_name : string;
  text : option string;
  text_first : bool;
  type : option string;
  attributes : list (string * Primitive);
  children : option (list WorkItem);
}.

Record TrackerSnapshot : Type := {
  data_types : list (string * list string);
  requirement_types : list (string * RequirementType);
  items : list WorkItem;
}.

End Snapshot.

(** ** The live model, as far as the calculator reads it *)

Module Live.

Record EnumValue : Type := {
  ev_uuid : string;
  ev_long_name : string;
}.

Record EnumerationDataTypeDefinition : Type := {
  dtd_uuid : string;
  dtd_long_name : string;
  dtd_values : list EnumValue;
}.

(** [reqif.AttributeDefinition] and, with [ad_enumeration] set,
    [reqif.AttributeDefinitionEnumeration]. [ad_data_type] is the long
    name of the data type definition referred to, when there is one;
    [ad_multi_valued] is [None] on an element that has no attribute
    [multi_valued]. *)
Record AttributeDefinition : Type := {
  ad_uuid : string;
  ad_identifier : string;
  ad_long_name : string;
  ad_enumeration : bool;
  ad_data_type : option string;
  ad_multi_valued : option bool;
}.

Record RequirementType : Type := {
  rt_uuid : string;
  rt_identifier : string;
  rt_long_name : string;
  attribute_definitions : list AttributeDefinition;
}.

Record RequirementsTypesFolder : Type := {
  rtf_uuid : string;
  data_type_definitions : list EnumerationDataTypeDefinition;
  requirement_types : list RequirementType;
}.

(** An [EnumerationValueAttribute] holds enumeration values, read by their
    long names; every other attribute holds [value]. *)
Inductive AttributeData : Type :=
| EnumerationValues (long_names : list string)
| ScalarValue (value : Value).

Record Attribute : Type := {
  at_uuid : string;
  at_definition : AttributeDefinition;
  at_data : AttributeData;
}.

(** A child as read through [req.requirements] and [req.folders]. *)
Record Child : Type := {
  c_uuid : string;
  c_identifier : string;
}.

(** [reqif.Requirement] and, with [is_folder] set,
    [reqif.RequirementsFolder]. [parent] is the UUID of the owner. *)
Record WorkItem : Type := {
  uuid : string;
  identifier : string;
  long_name : string;
  text : string;
  type : option RequirementType;
  attributes : list Attribute;
  is_folder : bool;
  parent : string;
  folders : list Child;
  requirements : list Child;
}.

Record RequirementsModule : Type := {
  m_uuid : string;
  m_folders : list Child;
  m_requirements : list Child;
}.

(** Where [find.ReqFinder] is asked to look. *)
Inductive Scope : Type :=
| BelowModule (m : RequirementsModule)
| BelowTypesFolder (f : option RequirementsTypesFolder)
| BelowRequirementType (t : RequirementType).

End Live.

(** ** [find.ReqFinder]

    The finder is not part of the calculator: its lookups are taken as they
    are used, each returning the element found or [None]. *)
Record ReqFinder : Type := {
  work_item_by_identifier : string -> option Live.WorkItem;
  reqtype_by_identifier :
    string -> option Live.RequirementsTypesFolder ->
    option Live.RequirementType;
  enum_data_type_definition_by_long_name :
    string -> option Live.RequirementsTypesFolder ->
    option Live.EnumerationDataTypeDefinition;
  enum_value_by_long_name :
    string -> Live.RequirementsModule -> option Live.EnumValue;
  attribute_definition_by_identifier :
    string -> string -> Live.Scope -> option Live.AttributeDefinition;
}.

(** ** [TrackerChange] *)

Definition REQ_TYPES_FOLDER_NAME : string := "Types".
Definition CACHEKEY_TYPES_FOLDER_IDENTIFIER : string := "-2".

Definition _ATTR_BLACKLIST : list (string * string) := [("Type", "Folder")].

Definition is_str (p : Primitive) : bool :=
  match p with PStr _ => true | _ => false end.
Definition is_list (p : Primitive) : bool :=
  match p with PList _ => true | _ => false end.
Definition is_datetime (p : Primitive) : bool :=
  match p with PDateTime _ => true | _ => false end.
(** [bool] is a subclass of [int]. *)
Definition is_int (p : Primitive) : bool :=
  match p with PInt _ | PBool _ => true | _ => false end.
Definition is_float (p : Primitive) : bool :=
  match p with PFloat _ => true | _ => false end.
Definition is_bool (p : Primitive) : bool :=
  match p with PBool _ => true | _ => false end.

(** The classes of the map, each as its [isinstance] test. *)
Definition _ATTR_VALUE_DEFAULT_MAP : list (string * (Primitive -> bool)) :=
  [("String", is_str); ("Enum", is_list); ("Date", is_datetime);
   ("Integer", is_int); ("Float", is_float); ("Boolean", is_bool)].

Module AttributeValueBuilder.
Record t : Type := {
  deftype : string;
  key : string;
  value : Primitive;
}.
End AttributeValueBuilder.

(** The instance attributes set by [__init__] and read afterwards. *)
Record TrackerChange : Type := {
  tracker : Snapshot.TrackerSnapshot;
  reqfinder : ReqFinder;
  req_module : Live.RequirementsModule;
  reqt_folder : option Live.RequirementsTypesFolder;
  (** The order in which this run of the interpreter iterates over a set
      built from the given elements (a permutation of them). *)
  set_order : list string -> list string;
}.

Definition data_type_definitions (self : TrackerChange)
  : list (string * list string) :=
  Snapshot.data_types (tracker self).

Definition requirement_types (self : TrackerChange)
  : list (string * Snapshot.RequirementType) :=
  Snapshot.requirement_types (tracker self).

(** [decl.UUIDReference(element.uuid)]. The constructor checks in its
    [__post_init__] that it is given a UUID string and raises [ValueError]
    ("Malformed `!uuid`") otherwise. The UUID of a model element is such a
    string, so that the call returns. *)
Definition UUIDReference (uuid : string) : Value := VRef (ByUUID uuid).

(** [decl.UUIDReference(element)]: a model element is no UUID string, the
    check of the constructor fails. *)
Definition UUIDReference_of_element {A} (element : A) : Result Value :=
  Raise ValueError.

Definition sappend (a b : string) : string := String.append a b.
Infix "+++" := sappend (at level 60, right associativity).

(** *** Module-level helpers *)

Fixpoint _blacklisted_all (name : string) (l : list string) : bool :=
  match l with
  | [] => true
  | val :: l' =>
      existsb (fun p => String.eqb name (fst p) && String.eqb val (snd p))
              _ATTR_BLACKLIST
      && _blacklisted_all name l'
  end.

Definition _blacklisted (name : string) (value : Primitive) : bool :=
  match value with
  | PNone => false
  | PList l => _blacklisted_all name l
  | PStr s =>
      existsb (fun p => String.eqb name (fst p) && String.eqb s (snd p))
              _ATTR_BLACKLIST
  | _ => false
  end.

(** The exception a non-mapping [source] raises on the first override. *)
Definition not_a_mapping (overrides : Dict) : Exn :=
  match overrides with
  | (_, VDict (_ :: _)) :: _ => AttributeError
  | _ => TypeError
  end.

(** [_deep_update] works in place: it returns [source] as it is left, and
    the exception if one was raised on the way. [_deep_update_items] is the
    loop over [overrides.items()], for a given run [update_with] of the
    function on a value of [overrides]; a dictionary found in [source] is
    updated where it is, so that what was merged into it before an
    exception stays. *)
Section DeepUpdateItems.
Variable update_with : Value -> Dict -> Dict * option Exn.

Fixpoint _deep_update_items (overrides : list (string * Value))
  (source : Dict) {struct overrides} : Dict * option Exn :=
  match overrides with
  | [] => (source, None)
  | (key, value) :: rest =>
      match value with
      | VDict ((_ :: _) as sub) =>
          match dict_get source key with
          | None =>
              match update_with value [] with
              | (update, None) =>
                  _deep_update_items rest
                    (dict_set source key (VDict update))
              | (_, Some e) => (source, Some e)
              end
          | Some (VDict update0) =>
              match update_with value update0 with
              | (update, None) =>
                  _deep_update_items rest
                    (dict_set source key (VDict update))
              | (update, Some e) =>
                  (dict_set source key (VDict update), Some e)
              end
          | Some _ => (source, Some (not_a_mapping sub))
          end
      | _ => _deep_update_items rest (dict_set source key value)
      end
  end.
End DeepUpdateItems.

Fixpoint _deep_update_with (ov : Value) (source : Dict) {struct ov}
  : Dict * option Exn :=
  match ov with
  | VDict overrides => _deep_update_items _deep_update_with overrides source
  | _ => (source, None)
  end.

Definition _deep_update (source overrides : Dict) : Dict * option Exn :=
  _deep_update_with (VDict overrides) source.

Definition raised {A} (r : A * option Exn) : Result A :=
  match r with
  | (a, None) => Ok a
  | (_, Some e) => Raise e
  end.

Definition _add_action_safely (base : Dict) (first_key second_key : string)
  (action : Value) : Result Dict :=
  let otherwise :=
    raised (_deep_update base
              [(first_key, VDict [(second_key, VList [action])])]) in
  match dict_get base first_key with
  | None => otherwise
  | Some (VDict first) =>
      match dict_get first second_key with
      | None => otherwise
      | Some (VList l) =>
          Ok (dict_set base first_key
                (VDict (dict_set first second_key (VList (l ++ [action])))))
      | Some _ => Raise AttributeError
      end
  | Some _ => Raise TypeError
  end.

(** [make_requirement_delete_actions], on the list [getattr(req, key)]. *)
Definition make_requirement_delete_actions (elements : list Live.Child)
  (child_ids : list string) : list Value :=
  map (fun creq => UUIDReference (Live.c_uuid creq))
      (filter (fun creq => negb (str_in (Live.c_identifier creq) child_ids))
              elements).

(** [elements.by_<attr>(value, single=True)]: the one element that matches;
    [KeyError] when there is none or more than one. *)
Definition single {A} (matches : A -> bool) (elements : list A) : Result A :=
  match filter matches elements with
  | [x] => Ok x
  | _ => Raise KeyError
  end.

Fixpoint dedup (l : list string) : list string :=
  match l with
  | [] => []
  | x :: l' => if str_in x l' then dedup l' else x :: dedup l'
  end.

(** [set(a) - set(b)], before any order of iteration is chosen. *)
Definition set_difference (a b : list string) : list string :=
  filter (fun x => negb (str_in x b)) (dedup a).

Definition is_not_None (v : option Value) : bool :=
  match v with
  | None | Some VNone => false
  | Some _ => true
  end.

Section TypeSystem.
Variable self : TrackerChange.

Definition data_type_create_action (name : string) (values : list string)
  : Dict :=
  let type := "EnumerationDataTypeDefinition" in
  let enum_values :=
    map (fun value =>
           VDict [("long_name", VStr value);
                  ("promise_id",
                   VStr ("EnumValue " +++ name +++ " " +++ value))])
        values in
  [("long_name", VStr name);
   ("values", VList enum_values);
   ("promise_id", VStr (type +++ " " +++ name));
   ("_type", VStr type)].

Definition yield_data_type_definition_create_actions : list Dict :=
  map (fun nv => data_type_create_action (fst nv) (snd nv))
      (data_type_definitions self).

Definition attribute_definition_create_action (name : string)
  (item : Snapshot.AttributeDefinition) (req_type_id : string) : Dict :=
  let identifier := name +++ " " +++ req_type_id in
  let base := [("long_name", VStr name); ("identifier", VStr identifier)] in
  let enum := String.eqb (Snapshot.adef_type item) "Enum" in
  let cls :=
    if enum then "AttributeDefinitionEnumeration"
    else "AttributeDefinition" in
  let base :=
    if enum then
      let etdef :=
        enum_data_type_definition_by_long_name
          (reqfinder self) name (reqt_folder self) in
      let data_type_ref :=
        match etdef with
        | None => VPromise ("EnumerationDataTypeDefinition " +++ name)
        | Some etdef => UUIDReference (Live.dtd_uuid etdef)
        end in
      let base := dict_set base "data_type" data_type_ref in
      dict_set base "multi_valued"
        (VBool (is_not_None (Snapshot.multi_values item)))
    else base in
  let base := dict_set base "_type" (VStr cls) in
  dict_set base "promise_id" (VStr (cls +++ " " +++ identifier)).

Definition requirement_type_create_action (identifier : string)
  (req_type : Snapshot.RequirementType) : Dict :=
  [("identifier", VStr identifier);
   ("long_name", VStr (Snapshot.rt_long_name req_type));
   ("promise_id", VStr ("RequirementType " +++ identifier));
   ("attribute_definitions",
    VList
      (map (fun na =>
              VDict (attribute_definition_create_action
                       (fst na) (snd na) identifier))
           (match Snapshot.rt_attributes req_type with
            | Some attrs => attrs
            | None => []
            end)))].

Definition yield_requirement_type_create_actions : list Dict :=
  map (fun ir => requirement_type_create_action (fst ir) (snd ir))
      (requirement_types self).

Definition requirement_types_folder_create_action : Dict :=
  let data_type_defs := yield_data_type_definition_create_actions in
  let req_types := yield_requirement_type_create_actions in
  let reqt_folder :=
    [("long_name", VStr REQ_TYPES_FOLDER_NAME);
     ("identifier", VStr CACHEKEY_TYPES_FOLDER_IDENTIFIER);
     ("data_type_definitions", VList (map VDict data_type_defs));
     ("requirement_types", VList (map VDict req_types))] in
  [("parent", UUIDReference (Live.m_uuid (req_module self)));
   ("extend",
    VDict [("requirement_types_folders", VList [VDict reqt_folder])])].

(** The validator. *)
Definition check_attribute_value_is_valid (name : string)
  (value : Primitive) (req_type_id : string)
  : Result AttributeValueBuilder.t :=
  bind (dict_item (requirement_types self) req_type_id) (fun req_type =>
  bind (match Snapshot.rt_attributes req_type with
        | Some attrs => Ok attrs
        | None => Raise KeyError
        end) (fun reqtype_attr_defs =>
  bind (dict_item reqtype_attr_defs name) (fun adef =>
  let deftype := Snapshot.adef_type adef in
  bind (dict_item _ATTR_VALUE_DEFAULT_MAP deftype) (fun cls =>
  let matches_type := cls value in
  bind (if String.eqb deftype "Enum" then
          bind (dict_item (data_type_definitions self) name)
            (fun options =>
               let common :=
                 match value with
                 | PList l => existsb (fun v => str_in v options) l
                 | _ => false
                 end in
               Ok (negb matches_type || negb common, "values"))
        else Ok (negb matches_type, "value"))
    (fun '(is_faulty, key) =>
       if is_faulty : bool
       then Raise (InvalidFieldValue key name (to_value value))
       else Ok {| AttributeValueBuilder.deftype := deftype;
                  AttributeValueBuilder.key := key;
                  AttributeValueBuilder.value := value |}))))).

Definition attribute_value_create_action (name : string)
  (value : Primitive) (req_type_id : string) : Result Dict :=
  bind (check_attribute_value_is_valid name value req_type_id)
    (fun builder =>
  let enum := String.eqb (AttributeValueBuilder.deftype builder) "Enum" in
  let deftype' :=
    if enum then "AttributeDefinition" +++ "Enumeration"
    else "AttributeDefinition" in
  let values :=
    if enum then
      match AttributeValueBuilder.value builder with
      | PList l =>
          map (fun enum_name =>
                 match enum_value_by_long_name
                         (reqfinder self) enum_name (req_module self) with
                 | None =>
                     VPromise ("EnumValue " +++ name +++ " " +++ enum_name)
                 | Some enumvalue => UUIDReference (Live.ev_uuid enumvalue)
                 end) l
      | _ => []
      end
    else [] in
  let attr_def_id := name +++ " " +++ req_type_id in
  let definition :=
    attribute_definition_by_identifier
      (reqfinder self) deftype' attr_def_id
      (Live.BelowTypesFolder (reqt_folder self)) in
  let definition_ref :=
    match definition with
    | None => VPromise (deftype' +++ " " +++ attr_def_id)
    | Some definition => UUIDReference (Live.ad_uuid definition)
    end in
  Ok [("_type", VStr (lower (AttributeValueBuilder.deftype builder)));
      ("definition", definition_ref);
      (AttributeValueBuilder.key builder,
       match values with
       | [] => to_value (AttributeValueBuilder.value builder)
       | _ => VList values
       end)]).

(** *** Reconciling the types folder [folder] *)
Section WithTypesFolder.
Variable folder : Live.RequirementsTypesFolder.

Definition data_type_mod_action (name : string) (values : list string)
  : option Dict :=
  match single (fun d => String.eqb (Live.dtd_long_name d) name)
               (Live.data_type_definitions folder) with
  | Raise _ => Some (data_type_create_action name values)
  | Ok dtdef =>
      let base := [("parent", UUIDReference (Live.dtd_uuid dtdef))] in
      let mods :=
        if negb (String.eqb (Live.dtd_long_name dtdef) name)
        then [("long_name", VStr name)] else [] in
      let live := map Live.ev_long_name (Live.dtd_values dtdef) in
      let creations := set_difference values live in
      let action :=
        data_type_create_action
          (Live.dtd_long_name dtdef) (set_order self creations) in
      let deletions := set_difference live values in
      let base :=
        match creations with
        | [] => base
        | _ =>
            dict_set base "extend"
              (VDict [("values",
                       match dict_get action "values" with
                       | Some v => v
                       | None => VNone
                       end)])
        end in
      let base :=
        match mods with
        | [] => base
        | _ => dict_set base "modify" (VDict mods)
        end in
      let base :=
        match deletions with
        | [] => base
        | _ =>
            let evs :=
              filter (fun ev => str_in (Live.ev_long_name ev) deletions)
                     (Live.dtd_values dtdef) in
            dict_set base "delete"
              (VDict [("values",
                       VList (map (fun ev =>
                                     UUIDReference (Live.ev_uuid ev))
                                  evs))])
        end in
      if only_parent base then None else Some base
  end.

(** [base.get(k, {})], as a condition. *)
Definition populated (base : Dict) (k : string) : bool :=
  match dict_get base k with
  | Some v => truthy v
  | None => false
  end.

Definition yield_data_type_definition_mod_actions : list Dict :=
  let dt_defs_deletions :=
    map (fun dtdef => UUIDReference (Live.dtd_uuid dtdef))
        (filter (fun dtdef =>
                   negb (dict_has (data_type_definitions self)
                                  (Live.dtd_long_name dtdef)))
                (Live.data_type_definitions folder)) in
  let actions :=
    flat_map (fun nv =>
                match data_type_mod_action (fst nv) (snd nv) with
                | None => []
                | Some action => [action]
                end)
             (data_type_definitions self) in
  let dt_defs_modifications :=
    filter (fun action => dict_has action "parent") actions in
  let dt_defs_creations :=
    filter (fun action => negb (dict_has action "parent")) actions in
  let base := [("parent", UUIDReference (Live.rtf_uuid folder))] in
  let base :=
    match dt_defs_creations with
    | [] => base
    | _ =>
        dict_set base "extend"
          (VDict [("data_type_definitions",
                   VList (map VDict dt_defs_creations))])
    end in
  let base :=
    match dt_defs_deletions with
    | [] => base
    | _ =>
        dict_set base "delete"
          (VDict [("data_type_definitions", VList dt_defs_deletions)])
    end in
  (if populated base "extend" || populated base "delete"
   then [base] else [])
  ++ dt_defs_modifications.

Definition attribute_definition_mod_action
  (reqtype : Live.RequirementType) (name : string)
  (data : Snapshot.AttributeDefinition) : Result (option Dict) :=
  match single (fun a => String.eqb (Live.ad_long_name a) name)
               (Live.attribute_definitions reqtype) with
  | Raise _ =>
      Ok (Some (attribute_definition_create_action
                  name data (Live.rt_identifier reqtype)))
  | Ok attrdef =>
      let mods :=
        if negb (String.eqb (Live.ad_long_name attrdef) name)
        then [("long_name", VStr name)] else [] in
      bind (if String.eqb (Snapshot.adef_type data) "Enum" then
              let mods :=
                match Live.ad_data_type attrdef with
                | Some dtype =>
                    if negb (String.eqb dtype name)
                    then dict_set mods "data_type" (VStr name)
                    else mods
                | None => dict_set mods "data_type" (VStr name)
                end in
              match Live.ad_multi_valued attrdef with
              | None => Raise AttributeError
              | Some multi_valued =>
                  match Snapshot.multi_values data with
                  | Some multi_values =>
                      if negb (py_eqb (VBool multi_valued) multi_values)
                         && is_not_None (Some multi_values)
                      then Ok (dict_set mods "multi_valued" multi_values)
                      else Ok mods
                  | None => Ok mods
                  end
              end
            else Ok mods)
        (fun mods =>
           match mods with
           | [] => Ok None
           | _ =>
               Ok (Some [("parent", UUIDReference (Live.ad_uuid attrdef));
                         ("modify", VDict mods)])
           end)
  end.

(** The loop over [item["attributes"].items()] in
    [requirement_type_mod_action]: the actions that are not [None]. *)
Fixpoint attribute_definition_mod_actions
  (reqtype : Live.RequirementType)
  (attrs : list (string * Snapshot.AttributeDefinition))
  : Result (list Dict) :=
  match attrs with
  | [] => Ok []
  | (name, data) :: attrs' =>
      bind (attribute_definition_mod_action reqtype name data)
        (fun action =>
      bind (attribute_definition_mod_actions reqtype attrs')
        (fun actions =>
           Ok (match action with
               | None => actions
               | Some action => action :: actions
               end)))
  end.

Definition requirement_type_mod_action (identifier : string)
  (item : Snapshot.RequirementType) : Result (list Dict) :=
  let create := Ok [requirement_type_create_action identifier item] in
  match single (fun t => String.eqb (Live.rt_identifier t) identifier)
               (Live.requirement_types folder) with
  | Raise _ => create
  | Ok reqtype =>
      let mods :=
        if negb (String.eqb (Live.rt_long_name reqtype)
                            (Snapshot.rt_long_name item))
        then [("long_name", VStr (Snapshot.rt_long_name item))]
        else [] in
      match Snapshot.rt_attributes item with
      | None => create
      | Some attributes =>
          let attr_defs_deletions :=
            map (fun adef => UUIDReference (Live.ad_uuid adef))
                (filter (fun adef =>
                           negb (dict_has attributes
                                          (Live.ad_long_name adef)))
                        (Live.attribute_definitions reqtype)) in
          bind (attribute_definition_mod_actions reqtype attributes)
            (fun actions =>
          let attr_defs_modifications :=
            filter (fun action => dict_has action "parent") actions in
          let attr_defs_creations :=
            filter (fun action => negb (dict_has action "parent"))
                   actions in
          let base := [("parent", UUIDReference (Live.rt_uuid reqtype))] in
          let base :=
            match mods with
            | [] => base
            | _ => dict_set base "modify" (VDict mods)
            end in
          let base :=
            match attr_defs_creations with
            | [] => base
            | _ =>
                dict_set base "extend"
                  (VDict [("attribute_definitions",
                           VList (map VDict attr_defs_creations))])
            end in
          let base :=
            match attr_defs_deletions with
            | [] => base
            | _ =>
                dict_set base "delete"
                  (VDict [("attribute_definitions",
                           VList attr_defs_deletions)])
            end in
          Ok ((if only_parent base then [] else [base])
              ++ attr_defs_modifications))
      end
  end.

(** The loop of [yield_requirement_type_mod_actions]. *)
Fixpoint requirement_type_mod_actions
  (types : list (string * Snapshot.RequirementType))
  : Result (list Dict) :=
  match types with
  | [] => Ok []
  | (id, reqt) :: types' =>
      bind (requirement_type_mod_action id reqt) (fun actions =>
      bind (requirement_type_mod_actions types') (fun actions' =>
      Ok (actions ++ actions')))
  end.

Definition yield_requirement_type_mod_actions : Result (list Dict) :=
  requirement_type_mod_actions (requirement_types self).

(** The reference to the parent is made of the folder itself, not of
    its UUID: the function raises before anything else is done. *)
Definition requirement_type_delete_actions : Result Dict :=
  bind (UUIDReference_of_element folder) (fun parent_ref =>
  let dels :=
    map (fun reqtype => UUIDReference (Live.rt_uuid reqtype))
        (filter (fun reqtype =>
                   negb (dict_has (requirement_types self)
                                  (Live.rt_identifier reqtype)))
                (Live.requirement_types folder)) in
  Ok (match dels with
      | [] => [("parent", parent_ref)]
      | _ => [("parent", parent_ref); ("delete", VList dels)]
      end)).

End WithTypesFolder.

End TypeSystem.

(** *** The state of one run

    [cells] holds the action dictionaries built by
    [yield_requirements_mod_actions], by address; [_req_deletions] maps the
    UUID of an element to the address of the action that deletes it. *)
Record State : Type := {
  cells : list Dict;
  _location_changed : list string;
  _req_deletions : list (string * nat);
}.

Definition initial_state : State :=
  {| cells := []; _location_changed := []; _req_deletions := [] |}.

Definition M (A : Type) : Type := State -> Result (A * State).

Definition ret {A} (a : A) : M A := fun st => Ok (a, st).

Definition bindM {A B} (m : M A) (k : A -> M B) : M B :=
  fun st =>
    match m st with
    | Ok (a, st') => k a st'
    | Raise e => Raise e
    end.

Definition lift {A} (r : Result A) : M A :=
  fun st =>
    match r with
    | Ok a => Ok (a, st)
    | Raise e => Raise e
    end.

Notation "x <- m ;; k" := (bindM m (fun x => k))
  (at level 61, m at next level, right associativity).
Notation "' pat <- m ;; k" :=
  (bindM m (fun x => match x with pat => k end))
  (at level 61, pat pattern, m at next level, right associativity).

Definition cell (st : State) (address : nat) : Dict :=
  nth address (cells st) [].

Fixpoint set_nth {A} (l : list A) (n : nat) (x : A) : list A :=
  match l, n with
  | [], _ => []
  | _ :: l', O => x :: l'
  | y :: l', S n' => y :: set_nth l' n' x
  end.

(** A new action dictionary; its address is returned. *)
Definition allocate (base : Dict) : M nat :=
  fun st =>
    Ok (length (cells st),
        {| cells := cells st ++ [base];
           _location_changed := _location_changed st;
           _req_deletions := _req_deletions st |}).

Definition location_changed_add (identifier : string) : M unit :=
  fun st =>
    Ok (tt,
        {| cells := cells st;
           _location_changed :=
             if str_in identifier (_location_changed st)
             then _location_changed st
             else _location_changed st ++ [identifier];
           _req_deletions := _req_deletions st |}).

(** [self._req_deletions[uuid] = base], for the references in [dels]. *)
Fixpoint register_deletions (dels : list Value) (address : nat)
  (deletions : list (string * nat)) : list (string * nat) :=
  match dels with
  | [] => deletions
  | VRef (ByUUID uuid) :: dels' =>
      register_deletions dels' address (dict_set deletions uuid address)
  | _ :: dels' => register_deletions dels' address deletions
  end.

Definition req_deletions_update (dels : list Value) (address : nat) : M unit :=
  fun st =>
    Ok (tt,
        {| cells := cells st;
           _location_changed := _location_changed st;
           _req_deletions :=
             register_deletions dels address (_req_deletions st) |}).

(** The [parent] argument of [yield_requirements_mod_actions]: left out,
    an element of the model, or the string ["To be created"]. *)
Inductive Parent : Type :=
| ParentNone
| ParentElement (uuid : string)
| ParentToBeCreated.

Inductive AttributeAction : Type :=
| CreateAttribute (action : Dict)
| ModifyAttribute (name : string) (value : Primitive)
| NoAttributeAction.

Definition same_set (a b : list string) : bool :=
  forallb (fun x => str_in x b) a && forallb (fun x => str_in x a) b.

Section WorkItems.
Variable self : TrackerChange.

Definition _invalidate_deletion (requirement : Live.WorkItem) : M unit :=
  fun st =>
    let key :=
      if Live.is_folder requirement then "folders" else "requirements" in
    let ref := UUIDReference (Live.uuid requirement) in
    match dict_get (_req_deletions st) (Live.uuid requirement) with
    | None => Ok (tt, st)
    | Some address =>
        let action := cell st address in
        match dict_get action "delete" with
        | None => Ok (tt, st)
        | Some (VDict deletions) =>
            match dict_get deletions key with
            | None => Ok (tt, st)
            | Some (VList refs) =>
                bind (list_remove ref refs) (fun refs =>
                let deletions :=
                  match refs with
                  | [] => dict_del deletions key
                  | _ => dict_set deletions key (VList refs)
                  end in
                let action :=
                  match deletions with
                  | [] => dict_del action "delete"
                  | _ => dict_set action "delete" (VDict deletions)
                  end in
                Ok (tt,
                    {| cells := set_nth (cells st) address action;
                       _location_changed := _location_changed st;
                       _req_deletions := _req_deletions st |}))
            | Some _ => Raise AttributeError
            end
        | Some _ => Raise TypeError
        end
    end.

Definition req_delete_actions (visited : list string)
  (elements : list Live.Child) (attr_name : string) : Dict :=
  let parent_ref := UUIDReference (Live.m_uuid (req_module self)) in
  let dels :=
    map (fun req => UUIDReference (Live.c_uuid req))
        (filter (fun req => negb (str_in (Live.c_identifier req) visited))
                elements) in
  match dels with
  | [] => [("parent", parent_ref)]
  | _ => [("parent", parent_ref);
          ("delete", VDict [(attr_name, VList dels)])]
  end.

(** The loop over the attributes in [requirements_create_actions]: the
    actions collected and [folder_hint]. *)
Fixpoint create_attributes (req_type_id : option string)
  (attributes : list (string * Primitive)) : Result (list Value * bool) :=
  match attributes with
  | [] => Ok ([], false)
  | (name, value) :: rest =>
      if _blacklisted name value then
        bind (create_attributes req_type_id rest) (fun '(actions, hint) =>
        Ok (actions,
            (String.eqb name "Type" && py_eqb (to_value value) (VStr "Folder"))
            || hint))
      else
        match req_type_id with
        | None | Some EmptyString => Ok ([], false)
        | Some req_type_id' =>
            bind (dict_item (requirement_types self) req_type_id')
              (fun req_type =>
            bind (match Snapshot.rt_attributes req_type with
                  | Some attrs => Ok attrs
                  | None => Raise KeyError
                  end) (fun attrs =>
            bind (if dict_has attrs name then
                    bind (attribute_value_create_action
                            self name value req_type_id')
                      (fun action => Ok [VDict action])
                  else Ok []) (fun action =>
            bind (create_attributes req_type_id rest)
              (fun '(actions, hint) => Ok (action ++ actions, hint)))))
        end
  end.

(** The payload of [requirements_create_actions] before the children. *)
Definition create_base (item : Snapshot.WorkItem) (attributes : list Value)
  : Dict :=
  let base :=
    [("long_name", VStr (Snapshot.long_name item));
     ("identifier", VStr (Snapshot.id item))] in
  let base :=
    match Snapshot.text item with
    | None | Some EmptyString => base
    | Some text => dict_set base "text" (VStr text)
    end in
  let base :=
    match attributes with
    | [] => base
    | _ => dict_set base "attributes" (VList attributes)
    end in
  match Snapshot.type item with
  | None | Some EmptyString => base
  | Some req_type_id =>
      dict_set base "type"
        (match reqtype_by_identifier
                 (reqfinder self) req_type_id (reqt_folder self) with
         | None => VPromise ("RequirementType " +++ req_type_id)
         | Some reqtype => UUIDReference (Live.rt_uuid reqtype)
         end)
  end.

Definition attribute_value_mod_action (req : Live.WorkItem) (name : string)
  (value : Primitive) : Result AttributeAction :=
  match Live.type req with
  | None => Raise AttributeError
  | Some req_type =>
      let reqtype_id := Live.rt_identifier req_type in
      except_KeyError
        (bind (check_attribute_value_is_valid self name value reqtype_id)
           (fun builder =>
         let attrdef :=
           attribute_definition_by_identifier
             (reqfinder self) (AttributeValueBuilder.deftype builder)
             (name +++ " " +++ reqtype_id)
             (Live.BelowRequirementType req_type) in
         bind (single
                 (fun attr =>
                    match attrdef with
                    | Some attrdef =>
                        String.eqb (Live.ad_uuid (Live.at_definition attr))
                                   (Live.ad_uuid attrdef)
                    | None => false
                    end)
                 (Live.attributes req)) (fun attr =>
         bind (match Live.at_data attr with
               | Live.EnumerationValues long_names =>
                   match value with
                   | PList l => Ok (negb (same_set long_names l))
                   | _ => Raise AssertionError
                   end
               | Live.ScalarValue v => Ok (negb (py_eqb v (to_value value)))
               end) (fun differ =>
         if differ : bool then Ok (ModifyAttribute name value)
         else Ok NoAttributeAction))))
        (bind (attribute_value_create_action self name value reqtype_id)
           (fun action => Ok (CreateAttribute action)))
  end.

(** The loop over the attributes in [yield_requirements_mod_actions]:
    [attributes_creations] and [attributes_modifications]. *)
Fixpoint mod_attributes (req : Live.WorkItem)
  (attributes : list (string * Primitive)) (creations : list Value)
  (modifications : Dict) : Result (list Value * Dict) :=
  match attributes with
  | [] => Ok (creations, modifications)
  | (name, value) :: rest =>
      if match value with PNone => false | _ => true end
         && _blacklisted name value
      then mod_attributes req rest creations modifications
      else
        bind (attribute_value_mod_action req name value) (fun action =>
        match action with
        | NoAttributeAction =>
            mod_attributes req rest creations modifications
        | CreateAttribute action =>
            mod_attributes req rest (creations ++ [VDict action])
                           modifications
        | ModifyAttribute name value =>
            mod_attributes req rest creations
              (dict_set modifications name (to_value value))
        end)
  end.

(** [_compare_simple_attributes(req, item, filter)] with the filter
    [("id", "type", "attributes", "children")]: the keys left are
    [long_name] and [text], compared in the order of the mapping. *)
Definition _compare_simple_attributes (req : Live.WorkItem)
  (item : Snapshot.WorkItem) : Dict :=
  let compare_long_name (mods : Dict) :=
    if negb (String.eqb (Live.long_name req) (Snapshot.long_name item))
    then dict_set mods "long_name" (VStr (Snapshot.long_name item))
    else mods in
  let compare_text (mods : Dict) :=
    match Snapshot.text item with
    | Some text =>
        if negb (String.eqb (Live.text req) text)
        then dict_set mods "text" (VStr text) else mods
    | None => mods
    end in
  if Snapshot.text_first item
  then compare_long_name (compare_text [])
  else compare_text (compare_long_name []).

(** The action of [yield_requirements_mod_actions] before the children. *)
Definition mod_base (req : Live.WorkItem) (item : Snapshot.WorkItem)
  : Result Dict :=
  let item_attributes := Snapshot.attributes item in
  bind (mod_attributes req item_attributes [] [])
    (fun '(attributes_creations, attributes_modifications) =>
  let attributes_deletions :=
    map (fun attr => UUIDReference (Live.at_uuid attr))
        (filter (fun attr =>
                   negb (dict_has item_attributes
                           (Live.ad_long_name (Live.at_definition attr))))
                (Live.attributes req)) in
  let base := [("parent", UUIDReference (Live.uuid req))] in
  let mods := _compare_simple_attributes req item in
  let reqtype_id := Snapshot.type item in
  bind (match Live.type req with
        | None => Raise AttributeError
        | Some req_type =>
            Ok (match reqtype_id with
                | Some id =>
                    if String.eqb id (Live.rt_identifier req_type)
                    then mods else dict_set mods "type" (VStr id)
                | None => dict_set mods "type" VNone
                end)
        end) (fun mods =>
  let base :=
    match mods with
    | [] => base
    | _ => dict_set base "modify" (VDict mods)
    end in
  let base :=
    match attributes_modifications, dict_get base "modify" with
    | _ :: _, Some (VDict modify) =>
        dict_set base "modify"
          (VDict (dict_set modify "attributes"
                    (VDict attributes_modifications)))
    | _, _ => base
    end in
  let base :=
    match attributes_creations with
    | [] => base
    | _ =>
        dict_set base "extend"
          (VDict [("attributes", VList attributes_creations)])
    end in
  let base :=
    match attributes_deletions with
    | [] => base
    | _ =>
        dict_set base "delete"
          (VDict [("attributes", VList attributes_deletions)])
    end in
  Ok base)).

(** [req.parent != parent] *)
Definition parent_differs (req : Live.WorkItem) (parent : Parent) : bool :=
  match parent with
  | ParentNone =>
      negb (String.eqb (Live.parent req) (Live.m_uuid (req_module self)))
  | ParentElement uuid => negb (String.eqb (Live.parent req) uuid)
  | ParentToBeCreated => true
  end.

(** [child.get("children")], as a condition. *)
Definition has_children (child : Snapshot.WorkItem) : bool :=
  match Snapshot.children child with
  | Some (_ :: _) => true
  | _ => false
  end.

(** What the children contribute to a creation payload, and the
    dictionary with the two lists put in and the empty one taken out. *)
Definition with_children (base : Dict) (requirements folders : list Value)
  : Dict :=
  let base := dict_set base "requirements" (VList requirements) in
  let base := dict_set base "folders" (VList folders) in
  let base :=
    match folders with
    | [] => dict_del base "folders"
    | _ => base
    end in
  match requirements with
  | [] => dict_del base "requirements"
  | _ => base
  end.

(** The action of [yield_requirements_mod_actions] for a folder, once
    its children were gone through. *)
Definition with_folder_changes (req : Live.WorkItem) (base : Dict)
  (cr_creations cf_creations : list Value)
  (child_req_ids child_folder_ids location_changed : list string)
  : Result (Dict * list Value) :=
  let creations := [] in
  let creations :=
    match cr_creations with
    | [] => creations
    | _ => dict_set creations "requirements" (VList cr_creations)
    end in
  let creations :=
    match cf_creations with
    | [] => creations
    | _ => dict_set creations "folders" (VList cf_creations)
    end in
  bind (match creations with
        | [] => Ok base
        | _ => raised (_deep_update base [("extend", VDict creations)])
        end) (fun base =>
  let fold_dels :=
    make_requirement_delete_actions
      (Live.folders req) (child_folder_ids ++ location_changed) in
  let req_dels :=
    make_requirement_delete_actions
      (Live.requirements req) (child_req_ids ++ location_changed) in
  let children_deletions := [] in
  let children_deletions :=
    match fold_dels with
    | [] => children_deletions
    | _ => dict_set children_deletions "folders" (VList fold_dels)
    end in
  let children_deletions :=
    match req_dels with
    | [] => children_deletions
    | _ => dict_set children_deletions "requirements" (VList req_dels)
    end in
  bind (match children_deletions with
        | [] => Ok base
        | _ =>
            raised (_deep_update base [("delete", VDict children_deletions)])
        end) (fun base =>
  Ok (base, req_dels ++ fold_dels))).

(** The loops over the children, for given runs [create] and [modify] of
    the two generators on a child. *)
Section Children.
Variable create : Snapshot.WorkItem -> M (Dict * list nat).
Variable modify :
  Snapshot.WorkItem -> Live.WorkItem -> Parent -> M (list nat).

(** In [requirements_create_actions]: [base["requirements"]],
    [base["folders"]] and [child_mods]. *)
Fixpoint create_children (children : list Snapshot.WorkItem)
  (requirements folders : list Value) (child_mods : list nat)
  : M (list Value * list Value * list nat) :=
  match children with
  | [] => ret (requirements, folders, child_mods)
  | child :: children' =>
      '(action, child_actions) <-
        match work_item_by_identifier
                (reqfinder self) (Snapshot.id child) with
        | None =>
            '(action, child_actions) <- create child ;;
            ret (VDict action, child_actions)
        | Some creq =>
            child_actions <- modify child creq ParentToBeCreated ;;
            ret (UUIDReference (Live.uuid creq), child_actions)
        end ;;
      if has_children child
      then create_children children' requirements (folders ++ [action])
             (child_mods ++ child_actions)
      else create_children children' (requirements ++ [action]) folders
             (child_mods ++ child_actions)
  end.

(** In [yield_requirements_mod_actions]: [cr_creations],
    [cf_creations], [child_req_ids], [child_folder_ids] and
    [child_mods]. *)
Fixpoint mod_children (req : Live.WorkItem)
  (children : list Snapshot.WorkItem)
  (cr_creations cf_creations : list Value)
  (child_req_ids child_folder_ids : list string) (child_mods : list nat)
  : M (list Value * list Value * list string * list string * list nat) :=
  match children with
  | [] =>
      ret (cr_creations, cf_creations, child_req_ids, child_folder_ids,
           child_mods)
  | child :: children' =>
      let cid := Snapshot.id child in
      '(container, child_actions) <-
        match work_item_by_identifier (reqfinder self) cid with
        | None =>
            '(action, child_actions) <- create child ;;
            ret ([VDict action], child_actions)
        | Some creq =>
            child_actions <-
              modify child creq (ParentElement (Live.uuid req)) ;;
            ret (if negb (String.eqb (Live.parent creq) (Live.uuid req))
                 then [UUIDReference (Live.uuid creq)] else [],
                 child_actions)
        end ;;
      if has_children child
      then mod_children req children' cr_creations
             (cf_creations ++ container)
             child_req_ids (child_folder_ids ++ [cid])
             (child_mods ++ child_actions)
      else mod_children req children' (cr_creations ++ container)
             cf_creations
             (child_req_ids ++ [cid]) child_folder_ids
             (child_mods ++ child_actions)
  end.
End Children.

(** What [yield_requirements_mod_actions] does once the children were
    gone through: the action is stored, the deletions are recorded and
    the addresses to yield are returned. *)
Definition finish_mod (base : Dict) (dels : list Value)
  (child_mods : list nat) : M (list nat) :=
  address <- allocate base ;;
  _ <- req_deletions_update dels address ;;
  ret ((if populated base "extend" || populated base "modify"
           || populated base "delete"
        then [address] else [])
       ++ child_mods).

(** The two generators, run to their end. [requirements_create_actions]
    gives the payload it yields first and the addresses of the actions
    that follow; [yield_requirements_mod_actions] the addresses of the
    actions it yields. A generator runs when its first element is asked
    for, which for the latter is at [extend(child_actions)]. *)
Fixpoint requirements_create_actions (item : Snapshot.WorkItem)
  {struct item} : M (Dict * list nat) :=
  '(attributes, folder_hint) <-
     lift (create_attributes (Snapshot.type item)
                             (Snapshot.attributes item)) ;;
  let base := create_base item attributes in
  match Snapshot.children item, folder_hint with
  | None, false => ret (base, [])
  | None, true => lift (Raise KeyError)
  | Some children, _ =>
      '(requirements, folders, child_mods) <-
        create_children requirements_create_actions
          yield_requirements_mod_actions children [] [] [] ;;
      ret (with_children base requirements folders, child_mods)
  end

with yield_requirements_mod_actions (item : Snapshot.WorkItem)
  (req : Live.WorkItem) (parent : Parent) {struct item} : M (list nat) :=
  base <- lift (mod_base req item) ;;
  _ <- (if parent_differs req parent then
          _ <- location_changed_add (Live.identifier req) ;;
          _invalidate_deletion req
        else ret tt) ;;
  if Live.is_folder req then
    '(cr_creations, cf_creations, child_req_ids, child_folder_ids,
      child_mods) <-
      match Snapshot.children item with
      | None => ret ([], [], [], [], [])
      | Some children =>
          mod_children requirements_create_actions
            yield_requirements_mod_actions req children [] [] [] [] []
      end ;;
    fun st =>
      match with_folder_changes req base cr_creations cf_creations
              child_req_ids child_folder_ids (_location_changed st) with
      | Ok (base, dels) => finish_mod base dels child_mods st
      | Raise e => Raise e
      end
  else finish_mod base [] [].

(** [self.actions.remove(action)] *)
Fixpoint actions_remove (action : Dict) (actions : list Dict)
  : Result (list Dict) :=
  match actions with
  | [] => Raise ValueError
  | a :: actions' =>
      if py_eqb (VDict a) (VDict action) then Ok actions'
      else bind (actions_remove action actions')
             (fun r => Ok (a :: r))
  end.

(** The loop over [self._req_deletions.values()]. *)
Fixpoint remove_void_deletions (st : State)
  (deletions : list (string * nat)) (actions : list Dict)
  : Result (list Dict) :=
  match deletions with
  | [] => Ok actions
  | (_, address) :: deletions' =>
      let action := cell st address in
      bind (if only_parent action then actions_remove action actions
            else Ok actions)
        (remove_void_deletions st deletions')
  end.

(** The loop over [self.tracker["items"]]: [base], [visited] and the
    addresses of the actions appended to [self.actions]. *)
Fixpoint reconcile_items (items : list Snapshot.WorkItem) (base : Dict)
  (visited : list string) (actions : list nat)
  : M (Dict * list string * list nat) :=
  match items with
  | [] => ret (base, visited, actions)
  | item :: items' =>
      let second_key :=
        match Snapshot.children item with
        | Some _ => "folders"
        | None => "requirements"
        end in
      '(base, visited, req_actions) <-
        match work_item_by_identifier (reqfinder self) (Snapshot.id item)
        with
        | None =>
            '(item_action, req_actions) <-
              requirements_create_actions item ;;
            base <- lift (_add_action_safely base "extend" second_key
                            (VDict item_action)) ;;
            ret (base, visited, req_actions)
        | Some req =>
            let visited := visited ++ [Live.identifier req] in
            base <-
              (if parent_differs req ParentNone then
                 base <- lift (_add_action_safely base "extend" second_key
                                 (UUIDReference (Live.uuid req))) ;;
                 _ <- location_changed_add (Live.identifier req) ;;
                 _ <- _invalidate_deletion req ;;
                 ret base
               else ret base) ;;
            req_actions <- yield_requirements_mod_actions item req ParentNone ;;
            ret (base, visited, req_actions)
        end ;;
      reconcile_items items' base visited (actions ++ req_actions)
  end.

Definition calculate_change : Result (list Dict) :=
  let base := [("parent", UUIDReference (Live.m_uuid (req_module self)))] in
  bind (match reqt_folder self with
        | None => Ok (requirement_types_folder_create_action self, [])
        | Some folder =>
            let actions := yield_data_type_definition_mod_actions self folder in
            bind (yield_requirement_type_mod_actions self folder)
              (fun reqtype_actions =>
            let actions := actions ++ reqtype_actions in
            bind (requirement_type_delete_actions self folder)
              (fun reqtype_delete_actions =>
            Ok (base,
                if negb (only_parent reqtype_delete_actions)
                then actions ++ [reqtype_delete_actions] else actions)))
        end) (fun '(base, type_actions) =>
  bind (reconcile_items (Snapshot.items (tracker self)) base [] []
          initial_state) (fun '((base, visited, item_actions), st) =>
  let actions := type_actions ++ map (cell st) item_actions in
  bind (remove_void_deletions st (_req_deletions st) actions)
    (fun actions =>
  bind (raised (_deep_update base
                  (req_delete_actions visited
                     (Live.m_requirements (req_module self))
                     "requirements"))) (fun base =>
  bind (raised (_deep_update base
                  (req_delete_actions visited
                     (Live.m_folders (req_module self)) "folders")))
    (fun base =>
  Ok (if negb (only_parent base) then actions ++ [base] else actions)))))).

End WorkItems.

(** ** A finder over tables, and sample runs *)

Module Examples.

(** Modelled from the spec: [find.ReqFinder], the lookups of section 6
    (by external identifier module-wide, requirement type and data type
    definition under a types folder, enumeration literal by name under the
    module, attribute definition by identifier under a scope), over the
    work items and the types folders of one module. A lookup below no
    folder searches every folder; the first match is returned. The class
    asked for must be the class of the attribute definition. *)
Definition table_finder (work_items : list Live.WorkItem)
  (folders : list Live.RequirementsTypesFolder) : ReqFinder :=
  let below (f : option Live.RequirementsTypesFolder) :=
    match f with
    | Some f => [f]
    | None => folders
    end in
  let of_class (deftype : string) (a : Live.AttributeDefinition) :=
    if Live.ad_enumeration a
    then String.eqb deftype "AttributeDefinitionEnumeration"
    else String.eqb deftype "AttributeDefinition" in
  {| work_item_by_identifier := fun identifier =>
       find (fun w => String.eqb (Live.identifier w) identifier) work_items;
     reqtype_by_identifier := fun identifier f =>
       find (fun t => String.eqb (Live.rt_identifier t) identifier)
            (flat_map Live.requirement_types (below f));
     enum_data_type_definition_by_long_name := fun name f =>
       find (fun d => String.eqb (Live.dtd_long_name d) name)
            (flat_map Live.data_type_definitions (below f));
     enum_value_by_long_name := fun name _ =>
       find (fun v => String.eqb (Live.ev_long_name v) name)
            (flat_map Live.dtd_values
               (flat_map Live.data_type_definitions folders));
     attribute_definition_by_identifier := fun deftype identifier scope =>
       find (fun a => of_class deftype a
                      && String.eqb (Live.ad_identifier a) identifier)
            (match scope with
             | Live.BelowModule _ =>
                 flat_map Live.attribute_definitions
                   (flat_map Live.requirement_types folders)
             | Live.BelowTypesFolder f =>
                 flat_map Live.attribute_definitions
                   (flat_map Live.requirement_types (below f))
             | Live.BelowRequirementType t => Live.attribute_definitions t
             end) |}.

(** Sets are gone through in the order their elements were given. *)
Definition in_given_order (l : list string) : list string := l.

Definition live_reqtype : Live.RequirementType :=
  {| Live.rt_uuid := "uuid-reqtype";
     Live.rt_identifier := "Req";
     Live.rt_long_name := "Requirement";
     Live.attribute_definitions := [] |}.

Definition live_types_folder : Live.RequirementsTypesFolder :=
  {| Live.rtf_uuid := "uuid-types";
     Live.data_type_definitions := [];
     Live.requirement_types := [live_reqtype] |}.

Definition snapshot_reqtype : Snapshot.RequirementType :=
  {| Snapshot.rt_long_name := "Requirement";
     Snapshot.rt_attributes := Some [] |}.

(** *** A requirement moved from the module into a folder

    Live: the module owns the folder [F1] and the requirement [R1], whose
    type [Req] is kept elsewhere; the module has no types folder.
    Snapshot: [F1] holds [R1]. *)
Module Moved.

Definition folder : Live.WorkItem :=
  {| Live.uuid := "uuid-F1"; Live.identifier := "F1";
     Live.long_name := "Folder"; Live.text := EmptyString;
     Live.type := Some live_reqtype; Live.attributes := [];
     Live.is_folder := true; Live.parent := "uuid-module";
     Live.folders := []; Live.requirements := [] |}.

Definition requirement : Live.WorkItem :=
  {| Live.uuid := "uuid-R1"; Live.identifier := "R1";
     Live.long_name := "Requirement 1"; Live.text := EmptyString;
     Live.type := Some live_reqtype; Live.attributes := [];
     Live.is_folder := false; Live.parent := "uuid-module";
     Live.folders := []; Live.requirements := [] |}.

Definition module : Live.RequirementsModule :=
  {| Live.m_uuid := "uuid-module";
     Live.m_folders :=
       [{| Live.c_uuid := "uuid-F1"; Live.c_identifier := "F1" |}];
     Live.m_requirements :=
       [{| Live.c_uuid := "uuid-R1"; Live.c_identifier := "R1" |}] |}.

Definition snapshot : Snapshot.TrackerSnapshot :=
  {| Snapshot.data_types := [];
     Snapshot.requirement_types := [("Req", snapshot_reqtype)];
     Snapshot.items :=
       [{| Snapshot.id := "F1"; Snapshot.long_name := "Folder";
           Snapshot.text := None; Snapshot.text_first := false;
           Snapshot.type := Some "Req";
           Snapshot.attributes := [];
           Snapshot.children :=
             Some [{| Snapshot.id := "R1";
                      Snapshot.long_name := "Requirement 1";
                      Snapshot.text := None; Snapshot.text_first := false;
           Snapshot.type := Some "Req";
                      Snapshot.attributes := [];
                      Snapshot.children := None |}] |}] |}.

Definition self : TrackerChange :=
  {| tracker := snapshot;
     reqfinder := table_finder [folder; requirement] [];
     req_module := module;
     reqt_folder := None;
     set_order := in_given_order |}.

End Moved.

Definition empty_module : Live.RequirementsModule :=
  {| Live.m_uuid := "uuid-module";
     Live.m_folders := []; Live.m_requirements := [] |}.

(** *** A requirement of an unknown type, with an attribute

    Live: an empty module without a types folder. Snapshot: the new
    requirement [R2] of the type [Ghost], which the snapshot does not
    declare. *)
Module Unknown.

Definition item : Snapshot.WorkItem :=
  {| Snapshot.id := "R2"; Snapshot.long_name := "Requirement 2";
     Snapshot.text := None; Snapshot.text_first := false;
     Snapshot.type := Some "Ghost";
     Snapshot.attributes := [("Priority", PStr "high")];
     Snapshot.children := None |}.

Definition snapshot : Snapshot.TrackerSnapshot :=
  {| Snapshot.data_types := [];
     Snapshot.requirement_types := [("Req", snapshot_reqtype)];
     Snapshot.items := [item] |}.

Definition self : TrackerChange :=
  {| tracker := snapshot;
     reqfinder := table_finder [] [];
     req_module := empty_module;
     reqt_folder := None;
     set_order := in_given_order |}.

End Unknown.

(** *** A requirement type that is new

    Live: a types folder without requirement types. Snapshot: the
    requirement type [Req], and no work item. *)
Module NewType.

Definition folder : Live.RequirementsTypesFolder :=
  {| Live.rtf_uuid := "uuid-types";
     Live.data_type_definitions := [];
     Live.requirement_types := [] |}.

Definition snapshot : Snapshot.TrackerSnapshot :=
  {| Snapshot.data_types := [];
     Snapshot.requirement_types := [("Req", snapshot_reqtype)];
     Snapshot.items := [] |}.

Definition self : TrackerChange :=
  {| tracker := snapshot;
     reqfinder := table_finder [] [folder];
     req_module := empty_module;
     reqt_folder := Some folder;
     set_order := in_given_order |}.

End NewType.

(** *** A requirement type that is gone

    Live: a types folder with the requirement type [Req]. Snapshot: no
    requirement type and no work item. *)
Module OldType.

Definition snapshot : Snapshot.TrackerSnapshot :=
  {| Snapshot.data_types := [];
     Snapshot.requirement_types := [];
     Snapshot.items := [] |}.

Definition self : TrackerChange :=
  {| tracker := snapshot;
     reqfinder := table_finder [] [live_types_folder];
     req_module := empty_module;
     reqt_folder := Some live_types_folder;
     set_order := in_given_order |}.

End OldType.

(** *** A module without a types folder

    Live: the module owns the requirement [R1], whose type [Req] is kept
    elsewhere; the module has no types folder. Snapshot: [R1] under a new
    name, and the requirement type [Req]. *)
Module NoTypesFolder.

Definition requirement : Live.WorkItem :=
  {| Live.uuid := "uuid-R1"; Live.identifier := "R1";
     Live.long_name := "Requirement 1"; Live.text := EmptyString;
     Live.type := Some live_reqtype; Live.attributes := [];
     Live.is_folder := false; Live.parent := "uuid-module";
     Live.folders := []; Live.requirements := [] |}.

Definition module : Live.RequirementsModule :=
  {| Live.m_uuid := "uuid-module";
     Live.m_folders := [];
     Live.m_requirements :=
       [{| Live.c_uuid := "uuid-R1"; Live.c_identifier := "R1" |}] |}.

Definition snapshot : Snapshot.TrackerSnapshot :=
  {| Snapshot.data_types := [];
     Snapshot.requirement_types := [("Req", snapshot_reqtype)];
     Snapshot.items :=
       [{| Snapshot.id := "R1"; Snapshot.long_name := "Renamed";
           Snapshot.text := None; Snapshot.text_first := false;
           Snapshot.type := Some "Req";
           Snapshot.attributes := [];
           Snapshot.children := None |}] |}.

Definition self : TrackerChange :=
  {| tracker := snapshot;
     reqfinder := table_finder [requirement] [];
     req_module := module;
     reqt_folder := None;
     set_order := in_given_order |}.

End NoTypesFolder.

(** *** An enumeration value that lists an undeclared literal

    Live: an empty module. Snapshot: the data type [Status] with the
    options [Open] and [Closed], the requirement type [Req] with the
    enumeration attribute [Status], the integer attribute [Count] and the
    enumeration attribute [Severity], for which there is no data type, and
    the new requirement [R1] with [Status: [Open, Bogus]]. *)
Module Literals.

Definition reqtype : Snapshot.RequirementType :=
  {| Snapshot.rt_long_name := "Requirement";
     Snapshot.rt_attributes :=
       Some [("Status", {| Snapshot.adef_type := "Enum";
                           Snapshot.multi_values := None |});
             ("Count", {| Snapshot.adef_type := "Integer";
                          Snapshot.multi_values := None |});
             ("Severity", {| Snapshot.adef_type := "Enum";
                             Snapshot.multi_values := None |})] |}.

Definition snapshot : Snapshot.TrackerSnapshot :=
  {| Snapshot.data_types := [("Status", ["Open"; "Closed"])];
     Snapshot.requirement_types := [("Req", reqtype)];
     Snapshot.items :=
       [{| Snapshot.id := "R1"; Snapshot.long_name := "Requirement 1";
           Snapshot.text := None; Snapshot.text_first := false;
           Snapshot.type := Some "Req";
           Snapshot.attributes := [("Status", PList ["Open"; "Bogus"])];
           Snapshot.children := None |}] |}.

Definition self : TrackerChange :=
  {| tracker := snapshot;
     reqfinder := table_finder [] [];
     req_module := empty_module;
     reqt_folder := None;
     set_order := in_given_order |}.

End Literals.

(** *** A data type that lists an option twice

    Live: an empty module. Snapshot: the data type [Status] with the
    option [Open], twice, the requirement type [Req] with the enumeration
    attribute [Status], and the new requirement [R1] with
    [Status: [Open]]. *)
Module Repeated.

Definition reqtype : Snapshot.RequirementType :=
  {| Snapshot.rt_long_name := "Requirement";
     Snapshot.rt_attributes :=
       Some [("Status", {| Snapshot.adef_type := "Enum";
                           Snapshot.multi_values := None |})] |}.

Definition snapshot : Snapshot.TrackerSnapshot :=
  {| Snapshot.data_types := [("Status", ["Open"; "Open"])];
     Snapshot.requirement_types := [("Req", reqtype)];
     Snapshot.items :=
       [{| Snapshot.id := "R1"; Snapshot.long_name := "Requirement 1";
           Snapshot.text := None; Snapshot.text_first := false;
           Snapshot.type := Some "Req";
           Snapshot.attributes := [("Status", PList ["Open"])];
           Snapshot.children := None |}] |}.

Definition self : TrackerChange :=
  {| tracker := snapshot;
     reqfinder := table_finder [] [];
     req_module := empty_module;
     reqt_folder := None;
     set_order := in_given_order |}.

End Repeated.

End Examples.

(** ** What is said of the action list *)

(** The references in the slots of the fragment [k] ([extend] or
    [delete]) of an action. *)
Definition slot_references (action : Dict) (k : string) : list RefArg :=
  match dict_get action k with
  | Some (VDict slots) =>
      flat_map (fun slot =>
                  match snd slot with
                  | VList l =>
                      flat_map (fun v =>
                                  match v with
                                  | VRef r => [r]
                                  | _ => []
                                  end) l
                  | _ => []
                  end) slots
  | _ => []
  end.

Definition deleted (actions : list Dict) : list RefArg :=
  flat_map (fun action => slot_references action "delete") actions.

Definition relocated (actions : list Dict) : list RefArg :=
  flat_map (fun action => slot_references action "extend") actions.

(** The labels of the promises in a value, and the labels declared as
    [promise_id] in it. *)
Fixpoint promises (v : Value) : list string :=
  match v with
  | VPromise label => [label]
  | VList l => flat_map promises l
  | VDict d => flat_map (fun kv => promises (snd kv)) d
  | _ => []
  end.

Fixpoint promise_ids (v : Value) : list string :=
  match v with
  | VList l => flat_map promise_ids l
  | VDict d =>
      match dict_get d "promise_id" with
      | Some (VStr label) => [label]
      | _ => []
      end ++ flat_map (fun kv => promise_ids (snd kv)) d
  | _ => []
  end.

(** The shape the specification expects of the value of each kind:
    String, text; Enum, a list of literal names; Date, a timestamp;
    Integer, a whole number; Float, a real number; Boolean, a boolean. *)
Definition expected_shape (kind : string) (value : Primitive) : bool :=
  match value with
  | PStr _ => String.eqb kind "String"
  | PList _ => String.eqb kind "Enum"
  | PDateTime _ => String.eqb kind "Date"
  | PInt _ => String.eqb kind "Integer"
  | PFloat _ => String.eqb kind "Float"
  | PBool _ => String.eqb kind "Boolean"
  | PNone => false
  end.

(** One of [extend], [modify] and [delete] is there and not empty. *)
Definition carries_change (action : Dict) : bool :=
  populated action "extend" || populated action "modify"
  || populated action "delete".

(** The values found under the key [identifier] in the creation payloads
    of a value. *)
Fixpoint payload_identifiers (v : Value) : list Value :=
  match v with
  | VList l => flat_map payload_identifiers l
  | VDict d =>
      match dict_get d "identifier" with
      | Some i => [i]
      | None => []
      end ++ flat_map (fun kv => payload_identifiers (snd kv)) d
  | _ => []
  end.

(** The identifiers an action assigns: those of the payloads it extends
    its parent with, or its own when it is a bare payload. *)
Definition assigned_identifiers (action : Dict) : list Value :=
  if dict_has action "parent" then
    match dict_get action "extend" with
    | Some v => payload_identifiers v
    | None => []
    end
  else payload_identifiers (VDict action).

(** The identifiers of the work items of the snapshot. *)
Fixpoint item_identifiers (item : Snapshot.WorkItem) : list string :=
  Snapshot.id item ::
  match Snapshot.children item with
  | Some children => flat_map item_identifiers children
  | None => []
  end.

Definition snapshot_identifiers (snapshot : Snapshot.TrackerSnapshot)
  : list string :=
  flat_map item_identifiers (Snapshot.items snapshot)
  ++ dict_keys (Snapshot.requirement_types snapshot).

(** The identifiers of the elements of the live model the finder of the
    examples is built from. *)
Definition live_identifiers (work_items : list Live.WorkItem)
  (folders : list Live.RequirementsTypesFolder) : list string :=
  let of_type (t : Live.RequirementType) :=
    Live.rt_identifier t
    :: map Live.ad_identifier (Live.attribute_definitions t) in
  flat_map (fun w =>
              Live.identifier w
              :: match Live.type w with
                 | Some t => of_type t
                 | None => []
                 end) work_items
  ++ flat_map of_type (flat_map Live.requirement_types folders).

(** An action on a work item the finder knows, and an action on the
    module. *)
Definition found (self : TrackerChange) (req : Live.WorkItem) : Prop :=
  exists identifier,
    work_item_by_identifier (reqfinder self) identifier = Some req.

Definition work_item_action (self : TrackerChange) (action : Dict) : Prop :=
  exists req,
    found self req
    /\ dict_get action "parent" = Some (UUIDReference (Live.uuid req)).

Definition module_action (self : TrackerChange) (action : Dict) : Prop :=
  dict_get action "parent"
  = Some (UUIDReference (Live.m_uuid (req_module self))).

(** The identifiers [name req_type_id] of the attribute definitions the
    snapshot declares, and all the identifiers a creation payload may be
    given. *)
Definition synthesized (snapshot : Snapshot.TrackerSnapshot) : list string :=
  flat_map (fun ir =>
              map (fun na => fst na +++ " " +++ fst ir)
                  (match Snapshot.rt_attributes (snd ir) with
                   | Some attrs => attrs
                   | None => []
                   end))
           (Snapshot.requirement_types snapshot).

Definition assignable (snapshot : Snapshot.TrackerSnapshot) : list string :=
  snapshot_identifiers snapshot
  ++ CACHEKEY_TYPES_FOLDER_IDENTIFIER :: synthesized snapshot.

Definition one_of (identifiers : list string) (v : Value) : Prop :=
  exists s, v = VStr s /\ In s identifiers.

Definition ids_in (P : Value -> Prop) (v : Value) : Prop :=
  Forall P (payload_identifiers v).

Definition extend_identifiers (action : Dict) : list Value :=
  match dict_get action "extend" with
  | Some v => payload_identifiers v
  | None => []
  end.

(** What holds of every action stored during the run, and of two states
    of which the second keeps the stored actions of the first that way. *)
Definition cell_ok (self : TrackerChange) (identifiers : list string)
  (action : Dict) : Prop :=
  work_item_action self action
  /\ Forall (one_of identifiers) (extend_identifiers action).

Definition stable (self : TrackerChange) (identifiers : list string)
  (st st' : State) : Prop :=
  forall address,
    cell_ok self identifiers (cell st address) ->
    cell_ok self identifiers (cell st' address).

(** What a run of each generator on a child keeps: the stored actions
    stay well formed, the actions yielded are stored ones, and the payload
    of a creation holds identifiers of the given list only. *)
Definition create_good (self : TrackerChange) (identifiers : list string)
  (create : Snapshot.WorkItem -> M (Dict * list nat))
  (child : Snapshot.WorkItem) : Prop :=
  forall st payload addresses st',
    create child st = Ok ((payload, addresses), st') ->
    stable self identifiers st st'
    /\ Forall (fun a => cell_ok self identifiers (cell st' a)) addresses
    /\ ids_in (one_of identifiers) (VDict payload).

Definition modify_good (self : TrackerChange) (identifiers : list string)
  (modify : Snapshot.WorkItem -> Live.WorkItem -> Parent -> M (list nat))
  (child : Snapshot.WorkItem) : Prop :=
  forall req parent st addresses st',
    found self req ->
    modify child req parent st = Ok (addresses, st') ->
    stable self identifiers st st'
    /\ Forall (fun a => cell_ok self identifiers (cell st' a)) addresses.

(** What holds of every action of the type system: it is no void action,
    and it assigns identifiers of the given list only. *)
Definition type_action_ok (identifiers : list string) (action : Dict) : Prop :=
  only_parent action = false
  /\ Forall (one_of identifiers) (assigned_identifiers action).

(** The slot [k] of the fragment [extend] of an action. *)
Definition extend_slot (action : Dict) (k : string) : option Value :=
  match dict_get action "extend" with
  | Some (VDict slots) => dict_get slots k
  | _ => None
  end.

(** What holds of the action on the module while it is built. *)
Definition module_ok (self : TrackerChange) (identifiers : list string)
  (base : Dict) : Prop :=
  module_action self base
  /\ Forall (one_of identifiers) (extend_identifiers base).

(** ** What is said of promises *)

(** The labels that the creation of the types folder declares as
    [promise_id]: those of the data type definitions of the snapshot and
    of their values, and those of its requirement types and of their
    attribute definitions. *)
Definition declared_labels (self : TrackerChange) : list string :=
  match extend_slot (requirement_types_folder_create_action self)
          "requirement_types_folders" with
  | Some v => promise_ids v
  | None => []
  end.

(** The label is that of a requirement type, a data type definition or a
    value of a data type definition that the snapshot does not declare. *)
Definition undeclared (self : TrackerChange) (label : string) : Prop :=
  (exists identifier,
      label = "RequirementType " +++ identifier
      /\ dict_get (requirement_types self) identifier = None)
  \/ (exists name,
        label = "EnumerationDataTypeDefinition " +++ name
        /\ dict_get (data_type_definitions self) name = None)
  \/ (exists name literal options,
        label = "EnumValue " +++ name +++ " " +++ literal
        /\ dict_get (data_type_definitions self) name = Some options
        /\ ~ In literal options).

Definition resolvable (self : TrackerChange) (label : string) : Prop :=
  In label (declared_labels self) \/ undeclared self label.

(** Every promise of a value has a label of the kind [Q]. *)
Definition promises_in (Q : string -> Prop) (v : Value) : Prop :=
  Forall Q (promises v).

(** The promises of the actions stored so far are resolvable. *)
Definition resolvable_cells (self : TrackerChange) (st : State) : Prop :=
  Forall (fun action => promises_in (resolvable self) (VDict action))
         (cells st).

(** What a run of each generator on a child keeps: the promises of the
    stored actions and of the payload of a creation are resolvable. *)
Definition creates_resolvable (self : TrackerChange)
  (create : Snapshot.WorkItem -> M (Dict * list nat))
  (child : Snapshot.WorkItem) : Prop :=
  forall st payload addresses st',
    resolvable_cells self st ->
    create child st = Ok ((payload, addresses), st') ->
    resolvable_cells self st'
    /\ promises_in (resolvable self) (VDict payload).

Definition modifies_resolvable (self : TrackerChange)
  (modify : Snapshot.WorkItem -> Live.WorkItem -> Parent -> M (list nat))
  (child : Snapshot.WorkItem) : Prop :=
  forall req parent st addresses st',
    resolvable_cells self st ->
    modify child req parent st = Ok (addresses, st') ->
    resolvable_cells self st'.

(** ** What is said of void actions *)

(** A fragment of an action on a work item: [extend], [modify] or
    [delete], with a value that is not empty. *)
Definition fragment (kv : string * Value) : Prop :=
  In (fst kv) ["extend"; "modify"; "delete"] /\ truthy (snd kv) = true.

(** An action as the reconciler of work items builds it: the reference
    to its parent, then fragments. *)
Definition shaped (action : Dict) : Prop :=
  exists uuid rest,
    action = ("parent", UUIDReference uuid) :: rest /\ Forall fragment rest.

Definition shaped_cells (st : State) : Prop := Forall shaped (cells st).

(** In the model a UUID stands for one element: a child that an element
    found by the finder lists among its folders and requirements, and an
    element found by the finder that has the UUID of that child, have the
    same identifier. *)
Definition consistent (self : TrackerChange) : Prop :=
  forall req creq r,
    found self req -> found self r ->
    In creq (Live.folders req ++ Live.requirements req) ->
    Live.c_uuid creq = Live.uuid r ->
    Live.c_identifier creq = Live.identifier r.

(** The stored action at [address] is recorded as the one that deletes an
    element that has moved. *)
Definition registered (self : TrackerChange) (st : State) (address : nat)
  : Prop :=
  exists r,
    found self r
    /\ dict_get (_req_deletions st) (Live.uuid r) = Some address
    /\ In (Live.identifier r) (_location_changed st).

(** The stored action at [address] carries a change, or the loop that
    removes the void actions will come across it. *)
Definition tracked (self : TrackerChange) (st : State) (address : nat)
  : Prop :=
  carries_change (cell st address) = true \/ registered self st address.

(** What a later state of the run keeps of an earlier one. *)
Definition lasting (self : TrackerChange) (st st' : State) : Prop :=
  length (cells st) <= length (cells st')
  /\ incl (_location_changed st) (_location_changed st')
  /\ forall address, tracked self st address -> tracked self st' address.

(** The addresses are those of distinct actions stored between the two
    states, each of them tracked in the second. *)
Definition yielded (self : TrackerChange) (st st' : State)
  (addresses : list nat) : Prop :=
  NoDup addresses
  /\ Forall (fun a => length (cells st) <= a < length (cells st')) addresses
  /\ Forall (tracked self st') addresses.

(** What a run of each generator on a child keeps. *)
Definition creates_tracked (self : TrackerChange)
  (create : Snapshot.WorkItem -> M (Dict * list nat))
  (child : Snapshot.WorkItem) : Prop :=
  forall st payload addresses st',
    shaped_cells st ->
    create child st = Ok ((payload, addresses), st') ->
    shaped_cells st' /\ lasting self st st' /\ yielded self st st' addresses.

Definition modifies_tracked (self : TrackerChange)
  (modify : Snapshot.WorkItem -> Live.WorkItem -> Parent -> M (list nat))
  (child : Snapshot.WorkItem) : Prop :=
  forall req parent st addresses st',
    found self req -> shaped_cells st ->
    modify child req parent st = Ok (addresses, st') ->
    shaped_cells st' /\ lasting self st st' /\ yielded self st st' addresses.

(** Whether an action is the void action on the element of the given
    UUID. *)
Definition is_void (uuid : string) (action : Dict) : bool :=
  py_eqb (VDict action) (VDict [("parent", UUIDReference uuid)]).

(** ** What is said of the helpers *)

(** Whether the entry [kv] of the overrides can be merged into [source],
    for a given test [merges] of its value against a mapping: a non-empty
    mapping needs nothing or a mapping under its key in [source]. *)
Definition entry_mergeable (merges : Value -> Dict -> bool) (source : Dict)
  (kv : string * Value) : bool :=
  match snd kv with
  | VDict (_ :: _) =>
      match dict_get source (fst kv) with
      | None => true
      | Some (VDict update) => merges (snd kv) update
      | Some _ => false
      end
  | _ => true
  end.

(** Whether [overrides] can be merged into [source]: wherever [overrides]
    holds a non-empty mapping, [source] holds nothing or a mapping into
    which that mapping can be merged. *)
Fixpoint mergeable (overrides : Value) (source : Dict) : bool :=
  match overrides with
  | VDict d =>
      forallb (fun kv =>
                 match snd kv with
                 | VDict (_ :: _) =>
                     match dict_get source (fst kv) with
                     | None => true
                     | Some (VDict update) => mergeable (snd kv) update
                     | Some _ => false
                     end
                 | _ => true
                 end) d
  | _ => true
  end.

(** [d[first_key][second_key]], when both keys are there. *)
Definition nested_get (d : Dict) (first_key second_key : string)
  : option Value :=
  match dict_get d first_key with
  | Some (VDict first) => dict_get first second_key
  | _ => None
  end.

(** The elements of a list found in a slot, none when the slot is
    missing. *)
Definition slot_elements (slot : option Value) : list Value :=
  match slot with
  | Some (VList l) => l
  | _ => []
  end.

(** ** What is said of the deletions below the module *)

(** The identifiers of the elements of the model that the finder gives
    for the items at the top level of the snapshot. *)
Definition top_level_found (self : TrackerChange) : list string :=
  flat_map (fun item =>
              match work_item_by_identifier
                      (reqfinder self) (Snapshot.id item) with
              | Some req => [Live.identifier req]
              | None => []
              end)
           (Snapshot.items (tracker self)).

(** The elements of a list of children whose identifiers are not among
    the given ones, by reference. *)
Definition unvisited (visited : list string) (elements : list Live.Child)
  : list RefArg :=
  map (fun element => ByUUID (Live.c_uuid element))
      (filter (fun element =>
                 negb (str_in (Live.c_identifier element) visited))
              elements).

Definition module_deletions (self : TrackerChange) : list RefArg :=
  unvisited (top_level_found self) (Live.m_requirements (req_module self))
  ++ unvisited (top_level_found self) (Live.m_folders (req_module self)).

(** The slot of the action on the module that an item at the top level
    of the snapshot goes to. *)
Definition second_key (item : Snapshot.WorkItem) : string :=
  match Snapshot.children item with
  | Some _ => "folders"
  | None => "requirements"
  end.

(** What an item at the top level of the snapshot adds to the action
    [base] on the module: a payload with its identifier when no element is
    found for it, a reference to the element found when that element is
    not owned by the module. *)
Definition extends_module_with (self : TrackerChange) (base : Dict)
  (item : Snapshot.WorkItem) : Prop :=
  let added := slot_elements (nested_get base "extend" (second_key item)) in
  match work_item_by_identifier (reqfinder self) (Snapshot.id item) with
  | None =>
      exists payload,
        In (VDict payload) added
        /\ dict_get payload "identifier" = Some (VStr (Snapshot.id item))
  | Some req =>
      Live.parent req <> Live.m_uuid (req_module self) ->
      In (UUIDReference (Live.uuid req)) added
  end.

(** ** What is said of a model that holds the snapshot already *)

(** The identifiers of the children of an item that go by the name of
    folders, those with children of their own, and of the others. *)
Definition folder_ids (children : list Snapshot.WorkItem) : list string :=
  map Snapshot.id (filter has_children children).

Definition requirement_ids (children : list Snapshot.WorkItem) : list string :=
  map Snapshot.id
      (filter (fun child => negb (has_children child)) children).

(** An item of the snapshot is settled under the owner [owner] when the
    finder gives an element for it that [owner] owns and whose name, text,
    requirement type and attributes ask for no change, and, if the element
    is a folder, the children of the item are settled under it and the
    folder holds no other child in the model. *)
Fixpoint settled (self : TrackerChange) (owner : string)
  (item : Snapshot.WorkItem) {struct item} : Prop :=
  match work_item_by_identifier (reqfinder self) (Snapshot.id item) with
  | None => False
  | Some req =>
      Live.parent req = owner
      /\ mod_base self req item = Ok [("parent", UUIDReference (Live.uuid req))]
      /\ (Live.is_folder req = true ->
          match Snapshot.children item with
          | Some children =>
              (fix all (l : list Snapshot.WorkItem) : Prop :=
                 match l with
                 | [] => True
                 | child :: l' => settled self (Live.uuid req) child /\ all l'
                 end) children
              /\ (forall element,
                    In element (Live.requirements req) ->
                    In (Live.c_identifier element) (requirement_ids children))
              /\ (forall element,
                    In element (Live.folders req) ->
                    In (Live.c_identifier element) (folder_ids children))
          | None => Live.requirements req = [] /\ Live.folders req = []
          end)
  end.

(** A run that has recorded neither a move nor a deletion. *)
Definition quiet (st : State) : Prop :=
  _location_changed st = [] /\ _req_deletions st = [].

(** The second state holds every identifier that the first holds as
    moved. *)
Definition grows (st st' : State) : Prop :=
  incl (_location_changed st) (_location_changed st').

(** How many actions of a list are equal to a given one. *)
Definition occurrences (action : Dict) (actions : list Dict) : nat :=
  length (filter (fun a => py_eqb (VDict a) (VDict action)) actions).

(** An item of the snapshot with other children, or none. *)
Definition replace_children (item : Snapshot.WorkItem)
  (children : option (list Snapshot.WorkItem)) : Snapshot.WorkItem :=
  {| Snapshot.id := Snapshot.id item;
     Snapshot.long_name := Snapshot.long_name item;
     Snapshot.text := Snapshot.text item;
     Snapshot.text_first := Snapshot.text_first item;
     Snapshot.type := Snapshot.type item;
     Snapshot.attributes := Snapshot.attributes item;
     Snapshot.children := children |}.

(** ** What is said of a creation payload *)

Section Listed.
Variable entry : Snapshot.WorkItem -> Value -> Prop.

(** The lists [requirements] and [folders] hold the entries of the
    given children and nothing else: going through the children in their
    order, a child with children of its own has the next entry of
    [folders] and any other child the next entry of [requirements]. *)
Fixpoint listed (children : list Snapshot.WorkItem)
  (requirements folders : list Value) {struct children} : Prop :=
  match children with
  | [] => requirements = [] /\ folders = []
  | child :: children' =>
      if has_children child then
        match folders with
        | v :: folders' =>
            entry child v /\ listed children' requirements folders'
        | [] => False
        end
      else
        match requirements with
        | v :: requirements' =>
            entry child v /\ listed children' requirements' folders
        | [] => False
        end
  end.
End Listed.

(** The entry of a child in the payload of its parent: a reference to
    the element that the finder gives for the child, or, when there is
    none, a payload for which [describes child] holds. *)
Definition entry_of (self : TrackerChange)
  (describes : Snapshot.WorkItem -> Dict -> Prop)
  (child : Snapshot.WorkItem) (v : Value) : Prop :=
  match work_item_by_identifier (reqfinder self) (Snapshot.id child) with
  | Some creq => v = UUIDReference (Live.uuid creq)
  | None => exists payload, v = VDict payload /\ describes child payload
  end.

(** The payload mirrors the item: it carries the identifier and the name
    of the item, its lists [requirements] and [folders] hold the entries of
    the children of the item, each child with a payload of its own being
    mirrored in turn, and it has neither list when the item has no key
    [children] and no list that is empty. *)
Fixpoint mirrors (self : TrackerChange) (item : Snapshot.WorkItem)
  (payload : Dict) {struct item} : Prop :=
  dict_get payload "identifier" = Some (VStr (Snapshot.id item))
  /\ dict_get payload "long_name" = Some (VStr (Snapshot.long_name item))
  /\ dict_get payload "requirements" <> Some (VList [])
  /\ dict_get payload "folders" <> Some (VList [])
  /\ match Snapshot.children item with
     | Some children =>
         listed (entry_of self (mirrors self)) children
           (slot_elements (dict_get payload "requirements"))
           (slot_elements (dict_get payload "folders"))
     | None =>
         dict_get payload "requirements" = None
         /\ dict_get payload "folders" = None
     end.

(** ** More sample inputs *)

Module Samples.

(** *** A requirement whose attribute value changed

    Live: the types folder holds the requirement type [Req] with the
    attribute definition [Count]; the module owns the requirement [R1] of
    that type, with [Count] at 1. Snapshot: the same, with [Count] at 2. *)
Module Recount.

Definition count_definition : Live.AttributeDefinition :=
  {| Live.ad_uuid := "uuid-count";
     Live.ad_identifier := "Count Req";
     Live.ad_long_name := "Count";
     Live.ad_enumeration := false;
     Live.ad_data_type := None;
     Live.ad_multi_valued := None |}.

Definition reqtype : Live.RequirementType :=
  {| Live.rt_uuid := "uuid-reqtype";
     Live.rt_identifier := "Req";
     Live.rt_long_name := "Requirement";
     Live.attribute_definitions := [count_definition] |}.

Definition types_folder : Live.RequirementsTypesFolder :=
  {| Live.rtf_uuid := "uuid-types";
     Live.data_type_definitions := [];
     Live.requirement_types := [reqtype] |}.

Definition requirement : Live.WorkItem :=
  {| Live.uuid := "uuid-R1"; Live.identifier := "R1";
     Live.long_name := "Requirement 1"; Live.text := EmptyString;
     Live.type := Some reqtype;
     Live.attributes :=
       [{| Live.at_uuid := "uuid-value";
           Live.at_definition := count_definition;
           Live.at_data := Live.ScalarValue (VInt 1) |}];
     Live.is_folder := false; Live.parent := "uuid-module";
     Live.folders := []; Live.requirements := [] |}.

Definition module : Live.RequirementsModule :=
  {| Live.m_uuid := "uuid-module";
     Live.m_folders := [];
     Live.m_requirements :=
       [{| Live.c_uuid := "uuid-R1"; Live.c_identifier := "R1" |}] |}.

Definition snapshot_reqtype : Snapshot.RequirementType :=
  {| Snapshot.rt_long_name := "Requirement";
     Snapshot.rt_attributes :=
       Some [("Count", {| Snapshot.adef_type := "Integer";
                          Snapshot.multi_values := None |})] |}.

Definition item : Snapshot.WorkItem :=
  {| Snapshot.id := "R1"; Snapshot.long_name := "Requirement 1";
     Snapshot.text := None; Snapshot.text_first := false;
     Snapshot.type := Some "Req";
     Snapshot.attributes := [("Count", PInt 2)];
     Snapshot.children := None |}.

Definition snapshot : Snapshot.TrackerSnapshot :=
  {| Snapshot.data_types := [];
     Snapshot.requirement_types := [("Req", snapshot_reqtype)];
     Snapshot.items := [item] |}.

(** A finder that knows the requirement, its type, and the attribute
    definition by its identifier, whatever class is asked for. *)
Definition finder : ReqFinder :=
  {| work_item_by_identifier := fun identifier =>
       if String.eqb identifier "R1" then Some requirement else None;
     reqtype_by_identifier := fun identifier _ =>
       if String.eqb identifier "Req" then Some reqtype else None;
     enum_data_type_definition_by_long_name := fun _ _ => None;
     enum_value_by_long_name := fun _ _ => None;
     attribute_definition_by_identifier := fun _ identifier _ =>
       if String.eqb identifier "Count Req" then Some count_definition
       else None |}.

Definition self : TrackerChange :=
  {| tracker := snapshot;
     reqfinder := finder;
     req_module := module;
     reqt_folder := Some types_folder;
     set_order := Examples.in_given_order |}.

End Recount.

(** *** A data type definition with its values in another order

    Live: the types folder holds the data type definition [Status] with
    the values [Closed] and [Open], and the requirement type [Req] with
    the single-valued enumeration attribute [Status] of that data type.
    Snapshot: [Status] with [Open] and [Closed], as in the examples. *)
Module Status.

Definition definition : Live.EnumerationDataTypeDefinition :=
  {| Live.dtd_uuid := "uuid-status";
     Live.dtd_long_name := "Status";
     Live.dtd_values :=
       [{| Live.ev_uuid := "uuid-closed"; Live.ev_long_name := "Closed" |};
        {| Live.ev_uuid := "uuid-open"; Live.ev_long_name := "Open" |}] |}.

Definition status_definition : Live.AttributeDefinition :=
  {| Live.ad_uuid := "uuid-status-definition";
     Live.ad_identifier := "Status Req";
     Live.ad_long_name := "Status";
     Live.ad_enumeration := true;
     Live.ad_data_type := Some "Status";
     Live.ad_multi_valued := Some false |}.

Definition reqtype : Live.RequirementType :=
  {| Live.rt_uuid := "uuid-reqtype";
     Live.rt_identifier := "Req";
     Live.rt_long_name := "Requirement";
     Live.attribute_definitions := [status_definition] |}.

Definition types_folder : Live.RequirementsTypesFolder :=
  {| Live.rtf_uuid := "uuid-types";
     Live.data_type_definitions := [definition];
     Live.requirement_types := [] |}.

End Status.

(** *** A requirement whose type the snapshot has replaced

    Live: the module owns the requirement [R1] of the requirement type
    [Old]. Snapshot: the requirement type [New] only, and [R1] of that
    type with the attribute [Priority]. *)
Module Retyped.

Definition old_type : Live.RequirementType :=
  {| Live.rt_uuid := "uuid-old";
     Live.rt_identifier := "Old";
     Live.rt_long_name := "Old type";
     Live.attribute_definitions := [] |}.

Definition types_folder : Live.RequirementsTypesFolder :=
  {| Live.rtf_uuid := "uuid-types";
     Live.data_type_definitions := [];
     Live.requirement_types := [old_type] |}.

Definition requirement : Live.WorkItem :=
  {| Live.uuid := "uuid-R1"; Live.identifier := "R1";
     Live.long_name := "Requirement 1"; Live.text := EmptyString;
     Live.type := Some old_type; Live.attributes := [];
     Live.is_folder := false; Live.parent := "uuid-module";
     Live.folders := []; Live.requirements := [] |}.

Definition new_type : Snapshot.RequirementType :=
  {| Snapshot.rt_long_name := "New type";
     Snapshot.rt_attributes :=
       Some [("Priority", {| Snapshot.adef_type := "String";
                             Snapshot.multi_values := None |})] |}.

Definition item : Snapshot.WorkItem :=
  {| Snapshot.id := "R1"; Snapshot.long_name := "Requirement 1";
     Snapshot.text := None; Snapshot.text_first := false;
     Snapshot.type := Some "New";
     Snapshot.attributes := [("Priority", PStr "high")];
     Snapshot.children := None |}.

Definition snapshot : Snapshot.TrackerSnapshot :=
  {| Snapshot.data_types := [];
     Snapshot.requirement_types := [("New", new_type)];
     Snapshot.items := [item] |}.

Definition self : TrackerChange :=
  {| tracker := snapshot;
     reqfinder := Examples.table_finder [requirement] [types_folder];
     req_module := Recount.module;
     reqt_folder := Some types_folder;
     set_order := Examples.in_given_order |}.

End Retyped.

(** *** A new item flagged as a folder, without children

    Live: an empty module and the types folder of the examples. Snapshot:
    the new item [F9] with the attribute [Type: Folder] and no key
    [children]. *)
Module Flagged.

Definition item : Snapshot.WorkItem :=
  {| Snapshot.id := "F9"; Snapshot.long_name := "Folder 9";
     Snapshot.text := None; Snapshot.text_first := false;
     Snapshot.type := Some "Req";
     Snapshot.attributes := [("Type", PStr "Folder")];
     Snapshot.children := None |}.

Definition snapshot : Snapshot.TrackerSnapshot :=
  {| Snapshot.data_types := [];
     Snapshot.requirement_types := [("Req", Examples.snapshot_reqtype)];
     Snapshot.items := [item] |}.

Definition self : TrackerChange :=
  {| tracker := snapshot;
     reqfinder := Examples.table_finder [] [Examples.live_types_folder];
     req_module := Examples.empty_module;
     reqt_folder := Some Examples.live_types_folder;
     set_order := Examples.in_given_order |}.

End Flagged.

(** *** A new folder with a requirement and a folder in it

    Live: an empty module without a types folder. Snapshot: the new
    folder [F] with the requirement [A] and the folder [B], which
    holds the requirement [C]. *)
Module Tree.

Definition leaf (id : string) : Snapshot.WorkItem :=
  {| Snapshot.id := id; Snapshot.long_name := id;
     Snapshot.text := None; Snapshot.text_first := false;
     Snapshot.type := Some "Req";
     Snapshot.attributes := [];
     Snapshot.children := None |}.

Definition node (id : string) (children : list Snapshot.WorkItem)
  : Snapshot.WorkItem :=
  {| Snapshot.id := id; Snapshot.long_name := id;
     Snapshot.text := None; Snapshot.text_first := false;
     Snapshot.type := Some "Req";
     Snapshot.attributes := [];
     Snapshot.children := Some children |}.

Definition item : Snapshot.WorkItem :=
  node "F" [leaf "A"; node "B" [leaf "C"]].

Definition snapshot : Snapshot.TrackerSnapshot :=
  {| Snapshot.data_types := [];
     Snapshot.requirement_types := [("Req", Examples.snapshot_reqtype)];
     Snapshot.items := [item] |}.

Definition self : TrackerChange :=
  {| tracker := snapshot;
     reqfinder := Examples.table_finder [] [];
     req_module := Examples.empty_module;
     reqt_folder := None;
     set_order := Examples.in_given_order |}.

(** The payload that creates [F]. *)
Definition payload : Dict :=
  let created (id : string) (more : Dict) : Value :=
    VDict ([("long_name", VStr id); ("identifier", VStr id);
            ("type", VPromise "RequirementType Req")] ++ more) in
  [("long_name", VStr "F"); ("identifier", VStr "F");
   ("type", VPromise "RequirementType Req");
   ("requirements", VList [created "A" []]);
   ("folders",
    VList [created "B" [("requirements", VList [created "C" []])]])].

(** The action on the module: the types folder and the folder [F] are
    created. *)
Definition action : Dict :=
  [("parent", UUIDReference "uuid-module");
   ("extend",
    VDict
      [("requirement_types_folders",
        VList
          [VDict
             [("long_name", VStr "Types"); ("identifier", VStr "-2");
              ("data_type_definitions", VList []);
              ("requirement_types",
               VList
                 [VDict
                    [("identifier", VStr "Req");
                     ("long_name", VStr "Requirement");
                     ("promise_id", VStr "RequirementType Req");
                     ("attribute_definitions", VList [])]])]]);
       ("folders", VList [VDict payload])])].

End Tree.

(** *** Two requirements recorded for deletion by their folder

    The state of a run after the folder [F], which holds the requirements
    [R1] and [R2] in the model and nothing in the snapshot, was gone
    through: its action deletes both, and both are recorded. *)
Module Recorded.

Definition requirement (uuid identifier : string) : Live.WorkItem :=
  {| Live.uuid := uuid; Live.identifier := identifier;
     Live.long_name := identifier; Live.text := EmptyString;
     Live.type := Some Examples.live_reqtype; Live.attributes := [];
     Live.is_folder := false; Live.parent := "uuid-F";
     Live.folders := []; Live.requirements := [] |}.

Definition deletions : Dict :=
  [("requirements",
    VList [UUIDReference "uuid-R1"; UUIDReference "uuid-R2"])].

Definition action : Dict :=
  [("parent", UUIDReference "uuid-F"); ("delete", VDict deletions)].

Definition state : State :=
  {| cells := [action];
     _location_changed := [];
     _req_deletions := [("uuid-R1", 0); ("uuid-R2", 0)] |}.

(** The same once both requirements were found elsewhere: the action
    was left void. *)
Definition emptied : State :=
  {| cells := [[("parent", UUIDReference "uuid-F")]];
     _location_changed := ["R1"; "R2"];
     _req_deletions := [("uuid-R1", 0); ("uuid-R2", 0)] |}.

End Recorded.

(** *** The changes of the children of a folder

    Live: the folder [F] holds the requirements [R1], [R2] and [R3]; one
    of its attributes is to be deleted. Snapshot: [F] holds [R1] and a
    requirement [R4] that is found elsewhere in the model; [R2] was found
    to have moved. *)
Module Merged.

Definition folder : Live.WorkItem :=
  {| Live.uuid := "uuid-F"; Live.identifier := "F";
     Live.long_name := "Folder"; Live.text := EmptyString;
     Live.type := Some Examples.live_reqtype; Live.attributes := [];
     Live.is_folder := true; Live.parent := "uuid-module";
     Live.folders := [];
     Live.requirements :=
       [{| Live.c_uuid := "uuid-R1"; Live.c_identifier := "R1" |};
        {| Live.c_uuid := "uuid-R2"; Live.c_identifier := "R2" |};
        {| Live.c_uuid := "uuid-R3"; Live.c_identifier := "R3" |}] |}.

Definition base : Dict :=
  [("parent", UUIDReference "uuid-F");
   ("delete", VDict [("attributes", VList [UUIDReference "uuid-value"])])].

Definition merged : Dict :=
  [("parent", UUIDReference "uuid-F");
   ("delete", VDict [("attributes", VList [UUIDReference "uuid-value"]);
                     ("requirements", VList [UUIDReference "uuid-R3"])]);
   ("extend", VDict [("requirements", VList [UUIDReference "uuid-R4"])])].

End Merged.

(** *** A model that holds the snapshot

    Live: the module owns the folder [F1], which holds the requirement
    [R1]; their type [Req] is kept elsewhere, the module has no types
    folder. Snapshot: the same work items. *)
Module Same.

Definition folder : Live.WorkItem :=
  {| Live.uuid := "uuid-F1"; Live.identifier := "F1";
     Live.long_name := "Folder"; Live.text := EmptyString;
     Live.type := Some Examples.live_reqtype; Live.attributes := [];
     Live.is_folder := true; Live.parent := "uuid-module";
     Live.folders := [];
     Live.requirements :=
       [{| Live.c_uuid := "uuid-R1"; Live.c_identifier := "R1" |}] |}.

Definition requirement : Live.WorkItem :=
  {| Live.uuid := "uuid-R1"; Live.identifier := "R1";
     Live.long_name := "Requirement 1"; Live.text := EmptyString;
     Live.type := Some Examples.live_reqtype; Live.attributes := [];
     Live.is_folder := false; Live.parent := "uuid-F1";
     Live.folders := []; Live.requirements := [] |}.

Definition module : Live.RequirementsModule :=
  {| Live.m_uuid := "uuid-module";
     Live.m_folders :=
       [{| Live.c_uuid := "uuid-F1"; Live.c_identifier := "F1" |}];
     Live.m_requirements := [] |}.

Definition self : TrackerChange :=
  {| tracker := Examples.Moved.snapshot;
     reqfinder :=
       Examples.table_finder [folder; requirement] [];
     req_module := module;
     reqt_folder := None;
     set_order := Examples.in_given_order |}.

End Same.

(** *** A deletion that is withdrawn

    Live: the module, which has no types folder, owns the folders [F1]
    and [F2]; [F1] holds the requirement [R1]. Snapshot: [F1] without
    children, then [F2] with [R1]. The action that deletes [R1] from [F1]
    is left void when [R1] is found under [F2]. *)
Module Retracted.

Definition folder (id : string) (requirements : list Live.Child)
  : Live.WorkItem :=
  {| Live.uuid := "uuid-" +++ id; Live.identifier := id;
     Live.long_name := id; Live.text := EmptyString;
     Live.type := Some Examples.live_reqtype; Live.attributes := [];
     Live.is_folder := true; Live.parent := "uuid-module";
     Live.folders := []; Live.requirements := requirements |}.

Definition requirement : Live.WorkItem :=
  {| Live.uuid := "uuid-R1"; Live.identifier := "R1";
     Live.long_name := "R1"; Live.text := EmptyString;
     Live.type := Some Examples.live_reqtype; Live.attributes := [];
     Live.is_folder := false; Live.parent := "uuid-F1";
     Live.folders := []; Live.requirements := [] |}.

Definition module : Live.RequirementsModule :=
  {| Live.m_uuid := "uuid-module";
     Live.m_folders :=
       [{| Live.c_uuid := "uuid-F1"; Live.c_identifier := "F1" |};
        {| Live.c_uuid := "uuid-F2"; Live.c_identifier := "F2" |}];
     Live.m_requirements := [] |}.

Definition snapshot : Snapshot.TrackerSnapshot :=
  {| Snapshot.data_types := [];
     Snapshot.requirement_types := [("Req", Examples.snapshot_reqtype)];
     Snapshot.items :=
       [Tree.node "F1" []; Tree.node "F2" [Tree.leaf "R1"]] |}.

Definition self : TrackerChange :=
  {| tracker := snapshot;
     reqfinder :=
       Examples.table_finder
         [folder "F1"
            [{| Live.c_uuid := "uuid-R1"; Live.c_identifier := "R1" |}];
          folder "F2" []; requirement] [];
     req_module := module;
     reqt_folder := None;
     set_order := Examples.in_given_order |}.

End Retracted.

End Samples.
(** ** Dictionaries *)

Section DictFacts.
Context {A : Type}.
Implicit Types (d : list (string * A)) (k : string) (v : A).

Lemma dict_get_set_same d k v : dict_get (dict_set d k v) k = Some v.
Proof.
  induction d as [|[k' v'] d IH]; simpl.
  - now rewrite String.eqb_refl.
  - destruct (String.eqb k k') eqn:E; simpl; rewrite E; auto.
Qed.

Lemma dict_get_set_other d k k' v :
  k' <> k -> dict_get (dict_set d k v) k' = dict_get d k'.
Proof.
  intros Hne. induction d as [|[k0 v0] d IH]; simpl.
  - destruct (String.eqb k' k) eqn:E; auto.
    apply String.eqb_eq in E. contradiction.
  - destruct (String.eqb k k0) eqn:E; simpl.
    + apply String.eqb_eq in E. subst k0.
      destruct (String.eqb k' k) eqn:E'; auto.
      apply String.eqb_eq in E'. contradiction.
    + now rewrite IH.
Qed.

Lemma dict_set_get_id d k v : dict_get d k = Some v -> dict_set d k v = d.
Proof.
  induction d as [|[k' v'] d IH]; simpl; [discriminate|].
  destruct (String.eqb k k') eqn:E.
  - now intros [= ->].
  - intros H. now rewrite IH.
Qed.

Lemma dict_get_del_other d k k' :
  k' <> k -> dict_get (dict_del d k) k' = dict_get d k'.
Proof.
  intros Hne. induction d as [|[k0 v0] d IH]; simpl; auto.
  destruct (String.eqb k k0) eqn:E; simpl.
  - apply String.eqb_eq in E. subst k0.
    destruct (String.eqb k' k) eqn:E'; auto.
    apply String.eqb_eq in E'. contradiction.
  - now rewrite IH.
Qed.

Lemma dict_get_None_keys d k :
  dict_get d k = None <-> str_in k (dict_keys d) = false.
Proof.
  induction d as [|[k' v'] d IH]; simpl; [tauto|].
  destruct (String.eqb k k'); simpl; [split; discriminate | exact IH].
Qed.
End DictFacts.

(** ** [_deep_update] *)

Section DeepUpdateFacts.
Variable update_with : Value -> Dict -> Dict * option Exn.

(** A key that is not overridden keeps its value. *)
Lemma _deep_update_items_other overrides :
  forall source k,
    str_in k (dict_keys overrides) = false ->
    dict_get (fst (_deep_update_items update_with overrides source)) k
    = dict_get source k.
Proof.
  induction overrides as [|[key value] rest IH]; intros source k Hk;
    simpl in *; auto.
  apply Bool.orb_false_iff in Hk. destruct Hk as [Hne Hk].
  assert (Hneq : k <> key) by (intros ->; now rewrite String.eqb_refl in Hne).
  assert (Hset : forall v, dict_get
            (fst (_deep_update_items update_with rest (dict_set source key v))) k
            = dict_get source k).
  { intros v. rewrite IH by assumption. now apply dict_get_set_other. }
  destruct value as [| | | | | | | |l|[|kv sub]]; try apply Hset.
  destruct (dict_get source key) as [[| | | | | | | | |update0]|] eqn:Hget;
    simpl; auto.
  - destruct (update_with (VDict (kv :: sub)) update0) as [update [e|]];
      simpl; [now apply dict_get_set_other | apply Hset].
  - destruct (update_with (VDict (kv :: sub)) []) as [update [e|]];
      simpl; [reflexivity | apply Hset].
Qed.

(** Running the loop again on what it left gives the same. *)
Lemma _deep_update_items_again overrides :
  nodupb (dict_keys overrides) = true ->
  Forall (fun kv => forall source,
            update_with (snd kv) (fst (update_with (snd kv) source))
            = update_with (snd kv) source) overrides ->
  forall source,
    _deep_update_items update_with overrides
      (fst (_deep_update_items update_with overrides source))
    = _deep_update_items update_with overrides source.
Proof.
  induction overrides as [|[key value] rest IH]; intros Hnodup Hall source;
    [reflexivity|].
  simpl in Hnodup. apply Bool.andb_true_iff in Hnodup.
  destruct Hnodup as [Hfresh Hnodup]. apply Bool.negb_true_iff in Hfresh.
  inversion Hall as [|? ? Hvalue Hrest]; subst. simpl in Hvalue.
  specialize (IH Hnodup Hrest).
  (* what happens once [key] holds [v] *)
  assert (Hset : forall v,
    dict_set (fst (_deep_update_items update_with rest
                     (dict_set source key v))) key v
    = fst (_deep_update_items update_with rest (dict_set source key v))).
  { intros v. apply dict_set_get_id.
    rewrite _deep_update_items_other by assumption.
    apply dict_get_set_same. }
  assert (Hget : forall v,
    dict_get (fst (_deep_update_items update_with rest
                     (dict_set source key v))) key = Some v).
  { intros v. rewrite _deep_update_items_other by assumption.
    apply dict_get_set_same. }
  assert (Hplain : forall v,
    match v with VDict (_ :: _) => False | _ => True end ->
    _deep_update_items update_with ((key, v) :: rest)
      (fst (_deep_update_items update_with rest (dict_set source key v)))
    = _deep_update_items update_with rest (dict_set source key v)).
  { intros v Hv. simpl.
    destruct v as [| | | | | | | |l|[|kv sub]]; try contradiction;
      rewrite Hset; apply IH. }
  destruct value as [| | | | | | | |l|[|kv sub]];
    try (simpl _deep_update_items at 2 3; now apply Hplain).
  simpl _deep_update_items at 2 3.
  destruct (dict_get source key) as [[| | | | | | | | |update0]|] eqn:Hsrc;
    try (simpl; rewrite Hsrc; reflexivity).
  - (* the dictionary found in [source] is merged into *)
    destruct (update_with (VDict (kv :: sub)) update0) as [update oe] eqn:Hup.
    pose proof (Hvalue update0) as Hagain. rewrite Hup in Hagain.
    simpl in Hagain.
    destruct oe as [e|].
    + simpl. rewrite dict_get_set_same, Hagain.
      f_equal. apply dict_set_get_id, dict_get_set_same.
    + simpl. rewrite Hget, Hagain, Hset. apply IH.
  - (* a new dictionary is merged into *)
    destruct (update_with (VDict (kv :: sub)) []) as [update oe] eqn:Hup.
    pose proof (Hvalue []) as Hagain. rewrite Hup in Hagain.
    simpl in Hagain.
    destruct oe as [e|].
    + simpl. rewrite Hsrc, Hup. reflexivity.
    + simpl. rewrite Hget, Hagain, Hset. apply IH.
Qed.
End DeepUpdateFacts.
Section DeepUpdateLookup.
Variable update_with : Value -> Dict -> Dict * option Exn.

(** What a finished loop leaves at an overridden key. *)
Lemma _deep_update_items_lookup overrides :
  nodupb (dict_keys overrides) = true ->
  forall source merged,
    _deep_update_items update_with overrides source = (merged, None) ->
    forall key value,
      dict_get overrides key = Some value ->
      match value with
      | VDict (_ :: _) =>
          exists inner,
            update_with value
              (match dict_get source key with
               | Some (VDict d) => d
               | _ => []
               end) = (inner, None)
            /\ dict_get merged key = Some (VDict inner)
      | _ => dict_get merged key = Some value
      end.
Proof.
  induction overrides as [|[key0 value0] rest IH];
    intros Hnodup source merged Hrun key value Hin; [discriminate|].
  simpl in Hnodup. apply Bool.andb_true_iff in Hnodup.
  destruct Hnodup as [Hfresh Hnodup]. apply Bool.negb_true_iff in Hfresh.
  simpl in Hin. destruct (String.eqb key key0) eqn:Hk.
  - (* the entry of [key] *)
    apply String.eqb_eq in Hk. subst key0. injection Hin as ->.
    assert (Hkept : forall v s,
      _deep_update_items update_with rest (dict_set source key v) = (s, None) ->
      dict_get s key = Some v).
    { intros v s Hs.
      change s with (fst (s, @None Exn)). rewrite <- Hs.
      rewrite _deep_update_items_other by assumption.
      apply dict_get_set_same. }
    simpl in Hrun.
    destruct value as [| | | | | | | |l|[|kv sub]];
      try (now apply Hkept in Hrun).
    destruct (dict_get source key) as [[| | | | | | | | |update0]|];
      try discriminate.
    + destruct (update_with (VDict (kv :: sub)) update0) as [update [e|]];
        [discriminate|].
      exists update. split; [reflexivity | now apply Hkept in Hrun].
    + destruct (update_with (VDict (kv :: sub)) []) as [update [e|]];
        [discriminate|].
      exists update. split; [reflexivity | now apply Hkept in Hrun].
  - (* an entry of [rest] *)
    assert (Hne : key <> key0)
      by (intros ->; now rewrite String.eqb_refl in Hk).
    assert (Hstep : forall v,
      _deep_update_items update_with rest (dict_set source key0 v)
      = (merged, None) ->
      match value with
      | VDict (_ :: _) =>
          exists inner,
            update_with value
              (match dict_get source key with
               | Some (VDict d) => d
               | _ => []
               end) = (inner, None)
            /\ dict_get merged key = Some (VDict inner)
      | _ => dict_get merged key = Some value
      end).
    { intros v Hs.
      specialize (IH Hnodup _ _ Hs key value Hin).
      now rewrite dict_get_set_other in IH by assumption. }
    simpl in Hrun.
    destruct value0 as [| | | | | | | |l|[|kv sub]];
      try (now apply Hstep in Hrun).
    destruct (dict_get source key0) as [[| | | | | | | | |update0]|];
      try discriminate.
    + destruct (update_with (VDict (kv :: sub)) update0) as [update [e|]];
        [discriminate | now apply Hstep in Hrun].
    + destruct (update_with (VDict (kv :: sub)) []) as [update [e|]];
        [discriminate | now apply Hstep in Hrun].
Qed.
End DeepUpdateLookup.

Lemma _deep_update_with_again (v : Value) :
  wf_value v = true ->
  forall source,
    _deep_update_with v (fst (_deep_update_with v source))
    = _deep_update_with v source.
Proof.
  induction v as [| | | | | | | |l _|d IH]; intros Hwf source;
    try reflexivity.
  simpl in Hwf. apply Bool.andb_true_iff in Hwf. destruct Hwf as [Hkeys Hwf].
  simpl. apply _deep_update_items_again; [assumption|].
  clear Hkeys source. induction IH as [|[k x] Hx d Hd IHd]; constructor.
  - simpl in Hwf. apply Bool.andb_true_iff in Hwf.
    inversion Hx as [? _ ? Hx']. subst. simpl. intros source.
    apply Hx'. tauto.
  - apply IHd. simpl in Hwf. apply Bool.andb_true_iff in Hwf. tauto.
Qed.

(** C9. The deep merge is idempotent: once [_deep_update(source,
    overrides)] has run, with or without an exception, a second run leaves
    [source] as it is. After a run without exception, a key whose override
    is a non-empty mapping holds the merge of that mapping into the mapping
    found there (or into a new one), a key with any other override holds
    the override, and the other keys hold what they held. *)
Theorem _deep_update_idempotent (source overrides merged : Dict)
  (raised : option Exn) :
  wf_value (VDict overrides) = true ->
  _deep_update source overrides = (merged, raised) ->
  _deep_update merged overrides = (merged, raised)
  /\ (raised = None ->
      forall key value,
        dict_get overrides key = Some value ->
        match value with
        | VDict ((_ :: _) as sub) =>
            exists inner,
              _deep_update
                (match dict_get source key with
                 | Some (VDict d) => d
                 | _ => []
                 end) sub = (inner, None)
              /\ dict_get merged key = Some (VDict inner)
        | _ => dict_get merged key = Some value
        end)
  /\ (forall key,
        dict_get overrides key = None ->
        dict_get merged key = dict_get source key).
Proof.
  intros Hwf Hrun. split; [|split].
  - pose proof (_deep_update_with_again (VDict overrides) Hwf source) as H.
    unfold _deep_update in *. now rewrite Hrun in H.
  - intros -> key value Hin.
    simpl in Hwf. apply Bool.andb_true_iff in Hwf.
    pose proof (@_deep_update_items_lookup _deep_update_with overrides
                  (proj1 Hwf) source merged Hrun key value Hin) as H.
    destruct value as [| | | | | | | |l|[|kv sub]]; exact H.
  - intros key Hout.
    change merged with (fst (merged, raised)). rewrite <- Hrun.
    apply _deep_update_items_other. now apply dict_get_None_keys.
Qed.

Lemma _deep_update_idempotent_witness :
  _deep_update
    [("parent", VStr "p"); ("delete", VDict [("folders", VList [VStr "a"])])]
    [("delete", VDict [("requirements", VList [VStr "b"])]);
     ("modify", VDict [])]
  = ([("parent", VStr "p");
      ("delete", VDict [("folders", VList [VStr "a"]);
                        ("requirements", VList [VStr "b"])]);
      ("modify", VDict [])], None)
  /\ _deep_update
       [("parent", VStr "p");
        ("delete", VDict [("folders", VList [VStr "a"]);
                          ("requirements", VList [VStr "b"])]);
        ("modify", VDict [])]
       [("delete", VDict [("requirements", VList [VStr "b"])]);
        ("modify", VDict [])]
     = ([("parent", VStr "p");
         ("delete", VDict [("folders", VList [VStr "a"]);
                           ("requirements", VList [VStr "b"])]);
         ("modify", VDict [])], None).
Proof.
  split; [reflexivity|].
  apply (@_deep_update_idempotent
           [("parent", VStr "p");
            ("delete", VDict [("folders", VList [VStr "a"])])]
           [("delete", VDict [("requirements", VList [VStr "b"])]);
            ("modify", VDict [])]);
    reflexivity.
Defined.

(** ** The types folder of the model *)

(** With a types folder in the model the calculation raises: the
    exception of the reconciliation of the requirement types if there is
    one, the [ValueError] of [requirement_type_delete_actions] otherwise. *)
Lemma calculate_change_with_types_folder (self : TrackerChange)
  (folder : Live.RequirementsTypesFolder) :
  reqt_folder self = Some folder ->
  calculate_change self
  = match yield_requirement_type_mod_actions self folder with
    | Ok _ => Raise ValueError
    | Raise e => Raise e
    end.
Proof.
  intros H. unfold calculate_change. rewrite H.
  now destruct (yield_requirement_type_mod_actions self folder).
Qed.

(** A calculation that returns was run on a module without types
    folder. *)
Lemma calculate_change_Ok_no_types_folder (self : TrackerChange)
  (actions : list Dict) :
  calculate_change self = Ok actions -> reqt_folder self = None.
Proof.
  intros H. destruct (reqt_folder self) as [folder|] eqn:E; [|reflexivity].
  rewrite (calculate_change_with_types_folder self E) in H.
  destruct (yield_requirement_type_mod_actions self folder); discriminate.
Qed.

(** ** Runs on the sample inputs *)

(** C1. A requirement that the snapshot moves from the module into a
    folder is added to the folder by reference and deleted from the module
    in the same action list: the deletions below the module are filtered
    against the identifiers visited at the top level only, not against
    [_location_changed] as the deletions below a folder are. The run is
    one on a module without types folder. *)
Theorem moved_from_module_deleted_and_relocated :
  exists actions,
    calculate_change Examples.Moved.self = Ok actions
    /\ In (ByUUID "uuid-R1") (deleted actions)
    /\ In (ByUUID "uuid-R1") (relocated actions).
Proof.
  eexists. split; [vm_compute; reflexivity|].
  split; simpl; auto.
Qed.


(** C3, as stated. A boolean is not a whole number, yet the validator
    accepts [True] for an attribute of kind Integer; and a string has not
    the shape of an Enum value, yet for the Enum attribute [Severity],
    which has no data type definition in the snapshot, the validator
    raises [KeyError] and not [InvalidFieldValue]. *)
Lemma validator_differs_from_shape_table :
  expected_shape "Integer" (PBool true) = false
  /\ check_attribute_value_is_valid
       Examples.Literals.self "Count" (PBool true) "Req"
     = Ok {| AttributeValueBuilder.deftype := "Integer";
             AttributeValueBuilder.key := "value";
             AttributeValueBuilder.value := PBool true |}
  /\ expected_shape "Enum" (PStr "high") = false
  /\ check_attribute_value_is_valid
       Examples.Literals.self "Severity" (PStr "high") "Req"
     = Raise KeyError.
Proof. repeat split; reflexivity. Qed.

(** C4. A new snapshot item of a requirement type the snapshot does not
    declare, with an attribute: the creation of the item raises
    [KeyError] at the lookup of the type, and so does the whole
    calculation on a module without types folder. *)
Theorem unknown_requirement_type_is_fatal :
  Snapshot.type Examples.Unknown.item = Some "Ghost"
  /\ dict_get (requirement_types Examples.Unknown.self) "Ghost" = None
  /\ requirements_create_actions
       Examples.Unknown.self Examples.Unknown.item initial_state
     = Raise KeyError
  /\ calculate_change Examples.Unknown.self = Raise KeyError.
Proof. repeat split; vm_compute; reflexivity. Qed.

(** With a types folder in the model, a requirement type that is new is
    yielded as its bare creation payload, an action without [parent],
    [extend], [modify] or [delete]; the calculation raises before any
    action list is made. *)
Lemma new_requirement_type_payload_is_yielded :
  yield_requirement_type_mod_actions
    Examples.NewType.self Examples.NewType.folder
  = Ok [requirement_type_create_action
          Examples.NewType.self "Req" Examples.snapshot_reqtype]
  /\ carries_change
       (requirement_type_create_action
          Examples.NewType.self "Req" Examples.snapshot_reqtype) = false
  /\ calculate_change Examples.NewType.self = Raise ValueError.
Proof. repeat split; vm_compute; reflexivity. Qed.


(** C7, as stated. The payload that creates the types folder is given the
    identifier [-2], which neither the snapshot nor the model holds. *)
Lemma types_folder_identifier_is_invented :
  exists actions,
    calculate_change Examples.NoTypesFolder.self = Ok actions
    /\ In (VStr "-2") (flat_map assigned_identifiers actions)
    /\ ~ In "-2" (snapshot_identifiers Examples.NoTypesFolder.snapshot)
    /\ ~ In "-2" (live_identifiers [Examples.NoTypesFolder.requirement] []).
Proof.
  eexists. split; [vm_compute; reflexivity|].
  split; [simpl; tauto|].
  split; simpl; intros H;
    repeat (destruct H as [H|H]; [discriminate H|]); exact H.
Qed.

(** C8. The action that deletes the requirement types the snapshot no
    longer has is never built: the reference to its parent is made of the
    types folder itself and not of its UUID, which the constructor of the
    reference refuses with [ValueError]. The function is called whenever
    the model has a types folder, so that the calculation raises there
    too, after the reconciliation of the type system and before the first
    work item. *)
Theorem requirement_type_delete_actions_raises (self : TrackerChange)
  (folder : Live.RequirementsTypesFolder) :
  reqt_folder self = Some folder ->
  requirement_type_delete_actions self folder = Raise ValueError
  /\ calculate_change self
     = match yield_requirement_type_mod_actions self folder with
       | Ok _ => Raise ValueError
       | Raise e => Raise e
       end.
Proof.
  intros H. split; [reflexivity|].
  now apply calculate_change_with_types_folder.
Qed.

Lemma requirement_type_delete_actions_raises_witness :
  requirement_type_delete_actions
    Examples.OldType.self Examples.live_types_folder
  = Raise ValueError
  /\ calculate_change Examples.OldType.self = Raise ValueError.
Proof.
  exact (@requirement_type_delete_actions_raises
           Examples.OldType.self Examples.live_types_folder eq_refl).
Defined.

(** ** The blacklist and the validator *)

Lemma create_attributes_skip (self : TrackerChange)
  (req_type_id : option string) (name : string)
  (rest : list (string * Primitive)) :
  create_attributes self req_type_id ((name, PList []) :: rest)
  = create_attributes self req_type_id rest.
Proof.
  simpl. destruct (create_attributes self req_type_id rest) as [[actions hint]|e];
    simpl; [|reflexivity].
  now rewrite Bool.andb_false_r.
Qed.

Lemma create_attributes_congruence (self : TrackerChange)
  (req_type_id : option string) (before l l' : list (string * Primitive)) :
  create_attributes self req_type_id l = create_attributes self req_type_id l' ->
  create_attributes self req_type_id (before ++ l)
  = create_attributes self req_type_id (before ++ l').
Proof.
  intros H. induction before as [|[name value] before IH]; [exact H|].
  simpl. now rewrite IH.
Qed.

Lemma mod_attributes_congruence (self : TrackerChange) (req : Live.WorkItem)
  (before l l' : list (string * Primitive)) :
  (forall creations modifications,
      mod_attributes self req l creations modifications
      = mod_attributes self req l' creations modifications) ->
  forall creations modifications,
    mod_attributes self req (before ++ l) creations modifications
    = mod_attributes self req (before ++ l') creations modifications.
Proof.
  intros H. induction before as [|[name value] before IH];
    intros creations modifications; [apply H|].
  simpl.
  destruct (match value with PNone => false | _ => true end
            && _blacklisted name value); [apply IH|].
  destruct (attribute_value_mod_action self req name value) as [[| |]|];
    simpl; auto.
Qed.

(** C10. [_blacklisted] is true of an empty list whatever the name, and
    an attribute of the snapshot whose value is the empty list is passed
    over by the loop over the attributes of the creation and by that of
    the modification: each loop gives what it gives without the
    attribute, be it actions or an exception. *)
Theorem empty_list_attribute_skipped (self : TrackerChange) (name : string) :
  _blacklisted name (PList []) = true
  /\ (forall req_type_id before after,
        create_attributes self req_type_id (before ++ (name, PList []) :: after)
        = create_attributes self req_type_id (before ++ after))
  /\ (forall req before after creations modifications,
        mod_attributes self req (before ++ (name, PList []) :: after)
          creations modifications
        = mod_attributes self req (before ++ after) creations modifications).
Proof.
  split; [reflexivity|]. split.
  - intros. apply create_attributes_congruence, create_attributes_skip.
  - intros. apply mod_attributes_congruence. reflexivity.
Qed.

Lemma known_kind (kind : string) :
  dict_has _ATTR_VALUE_DEFAULT_MAP kind = true ->
  kind = "String" \/ kind = "Enum" \/ kind = "Date" \/ kind = "Integer"
  \/ kind = "Float" \/ kind = "Boolean".
Proof.
  unfold dict_has, _ATTR_VALUE_DEFAULT_MAP. simpl.
  repeat match goal with
         | |- context [String.eqb kind ?s] =>
             destruct (String.eqb_spec kind s); [subst; tauto|]
         end.
  discriminate.
Qed.

(** C3, as amended. For an attribute that the requirement type declares
    with one of the six kinds (and, for Enum, with a data type definition
    of the name of the attribute in the snapshot), the validator raises
    [InvalidFieldValue] with the storage key, the name of the attribute and
    the value exactly when the value has not the shape of the kind, where
    a boolean has the shape of Integer as well, or, for Enum, when no
    literal of the list is a declared option; otherwise it returns the
    kind, the storage key and the value. *)
Theorem check_attribute_value_is_valid_spec (self : TrackerChange)
  (name : string) (value : Primitive) (req_type_id : string)
  (req_type : Snapshot.RequirementType)
  (attrs : list (string * Snapshot.AttributeDefinition))
  (adef : Snapshot.AttributeDefinition) (options : list string) :
  dict_get (requirement_types self) req_type_id = Some req_type ->
  Snapshot.rt_attributes req_type = Some attrs ->
  dict_get attrs name = Some adef ->
  dict_has _ATTR_VALUE_DEFAULT_MAP (Snapshot.adef_type adef) = true ->
  (Snapshot.adef_type adef = "Enum" ->
   dict_get (data_type_definitions self) name = Some options) ->
  let kind := Snapshot.adef_type adef in
  let enum := String.eqb kind "Enum" in
  let key := if enum then "values" else "value" in
  let shape_ok :=
    expected_shape kind value
    || (String.eqb kind "Integer" && is_bool value) in
  let listed :=
    match value with
    | PList l => existsb (fun literal => str_in literal options) l
    | _ => false
    end in
  check_attribute_value_is_valid self name value req_type_id
  = if negb shape_ok || (enum && negb listed)
    then Raise (InvalidFieldValue key name (to_value value))
    else Ok {| AttributeValueBuilder.deftype := kind;
               AttributeValueBuilder.key := key;
               AttributeValueBuilder.value := value |}.
Proof.
  intros Htype Hattrs Hadef Hkind Hoptions. cbv zeta.
  unfold check_attribute_value_is_valid, dict_item.
  rewrite Htype. simpl. rewrite Hattrs. simpl. rewrite Hadef. simpl.
  destruct adef as [kind multi]. simpl in *.
  destruct (known_kind _ Hkind) as [H|[H|[H|[H|[H|H]]]]]; subst kind; simpl;
    try (destruct value; reflexivity).
  rewrite (Hoptions eq_refl). simpl.
  destruct value; simpl; try reflexivity.
Qed.

Lemma check_attribute_value_is_valid_spec_witness :
  check_attribute_value_is_valid
    Examples.Literals.self "Status" (PList ["Shut"]) "Req"
  = Raise (InvalidFieldValue "values" "Status" (VList [VStr "Shut"])).
Proof.
  apply (@check_attribute_value_is_valid_spec
           Examples.Literals.self "Status" (PList ["Shut"]) "Req"
           Examples.Literals.reqtype
           [("Status", {| Snapshot.adef_type := "Enum";
                          Snapshot.multi_values := None |});
            ("Count", {| Snapshot.adef_type := "Integer";
                         Snapshot.multi_values := None |});
            ("Severity", {| Snapshot.adef_type := "Enum";
                            Snapshot.multi_values := None |})]
           {| Snapshot.adef_type := "Enum"; Snapshot.multi_values := None |}
           ["Open"; "Closed"]);
    reflexivity.
Defined.

(** ** Promises *)

Lemma check_attribute_value_is_valid_Ok (self : TrackerChange)
  (name : string) (value : Primitive) (req_type_id : string)
  (builder : AttributeValueBuilder.t) :
  check_attribute_value_is_valid self name value req_type_id = Ok builder ->
  exists req_type attrs adef,
    dict_get (requirement_types self) req_type_id = Some req_type
    /\ Snapshot.rt_attributes req_type = Some attrs
    /\ dict_get attrs name = Some adef
    /\ AttributeValueBuilder.deftype builder = Snapshot.adef_type adef
    /\ AttributeValueBuilder.value builder = value
    /\ AttributeValueBuilder.key builder
       = if String.eqb (Snapshot.adef_type adef) "Enum"
         then "values" else "value".
Proof.
  unfold check_attribute_value_is_valid, dict_item.
  destruct (dict_get (requirement_types self) req_type_id)
    as [req_type|] eqn:Ht; [|discriminate].
  cbn [bind]. destruct (Snapshot.rt_attributes req_type)
    as [attrs|] eqn:Ha; [|discriminate].
  cbn [bind]. destruct (dict_get attrs name) as [adef|] eqn:Hd;
    [|discriminate].
  cbn [bind].
  destruct (dict_get _ATTR_VALUE_DEFAULT_MAP (Snapshot.adef_type adef))
    as [cls|]; [|discriminate].
  cbn [bind]. intros H. exists req_type, attrs, adef.
  destruct (String.eqb (Snapshot.adef_type adef) "Enum").
  - destruct (dict_get (data_type_definitions self) name) as [options|];
      [|discriminate].
    cbn [bind] in H.
    destruct (negb (cls value) || _); [discriminate|].
    injection H as <-. repeat split; assumption || reflexivity.
  - cbn [bind] in H. destruct (negb (cls value)); [discriminate|].
    injection H as <-. repeat split; assumption || reflexivity.
Qed.

(** ** Reasoning on runs *)

Lemma bindM_Ok {A B} (m : M A) (k : A -> M B) st r :
  bindM m k st = Ok r ->
  exists a st1, m st = Ok (a, st1) /\ k a st1 = Ok r.
Proof.
  unfold bindM. destruct (m st) as [[a st1]|e]; [|discriminate].
  intros H. now exists a, st1.
Qed.

Lemma lift_Ok {A} (r : Result A) st a st' :
  lift r st = Ok (a, st') -> r = Ok a /\ st' = st.
Proof.
  unfold lift. destruct r; [|discriminate]. now intros [= -> ->].
Qed.

Lemma ret_Ok {A} (x : A) st a st' :
  ret x st = Ok (a, st') -> a = x /\ st' = st.
Proof. unfold ret. now intros [= -> ->]. Qed.

Lemma bind_Ok {A B} (r : Result A) (k : A -> Result B) b :
  bind r k = Ok b -> exists a, r = Ok a /\ k a = Ok b.
Proof.
  destruct r as [a|e]; [|discriminate]. intros H. now exists a.
Qed.

Lemma raised_Ok {A} (r : A * option Exn) a :
  raised r = Ok a -> r = (a, None).
Proof. destruct r as [x [e|]]; [discriminate|]. now intros [= ->]. Qed.

Tactic Notation "mstep" hyp(H) "as" ident(a) ident(st) ident(H1) :=
  apply bindM_Ok in H; destruct H as (a & st & H1 & H).

Tactic Notation "rstep" hyp(H) "as" ident(a) ident(H1) :=
  apply bind_Ok in H; destruct H as (a & H1 & H).

Lemma single_Ok {A} (matches : A -> bool) (elements : list A) (x : A) :
  single matches elements = Ok x -> matches x = true /\ In x elements.
Proof.
  unfold single. intros H.
  assert (Hin : In x (filter matches elements)).
  { destruct (filter matches elements) as [|y [|z l]]; try discriminate.
    injection H as ->. now left. }
  apply filter_In in Hin. tauto.
Qed.

(** ** Identifiers in payloads *)

Section PayloadIdentifiers.
Variable P : Value -> Prop.

Lemma ids_in_list (l : list Value) :
  ids_in P (VList l) <-> Forall (ids_in P) l.
Proof. unfold ids_in. simpl. apply Forall_flat_map. Qed.

Lemma ids_in_dict (d : Dict) :
  ids_in P (VDict d)
  <-> match dict_get d "identifier" with
      | Some i => P i
      | None => True
      end
      /\ Forall (fun kv => ids_in P (snd kv)) d.
Proof.
  unfold ids_in. simpl. rewrite Forall_app, Forall_flat_map.
  destruct (dict_get d "identifier").
  - split; intros [Hown Hrest]; split; trivial;
      [now inversion Hown | now constructor].
  - split; intros [Hown Hrest]; split; trivial.
Qed.

Lemma ids_in_dict_nil : ids_in P (VDict []).
Proof. constructor. Qed.

Lemma Forall_dict_set (Q : string * Value -> Prop) (d : Dict) k v :
  Forall Q d -> Q (k, v) -> Forall Q (dict_set d k v).
Proof.
  intros Hd Hv. induction d as [|[k' v'] d IH]; simpl.
  - now constructor.
  - inversion Hd; subst. destruct (String.eqb_spec k k') as [<-|].
    + now constructor.
    + constructor; [assumption | now apply IH].
Qed.

Lemma ids_in_dict_set (d : Dict) k v :
  k <> "identifier" ->
  ids_in P (VDict d) -> ids_in P v -> ids_in P (VDict (dict_set d k v)).
Proof.
  intros Hk Hd Hv. apply ids_in_dict in Hd. destruct Hd as [Hown Hall].
  apply ids_in_dict. split.
  - rewrite dict_get_set_other by (intros E; now symmetry in E). exact Hown.
  - now apply Forall_dict_set.
Qed.

Lemma ids_in_dict_del (d : Dict) k :
  k <> "identifier" ->
  ids_in P (VDict d) -> ids_in P (VDict (dict_del d k)).
Proof.
  intros Hk Hd. apply ids_in_dict in Hd. destruct Hd as [Hown Hall].
  apply ids_in_dict. split.
  - rewrite dict_get_del_other by (intros E; now symmetry in E). exact Hown.
  - clear Hown. induction d as [|[k' v'] d IH]; simpl; [constructor|].
    inversion Hall; subst. destruct (String.eqb k k'); [assumption|].
    constructor; auto.
Qed.

Lemma ids_in_dict_get (d : Dict) k v :
  ids_in P (VDict d) -> dict_get d k = Some v -> ids_in P v.
Proof.
  intros Hd Hget. apply ids_in_dict in Hd. destruct Hd as [_ Hall].
  induction d as [|[k' v'] d IH]; simpl in Hget; [discriminate|].
  inversion Hall; subst. destruct (String.eqb k k').
  - now injection Hget as <-.
  - auto.
Qed.

Lemma ids_in_to_value (p : Primitive) : ids_in P (to_value p).
Proof.
  destruct p; try constructor.
  apply ids_in_list. induction l; constructor; auto. constructor.
Qed.
End PayloadIdentifiers.

Lemma ids_in_weaken (P Q : Value -> Prop) (v : Value) :
  (forall i, P i -> Q i) -> ids_in P v -> ids_in Q v.
Proof. intros H. apply Forall_impl, H. Qed.

Lemma one_of_incl (l l' : list string) (v : Value) :
  incl l l' -> one_of l v -> one_of l' v.
Proof. intros Hincl (s & -> & Hin). exists s. auto. Qed.

(** ** The stored actions *)

Section Cells.
Variable self : TrackerChange.
Variable identifiers : list string.

Local Abbreviation ok := (cell_ok self identifiers).
Local Abbreviation keeps := (stable self identifiers).

Lemma cell_ok_nil : ~ ok [].
Proof. intros [(req & _ & H) _]. discriminate. Qed.

Lemma cell_ok_same (c c' : Dict) :
  dict_get c' "parent" = dict_get c "parent" ->
  dict_get c' "extend" = dict_get c "extend" ->
  ok c -> ok c'.
Proof.
  intros Hp He [(req & Hfound & Hparent) Hids]. split.
  - exists req. split; [assumption | congruence].
  - unfold extend_identifiers in *. now rewrite He.
Qed.

Lemma cell_ok_set_delete (c : Dict) (v : Value) :
  ok c -> ok (dict_set c "delete" v).
Proof.
  apply cell_ok_same; apply dict_get_set_other; discriminate.
Qed.

Lemma cell_ok_del_delete (c : Dict) : ok c -> ok (dict_del c "delete").
Proof.
  apply cell_ok_same; apply dict_get_del_other; discriminate.
Qed.

Lemma stable_refl st : keeps st st.
Proof. intros a H. exact H. Qed.

Lemma stable_trans st1 st2 st3 : keeps st1 st2 -> keeps st2 st3 -> keeps st1 st3.
Proof. intros H12 H23 a H. auto. Qed.

Lemma stable_same_cells st st' : cells st' = cells st -> keeps st st'.
Proof. intros E a. unfold cell. now rewrite E. Qed.

Lemma stable_Forall st st' (addresses : list nat) :
  keeps st st' ->
  Forall (fun a => ok (cell st a)) addresses ->
  Forall (fun a => ok (cell st' a)) addresses.
Proof. intros Hk. apply Forall_impl. intros a. apply Hk. Qed.

Lemma cell_in_range st a : ok (cell st a) -> a < length (cells st).
Proof.
  intros H. destruct (Nat.lt_ge_cases a (length (cells st))) as [|Hge];
    [assumption|].
  exfalso. apply cell_ok_nil. unfold cell in H.
  now rewrite nth_overflow in H.
Qed.

Lemma allocate_ok base st address st' :
  ok base ->
  allocate base st = Ok (address, st') ->
  keeps st st' /\ ok (cell st' address)
  /\ _location_changed st' = _location_changed st.
Proof.
  unfold allocate. intros Hbase [= <- <-]. split; [|split; [|reflexivity]].
  - intros a Ha. pose proof (cell_in_range _ _ Ha) as Hlt.
    unfold cell in *. simpl. now rewrite app_nth1.
  - unfold cell. simpl. now rewrite nth_middle.
Qed.

Lemma location_changed_add_ok identifier st u st' :
  location_changed_add identifier st = Ok (u, st') -> keeps st st'.
Proof.
  unfold location_changed_add. intros [= _ <-]. now apply stable_same_cells.
Qed.

Lemma req_deletions_update_ok dels address st u st' :
  req_deletions_update dels address st = Ok (u, st') ->
  keeps st st' /\ cell st' address = cell st address.
Proof.
  unfold req_deletions_update. intros [= _ <-].
  split; [now apply stable_same_cells | reflexivity].
Qed.

Lemma nth_set_nth {A} (l : list A) (n m : nat) (x d : A) :
  nth m (set_nth l n x) d
  = if Nat.eqb m n && Nat.ltb n (length l) then x else nth m l d.
Proof.
  revert n m. induction l as [|y l IH]; intros [|n] [|m]; simpl;
    try reflexivity.
  - now rewrite Bool.andb_false_r.
  - rewrite IH. reflexivity.
Qed.

Lemma _invalidate_deletion_ok requirement st u st' :
  _invalidate_deletion requirement st = Ok (u, st') -> keeps st st'.
Proof.
  unfold _invalidate_deletion.
  destruct (dict_get (_req_deletions st) (Live.uuid requirement))
    as [address|]; [|intros [= _ <-]; apply stable_refl].
  destruct (dict_get (cell st address) "delete")
    as [[| | | | | | | | |deletions]|];
    try discriminate; try (intros [= _ <-]; apply stable_refl).
  destruct (dict_get deletions _) as [[| | | | | | | |refs|]|];
    try discriminate; try (intros [= _ <-]; apply stable_refl).
  intros H. rstep H as refs' Hremove. injection H as _ <-.
  intros b Hb. unfold cell in *. simpl. rewrite nth_set_nth.
  destruct (Nat.eqb b address && Nat.ltb address (length (cells st)))
    eqn:E; [|assumption].
  apply Bool.andb_true_iff in E. destruct E as [E _].
  apply Nat.eqb_eq in E. subst b.
  destruct (match refs' with [] => _ | _ => _ end);
    [apply cell_ok_del_delete | apply cell_ok_set_delete]; assumption.
Qed.

Lemma finish_mod_ok base dels child_mods st addresses st' :
  ok base ->
  Forall (fun a => ok (cell st a)) child_mods ->
  finish_mod base dels child_mods st = Ok (addresses, st') ->
  keeps st st' /\ Forall (fun a => ok (cell st' a)) addresses.
Proof.
  intros Hbase Hmods H. unfold finish_mod in H.
  mstep H as address st1 Halloc. mstep H as u st2 Hupdate.
  apply ret_Ok in H. destruct H as [-> ->].
  apply allocate_ok in Halloc; [|assumption].
  destruct Halloc as (Hk1 & Hcell & _).
  apply req_deletions_update_ok in Hupdate. destruct Hupdate as [Hk2 Hsame].
  assert (Hk : keeps st st2) by (eapply stable_trans; eassumption).
  split; [assumption|].
  apply Forall_app. split.
  - destruct (_ || _); constructor; [|constructor].
    rewrite Hsame. exact Hcell.
  - now apply stable_Forall with st.
Qed.
End Cells.

(** ** The work-item reconciler keeps the stored actions well formed *)

Lemma list_all_Forall {A} (P : A -> Prop) (l : list A) :
  list_all P l -> Forall P l.
Proof. induction 1; constructor; assumption. Qed.

Lemma _deep_update_items_flat (update_with : Value -> Dict -> Dict * option Exn)
  (overrides : Dict) :
  Forall (fun kv => exists l, snd kv = VList l) overrides ->
  forall source,
    _deep_update_items update_with overrides source
    = (fold_left (fun s kv => dict_set s (fst kv) (snd kv)) overrides source,
       None).
Proof.
  induction 1 as [|[k v] overrides [l Hl] _ IH]; intros source;
    [reflexivity|].
  simpl in Hl. subst v. simpl. apply IH.
Qed.

Lemma _deep_update_with_dict (overrides source : Dict) :
  _deep_update_with (VDict overrides) source
  = _deep_update_items _deep_update_with overrides source.
Proof. reflexivity. Qed.

Lemma _deep_update_items_mapping
  (update_with : Value -> Dict -> Dict * option Exn)
  (key : string) (kv : string * Value) (sub rest source : Dict) :
  _deep_update_items update_with ((key, VDict (kv :: sub)) :: rest) source
  = match dict_get source key with
    | None =>
        match update_with (VDict (kv :: sub)) [] with
        | (update, None) =>
            _deep_update_items update_with rest
              (dict_set source key (VDict update))
        | (_, Some e) => (source, Some e)
        end
    | Some (VDict update0) =>
        match update_with (VDict (kv :: sub)) update0 with
        | (update, None) =>
            _deep_update_items update_with rest
              (dict_set source key (VDict update))
        | (update, Some e) => (dict_set source key (VDict update), Some e)
        end
    | Some _ => (source, Some (not_a_mapping (kv :: sub)))
    end.
Proof. reflexivity. Qed.

(** Merging a fragment [{k: slots}] of lists into an action. *)
Lemma _deep_update_slots (base slots merged : Dict) (k : string) :
  Forall (fun kv => exists l, snd kv = VList l) slots ->
  slots <> [] ->
  _deep_update base [(k, VDict slots)] = (merged, None) ->
  exists existing,
    (dict_get base k = None /\ existing = []
     \/ dict_get base k = Some (VDict existing))
    /\ merged
       = dict_set base k
           (VDict (fold_left (fun s kv => dict_set s (fst kv) (snd kv))
                             slots existing)).
Proof.
  intros Hflat Hne. unfold _deep_update.
  destruct slots as [|kv slots]; [contradiction|].
  rewrite _deep_update_with_dict, _deep_update_items_mapping.
  destruct (dict_get base k) as [[| | | | | | | | |existing]|];
    try discriminate;
    rewrite _deep_update_with_dict, _deep_update_items_flat by assumption;
    cbn [_deep_update_items].
  - intros [= <-]. exists existing. split; [now right | reflexivity].
  - intros [= <-]. exists []. split; [now left | reflexivity].
Qed.

Section WorkItemFacts.
Variable self : TrackerChange.
Variable identifiers : list string.

Local Abbreviation P := (one_of identifiers).
Local Abbreviation ok := (cell_ok self identifiers).
Local Abbreviation keeps := (stable self identifiers).

Lemma ids_in_fold_slots (slots existing : Dict) :
  Forall (fun kv => fst kv <> "identifier" /\ ids_in P (snd kv)) slots ->
  ids_in P (VDict existing) ->
  ids_in P (VDict (fold_left (fun s kv => dict_set s (fst kv) (snd kv))
                             slots existing)).
Proof.
  intros Hslots. revert existing.
  induction Hslots as [|[k v] slots [Hk Hv] _ IH]; intros existing He;
    [exact He|].
  simpl. apply IH. now apply ids_in_dict_set.
Qed.

Lemma attribute_value_create_action_ids name value req_type_id action :
  attribute_value_create_action self name value req_type_id = Ok action ->
  ids_in P (VDict action).
Proof.
  unfold attribute_value_create_action. intros H.
  rstep H as builder Hcheck.
  apply check_attribute_value_is_valid_Ok in Hcheck.
  destruct Hcheck as (_ & _ & adef & _ & _ & _ & _ & _ & Hkey).
  injection H as <-. apply ids_in_dict. split.
  - simpl. rewrite Hkey.
    now destruct (String.eqb (Snapshot.adef_type adef) "Enum").
  - repeat constructor.
    + simpl. destruct (attribute_definition_by_identifier _ _ _ _);
      constructor.
    + simpl.
      match goal with
      | |- ids_in _ (match ?values with [] => _ | _ => _ end) =>
          assert (Hvalues : Forall (ids_in P) values);
          [|destruct values; [apply ids_in_to_value | now apply ids_in_list]]
      end.
      destruct (String.eqb (AttributeValueBuilder.deftype builder) "Enum");
        [|constructor].
      destruct (AttributeValueBuilder.value builder); try constructor.
      apply Forall_map, Forall_forall. intros literal _.
      destruct (enum_value_by_long_name _ _ _); constructor.
Qed.

Lemma create_attributes_ids req_type_id attributes actions hint :
  create_attributes self req_type_id attributes = Ok (actions, hint) ->
  Forall (ids_in P) actions.
Proof.
  revert actions hint.
  induction attributes as [|[name value] rest IH]; intros actions hint H;
    simpl in H.
  - injection H as <- _. constructor.
  - destruct (_blacklisted name value).
    + rstep H as r Hrest. destruct r as [actions' hint'].
      injection H as <- _. eauto.
    + destruct req_type_id as [[|c id]|];
        try (injection H as <- _; constructor).
      rstep H as req_type Htype. rstep H as attrs Hattrs.
      rstep H as action Haction. rstep H as r Hrest.
      destruct r as [actions' hint']. injection H as <- _.
      apply Forall_app. split; [|eauto].
      destruct (dict_has attrs name).
      * rstep Haction as payload Hpayload. injection Haction as <-.
        constructor; [|constructor].
        eapply attribute_value_create_action_ids; eassumption.
      * injection Haction as <-. constructor.
Qed.

Lemma create_base_ids item attributes :
  In (Snapshot.id item) identifiers ->
  Forall (ids_in P) attributes ->
  ids_in P (VDict (create_base self item attributes)).
Proof.
  intros Hid Hattrs. unfold create_base.
  assert (H0 : ids_in P (VDict [("long_name", VStr (Snapshot.long_name item));
                                ("identifier", VStr (Snapshot.id item))])).
  { apply ids_in_dict. split.
    - simpl. now exists (Snapshot.id item).
    - repeat constructor. }
  assert (H1 : ids_in P (VDict
            match Snapshot.text item with
            | None | Some EmptyString =>
                [("long_name", VStr (Snapshot.long_name item));
                 ("identifier", VStr (Snapshot.id item))]
            | Some text =>
                dict_set [("long_name", VStr (Snapshot.long_name item));
                          ("identifier", VStr (Snapshot.id item))]
                  "text" (VStr text)
            end)).
  { destruct (Snapshot.text item) as [[|c t]|]; exact H0. }
  set (base1 := match Snapshot.text item with
                | None | Some EmptyString => _
                | Some _ => _
                end) in *.
  assert (H2 : ids_in P (VDict
            match attributes with
            | [] => base1
            | _ => dict_set base1 "attributes" (VList attributes)
            end)).
  { destruct attributes; [exact H1|].
    apply ids_in_dict_set; [discriminate | exact H1 | now apply ids_in_list]. }
  destruct (Snapshot.type item) as [[|c id]|]; try exact H2.
  apply ids_in_dict_set; [discriminate | exact H2|].
  destruct (reqtype_by_identifier _ _ _); constructor.
Qed.

Lemma with_children_ids base requirements folders :
  ids_in P (VDict base) ->
  Forall (ids_in P) requirements -> Forall (ids_in P) folders ->
  ids_in P (VDict (with_children base requirements folders)).
Proof.
  intros Hbase Hr Hf. unfold with_children.
  assert (H : ids_in P (VDict (dict_set (dict_set base "requirements"
                                          (VList requirements))
                                 "folders" (VList folders)))).
  { apply ids_in_dict_set; [discriminate | | now apply ids_in_list].
    apply ids_in_dict_set; [discriminate | exact Hbase
                           | now apply ids_in_list]. }
  assert (H' : ids_in P (VDict
            match folders with
            | [] => dict_del (dict_set (dict_set base "requirements"
                                          (VList requirements))
                                "folders" (VList folders)) "folders"
            | _ => dict_set (dict_set base "requirements"
                               (VList requirements))
                     "folders" (VList folders)
            end)).
  { destruct folders; [|exact H].
    apply ids_in_dict_del; [discriminate | exact H]. }
  destruct requirements; [|exact H'].
  apply ids_in_dict_del; [discriminate | exact H'].
Qed.

Lemma mod_attributes_ids req attributes :
  forall creations modifications creations' modifications',
    mod_attributes self req attributes creations modifications
    = Ok (creations', modifications') ->
    Forall (ids_in P) creations -> Forall (ids_in P) creations'.
Proof.
  induction attributes as [|[name value] rest IH];
    intros creations modifications creations' modifications' H Hc;
    simpl in H.
  - now injection H as <- _.
  - destruct (_ && _); [eauto|].
    rstep H as action Haction. destruct action as [action|n v|]; eauto.
    eapply IH; [eassumption|].
    apply Forall_app. split; [assumption|].
    constructor; [|constructor].
    unfold attribute_value_mod_action in Haction.
    destruct (Live.type req) as [req_type|]; [|discriminate].
    unfold except_KeyError in Haction.
    match type of Haction with
    | match ?r with _ => _ end = _ => destruct r as [[| |]|[]] eqn:Hr
    end; try discriminate.
    + (* from the validated path *)
      rstep Hr as builder Hcheck. rstep Hr as attr Hattr.
      rstep Hr as differ Hdiffer. destruct differ; discriminate.
    + rstep Haction as payload Hpayload. injection Haction as <-.
      eapply attribute_value_create_action_ids; eassumption.
Qed.

Lemma mod_base_ok req item base :
  found self req -> mod_base self req item = Ok base -> ok base.
Proof.
  intros Hfound H. unfold mod_base in H.
  rstep H as r Hattrs. destruct r as [creations modifications].
  rstep H as mods Hmods. injection H as <-.
  apply mod_attributes_ids in Hattrs; [|constructor].
  match goal with
  | |- ok (match ?dels with [] => _ | _ => _ end) => generalize dels
  end.
  intros dels. clear Hmods.
  assert (Hcreations : forall base,
             dict_get base "parent" = Some (UUIDReference (Live.uuid req)) ->
             dict_get base "extend" = None ->
             ok match creations with
                | [] => base
                | _ => dict_set base "extend"
                         (VDict [("attributes", VList creations)])
                end).
  { intros base Hparent Hextend. split.
    - exists req. split; [assumption|].
      destruct creations; [assumption|].
      now rewrite dict_get_set_other by discriminate.
    - unfold extend_identifiers.
      destruct creations as [|c creations]; [now rewrite Hextend|].
      rewrite dict_get_set_same. apply ids_in_dict. split; [exact I|].
      constructor; [|constructor]. now apply ids_in_list. }
  assert (Hdels : forall base,
             ok base ->
             ok match dels with
                | [] => base
                | _ => dict_set base "delete"
                         (VDict [("attributes", VList dels)])
                end).
  { intros base Hbase. destruct dels; [assumption|].
    now apply cell_ok_set_delete. }
  apply Hdels, Hcreations;
    destruct mods as [|m mods], modifications as [|am modifications];
    reflexivity.
Qed.

Lemma with_folder_changes_ok req base cr cf child_req_ids child_folder_ids
  location_changed base' dels :
  ok base ->
  Forall (ids_in P) cr -> Forall (ids_in P) cf ->
  with_folder_changes req base cr cf child_req_ids child_folder_ids
    location_changed = Ok (base', dels) ->
  ok base'.
Proof.
  intros Hbase Hcr Hcf H. unfold with_folder_changes in H.
  rstep H as base1 Hextend. rstep H as base2 Hdelete.
  injection H as <- _.
  assert (H1 : ok base1).
  { match type of Hextend with
    | match ?c with [] => _ | _ => _ end = _ =>
        remember c as slots eqn:Eslots
    end.
    assert (Hslots :
              Forall (fun kv => (exists l, snd kv = VList l)
                                /\ fst kv <> "identifier"
                                /\ ids_in P (snd kv)) slots).
    { subst slots.
      assert (Hc1 : Forall (fun kv => (exists l, snd kv = VList l)
                                      /\ fst kv <> "identifier"
                                      /\ ids_in P (snd kv))
                      match cr with
                      | [] => []
                      | _ => dict_set [] "requirements" (VList cr)
                      end).
      { destruct cr; constructor; [|constructor].
        split; [eexists; reflexivity|].
        split; [discriminate | now apply ids_in_list]. }
      destruct cf; [exact Hc1|].
      apply Forall_dict_set; [exact Hc1|].
      split; [eexists; reflexivity|].
      split; [discriminate | now apply ids_in_list]. }
    clear Eslots. destruct slots as [|kv slots];
      [now injection Hextend as <-|].
    apply raised_Ok in Hextend.
    apply _deep_update_slots in Hextend.
    - destruct Hextend as (existing & Hexisting & ->).
      destruct Hbase as [(r & Hfound & Hparent) Hids]. split.
      + exists r. split; [assumption|].
        now rewrite dict_get_set_other by discriminate.
      + unfold extend_identifiers in *. rewrite dict_get_set_same.
        apply ids_in_fold_slots.
        * eapply Forall_impl; [|exact Hslots]. simpl. tauto.
        * destruct Hexisting as [[_ ->]|Hex];
            [apply ids_in_dict_nil | now rewrite Hex in Hids].
    - eapply Forall_impl; [|exact Hslots]. simpl. tauto.
    - discriminate. }
  match type of Hdelete with
  | match ?c with [] => _ | _ => _ end = _ =>
      remember c as slots eqn:Eslots
  end.
  assert (Hslots : Forall (fun kv => exists l, snd kv = VList l) slots).
  { subst slots.
    match goal with
    | |- Forall _ (match ?req_dels with [] => ?d | _ => _ end) =>
        assert (Hd1 : Forall (fun kv : string * Value =>
                                exists l, snd kv = VList l) d);
        [|destruct req_dels; [exact Hd1|];
          apply Forall_dict_set; [exact Hd1 | eexists; reflexivity]]
    end.
    match goal with
    | |- Forall _ (match ?fold_dels with [] => _ | _ => _ end) =>
        destruct fold_dels; constructor; [eexists; reflexivity|constructor]
    end. }
  clear Eslots. destruct slots as [|kv slots];
    [now injection Hdelete as <-|].
  apply raised_Ok in Hdelete. apply _deep_update_slots in Hdelete.
  - destruct Hdelete as (existing & _ & ->).
    now apply cell_ok_set_delete.
  - exact Hslots.
  - discriminate.
Qed.

Section ChildrenFacts.
Variable create : Snapshot.WorkItem -> M (Dict * list nat).
Variable modify :
  Snapshot.WorkItem -> Live.WorkItem -> Parent -> M (list nat).

Lemma create_children_ok children :
  Forall (create_good self identifiers create) children ->
  Forall (modify_good self identifiers modify) children ->
  forall requirements folders child_mods st requirements' folders'
         child_mods' st',
    Forall (ids_in P) requirements -> Forall (ids_in P) folders ->
    Forall (fun a => ok (cell st a)) child_mods ->
    create_children self create modify children requirements folders
      child_mods st
    = Ok ((requirements', folders', child_mods'), st') ->
    keeps st st'
    /\ Forall (ids_in P) requirements' /\ Forall (ids_in P) folders'
    /\ Forall (fun a => ok (cell st' a)) child_mods'.
Proof.
  induction children as [|child children IH];
    intros Hcreate Hmodify requirements folders child_mods st
           requirements' folders' child_mods' st' Hr Hf Hm H;
    simpl in H.
  - apply ret_Ok in H. destruct H as [[= -> -> ->] ->].
    split; [apply stable_refl | tauto].
  - inversion Hcreate as [|? ? Hc Hcs]; subst.
    inversion Hmodify as [|? ? Hmd Hmds]; subst.
    mstep H as r st1 Hchild. destruct r as [action child_actions].
    assert (Hstep : keeps st st1 /\ ids_in P action
                    /\ Forall (fun a => ok (cell st1 a)) child_actions).
    { destruct (work_item_by_identifier (reqfinder self) (Snapshot.id child))
        as [creq|] eqn:Hfind.
      - mstep Hchild as actions st2 Hmod.
        apply ret_Ok in Hchild. destruct Hchild as [[= -> ->] ->].
        apply Hmd in Hmod; [|now exists (Snapshot.id child)].
        destruct Hmod as [Hk Hall].
        split; [assumption|]. split; [exact (Forall_nil _) | assumption].
      - mstep Hchild as r st2 Hnew. destruct r as [payload actions].
        apply ret_Ok in Hchild. destruct Hchild as [[= -> ->] ->].
        apply Hc in Hnew. tauto. }
    destruct Hstep as (Hk & Haction & Hactions).
    assert (Hmods : Forall (fun a => ok (cell st1 a))
                      (child_mods ++ child_actions)).
    { apply Forall_app. split; [now apply stable_Forall with st|assumption]. }
    destruct (has_children child);
      apply IH in H; try assumption;
      try (apply Forall_app; split; [assumption|now constructor]);
      destruct H as (Hk' & H);
      (split; [eapply stable_trans; eassumption | exact H]).
Qed.

Lemma mod_children_ok req children :
  Forall (create_good self identifiers create) children ->
  Forall (modify_good self identifiers modify) children ->
  forall cr cf child_req_ids child_folder_ids child_mods st cr' cf'
         child_req_ids' child_folder_ids' child_mods' st',
    Forall (ids_in P) cr -> Forall (ids_in P) cf ->
    Forall (fun a => ok (cell st a)) child_mods ->
    mod_children self create modify req children cr cf child_req_ids
      child_folder_ids child_mods st
    = Ok ((cr', cf', child_req_ids', child_folder_ids', child_mods'), st') ->
    keeps st st'
    /\ Forall (ids_in P) cr' /\ Forall (ids_in P) cf'
    /\ Forall (fun a => ok (cell st' a)) child_mods'.
Proof.
  induction children as [|child children IH];
    intros Hcreate Hmodify cr cf child_req_ids child_folder_ids child_mods
           st cr' cf' child_req_ids' child_folder_ids' child_mods' st'
           Hr Hf Hm H;
    simpl in H.
  - apply ret_Ok in H. destruct H as [[= -> -> _ _ ->] ->].
    split; [apply stable_refl | tauto].
  - inversion Hcreate as [|? ? Hc Hcs]; subst.
    inversion Hmodify as [|? ? Hmd Hmds]; subst.
    mstep H as r st1 Hchild. destruct r as [container child_actions].
    assert (Hstep : keeps st st1 /\ Forall (ids_in P) container
                    /\ Forall (fun a => ok (cell st1 a)) child_actions).
    { destruct (work_item_by_identifier (reqfinder self) (Snapshot.id child))
        as [creq|] eqn:Hfind.
      - mstep Hchild as actions st2 Hmod.
        apply ret_Ok in Hchild. destruct Hchild as [[= -> ->] ->].
        apply Hmd in Hmod; [|now exists (Snapshot.id child)].
        destruct Hmod as [Hk Hall].
        split; [assumption|]. split; [|assumption].
        destruct (negb _); constructor;
          [exact (Forall_nil _) | constructor].
      - mstep Hchild as r st2 Hnew. destruct r as [payload actions].
        apply ret_Ok in Hchild. destruct Hchild as [[= -> ->] ->].
        apply Hc in Hnew. destruct Hnew as (Hk & Hall & Hpayload).
        split; [assumption|]. split; [now constructor | assumption]. }
    destruct Hstep as (Hk & Hcontainer & Hactions).
    assert (Hmods : Forall (fun a => ok (cell st1 a))
                      (child_mods ++ child_actions)).
    { apply Forall_app. split; [now apply stable_Forall with st|assumption]. }
    destruct (has_children child);
      apply IH in H; try assumption;
      try (apply Forall_app; split; assumption);
      destruct H as (Hk' & H);
      (split; [eapply stable_trans; eassumption | exact H]).
Qed.
End ChildrenFacts.

Lemma requirements_create_actions_eq item :
  requirements_create_actions self item
  = ('(attributes, folder_hint) <-
       lift (create_attributes self (Snapshot.type item)
                               (Snapshot.attributes item)) ;;
     let base := create_base self item attributes in
     match Snapshot.children item, folder_hint with
     | None, false => ret (base, [])
     | None, true => lift (Raise KeyError)
     | Some children, _ =>
         '(requirements, folders, child_mods) <-
           create_children self (requirements_create_actions self)
             (yield_requirements_mod_actions self) children [] [] [] ;;
         ret (with_children base requirements folders, child_mods)
     end).
Proof. destruct item; reflexivity. Qed.

Lemma yield_requirements_mod_actions_eq item req parent :
  yield_requirements_mod_actions self item req parent
  = (base <- lift (mod_base self req item) ;;
     _ <- (if parent_differs self req parent then
             _ <- location_changed_add (Live.identifier req) ;;
             _invalidate_deletion req
           else ret tt) ;;
     if Live.is_folder req then
       '(cr_creations, cf_creations, child_req_ids, child_folder_ids,
         child_mods) <-
         match Snapshot.children item with
         | None => ret ([], [], [], [], [])
         | Some children =>
             mod_children self (requirements_create_actions self)
               (yield_requirements_mod_actions self) req children
               [] [] [] [] []
         end ;;
       fun st =>
         match with_folder_changes req base cr_creations cf_creations
                 child_req_ids child_folder_ids (_location_changed st) with
         | Ok (base, dels) => finish_mod base dels child_mods st
         | Raise e => Raise e
         end
     else finish_mod base [] []).
Proof. destruct item; reflexivity. Qed.

(** The two generators keep the stored actions well formed. *)
Lemma generators_ok item :
  incl (item_identifiers item) identifiers ->
  create_good self identifiers (requirements_create_actions self) item
  /\ modify_good self identifiers (yield_requirements_mod_actions self) item.
Proof.
  induction item as [id long_name text text_first type attributes children IH].
  intros Hincl.
  assert (Hid : In id identifiers) by (apply Hincl; now left).
  assert (Hchildren : forall cs,
             children = Some cs ->
             Forall (create_good self identifiers
                       (requirements_create_actions self)) cs
             /\ Forall (modify_good self identifiers
                          (yield_requirements_mod_actions self)) cs).
  { intros cs ->. inversion IH as [? Hall|]; subst.
    apply list_all_Forall in Hall.
    assert (Hcs : Forall (fun c => incl (item_identifiers c) identifiers) cs).
    { apply Forall_forall. intros c Hc i Hi. apply Hincl. right.
      simpl. apply in_flat_map. now exists c. }
    clear - Hall Hcs.
    induction Hall as [|c cs Hc _ IHcs]; [split; constructor|].
    inversion Hcs as [|? ? Hincl_c Hincl_cs]; subst.
    destruct (IHcs Hincl_cs) as [Hcreate Hmodify].
    destruct (Hc Hincl_c) as [Hc1 Hc2].
    split; constructor; assumption. }
  split.
  - (* creation *)
    intros st payload addresses st' H.
    rewrite requirements_create_actions_eq in H.
    mstep H as r st1 Hattrs. destruct r as [attrs hint].
    apply lift_Ok in Hattrs. destruct Hattrs as [Hattrs ->].
    apply create_attributes_ids in Hattrs.
    pose proof (@create_base_ids
                  {| Snapshot.id := id; Snapshot.long_name := long_name;
                     Snapshot.text := text; Snapshot.text_first := text_first;
                     Snapshot.type := type;
                     Snapshot.attributes := attributes;
                     Snapshot.children := children |} attrs Hid Hattrs)
      as Hbase.
    cbn [Snapshot.children] in H.
    destruct children as [cs|].
    + destruct (Hchildren cs eq_refl) as [Hc Hm].
      mstep H as r st1 Hloop. destruct r as [[requirements folders] mods].
      apply ret_Ok in H. destruct H as [[= -> ->] ->].
        eapply create_children_ok in Hloop;
        [|first [eassumption | constructor]..].
      destruct Hloop as (Hk & Hr & Hf & Hmods).
      split; [assumption|]. split; [assumption|].
      now apply with_children_ids.
    + destruct hint; [apply lift_Ok in H; destruct H; discriminate|].
      apply ret_Ok in H. destruct H as [[= -> ->] ->].
      split; [apply stable_refl|]. split; [constructor | assumption].
  - (* modification *)
    intros req parent st addresses st' Hfound H.
    rewrite yield_requirements_mod_actions_eq in H.
    mstep H as base st1 Hbase.
    apply lift_Ok in Hbase. destruct Hbase as [Hbase ->].
    apply mod_base_ok in Hbase; [|assumption].
    mstep H as u st1 Hmoved.
    assert (Hk1 : keeps st st1).
    { destruct (parent_differs self req parent).
      - mstep Hmoved as u' st2 Hadd.
        apply location_changed_add_ok with (self := self)
          (identifiers := identifiers) in Hadd.
        apply _invalidate_deletion_ok with (self := self)
          (identifiers := identifiers) in Hmoved.
        eapply stable_trans; eassumption.
      - apply ret_Ok in Hmoved. destruct Hmoved as [_ ->].
        apply stable_refl. }
    destruct (Live.is_folder req).
    + mstep H as r st2 Hloop.
      destruct r as [[[[cr cf] child_req_ids] child_folder_ids] mods].
      assert (Hk2 : keeps st1 st2 /\ Forall (ids_in P) cr
                    /\ Forall (ids_in P) cf
                    /\ Forall (fun a => ok (cell st2 a)) mods).
      { cbn [Snapshot.children] in Hloop. destruct children as [cs|].
        - destruct (Hchildren cs eq_refl) as [Hc Hm].
          eapply mod_children_ok in Hloop;
            [|first [eassumption | constructor]..].
          exact Hloop.
        - apply ret_Ok in Hloop. destruct Hloop as [[= -> -> _ _ ->] ->].
          split; [apply stable_refl|]. repeat (split; [constructor|]).
          constructor. }
      destruct Hk2 as (Hk2 & Hcr & Hcf & Hmods).
      destruct (with_folder_changes req base cr cf child_req_ids
                  child_folder_ids (_location_changed st2))
        as [[base' dels]|] eqn:Hfolder; [|discriminate].
      apply with_folder_changes_ok in Hfolder; try assumption.
      apply finish_mod_ok with (self := self) (identifiers := identifiers)
        in H; try assumption.
      destruct H as [Hk3 Hall]. split; [|assumption].
      eapply stable_trans; [eassumption|].
      eapply stable_trans; eassumption.
    + apply finish_mod_ok with (self := self) (identifiers := identifiers)
        in H; try assumption; [|constructor].
      destruct H as [Hk3 Hall]. split; [|assumption].
      eapply stable_trans; eassumption.
Qed.
End WorkItemFacts.

(** ** The actions of the type system *)

Lemma only_parent_other (d : Dict) (k : string) (v : Value) :
  dict_get d k = Some v -> k <> "parent" -> only_parent d = false.
Proof.
  intros Hget Hk. unfold only_parent, dict_keys.
  apply Bool.andb_false_iff. right.
  induction d as [|[k' v'] d IH];
    cbn [dict_get dict_keys map fst forallb] in *; [discriminate|].
  destruct (String.eqb_spec k k') as [<-|Hne].
  - destruct (String.eqb_spec "parent" k) as [E|]; [|reflexivity].
    now symmetry in E.
  - rewrite IH by assumption. apply Bool.andb_false_r.
Qed.

Lemma only_parent_no_parent (d : Dict) :
  dict_has d "parent" = false -> only_parent d = false.
Proof.
  intros H. unfold only_parent. apply Bool.andb_false_iff. left.
  unfold dict_has in H. destruct (dict_get d "parent") eqn:E; [discriminate|].
  now apply dict_get_None_keys.
Qed.

Lemma populated_get (d : Dict) (k : string) :
  populated d k = true -> exists v, dict_get d k = Some v.
Proof.
  unfold populated. destruct (dict_get d k) as [v|]; [|discriminate].
  now exists v.
Qed.

Lemma opt_set_get_other {A} (l : list A) (base : Dict) (k k' : string)
  (v : Value) :
  k' <> k ->
  dict_get (match l with [] => base | _ :: _ => dict_set base k v end) k'
  = dict_get base k'.
Proof. intros H. destruct l; [reflexivity | now apply dict_get_set_other]. Qed.

Lemma opt_set_ids {A} (P : Value -> Prop) (l : list A) (base : Dict)
  (k : string) (v : Value) :
  k <> "identifier" ->
  ids_in P (VDict base) -> (l <> [] -> ids_in P v) ->
  ids_in P (VDict (match l with [] => base | _ :: _ => dict_set base k v end)).
Proof.
  intros Hk Hbase Hv. destruct l; [assumption|].
  apply ids_in_dict_set; [assumption | assumption | now apply Hv].
Qed.

Lemma ids_in_slot (P : Value -> Prop) (k : string) (l : list Value) :
  k <> "identifier" ->
  Forall (ids_in P) l -> ids_in P (VDict [(k, VList l)]).
Proof.
  intros Hk H. change [(k, VList l)] with (dict_set [] k (VList l)).
  apply ids_in_dict_set; [assumption | constructor | now apply ids_in_list].
Qed.

Section TypeActions.
Variable self : TrackerChange.

Local Abbreviation ids := (assignable (tracker self)).
Local Abbreviation P := (one_of (assignable (tracker self))).

Lemma data_type_create_action_ids name values :
  ids_in P (VDict (data_type_create_action name values)).
Proof.
  apply ids_in_dict. split; [exact I|].
  repeat constructor. simpl. apply ids_in_list.
  apply Forall_map, Forall_forall. intros value _.
  apply ids_in_dict. split; [exact I | repeat constructor].
Qed.

Lemma type_action_ok_intro (action : Dict) :
  only_parent action = false ->
  ids_in P (VDict action) ->
  type_action_ok ids action.
Proof.
  intros Hvoid Hids. split; [assumption|].
  unfold assigned_identifiers.
  destruct (dict_has action "parent"); [|exact Hids].
  destruct (dict_get action "extend") as [v|] eqn:Hextend; [|constructor].
  eapply ids_in_dict_get; eassumption.
Qed.

Lemma data_type_mod_action_ok folder name values action :
  data_type_mod_action self folder name values = Some action ->
  ids_in P (VDict action) /\ only_parent action = false.
Proof.
  unfold data_type_mod_action.
  destruct (single _ _) as [dtdef|];
    [|intros [= <-]; split; [apply data_type_create_action_ids|reflexivity]].
  match goal with
  | |- (if only_parent ?b then _ else _) = _ -> _ =>
      remember b as base eqn:Ebase
  end.
  destruct (only_parent base) eqn:Hvoid; [discriminate|].
  intros [= <-]. split; [|exact Hvoid]. subst base.
  apply opt_set_ids; [discriminate| |intros _].
  - apply opt_set_ids; [discriminate| |intros _].
    + apply opt_set_ids; [discriminate| |intros _].
      * apply ids_in_dict. split; [exact I | repeat constructor].
      * apply ids_in_dict. split; [exact I|]. repeat constructor. simpl.
        apply ids_in_list, Forall_map, Forall_forall. intros value _.
        apply ids_in_dict. split; [exact I | repeat constructor].
    + match goal with
      | |- ids_in _ (VDict (if ?c then _ else _)) => destruct c
      end; [|apply ids_in_dict_nil].
      apply ids_in_dict. split; [exact I | repeat constructor].
  - apply ids_in_slot; [discriminate|].
    apply Forall_map, Forall_forall. intros ev _. exact (Forall_nil _).
Qed.

Lemma ids_in_references {A} (f : A -> string) (l : list A) :
  Forall (ids_in P) (map (fun x => UUIDReference (f x)) l).
Proof.
  apply Forall_map, Forall_forall. intros x _. exact (Forall_nil _).
Qed.

Lemma ids_in_payloads (l : list Dict) :
  Forall (fun d => ids_in P (VDict d)) l -> Forall (ids_in P) (map VDict l).
Proof. intros H. now apply Forall_map. Qed.

Lemma yield_data_type_definition_mod_actions_ok folder :
  Forall (type_action_ok ids)
         (yield_data_type_definition_mod_actions self folder).
Proof.
  unfold yield_data_type_definition_mod_actions.
  set (actions := flat_map _ (data_type_definitions self)).
  assert (Hactions : Forall (fun a => ids_in P (VDict a)
                                      /\ only_parent a = false) actions).
  { subst actions. apply Forall_flat_map, Forall_forall. intros [n v] _.
    simpl. destruct (data_type_mod_action self folder n v) eqn:E;
      constructor; [|constructor].
    eapply data_type_mod_action_ok; eassumption. }
  apply Forall_app. split.
  - match goal with
    | |- Forall _ (if populated ?b "extend" || populated ?b "delete"
                   then _ else _) => remember b as base eqn:Ebase
    end.
    destruct (populated base "extend" || populated base "delete") eqn:Hpop;
      constructor; [|constructor].
    apply type_action_ok_intro.
    + apply Bool.orb_true_iff in Hpop.
      destruct Hpop as [H|H]; apply populated_get in H; destruct H as [v H];
        eapply only_parent_other; try eassumption; discriminate.
    + subst base.
      apply opt_set_ids; [discriminate| |intros _].
      * apply opt_set_ids; [discriminate| |intros _].
        -- apply ids_in_dict. split; [exact I | repeat constructor].
        -- apply ids_in_slot; [discriminate|]. apply ids_in_payloads.
           apply incl_Forall with actions; [apply incl_filter|].
           eapply Forall_impl; [|exact Hactions]. simpl. tauto.
      * apply ids_in_slot; [discriminate|]. apply ids_in_references.
  - apply incl_Forall with actions; [apply incl_filter|].
    eapply Forall_impl; [|exact Hactions]. intros a [Ha Hv].
    now apply type_action_ok_intro.
Qed.

Lemma synthesized_In identifier item attrs name data :
  In (identifier, item) (requirement_types self) ->
  Snapshot.rt_attributes item = Some attrs ->
  In (name, data) attrs ->
  P (VStr (name +++ " " +++ identifier)).
Proof.
  intros Hitem Hattrs Hname. eexists. split; [reflexivity|].
  unfold assignable. apply in_or_app. right. right.
  unfold synthesized. apply in_flat_map. exists (identifier, item).
  split; [exact Hitem|]. simpl. rewrite Hattrs.
  apply in_map_iff. now exists (name, data).
Qed.

Lemma attribute_definition_create_action_ok name data req_type_id :
  P (VStr (name +++ " " +++ req_type_id)) ->
  ids_in P (VDict (attribute_definition_create_action
                     self name data req_type_id))
  /\ dict_has (attribute_definition_create_action
                 self name data req_type_id) "parent" = false.
Proof.
  intros Hid. unfold attribute_definition_create_action.
  set (base := [("long_name", VStr name);
                ("identifier", VStr (name +++ " " +++ req_type_id))]).
  assert (Hbase : ids_in P (VDict base) /\ dict_get base "parent" = None).
  { split; [|reflexivity]. apply ids_in_dict. split; [exact Hid|].
    repeat constructor. }
  destruct Hbase as [Hbase Hparent]. split.
  - apply ids_in_dict_set; [discriminate| |constructor].
    apply ids_in_dict_set; [discriminate| |constructor].
    destruct (String.eqb (Snapshot.adef_type data) "Enum"); [|exact Hbase].
    apply ids_in_dict_set; [discriminate| |constructor].
    apply ids_in_dict_set; [discriminate|exact Hbase|].
    destruct (enum_data_type_definition_by_long_name _ _ _); constructor.
  - unfold dict_has. rewrite !dict_get_set_other by discriminate.
    destruct (String.eqb (Snapshot.adef_type data) "Enum").
    + rewrite !dict_get_set_other by discriminate. now rewrite Hparent.
    + now rewrite Hparent.
Qed.

Lemma requirement_type_create_action_ok identifier item :
  In (identifier, item) (requirement_types self) ->
  type_action_ok ids (requirement_type_create_action self identifier item).
Proof.
  intros Hitem. apply type_action_ok_intro; [reflexivity|].
  apply ids_in_dict. split.
  - simpl. exists identifier. split; [reflexivity|].
    unfold assignable, snapshot_identifiers. apply in_or_app. left.
    apply in_or_app. right. unfold dict_keys.
    apply in_map_iff. now exists (identifier, item).
  - repeat constructor. simpl. apply ids_in_list.
    apply Forall_map, Forall_forall. intros [name data] Hname.
    destruct (Snapshot.rt_attributes item) as [attrs|] eqn:Hattrs;
      [|contradiction].
    apply attribute_definition_create_action_ok.
    eapply synthesized_In; eassumption.
Qed.

Lemma attribute_definition_mod_action_ok reqtype name data action :
  P (VStr (name +++ " " +++ Live.rt_identifier reqtype)) ->
  attribute_definition_mod_action self reqtype name data
  = Ok (Some action) ->
  if dict_has action "parent" then type_action_ok ids action
  else ids_in P (VDict action).
Proof.
  intros Hid. unfold attribute_definition_mod_action.
  destruct (single _ _) as [attrdef|].
  - intros H. rstep H as mods Hmods. destruct mods as [|m mods];
      [discriminate|]. injection H as <-.
    split; [reflexivity | constructor].
  - intros [= <-].
    destruct (@attribute_definition_create_action_ok
                name data (Live.rt_identifier reqtype) Hid) as [H1 H2].
    now rewrite H2.
Qed.

Lemma attribute_definition_mod_actions_ok reqtype attrs :
  Forall (fun na => P (VStr (fst na +++ " " +++ Live.rt_identifier reqtype)))
         attrs ->
  forall actions,
    attribute_definition_mod_actions self reqtype attrs = Ok actions ->
    Forall (fun action =>
              if dict_has action "parent" then type_action_ok ids action
              else ids_in P (VDict action)) actions.
Proof.
  induction 1 as [|[name data] attrs Hid _ IH]; intros actions H;
    simpl in H.
  - injection H as <-. constructor.
  - rstep H as action Haction. rstep H as actions' Hactions.
    injection H as <-. specialize (IH _ Hactions).
    destruct action as [action|]; [|exact IH].
    constructor; [|exact IH].
    eapply attribute_definition_mod_action_ok; eassumption.
Qed.

Lemma filter_parent_ok (actions : list Dict) :
  Forall (fun action =>
            if dict_has action "parent" then type_action_ok ids action
            else ids_in P (VDict action)) actions ->
  Forall (type_action_ok ids)
         (filter (fun action => dict_has action "parent") actions)
  /\ Forall (fun action => ids_in P (VDict action))
            (filter (fun action => negb (dict_has action "parent")) actions).
Proof.
  induction 1 as [|action actions Ha _ [IH1 IH2]]; [split; constructor|].
  simpl. destruct (dict_has action "parent"); simpl; split;
    try constructor; assumption.
Qed.

Lemma requirement_type_mod_action_ok folder identifier item actions :
  In (identifier, item) (requirement_types self) ->
  requirement_type_mod_action self folder identifier item = Ok actions ->
  Forall (type_action_ok ids) actions.
Proof.
  intros Hitem. unfold requirement_type_mod_action.
  assert (Hcreate : Forall (type_action_ok ids)
                      [requirement_type_create_action self identifier item]).
  { constructor; [|constructor].
    now apply requirement_type_create_action_ok. }
  destruct (single _ _) as [reqtype|] eqn:Hsingle;
    [|now intros [= <-]].
  apply single_Ok in Hsingle. destruct Hsingle as [Hsame _].
  apply String.eqb_eq in Hsame.
  destruct (Snapshot.rt_attributes item) as [attrs|] eqn:Hattrs;
    [|now intros [= <-]].
  intros H. rstep H as found_actions Hfound. injection H as <-.
  apply attribute_definition_mod_actions_ok in Hfound.
  - apply filter_parent_ok in Hfound. destruct Hfound as [Hmods Hnew].
    apply Forall_app. split; [|exact Hmods].
    match goal with
    | |- Forall _ (if only_parent ?b then _ else _) =>
        remember b as base eqn:Ebase
    end.
    destruct (only_parent base) eqn:Hvoid; constructor; [|constructor].
    split; [exact Hvoid|]. unfold assigned_identifiers.
    assert (Hparent : dict_has base "parent" = true).
    { subst base. unfold dict_has.
      rewrite !opt_set_get_other by discriminate.
      destruct (negb _); reflexivity. }
    rewrite Hparent.
    assert (Hextend :
              dict_get base "extend"
              = dict_get
                  (match filter (fun action => negb (dict_has action "parent"))
                                found_actions with
                   | [] => []
                   | _ :: _ =>
                       dict_set [] "extend"
                         (VDict [("attribute_definitions",
                                  VList (map VDict
                                           (filter
                                              (fun action =>
                                                 negb (dict_has action "parent"))
                                              found_actions)))])
                   end) "extend").
    { subst base. rewrite opt_set_get_other by discriminate.
      destruct (filter (fun action => negb (dict_has action "parent"))
                       found_actions);
        [destruct (negb _); reflexivity|].
      now rewrite !dict_get_set_same. }
    rewrite Hextend.
    destruct (filter (fun action => negb (dict_has action "parent"))
                     found_actions) eqn:E; [constructor|].
    rewrite dict_get_set_same.
    apply ids_in_slot; [discriminate|]. now apply ids_in_payloads.
  - rewrite Hsame. apply Forall_forall. intros [name data] Hname.
    eapply synthesized_In; eassumption.
Qed.

Lemma requirement_type_mod_actions_ok folder types :
  incl types (requirement_types self) ->
  forall actions,
    requirement_type_mod_actions self folder types = Ok actions ->
    Forall (type_action_ok ids) actions.
Proof.
  induction types as [|[id reqt] types IH]; intros Hincl actions H;
    simpl in H.
  - injection H as <-. constructor.
  - rstep H as actions1 H1. rstep H as actions2 H2. injection H as <-.
    apply Forall_app. split.
    + eapply requirement_type_mod_action_ok; [|eassumption].
      apply Hincl. now left.
    + apply IH; [|assumption]. intros x Hx. apply Hincl. now right.
Qed.
End TypeActions.

(** ** The action on the module and the removal of void actions *)

Lemma py_eqb_dict_keys (a action : Dict) :
  py_eqb (VDict a) (VDict action) = true ->
  length a = length action
  /\ Forall (fun kv => exists w, dict_get action (fst kv) = Some w) a.
Proof.
  cbn [py_eqb]. intros H. apply Bool.andb_true_iff in H.
  destruct H as [Hlen Hgo]. apply Nat.eqb_eq in Hlen. split; [assumption|].
  clear Hlen. induction a as [|[k v] a IH]; [constructor|].
  destruct (dict_get action k) as [w|] eqn:Hk; [|discriminate].
  apply Bool.andb_true_iff in Hgo. destruct Hgo as [_ Hgo].
  constructor; [now exists w | now apply IH].
Qed.

Lemma dict_get_Some_keys {A} (d : list (string * A)) (k : string) (v : A) :
  dict_get d k = Some v -> In k (dict_keys d).
Proof.
  induction d as [|[k' v'] d IH]; simpl; [discriminate|].
  destruct (String.eqb_spec k k') as [->|_]; [now left | auto].
Qed.

Lemma only_parent_py_eqb (a action : Dict) :
  only_parent action = true ->
  py_eqb (VDict a) (VDict action) = true ->
  only_parent a = true.
Proof.
  intros Hvoid Heq. apply py_eqb_dict_keys in Heq. destruct Heq as [Hlen Hkeys].
  unfold only_parent in *. apply Bool.andb_true_iff in Hvoid.
  destruct Hvoid as [Hin Hall].
  assert (Hparent : Forall (fun kv => fst kv = "parent") a).
  { eapply Forall_impl; [|exact Hkeys]. intros [k v] [w Hw]. cbn [fst] in *.
    apply dict_get_Some_keys in Hw.
    rewrite forallb_forall in Hall. apply Hall in Hw.
    apply String.eqb_eq in Hw. now symmetry. }
  destruct a as [|[k v] a].
  - destruct action; [discriminate Hin | discriminate Hlen].
  - inversion Hparent as [|? ? Hk Hrest]; subst. cbn [fst] in Hk. subst k.
    apply Bool.andb_true_iff. split.
    + unfold str_in, dict_keys. cbn [map fst existsb].
      now rewrite String.eqb_refl.
    + unfold dict_keys. cbn [map fst forallb]. rewrite String.eqb_refl.
      apply forallb_forall. intros k Hk. apply in_map_iff in Hk.
      destruct Hk as ([k' v'] & <- & Hin'). rewrite Forall_forall in Hrest.
      apply Hrest in Hin'. cbn [fst] in *. subst k'. apply String.eqb_refl.
Qed.

Section Removal.
Variable self : TrackerChange.

Lemma actions_remove_sub action items items' :
  actions_remove action items = Ok items' ->
  forall Q : Dict -> Prop, Forall Q items -> Forall Q items'.
Proof.
  revert items'. induction items as [|a items IH]; intros items' H Q HQ;
    cbn [actions_remove remove_void_deletions app] in H; [discriminate|].
  inversion HQ; subst.
  destruct (py_eqb (VDict a) (VDict action)); [now injection H as <-|].
  rstep H as r Hr. injection H as <-. constructor; [assumption|].
  eapply IH; eauto.
Qed.

Lemma actions_remove_split action types items out :
  only_parent action = true ->
  Forall (fun a => only_parent a = false) types ->
  actions_remove action (types ++ items) = Ok out ->
  exists items',
    out = types ++ items' /\ actions_remove action items = Ok items'.
Proof.
  intros Hvoid Htypes. revert out.
  induction Htypes as [|a types Ha _ IH]; intros out H; cbn [actions_remove remove_void_deletions app] in H.
  - now exists out.
  - destruct (py_eqb (VDict a) (VDict action)) eqn:Heq.
    + apply only_parent_py_eqb in Heq; [congruence | assumption].
    + rstep H as r Hr. injection H as <-.
      destruct (IH _ Hr) as (items' & -> & Hitems).
      now exists items'.
Qed.

Lemma remove_void_deletions_split st deletions types :
  Forall (fun a => only_parent a = false) types ->
  forall items out,
    remove_void_deletions st deletions (types ++ items) = Ok out ->
    exists items',
      out = types ++ items'
      /\ forall Q : Dict -> Prop, Forall Q items -> Forall Q items'.
Proof.
  intros Htypes.
  induction deletions as [|[uuid address] deletions IH]; intros items out H;
    cbn [actions_remove remove_void_deletions app] in H.
  - injection H as <-. now exists items.
  - rstep H as r Hr.
    destruct (only_parent (cell st address)) eqn:Hvoid.
    + apply actions_remove_split in Hr; try assumption.
      destruct Hr as (items1 & -> & Hitems1).
      destruct (IH _ _ H) as (items' & -> & Hsub).
      exists items'. split; [reflexivity|]. intros Q HQ. apply Hsub.
      eapply actions_remove_sub; eassumption.
    + injection Hr as <-. eauto.
Qed.
End Removal.

Section ModuleAction.
Variable self : TrackerChange.
Variable identifiers : list string.

Local Abbreviation P := (one_of identifiers).
Local Abbreviation ok := (cell_ok self identifiers).

Lemma extend_slot_set base slots :
  forall k, extend_slot (dict_set base "extend" (VDict slots)) k
            = dict_get slots k.
Proof. intros k. unfold extend_slot. now rewrite dict_get_set_same. Qed.

Lemma _add_action_safely_ok base second_key action base' :
  second_key <> "identifier" ->
  module_ok self identifiers base ->
  ids_in P action ->
  _add_action_safely base "extend" second_key action = Ok base' ->
  module_ok self identifiers base'
  /\ forall k, k <> second_key -> extend_slot base' k = extend_slot base k.
Proof.
  intros Hkey [Hparent Hids] Haction H.
  assert (Hshape : exists existing l,
             (dict_get base "extend" = Some (VDict existing)
              \/ dict_get base "extend" = None /\ existing = [])
             /\ base' = dict_set base "extend"
                          (VDict (dict_set existing second_key (VList l)))
             /\ Forall (ids_in P) l).
  { unfold _add_action_safely in H.
    assert (Hotherwise :
              raised (_deep_update base
                        [("extend", VDict [(second_key, VList [action])])])
              = Ok base' ->
              exists existing,
                (dict_get base "extend" = Some (VDict existing)
                 \/ dict_get base "extend" = None /\ existing = [])
                /\ base' = dict_set base "extend"
                             (VDict (dict_set existing second_key
                                       (VList [action])))).
    { intros Hr. apply raised_Ok in Hr. apply _deep_update_slots in Hr.
      - destruct Hr as (existing & Hex & ->). exists existing.
        split; [tauto | reflexivity].
      - constructor; [eexists; reflexivity | constructor].
      - discriminate. }
    destruct (dict_get base "extend") as [[| | | | | | | | |first]|] eqn:He;
      try discriminate.
    - destruct (dict_get first second_key) as [[| | | | | | | |l|]|] eqn:Hs;
        try discriminate.
      + injection H as <-. exists first, (l ++ [action]).
        split; [now left|]. split; [reflexivity|].
        apply Forall_app. split; [|now constructor].
        apply ids_in_list. eapply ids_in_dict_get; [|exact Hs].
        unfold extend_identifiers in Hids. now rewrite He in Hids.
      + destruct (Hotherwise H) as (existing & Hex & ->).
        exists existing, [action]. split; [exact Hex|].
        split; [reflexivity | now constructor].
    - destruct (Hotherwise H) as (existing & Hex & ->).
      exists existing, [action]. split; [exact Hex|].
      split; [reflexivity | now constructor]. }
  destruct Hshape as (existing & l & Hex & -> & Hl). split; [split|].
  - unfold module_action in *. now rewrite dict_get_set_other by discriminate.
  - unfold extend_identifiers in *. rewrite dict_get_set_same.
    apply ids_in_dict_set; [assumption| |now apply ids_in_list].
    destruct Hex as [Hex|[_ ->]]; [now rewrite Hex in Hids|].
    apply ids_in_dict_nil.
  - intros k Hk. rewrite extend_slot_set.
    rewrite dict_get_set_other by assumption.
    unfold extend_slot. destruct Hex as [->|[-> ->]]; reflexivity.
Qed.

Lemma reconcile_items_ok items :
  incl (flat_map item_identifiers items) identifiers ->
  forall base visited actions st base' visited' actions' st',
    module_ok self identifiers base ->
    Forall (fun a => ok (cell st a)) actions ->
    reconcile_items self items base visited actions st
    = Ok ((base', visited', actions'), st') ->
    module_ok self identifiers base'
    /\ Forall (fun a => ok (cell st' a)) actions'
    /\ extend_slot base' "requirement_types_folders"
       = extend_slot base "requirement_types_folders".
Proof.
  induction items as [|item items IH];
    intros Hincl base visited actions st base' visited' actions' st'
           Hbase Hactions H;
    cbn [reconcile_items] in H.
  - apply ret_Ok in H. destruct H as [[= -> _ ->] ->]. tauto.
  - assert (Hitem : incl (item_identifiers item) identifiers).
    { intros i Hi. apply Hincl. simpl. apply in_or_app. now left. }
    assert (Hitems : incl (flat_map item_identifiers items) identifiers).
    { intros i Hi. apply Hincl. simpl. apply in_or_app. now right. }
    destruct (generators_ok self item Hitem) as [Hcreate Hmodify].
    mstep H as r st1 Hstep. destruct r as [[base1 visited1] req_actions].
    assert (Hkey : match Snapshot.children item with
                   | Some _ => "folders"
                   | None => "requirements"
                   end <> "identifier"
                   /\ "requirement_types_folders"
                      <> match Snapshot.children item with
                         | Some _ => "folders"
                         | None => "requirements"
                         end).
    { destruct (Snapshot.children item); split; discriminate. }
    destruct Hkey as [Hkey Hslot].
    assert (Hone : module_ok self identifiers base1
                   /\ stable self identifiers st st1
                   /\ Forall (fun a => ok (cell st1 a)) req_actions
                   /\ extend_slot base1 "requirement_types_folders"
                      = extend_slot base "requirement_types_folders").
    { destruct (work_item_by_identifier (reqfinder self) (Snapshot.id item))
        as [req|] eqn:Hfind.
      - mstep Hstep as base2 st2 Hmoved.
        mstep Hstep as mods st3 Hmod.
        apply ret_Ok in Hstep. destruct Hstep as [[= -> _ ->] ->].
        apply Hmodify in Hmod; [|now exists (Snapshot.id item)].
        destruct Hmod as [Hk2 Hmods].
        destruct (parent_differs self req ParentNone).
        + mstep Hmoved as base3 st4 Hadd.
          apply lift_Ok in Hadd. destruct Hadd as [Hadd ->].
          mstep Hmoved as u st5 Hloc. mstep Hmoved as u' st6 Hinv.
          apply ret_Ok in Hmoved. destruct Hmoved as [-> ->].
          apply _add_action_safely_ok in Hadd;
            [|assumption|assumption|exact (Forall_nil _)].
          destruct Hadd as [Hbase3 Hslots].
          apply location_changed_add_ok with (self := self)
            (identifiers := identifiers) in Hloc.
          apply _invalidate_deletion_ok with (self := self)
            (identifiers := identifiers) in Hinv.
          split; [assumption|]. split.
          * eapply stable_trans; [eassumption|].
            eapply stable_trans; eassumption.
          * split; [assumption | now apply Hslots].
        + apply ret_Ok in Hmoved. destruct Hmoved as [-> ->]. tauto.
      - mstep Hstep as r st2 Hnew. destruct r as [payload mods].
        mstep Hstep as base2 st3 Hadd.
        apply lift_Ok in Hadd. destruct Hadd as [Hadd ->].
        apply ret_Ok in Hstep. destruct Hstep as [[= -> _ ->] ->].
        apply Hcreate in Hnew. destruct Hnew as (Hk & Hmods & Hpayload).
        apply _add_action_safely_ok in Hadd; try assumption.
        destruct Hadd as [Hbase2 Hslots].
        split; [assumption|]. split; [assumption|].
        split; [assumption | now apply Hslots]. }
    destruct Hone as (Hbase1 & Hk & Hreq & Hslot1).
    apply IH in H; try assumption.
    + destruct H as (Hb & Ha & Hs). split; [assumption|].
      split; [assumption | congruence].
    + apply Forall_app. split; [|assumption].
      eapply stable_Forall; eassumption.
Qed.

Lemma req_delete_actions_ok visited elements attr_name base base' :
  module_ok self identifiers base ->
  raised (_deep_update base
            (req_delete_actions self visited elements attr_name))
  = Ok base' ->
  module_ok self identifiers base'
  /\ dict_get base' "extend" = dict_get base "extend".
Proof.
  intros [Hparent Hids] H. apply raised_Ok in H.
  unfold _deep_update in H. rewrite _deep_update_with_dict in H.
  assert (Hextend : dict_get base' "extend" = dict_get base "extend").
  { change base' with (fst (base', @None Exn)). rewrite <- H.
    apply _deep_update_items_other.
    unfold req_delete_actions. now destruct (map _ _). }
  split; [split|exact Hextend].
  - unfold module_action in *.
    apply (@_deep_update_items_lookup _deep_update_with
             (req_delete_actions self visited elements attr_name))
      with (key := "parent")
           (value := UUIDReference (Live.m_uuid (req_module self)))
      in H.
    + exact H.
    + unfold req_delete_actions. now destruct (map _ _).
    + unfold req_delete_actions. now destruct (map _ _).
  - unfold extend_identifiers in *. now rewrite Hextend.
Qed.
End ModuleAction.

(** ** The action list *)

Section ActionList.
Variable self : TrackerChange.

Local Abbreviation ids := (assignable (tracker self)).
Local Abbreviation P := (one_of (assignable (tracker self))).

Lemma requirement_types_folder_create_action_ok :
  module_ok self ids (requirement_types_folder_create_action self).
Proof.
  split; [reflexivity|]. unfold extend_identifiers.
  cbn [requirement_types_folder_create_action dict_get String.eqb
       Ascii.eqb Bool.eqb].
  apply ids_in_slot; [discriminate|]. constructor; [|constructor].
  apply ids_in_dict. split.
  - exists CACHEKEY_TYPES_FOLDER_IDENTIFIER. split; [reflexivity|].
    unfold assignable. apply in_or_app. right. now left.
  - repeat constructor; cbn [snd].
    + apply ids_in_list, ids_in_payloads, Forall_map, Forall_forall.
      intros [n v] _. apply data_type_create_action_ids.
    + apply ids_in_list, ids_in_payloads, Forall_map, Forall_forall.
      intros [i t] Hit.
      apply (requirement_type_create_action_ok self i t) in Hit.
      destruct Hit as [_ Hit]. exact Hit.
Qed.

Lemma module_base_ok :
  module_ok self ids [("parent", UUIDReference (Live.m_uuid (req_module self)))].
Proof. split; [reflexivity | constructor]. Qed.

(** How the action list is made up. *)
Lemma calculate_change_shape (actions : list Dict) :
  calculate_change self = Ok actions ->
  reqt_folder self = None
  /\ exists item_actions base,
      actions = item_actions ++ [base]
      /\ Forall (cell_ok self ids) item_actions
      /\ module_ok self ids base
      /\ extend_slot base "requirement_types_folders"
         = extend_slot (requirement_types_folder_create_action self)
             "requirement_types_folders".
Proof.
  intros H. pose proof (calculate_change_Ok_no_types_folder self H) as Hnone.
  split; [exact Hnone|].
  unfold calculate_change in H. rewrite Hnone in H. cbn [bind] in H.
  rstep H as r Hitems. destruct r as [[[base1 visited] item_actions] st].
  rstep H as kept Hkept. rstep H as base2 Hreqs. rstep H as base3 Hfolders.
  injection H as <-.
  (* the work items *)
  apply reconcile_items_ok with (identifiers := ids) in Hitems;
    [|unfold assignable, snapshot_identifiers; intros i Hi;
      apply in_or_app; left; apply in_or_app; now left
     |apply requirement_types_folder_create_action_ok|constructor].
  destruct Hitems as (Hbase1 & Hcells & Hslot).
  (* the void actions *)
  apply remove_void_deletions_split in Hkept; [|constructor].
  destruct Hkept as (items' & -> & Hsub). cbn [app].
  assert (Hitems' : Forall (cell_ok self ids) items').
  { apply Hsub. now apply Forall_map. }
  (* the module *)
  apply req_delete_actions_ok with (identifiers := ids) in Hreqs;
    [|assumption].
  destruct Hreqs as [Hbase2 Hextend2].
  apply req_delete_actions_ok with (identifiers := ids) in Hfolders;
    [|assumption].
  destruct Hfolders as [Hbase3 Hextend3].
  assert (Hslot3 : extend_slot base3 "requirement_types_folders"
                   = extend_slot (requirement_types_folder_create_action self)
                       "requirement_types_folders").
  { unfold extend_slot in *. now rewrite Hextend3, Hextend2. }
  assert (Hkeep : only_parent base3 = false).
  { unfold extend_slot in Hslot3.
    destruct (dict_get base3 "extend") as [v|] eqn:E;
      [eapply only_parent_other; [exact E | discriminate] | discriminate]. }
  rewrite Hkeep. cbn [negb].
  exists items', base3.
  split; [reflexivity|]. split; [assumption|]. split; assumption.
Qed.
End ActionList.



(** C7, as amended. Every identifier that a creation payload of the
    action list assigns is the identifier of a work item of the snapshot,
    the identifier of a requirement type of the snapshot, the constant
    [-2] given to the types folder, or the name of an attribute definition
    of the snapshot followed by a blank and by the identifier of its
    requirement type. *)
Theorem assigned_identifiers_from_snapshot (self : TrackerChange)
  (actions : list Dict) :
  calculate_change self = Ok actions ->
  Forall (one_of (assignable (tracker self)))
         (flat_map assigned_identifiers actions).
Proof.
  intros H. apply calculate_change_shape in H.
  destruct H as (_ & item_actions & base & -> & Hitems & [Hparent Hbase]
                 & _).
  apply Forall_flat_map. apply Forall_app. split.
  - eapply Forall_impl; [|exact Hitems].
    intros a [(req & _ & Hreq) Ha]. unfold assigned_identifiers, dict_has.
    rewrite Hreq. exact Ha.
  - constructor; [|constructor].
    unfold assigned_identifiers, dict_has. unfold module_action in Hparent.
    rewrite Hparent. exact Hbase.
Qed.

Lemma assigned_identifiers_from_snapshot_witness :
  Forall (one_of (assignable Examples.NoTypesFolder.snapshot))
    (flat_map assigned_identifiers
       [[("parent", UUIDReference "uuid-R1");
         ("modify", VDict [("long_name", VStr "Renamed")])];
        [("parent", UUIDReference "uuid-module");
         ("extend",
          VDict
            [("requirement_types_folders",
              VList
                [VDict
                   [("long_name", VStr "Types");
                    ("identifier", VStr "-2");
                    ("data_type_definitions", VList []);
                    ("requirement_types",
                     VList
                       [VDict
                          [("identifier", VStr "Req");
                           ("long_name", VStr "Requirement");
                           ("promise_id", VStr "RequirementType Req");
                           ("attribute_definitions", VList [])]])]])])]]).
Proof.
  apply (@assigned_identifiers_from_snapshot Examples.NoTypesFolder.self).
  reflexivity.
Defined.
(** ** Promises and the payloads that declare them *)

Section PromisesIn.
Variable Q : string -> Prop.

Local Abbreviation holds := (promises_in Q).

Lemma promises_in_list (l : list Value) :
  holds (VList l) <-> Forall holds l.
Proof. unfold promises_in. simpl. apply Forall_flat_map. Qed.

Lemma promises_in_dict (d : Dict) :
  holds (VDict d) <-> Forall (fun kv => holds (snd kv)) d.
Proof. unfold promises_in. simpl. apply Forall_flat_map. Qed.

Lemma promises_in_dict_set (d : Dict) k v :
  holds (VDict d) -> holds v -> holds (VDict (dict_set d k v)).
Proof.
  rewrite !promises_in_dict. intros Hd Hv. now apply Forall_dict_set.
Qed.

Lemma promises_in_dict_del (d : Dict) k :
  holds (VDict d) -> holds (VDict (dict_del d k)).
Proof.
  rewrite !promises_in_dict. intros Hd.
  induction d as [|[k' v'] d IH]; simpl; [constructor|].
  inversion Hd; subst. destruct (String.eqb k k'); [assumption|].
  constructor; auto.
Qed.

Lemma promises_in_dict_get (d : Dict) k v :
  holds (VDict d) -> dict_get d k = Some v -> holds v.
Proof.
  rewrite promises_in_dict. intros Hd Hget.
  induction d as [|[k' v'] d IH]; simpl in Hget; [discriminate|].
  inversion Hd; subst. destruct (String.eqb k k').
  - now injection Hget as <-.
  - auto.
Qed.

Lemma promises_in_to_value (p : Primitive) : holds (to_value p).
Proof.
  destruct p; try constructor.
  apply promises_in_list. induction l; constructor; auto. constructor.
Qed.

Lemma promises_in_references {A} (f : A -> string) (l : list A) :
  Forall holds (map (fun x => UUIDReference (f x)) l).
Proof. apply Forall_map, Forall_forall. intros x _. constructor. Qed.

Lemma promises_in_opt_set {A} (l : list A) (base : Dict) (k : string)
  (v : Value) :
  holds (VDict base) -> (l <> [] -> holds v) ->
  holds (VDict (match l with [] => base | _ :: _ => dict_set base k v end)).
Proof.
  intros Hbase Hv. destruct l; [assumption|].
  apply promises_in_dict_set; [assumption | now apply Hv].
Qed.

Lemma promises_in_slot (k : string) (l : list Value) :
  Forall holds l -> holds (VDict [(k, VList l)]).
Proof.
  intros H. apply promises_in_dict. constructor; [|constructor].
  now apply promises_in_list.
Qed.

Lemma list_remove_sub (x : Value) (l l' : list Value) :
  list_remove x l = Ok l' ->
  forall R : Value -> Prop, Forall R l -> Forall R l'.
Proof.
  revert l'. induction l as [|y l IH]; intros l' H R HR; simpl in H;
    [discriminate|].
  inversion HR; subst. destruct (py_eqb y x); [now injection H as <-|].
  rstep H as r Hr. injection H as <-. constructor; eauto.
Qed.

(** The deep merge brings no promise of its own. *)
Section Items.
Variable update_with : Value -> Dict -> Dict * option Exn.

Lemma _deep_update_items_promises overrides :
  Forall (fun kv =>
            holds (snd kv)
            /\ forall source,
                holds (VDict source) ->
                holds (VDict (fst (update_with (snd kv) source))))
         overrides ->
  forall source,
    holds (VDict source) ->
    holds (VDict (fst (_deep_update_items update_with overrides source))).
Proof.
  induction 1 as [|[key value] rest [Hvalue Hmerge] _ IH];
    intros source Hsource; [exact Hsource|].
  cbn [snd] in *.
  destruct value as [| | | | | | | |l|[|kv sub]];
    try (cbn [_deep_update_items]; apply IH;
         now apply promises_in_dict_set).
  rewrite _deep_update_items_mapping.
  destruct (dict_get source key) as [[| | | | | | | | |update0]|] eqn:Hget;
    try exact Hsource.
  - assert (H0 : holds (VDict update0))
      by (eapply promises_in_dict_get; eassumption).
    specialize (Hmerge update0 H0).
    destruct (update_with (VDict (kv :: sub)) update0) as [update [e|]];
      cbn [fst] in *.
    + now apply promises_in_dict_set.
    + apply IH. now apply promises_in_dict_set.
  - specialize (Hmerge [] (Forall_nil _)).
    destruct (update_with (VDict (kv :: sub)) []) as [update [e|]];
      cbn [fst] in *; [exact Hsource|].
    apply IH. now apply promises_in_dict_set.
Qed.
End Items.

Lemma _deep_update_with_promises (v : Value) :
  holds v ->
  forall source,
    holds (VDict source) ->
    holds (VDict (fst (_deep_update_with v source))).
Proof.
  induction v as [| | | | | | | |l _|d IH]; intros Hv source Hsource;
    try exact Hsource.
  rewrite _deep_update_with_dict.
  apply _deep_update_items_promises; [|exact Hsource].
  apply promises_in_dict in Hv. clear source Hsource.
  induction IH as [|[k x] Hx d Hd IHd]; constructor.
  - inversion Hv; subst. inversion Hx as [? _ ? Hx']; subst.
    cbn [snd] in *. split; [assumption|]. intros source.
    now apply Hx'.
  - apply IHd. now inversion Hv.
Qed.

Lemma _deep_update_promises (source overrides merged : Dict) :
  raised (_deep_update source overrides) = Ok merged ->
  holds (VDict source) -> holds (VDict overrides) -> holds (VDict merged).
Proof.
  intros H Hs Ho. apply raised_Ok in H.
  change merged with (fst (merged, @None Exn)). rewrite <- H.
  now apply _deep_update_with_promises.
Qed.

Lemma _add_action_safely_promises base first_key second_key action base' :
  _add_action_safely base first_key second_key action = Ok base' ->
  holds (VDict base) -> holds action -> holds (VDict base').
Proof.
  unfold _add_action_safely. intros H Hbase Haction.
  assert (Hother :
            raised (_deep_update base
                      [(first_key, VDict [(second_key, VList [action])])])
            = Ok base' -> holds (VDict base')).
  { intros Hr. eapply _deep_update_promises; [exact Hr | assumption|].
    apply promises_in_dict. constructor; [|constructor]. cbn [snd].
    apply promises_in_slot. now constructor. }
  destruct (dict_get base first_key) as [[| | | | | | | | |first]|] eqn:Hf;
    try discriminate; [|now apply Hother].
  destruct (dict_get first second_key) as [[| | | | | | | |l|]|] eqn:Hs;
    try discriminate; [|now apply Hother].
  injection H as <-.
  assert (Hfirst : holds (VDict first))
    by (eapply promises_in_dict_get; eassumption).
  apply promises_in_dict_set; [assumption|].
  apply promises_in_dict_set; [assumption|].
  apply promises_in_list. apply Forall_app. split; [|now constructor].
  apply promises_in_list. eapply promises_in_dict_get; eassumption.
Qed.
End PromisesIn.

Lemma dict_get_In {A} (d : list (string * A)) (k : string) (v : A) :
  dict_get d k = Some v -> In (k, v) d.
Proof.
  induction d as [|[k' v'] d IH]; simpl; [discriminate|].
  destruct (String.eqb_spec k k') as [->|_].
  - intros [= ->]. now left.
  - intros H. right. now apply IH.
Qed.

Lemma promise_ids_own (d : Dict) (label : string) :
  dict_get d "promise_id" = Some (VStr label) ->
  In label (promise_ids (VDict d)).
Proof. intros H. cbn [promise_ids]. rewrite H. now left. Qed.

Lemma promise_ids_entry (d : Dict) (k : string) (v : Value) :
  In (k, v) d -> incl (promise_ids v) (promise_ids (VDict d)).
Proof.
  intros Hin x Hx. cbn [promise_ids]. apply in_or_app. right.
  apply in_flat_map. exists (k, v). now split.
Qed.

Lemma promise_ids_element (l : list Value) (v : Value) :
  In v l -> incl (promise_ids v) (promise_ids (VList l)).
Proof.
  intros Hin x Hx. cbn [promise_ids]. apply in_flat_map. now exists v.
Qed.

Lemma promise_ids_extend_slot (action : Dict) (k : string) (v : Value) :
  extend_slot action k = Some v ->
  incl (promise_ids v) (promise_ids (VDict action)).
Proof.
  unfold extend_slot. intros H.
  destruct (dict_get action "extend") as [[| | | | | | | | |slots]|] eqn:He;
    try discriminate.
  apply dict_get_In in He, H.
  eapply incl_tran; [|eapply promise_ids_entry; exact He].
  eapply promise_ids_entry; exact H.
Qed.

(** *** The labels that the creation of the types folder declares *)

Section Declared.
Variable self : TrackerChange.

Lemma declared_labels_eq :
  declared_labels self
  = promise_ids
      (VList
         [VDict
            [("long_name", VStr REQ_TYPES_FOLDER_NAME);
             ("identifier", VStr CACHEKEY_TYPES_FOLDER_IDENTIFIER);
             ("data_type_definitions",
              VList (map VDict
                       (yield_data_type_definition_create_actions self)));
             ("requirement_types",
              VList (map VDict
                       (yield_requirement_type_create_actions self)))]]).
Proof. reflexivity. Qed.

Lemma declared_data_type name options :
  In (name, options) (data_type_definitions self) ->
  incl (promise_ids (VDict (data_type_create_action name options)))
       (declared_labels self).
Proof.
  intros Hin. rewrite declared_labels_eq.
  eapply incl_tran; [|eapply promise_ids_element; now left].
  eapply incl_tran;
    [|eapply promise_ids_entry with (k := "data_type_definitions");
      right; right; left; reflexivity].
  apply promise_ids_element. apply in_map.
  unfold yield_data_type_definition_create_actions.
  apply in_map_iff. now exists (name, options).
Qed.

Lemma declared_requirement_type identifier req_type :
  In (identifier, req_type) (requirement_types self) ->
  incl (promise_ids
          (VDict (requirement_type_create_action self identifier req_type)))
       (declared_labels self).
Proof.
  intros Hin. rewrite declared_labels_eq.
  eapply incl_tran; [|eapply promise_ids_element; now left].
  eapply incl_tran;
    [|eapply promise_ids_entry with (k := "requirement_types");
      right; right; right; left; reflexivity].
  apply promise_ids_element. apply in_map.
  unfold yield_requirement_type_create_actions.
  apply in_map_iff. now exists (identifier, req_type).
Qed.

Lemma data_type_label_declared name options :
  dict_get (data_type_definitions self) name = Some options ->
  In ("EnumerationDataTypeDefinition " +++ name) (declared_labels self).
Proof.
  intros H. apply dict_get_In in H.
  apply (declared_data_type H). now apply promise_ids_own.
Qed.

Lemma enum_value_label_declared name options literal :
  dict_get (data_type_definitions self) name = Some options ->
  In literal options ->
  In ("EnumValue " +++ name +++ " " +++ literal) (declared_labels self).
Proof.
  intros H Hin. apply dict_get_In in H.
  apply (declared_data_type H).
  eapply promise_ids_entry with (k := "values");
    [right; left; reflexivity|].
  eapply promise_ids_element;
    [apply in_map_iff; exists literal; split; [reflexivity | exact Hin]|].
  now apply promise_ids_own.
Qed.

Lemma requirement_type_label_declared identifier req_type :
  dict_get (requirement_types self) identifier = Some req_type ->
  In ("RequirementType " +++ identifier) (declared_labels self).
Proof.
  intros H. apply dict_get_In in H.
  apply (declared_requirement_type H). now apply promise_ids_own.
Qed.

Lemma attribute_definition_label_declared identifier req_type attrs name
  adef :
  dict_get (requirement_types self) identifier = Some req_type ->
  Snapshot.rt_attributes req_type = Some attrs ->
  dict_get attrs name = Some adef ->
  In ((if String.eqb (Snapshot.adef_type adef) "Enum"
       then "AttributeDefinitionEnumeration" else "AttributeDefinition")
      +++ " " +++ name +++ " " +++ identifier)
     (declared_labels self).
Proof.
  intros H Hattrs Hadef. apply dict_get_In in H, Hadef.
  apply (declared_requirement_type H).
  eapply promise_ids_entry with (k := "attribute_definitions");
    [right; right; right; left; reflexivity|].
  rewrite Hattrs.
  eapply promise_ids_element;
    [apply in_map_iff; exists (name, adef); split;
     [reflexivity | exact Hadef]|].
  apply promise_ids_own. cbn [fst snd].
  unfold attribute_definition_create_action.
  now rewrite dict_get_set_same.
Qed.
End Declared.

Lemma check_attribute_value_is_valid_Enum (self : TrackerChange)
  (name : string) (value : Primitive) (req_type_id : string)
  (builder : AttributeValueBuilder.t) :
  check_attribute_value_is_valid self name value req_type_id = Ok builder ->
  String.eqb (AttributeValueBuilder.deftype builder) "Enum" = true ->
  exists options, dict_get (data_type_definitions self) name = Some options.
Proof.
  unfold check_attribute_value_is_valid, dict_item.
  destruct (dict_get (requirement_types self) req_type_id)
    as [req_type|]; [|discriminate].
  cbn [bind]. destruct (Snapshot.rt_attributes req_type)
    as [attrs|]; [|discriminate].
  cbn [bind]. destruct (dict_get attrs name) as [adef|]; [|discriminate].
  cbn [bind].
  destruct (dict_get _ATTR_VALUE_DEFAULT_MAP (Snapshot.adef_type adef))
    as [cls|]; [|discriminate].
  cbn [bind]. intros H.
  destruct (String.eqb (Snapshot.adef_type adef) "Enum") eqn:Hkind.
  - destruct (dict_get (data_type_definitions self) name) as [options|];
      [|discriminate].
    intros _. now exists options.
  - cbn [bind] in H. destruct (negb (cls value)); [discriminate|].
    injection H as <-. cbn [AttributeValueBuilder.deftype].
    rewrite Hkind. discriminate.
Qed.

(** *** The promises of the run are resolvable *)

Section Resolvable.
Variable self : TrackerChange.

Local Abbreviation holds := (promises_in (resolvable self)).
Local Abbreviation kept := (resolvable_cells self).

Lemma attribute_definition_create_action_promises name item req_type_id :
  holds (VDict (attribute_definition_create_action
                  self name item req_type_id)).
Proof.
  unfold attribute_definition_create_action.
  do 2 (apply promises_in_dict_set; [|constructor]).
  destruct (String.eqb (Snapshot.adef_type item) "Enum");
    [|repeat constructor].
  apply promises_in_dict_set; [|constructor].
  apply promises_in_dict_set; [repeat constructor|].
  destruct (enum_data_type_definition_by_long_name _ _ _);
    [constructor|].
  constructor; [|constructor].
  destruct (dict_get (data_type_definitions self) name) as [options|]
    eqn:Hget.
  - left. eapply data_type_label_declared; eassumption.
  - right. right. left. now exists name.
Qed.

Lemma requirement_types_folder_create_action_promises :
  holds (VDict (requirement_types_folder_create_action self)).
Proof.
  unfold requirement_types_folder_create_action.
  apply promises_in_dict. constructor; [constructor|].
  constructor; [|constructor]. cbn [snd].
  apply promises_in_slot. constructor; [|constructor].
  apply promises_in_dict.
  constructor; [constructor|]. constructor; [constructor|].
  constructor; [|constructor; [|constructor]]; cbn [snd].
  - unfold yield_data_type_definition_create_actions.
    apply promises_in_list, Forall_map, Forall_map, Forall_forall.
    intros [n v] _.
    unfold data_type_create_action. apply promises_in_dict.
    constructor; [constructor|].
    constructor; [|repeat constructor]. cbn [snd fst].
    apply promises_in_list, Forall_map, Forall_forall. intros x _.
    repeat constructor.
  - unfold yield_requirement_type_create_actions.
    apply promises_in_list, Forall_map, Forall_map, Forall_forall.
    intros [i t] _.
    unfold requirement_type_create_action. apply promises_in_dict.
    do 3 (constructor; [constructor|]).
    constructor; [|constructor]. cbn [snd fst].
    apply promises_in_list, Forall_map, Forall_forall. intros [n a] _.
    apply attribute_definition_create_action_promises.
Qed.

Lemma attribute_value_create_action_promises name value req_type_id action :
  attribute_value_create_action self name value req_type_id = Ok action ->
  holds (VDict action).
Proof.
  unfold attribute_value_create_action. intros H.
  rstep H as builder Hcheck.
  pose proof (@check_attribute_value_is_valid_Enum _ _ _ _ _ Hcheck)
    as Henum.
  apply check_attribute_value_is_valid_Ok in Hcheck.
  destruct Hcheck as (req_type & attrs & adef & Ht & Ha & Hd & Hkind & Hv
                      & Hkey).
  injection H as <-. apply promises_in_dict.
  constructor; [constructor|]. constructor; [|constructor; [|constructor]];
    cbn [snd].
  - (* the definition *)
    destruct (attribute_definition_by_identifier _ _ _ _); [constructor|].
    constructor; [|constructor]. left.
    pose proof (@attribute_definition_label_declared
                  self _ _ _ _ _ Ht Ha Hd) as Hlabel.
    rewrite Hkind.
    destruct (String.eqb (Snapshot.adef_type adef) "Enum"); exact Hlabel.
  - (* the values *)
    match goal with
    | |- holds (match ?values with [] => _ | _ => _ end) =>
        assert (Hvalues : Forall holds values);
        [|destruct values;
          [apply promises_in_to_value | now apply promises_in_list]]
    end.
    destruct (String.eqb (AttributeValueBuilder.deftype builder) "Enum");
      [|constructor].
    destruct (Henum eq_refl) as (options & Hoptions).
    destruct (AttributeValueBuilder.value builder); try constructor.
    apply Forall_map, Forall_forall. intros literal _.
    destruct (enum_value_by_long_name _ _ _); [constructor|].
    constructor; [|constructor].
    destruct (in_dec string_dec literal options) as [Hin|Hout].
    + left. eapply enum_value_label_declared; eassumption.
    + right. right. right. now exists name, literal, options.
Qed.

Lemma create_attributes_promises req_type_id attributes actions hint :
  create_attributes self req_type_id attributes = Ok (actions, hint) ->
  Forall holds actions.
Proof.
  revert actions hint.
  induction attributes as [|[name value] rest IH]; intros actions hint H;
    simpl in H.
  - injection H as <- _. constructor.
  - destruct (_blacklisted name value).
    + rstep H as r Hrest. destruct r as [actions' hint'].
      injection H as <- _. eauto.
    + destruct req_type_id as [[|c id]|];
        try (injection H as <- _; constructor).
      rstep H as req_type Htype. rstep H as attrs Hattrs.
      rstep H as action Haction. rstep H as r Hrest.
      destruct r as [actions' hint']. injection H as <- _.
      apply Forall_app. split; [|eauto].
      destruct (dict_has attrs name).
      * rstep Haction as payload Hpayload. injection Haction as <-.
        constructor; [|constructor].
        eapply attribute_value_create_action_promises; eassumption.
      * injection Haction as <-. constructor.
Qed.

Lemma create_base_promises item attributes :
  Forall holds attributes ->
  holds (VDict (create_base self item attributes)).
Proof.
  intros Hattrs. unfold create_base.
  assert (H1 : holds (VDict
            match Snapshot.text item with
            | None | Some EmptyString =>
                [("long_name", VStr (Snapshot.long_name item));
                 ("identifier", VStr (Snapshot.id item))]
            | Some text =>
                dict_set [("long_name", VStr (Snapshot.long_name item));
                          ("identifier", VStr (Snapshot.id item))]
                  "text" (VStr text)
            end)).
  { destruct (Snapshot.text item) as [[|c t]|]; repeat constructor. }
  set (base1 := match Snapshot.text item with
                | None | Some EmptyString => _
                | Some _ => _
                end) in *.
  assert (H2 : holds (VDict
            match attributes with
            | [] => base1
            | _ => dict_set base1 "attributes" (VList attributes)
            end)).
  { apply promises_in_opt_set; [exact H1|].
    intros _. now apply promises_in_list. }
  destruct (Snapshot.type item) as [[|c id]|]; try exact H2.
  apply promises_in_dict_set; [exact H2|].
  destruct (reqtype_by_identifier _ _ _); [constructor|].
  constructor; [|constructor].
  destruct (dict_get (requirement_types self) (String c id)) as [req_type|]
    eqn:Hget.
  - left. eapply requirement_type_label_declared; eassumption.
  - right. left. now exists (String c id).
Qed.

Lemma with_children_promises base requirements folders :
  holds (VDict base) ->
  Forall holds requirements -> Forall holds folders ->
  holds (VDict (with_children base requirements folders)).
Proof.
  intros Hbase Hr Hf. unfold with_children.
  assert (H : holds (VDict (dict_set (dict_set base "requirements"
                                        (VList requirements))
                              "folders" (VList folders)))).
  { apply promises_in_dict_set; [|now apply promises_in_list].
    apply promises_in_dict_set; [exact Hbase | now apply promises_in_list]. }
  assert (H' : holds (VDict
            match folders with
            | [] => dict_del (dict_set (dict_set base "requirements"
                                          (VList requirements))
                                "folders" (VList folders)) "folders"
            | _ => dict_set (dict_set base "requirements"
                               (VList requirements))
                     "folders" (VList folders)
            end)).
  { destruct folders; [|exact H]. now apply promises_in_dict_del. }
  destruct requirements; [|exact H']. now apply promises_in_dict_del.
Qed.

Lemma mod_attributes_promises req attributes :
  forall creations modifications creations' modifications',
    mod_attributes self req attributes creations modifications
    = Ok (creations', modifications') ->
    Forall holds creations -> holds (VDict modifications) ->
    Forall holds creations' /\ holds (VDict modifications').
Proof.
  induction attributes as [|[name value] rest IH];
    intros creations modifications creations' modifications' H Hc Hm;
    simpl in H.
  - injection H as <- <-. now split.
  - destruct (_ && _); [eauto|].
    rstep H as action Haction. destruct action as [action|n v|]; eauto.
    + eapply IH; [eassumption| |assumption].
      apply Forall_app. split; [assumption|].
      constructor; [|constructor].
      unfold attribute_value_mod_action in Haction.
      destruct (Live.type req) as [req_type|]; [|discriminate].
      unfold except_KeyError in Haction.
      match type of Haction with
      | match ?r with _ => _ end = _ => destruct r as [[| |]|[]] eqn:Hr
      end; try discriminate.
      * rstep Hr as builder Hcheck. rstep Hr as attr Hattr.
        rstep Hr as differ Hdiffer. destruct differ; discriminate.
      * rstep Haction as payload Hpayload. injection Haction as <-.
        eapply attribute_value_create_action_promises; eassumption.
    + eapply IH; [eassumption | assumption|].
      apply promises_in_dict_set; [assumption|].
      apply promises_in_to_value.
Qed.

Lemma _compare_simple_attributes_promises req item :
  holds (VDict (_compare_simple_attributes req item)).
Proof.
  unfold _compare_simple_attributes.
  destruct (Snapshot.text_first item), (negb _), (Snapshot.text item);
    try destruct (negb _); repeat constructor.
Qed.

Lemma mod_base_promises req item base :
  mod_base self req item = Ok base -> holds (VDict base).
Proof.
  intros H. unfold mod_base in H.
  rstep H as r Hattrs. destruct r as [creations modifications].
  rstep H as mods Hmods. injection H as <-.
  apply mod_attributes_promises in Hattrs;
    [|constructor | constructor].
  destruct Hattrs as [Hcreations Hmodifications].
  assert (Hm : holds (VDict mods)).
  { destruct (Live.type req) as [req_type|]; [|discriminate].
    injection Hmods as <-.
    pose proof (_compare_simple_attributes_promises req item) as Hs.
    destruct (Snapshot.type item) as [id|].
    - destruct (String.eqb id _); [exact Hs|].
      apply promises_in_dict_set; [exact Hs | constructor].
    - apply promises_in_dict_set; [exact Hs | constructor]. }
  apply promises_in_opt_set;
    [|intros _; apply promises_in_slot; apply promises_in_references].
  apply promises_in_opt_set;
    [|intros _; now apply promises_in_slot].
  set (base0 := [("parent", UUIDReference (Live.uuid req))]).
  assert (H0 : holds (VDict base0)) by repeat constructor.
  assert (H1 : holds (VDict match mods with
                            | [] => base0
                            | _ => dict_set base0 "modify" (VDict mods)
                            end)).
  { apply promises_in_opt_set; [exact H0 | now intros _]. }
  set (base1 := match mods with [] => _ | _ => _ end) in *.
  destruct modifications as [|m modifications]; [exact H1|].
  destruct (dict_get base1 "modify") as [[| | | | | | | | |modify]|] eqn:Hg;
    try exact H1.
  apply promises_in_dict_set; [exact H1|].
  apply promises_in_dict_set; [|assumption].
  eapply promises_in_dict_get; eassumption.
Qed.

Lemma with_folder_changes_promises req base cr cf child_req_ids
  child_folder_ids location_changed base' dels :
  holds (VDict base) -> Forall holds cr -> Forall holds cf ->
  with_folder_changes req base cr cf child_req_ids child_folder_ids
    location_changed = Ok (base', dels) ->
  holds (VDict base').
Proof.
  intros Hbase Hcr Hcf H. unfold with_folder_changes in H.
  rstep H as base1 Hextend. rstep H as base2 Hdelete.
  injection H as <- _.
  assert (H1 : holds (VDict base1)).
  { match type of Hextend with
    | match ?c with [] => _ | _ => _ end = _ =>
        assert (Hslots : holds (VDict c));
        [|destruct c; [now injection Hextend as <-|]]
    end.
    - apply promises_in_opt_set; [|intros _; now apply promises_in_list].
      apply promises_in_opt_set; [constructor|].
      intros _. now apply promises_in_list.
    - eapply _deep_update_promises; [exact Hextend | assumption|].
      apply promises_in_dict. constructor; [exact Hslots | constructor]. }
  match type of Hdelete with
  | match ?c with [] => _ | _ => _ end = _ =>
      assert (Hslots : holds (VDict c));
      [|destruct c; [now injection Hdelete as <-|]]
  end.
  - apply promises_in_opt_set;
      [|intros _; apply promises_in_list, promises_in_references].
    apply promises_in_opt_set; [constructor|].
    intros _. apply promises_in_list, promises_in_references.
  - eapply _deep_update_promises; [exact Hdelete | assumption|].
    apply promises_in_dict. constructor; [exact Hslots | constructor].
Qed.

(** The stored actions. *)
Lemma cell_promises st address : kept st -> holds (VDict (cell st address)).
Proof.
  unfold resolvable_cells, cell. intros H.
  destruct (Nat.lt_ge_cases address (length (cells st))) as [Hlt|Hge].
  - apply (proj1 (Forall_forall _ _) H). now apply nth_In.
  - rewrite nth_overflow by assumption. constructor.
Qed.

Lemma Forall_set_nth {A} (R : A -> Prop) (l : list A) (n : nat) (x : A) :
  Forall R l -> R x -> Forall R (set_nth l n x).
Proof.
  intros Hl Hx. revert n.
  induction Hl as [|y l Hy Hl IH]; intros [|n]; simpl;
    constructor; auto.
Qed.

Lemma allocate_promises base st address st' :
  kept st -> holds (VDict base) ->
  allocate base st = Ok (address, st') -> kept st'.
Proof.
  unfold allocate, resolvable_cells. intros Hst Hbase [= _ <-].
  cbn [cells]. apply Forall_app. split; [assumption | now constructor].
Qed.

Lemma _invalidate_deletion_promises requirement st u st' :
  kept st -> _invalidate_deletion requirement st = Ok (u, st') -> kept st'.
Proof.
  intros Hst. unfold _invalidate_deletion.
  destruct (dict_get (_req_deletions st) (Live.uuid requirement))
    as [address|]; [|now intros [= _ <-]].
  pose proof (cell_promises address Hst) as Hcell.
  destruct (dict_get (cell st address) "delete")
    as [[| | | | | | | | |deletions]|] eqn:Hdelete;
    try discriminate; try (now intros [= _ <-]).
  assert (Hdeletions : holds (VDict deletions))
    by (eapply promises_in_dict_get; eassumption).
  destruct (dict_get deletions _) as [[| | | | | | | |refs|]|] eqn:Hrefs;
    try discriminate; try (now intros [= _ <-]).
  assert (Hlist : holds (VList refs))
    by (eapply promises_in_dict_get; eassumption).
  intros H. rstep H as refs' Hremove. injection H as _ <-.
  unfold resolvable_cells. cbn [cells].
  apply Forall_set_nth; [exact Hst|].
  assert (Hrefs' : holds (VList refs')).
  { apply promises_in_list. eapply list_remove_sub; [exact Hremove|].
    now apply promises_in_list. }
  match goal with
  | |- holds (VDict match ?d with [] => _ | _ => _ end) =>
      assert (Hd : holds (VDict d))
  end.
  { destruct refs'; [now apply promises_in_dict_del|].
    now apply promises_in_dict_set. }
  match goal with
  | |- holds (VDict match ?d with [] => _ | _ => _ end) => destruct d
  end.
  - now apply promises_in_dict_del.
  - now apply promises_in_dict_set.
Qed.

Lemma finish_mod_promises base dels child_mods st addresses st' :
  kept st -> holds (VDict base) ->
  finish_mod base dels child_mods st = Ok (addresses, st') -> kept st'.
Proof.
  intros Hst Hbase H. unfold finish_mod in H.
  mstep H as address st1 Halloc. mstep H as u st2 Hupdate.
  apply ret_Ok in H. destruct H as [_ ->].
  apply allocate_promises in Halloc; try assumption.
  unfold req_deletions_update in Hupdate. now injection Hupdate as _ <-.
Qed.

Section ChildrenPromises.
Variable create : Snapshot.WorkItem -> M (Dict * list nat).
Variable modify :
  Snapshot.WorkItem -> Live.WorkItem -> Parent -> M (list nat).

Local Abbreviation creates := (creates_resolvable self create).
Local Abbreviation modifies := (modifies_resolvable self modify).

Lemma create_children_promises children :
  Forall creates children ->
  Forall modifies children ->
  forall requirements folders child_mods st requirements' folders'
         child_mods' st',
    kept st -> Forall holds requirements -> Forall holds folders ->
    create_children self create modify children requirements folders
      child_mods st
    = Ok ((requirements', folders', child_mods'), st') ->
    kept st' /\ Forall holds requirements' /\ Forall holds folders'.
Proof.
  induction children as [|child children IH];
    intros Hcreate Hmodify requirements folders child_mods st
           requirements' folders' child_mods' st' Hst Hr Hf H;
    simpl in H.
  - apply ret_Ok in H. destruct H as [[= -> -> _] ->]. tauto.
  - inversion Hcreate as [|? ? Hc Hcs]; subst.
    inversion Hmodify as [|? ? Hmd Hmds]; subst.
    mstep H as r st1 Hchild. destruct r as [action child_actions].
    assert (Hstep : kept st1 /\ holds action).
    { destruct (work_item_by_identifier (reqfinder self) (Snapshot.id child))
        as [creq|].
      - mstep Hchild as actions st2 Hmod.
        apply ret_Ok in Hchild. destruct Hchild as [[= -> _] ->].
        apply Hmd in Hmod; [|assumption]. split; [assumption|constructor].
      - mstep Hchild as r st2 Hnew. destruct r as [payload actions].
        apply ret_Ok in Hchild. destruct Hchild as [[= -> _] ->].
        now apply Hc in Hnew. }
    destruct Hstep as (Hst1 & Haction).
    destruct (has_children child);
      apply IH in H; try assumption;
      (apply Forall_app; split; [assumption|now constructor]).
Qed.

Lemma mod_children_promises req children :
  Forall creates children ->
  Forall modifies children ->
  forall cr cf child_req_ids child_folder_ids child_mods st cr' cf'
         child_req_ids' child_folder_ids' child_mods' st',
    kept st -> Forall holds cr -> Forall holds cf ->
    mod_children self create modify req children cr cf child_req_ids
      child_folder_ids child_mods st
    = Ok ((cr', cf', child_req_ids', child_folder_ids', child_mods'), st') ->
    kept st' /\ Forall holds cr' /\ Forall holds cf'.
Proof.
  induction children as [|child children IH];
    intros Hcreate Hmodify cr cf child_req_ids child_folder_ids child_mods
           st cr' cf' child_req_ids' child_folder_ids' child_mods' st'
           Hst Hr Hf H;
    simpl in H.
  - apply ret_Ok in H. destruct H as [[= -> -> _ _ _] ->]. tauto.
  - inversion Hcreate as [|? ? Hc Hcs]; subst.
    inversion Hmodify as [|? ? Hmd Hmds]; subst.
    mstep H as r st1 Hchild. destruct r as [container child_actions].
    assert (Hstep : kept st1 /\ Forall holds container).
    { destruct (work_item_by_identifier (reqfinder self) (Snapshot.id child))
        as [creq|].
      - mstep Hchild as actions st2 Hmod.
        apply ret_Ok in Hchild. destruct Hchild as [[= -> _] ->].
        apply Hmd in Hmod; [|assumption]. split; [assumption|].
        destruct (negb _); repeat constructor.
      - mstep Hchild as r st2 Hnew. destruct r as [payload actions].
        apply ret_Ok in Hchild. destruct Hchild as [[= -> _] ->].
        apply Hc in Hnew; [|assumption]. destruct Hnew as [Hk Hp].
        split; [assumption | now constructor]. }
    destruct Hstep as (Hst1 & Hcontainer).
    destruct (has_children child);
      apply IH in H; try assumption;
      (apply Forall_app; split; assumption).
Qed.
End ChildrenPromises.

(** The two generators bring resolvable promises only. *)
Lemma generators_promises item :
  creates_resolvable self (requirements_create_actions self) item
  /\ modifies_resolvable self (yield_requirements_mod_actions self) item.
Proof.
  induction item as [id long_name text text_first type attributes children IH].
  assert (Hchildren : forall cs,
             children = Some cs ->
             Forall (creates_resolvable
                       self (requirements_create_actions self)) cs
             /\ Forall (modifies_resolvable
                          self (yield_requirements_mod_actions self)) cs).
  { intros cs ->. inversion IH as [? Hall|]; subst.
    apply list_all_Forall in Hall. split.
    - eapply Forall_impl; [|exact Hall]. now intros c [Hc _].
    - eapply Forall_impl; [|exact Hall]. now intros c [_ Hc]. }
  split.
  - (* creation *)
    intros st payload addresses st' Hst H.
    rewrite requirements_create_actions_eq in H.
    mstep H as r st1 Hattrs. destruct r as [attrs hint].
    apply lift_Ok in Hattrs. destruct Hattrs as [Hattrs ->].
    apply create_attributes_promises in Hattrs.
    pose proof (@create_base_promises
                  {| Snapshot.id := id; Snapshot.long_name := long_name;
                     Snapshot.text := text; Snapshot.text_first := text_first;
                     Snapshot.type := type;
                     Snapshot.attributes := attributes;
                     Snapshot.children := children |} attrs Hattrs)
      as Hbase.
    cbn [Snapshot.children] in H.
    destruct children as [cs|].
    + destruct (Hchildren cs eq_refl) as [Hc Hm].
      mstep H as r st1 Hloop. destruct r as [[requirements folders] mods].
      apply ret_Ok in H. destruct H as [[= -> _] ->].
      eapply create_children_promises in Hloop;
        [|first [eassumption | constructor]..].
      destruct Hloop as (Hk & Hr & Hf).
      split; [assumption|]. now apply with_children_promises.
    + destruct hint; [apply lift_Ok in H; destruct H; discriminate|].
      apply ret_Ok in H. destruct H as [[= -> _] ->]. now split.
  - (* modification *)
    intros req parent st addresses st' Hst H.
    rewrite yield_requirements_mod_actions_eq in H.
    mstep H as base st1 Hbase.
    apply lift_Ok in Hbase. destruct Hbase as [Hbase ->].
    apply mod_base_promises in Hbase.
    mstep H as u st1 Hmoved.
    assert (Hst1 : kept st1).
    { destruct (parent_differs self req parent).
      - mstep Hmoved as u' st2 Hadd.
        unfold location_changed_add in Hadd. injection Hadd as _ <-.
        eapply _invalidate_deletion_promises; [|exact Hmoved].
        exact Hst.
      - apply ret_Ok in Hmoved. now destruct Hmoved as [_ ->]. }
    destruct (Live.is_folder req).
    + mstep H as r st2 Hloop.
      destruct r as [[[[cr cf] child_req_ids] child_folder_ids] mods].
      assert (Hst2 : kept st2 /\ Forall holds cr /\ Forall holds cf).
      { cbn [Snapshot.children] in Hloop. destruct children as [cs|].
        - destruct (Hchildren cs eq_refl) as [Hc Hm].
          eapply mod_children_promises in Hloop;
            [|first [eassumption | constructor]..].
          exact Hloop.
        - apply ret_Ok in Hloop. destruct Hloop as [[= -> -> _ _ _] ->].
          split; [assumption|]. split; constructor. }
      destruct Hst2 as (Hst2 & Hcr & Hcf).
      destruct (with_folder_changes req base cr cf child_req_ids
                  child_folder_ids (_location_changed st2))
        as [[base' dels]|] eqn:Hfolder; [|discriminate].
      apply with_folder_changes_promises in Hfolder; try assumption.
      eapply finish_mod_promises; eassumption.
    + eapply finish_mod_promises; eassumption.
Qed.

Lemma reconcile_items_promises items :
  forall base visited actions st base' visited' actions' st',
    holds (VDict base) -> kept st ->
    reconcile_items self items base visited actions st
    = Ok ((base', visited', actions'), st') ->
    holds (VDict base') /\ kept st'.
Proof.
  induction items as [|item items IH];
    intros base visited actions st base' visited' actions' st'
           Hbase Hst H;
    cbn [reconcile_items] in H.
  - apply ret_Ok in H. destruct H as [[= -> _ _] ->]. tauto.
  - destruct (generators_promises item) as [Hcreate Hmodify].
    mstep H as r st1 Hstep. destruct r as [[base1 visited1] req_actions].
    assert (Hone : holds (VDict base1) /\ kept st1).
    { destruct (work_item_by_identifier (reqfinder self) (Snapshot.id item))
        as [req|].
      - mstep Hstep as base2 st2 Hmoved.
        mstep Hstep as mods st3 Hmod.
        apply ret_Ok in Hstep. destruct Hstep as [[= -> _ _] ->].
        assert (H2 : holds (VDict base2) /\ kept st2).
        { destruct (parent_differs self req ParentNone).
          - mstep Hmoved as base3 st4 Hadd.
            apply lift_Ok in Hadd. destruct Hadd as [Hadd ->].
            mstep Hmoved as u st5 Hloc. mstep Hmoved as u' st6 Hinv.
            apply ret_Ok in Hmoved. destruct Hmoved as [-> ->].
            unfold location_changed_add in Hloc. injection Hloc as _ <-.
            apply _invalidate_deletion_promises in Hinv; [|exact Hst].
            split; [|assumption].
            eapply _add_action_safely_promises;
              [exact Hadd | assumption | constructor].
          - apply ret_Ok in Hmoved. destruct Hmoved as [-> ->]. tauto. }
        destruct H2 as [Hbase2 Hst2]. split; [assumption|].
        eapply Hmodify; eassumption.
      - mstep Hstep as r st2 Hnew. destruct r as [payload mods].
        mstep Hstep as base2 st3 Hadd.
        apply lift_Ok in Hadd. destruct Hadd as [Hadd ->].
        apply ret_Ok in Hstep. destruct Hstep as [[= -> _ _] ->].
        apply Hcreate in Hnew; [|assumption].
        destruct Hnew as (Hst2 & Hpayload). split; [|assumption].
        eapply _add_action_safely_promises; eassumption. }
    destruct Hone as (Hbase1 & Hst1).
    eapply IH; eassumption.
Qed.

Lemma req_delete_actions_promises visited elements attr_name :
  holds (VDict (req_delete_actions self visited elements attr_name)).
Proof.
  unfold req_delete_actions.
  match goal with
  | |- holds (VDict match ?dels with [] => _ | _ => _ end) =>
      assert (Hdels : Forall holds dels) by apply promises_in_references;
      destruct dels
  end.
  - repeat constructor.
  - apply promises_in_dict. constructor; [constructor|].
    constructor; [|constructor]. cbn [snd].
    now apply promises_in_slot.
Qed.

(** The promises of the action list are resolvable. *)
Lemma calculate_change_promises (actions : list Dict) :
  calculate_change self = Ok actions ->
  Forall (fun action => holds (VDict action)) actions.
Proof.
  intros H. pose proof (calculate_change_Ok_no_types_folder self H) as Hnone.
  unfold calculate_change in H. rewrite Hnone in H. cbn [bind] in H.
  rstep H as r Hitems. destruct r as [[[base1 visited] item_actions] st].
  rstep H as kept_actions Hkept. rstep H as base2 Hreqs.
  rstep H as base3 Hfolders. injection H as <-.
  apply reconcile_items_promises in Hitems;
    [|apply requirement_types_folder_create_action_promises|constructor].
  destruct Hitems as [Hbase1 Hst].
  apply remove_void_deletions_split in Hkept; [|constructor].
  destruct Hkept as (items' & -> & Hsub). cbn [app].
  assert (Hitems' : Forall (fun action => holds (VDict action)) items').
  { apply Hsub. apply Forall_map, Forall_forall. intros a _.
    now apply cell_promises. }
  assert (Hbase3 : holds (VDict base3)).
  { eapply _deep_update_promises;
      [exact Hfolders| |apply req_delete_actions_promises].
    eapply _deep_update_promises;
      [exact Hreqs | exact Hbase1 | apply req_delete_actions_promises]. }
  destruct (negb (only_parent base3)); [|exact Hitems'].
  apply Forall_app. split; [assumption | now constructor].
Qed.
End Resolvable.



(** A snapshot that lists an option of a data type twice declares the
    label of that option twice. *)
Lemma repeated_option_declared_twice :
  exists actions,
    calculate_change Examples.Repeated.self = Ok actions
    /\ In "EnumValue Status Open"
          (flat_map (fun action => promises (VDict action)) actions)
    /\ count_occ string_dec
         (flat_map (fun action => promise_ids (VDict action)) actions)
         "EnumValue Status Open" = 2.
Proof.
  eexists. split; [vm_compute; reflexivity|].
  split; [simpl; tauto | vm_compute; reflexivity].
Qed.

(** ** The helpers of the module *)

Lemma _blacklisted_all_spec (name : string) (l : list string) :
  _blacklisted_all name l = true
  <-> Forall (eq "Folder") l /\ (l <> [] -> name = "Type").
Proof.
  induction l as [|val l IH]; cbn [_blacklisted_all].
  - split; [intros _; split; [constructor | congruence] | reflexivity].
  - unfold _ATTR_BLACKLIST. cbn [existsb fst snd].
    rewrite Bool.orb_false_r, !Bool.andb_true_iff, IH.
    rewrite !String.eqb_eq. split.
    + intros [[-> ->] [Hall _]]. split; [now constructor | reflexivity].
    + intros [Hall Hname]. inversion Hall; subst.
      specialize (Hname ltac:(discriminate)). subst name.
      repeat split; trivial.
Qed.

(** X1. [_blacklisted] holds of the pair of the name [Type] and the text
    [Folder], and of a list when each of its elements makes such a pair
    with the name, which an empty list does under any name; it holds of
    nothing else: not of [None], a number, a boolean or a date. *)
Theorem _blacklisted_spec (name : string) (value : Primitive) :
  _blacklisted name value = true
  <-> (name = "Type" /\ value = PStr "Folder")
      \/ exists l,
          value = PList l
          /\ Forall (eq "Folder") l /\ (l <> [] -> name = "Type").
Proof.
  destruct value as [| | |s|l| |]; cbn [_blacklisted];
    try (split; [discriminate | intros [[_ H]|(l & H & _)]; discriminate]).
  - unfold _ATTR_BLACKLIST. cbn [existsb fst snd].
    rewrite Bool.orb_false_r, Bool.andb_true_iff, !String.eqb_eq. split.
    + intros [-> ->]. now left.
    + intros [[-> [= ->]]|(l & H & _)]; [tauto | discriminate].
  - rewrite _blacklisted_all_spec. split.
    + intros H. right. now exists l.
    + intros [[_ H]|(l' & [= <-] & H)]; [discriminate | exact H].
Qed.

(** ** More on [_deep_update] *)

Section DictMore.
Context {A : Type}.
Implicit Types (d : list (string * A)) (k : string) (v : A).

Lemma dict_set_fresh d k v :
  dict_get d k = None -> dict_set d k v = d ++ [(k, v)].
Proof.
  induction d as [|[k' v'] d IH]; simpl; [reflexivity|].
  destruct (String.eqb k k'); [discriminate|].
  intros H. now rewrite IH.
Qed.

Lemma dict_get_app_fresh d k k' v :
  k' <> k -> dict_get d k' = None -> dict_get (d ++ [(k, v)]) k' = None.
Proof.
  intros Hne. induction d as [|[k0 v0] d IH]; simpl.
  - intros _. destruct (String.eqb_spec k' k); [contradiction | reflexivity].
  - destruct (String.eqb k' k0); [discriminate | exact IH].
Qed.
End DictMore.

Lemma str_in_cons_false (k k' : string) (l : list string) :
  str_in k (k' :: l) = false -> k <> k' /\ str_in k l = false.
Proof.
  unfold str_in. simpl. intros H. apply Bool.orb_false_iff in H.
  destruct H as [Hne H]. split; [|exact H].
  intros ->. now rewrite String.eqb_refl in Hne.
Qed.

Lemma str_in_In (k : string) (l : list string) :
  str_in k l = true <-> In k l.
Proof.
  unfold str_in. rewrite existsb_exists. split.
  - intros (x & Hx & E). apply String.eqb_eq in E. now subst.
  - intros H. exists k. split; [assumption | apply String.eqb_refl].
Qed.

Lemma forallb_ext_in {B} (f g : B -> bool) (l : list B) :
  (forall x, In x l -> f x = g x) -> forallb f l = forallb g l.
Proof.
  induction l as [|x l IH]; intros H; simpl; [reflexivity|].
  rewrite H by now left. rewrite IH; [reflexivity|].
  intros y Hy. apply H. now right.
Qed.

Lemma nodupb_cons (k : string) (l : list string) :
  nodupb (k :: l) = true -> str_in k l = false /\ nodupb l = true.
Proof.
  simpl. intros H. apply Bool.andb_true_iff in H. destruct H as [H1 H2].
  split; [now apply Bool.negb_true_iff | assumption].
Qed.

Section DeepUpdateMore.
Variable update_with : Value -> Dict -> Dict * option Exn.

(** Into a dictionary that has none of the keys, the loop appends the
    overrides. *)
Lemma _deep_update_items_fresh overrides :
  nodupb (dict_keys overrides) = true ->
  Forall (fun kv => match snd kv with
                    | VDict ((_ :: _) as sub) =>
                        update_with (snd kv) [] = (sub, None)
                    | _ => True
                    end) overrides ->
  forall source,
    (forall k, In k (dict_keys overrides) -> dict_get source k = None) ->
    _deep_update_items update_with overrides source
    = (source ++ overrides, None).
Proof.
  induction overrides as [|[key value] rest IH];
    intros Hnodup Hall source Hfresh.
  - simpl. now rewrite app_nil_r.
  - apply nodupb_cons in Hnodup. destruct Hnodup as [Hkey Hnodup].
    change (str_in key (dict_keys rest) = false) in Hkey.
    change (nodupb (dict_keys rest) = true) in Hnodup.
    inversion Hall as [|? ? Hvalue Hrest]; subst. cbn [snd] in Hvalue.
    assert (Hget : dict_get source key = None)
      by (apply Hfresh; now left).
    assert (Hnext : forall v,
              _deep_update_items update_with rest (dict_set source key v)
              = (source ++ (key, v) :: rest, None)).
    { intros v. rewrite dict_set_fresh by assumption.
      rewrite IH; try assumption.
      - now rewrite <- app_assoc.
      - intros k Hk. apply dict_get_app_fresh.
        + intros ->. apply (proj2 (str_in_In _ _)) in Hk. congruence.
        + apply Hfresh. now right. }
    destruct value as [| | | | | | | |l|[|kv sub]];
      try (cbn [_deep_update_items]; apply Hnext).
    rewrite _deep_update_items_mapping, Hget, Hvalue. apply Hnext.
Qed.

(** When the loop raises. *)
Variable merges : Value -> Dict -> bool.

Lemma entry_mergeable_set source key v rest :
  str_in key (dict_keys rest) = false ->
  forallb (entry_mergeable merges (dict_set source key v)) rest
  = forallb (entry_mergeable merges source) rest.
Proof.
  intros Hkey. apply forallb_ext_in. intros [k x] Hin.
  unfold entry_mergeable. cbn [fst snd].
  rewrite dict_get_set_other; [reflexivity|].
  intros ->. apply Bool.not_true_iff_false in Hkey. apply Hkey.
  apply str_in_In. unfold dict_keys. apply in_map_iff.
  now exists (key, x).
Qed.

Lemma _deep_update_items_raises overrides :
  nodupb (dict_keys overrides) = true ->
  Forall (fun kv =>
            snd (update_with (snd kv) []) = None
            /\ forall update,
                (snd (update_with (snd kv) update) = None
                 <-> merges (snd kv) update = true)
                /\ forall e,
                    snd (update_with (snd kv) update) = Some e ->
                    e = AttributeError \/ e = TypeError) overrides ->
  forall source,
    (snd (_deep_update_items update_with overrides source) = None
     <-> forallb (entry_mergeable merges source) overrides = true)
    /\ forall e,
        snd (_deep_update_items update_with overrides source) = Some e ->
        e = AttributeError \/ e = TypeError.
Proof.
  induction overrides as [|[key value] rest IH]; intros Hnodup Hall source.
  - simpl. split; [tauto | discriminate].
  - apply nodupb_cons in Hnodup. destruct Hnodup as [Hkey Hnodup].
    change (str_in key (dict_keys rest) = false) in Hkey.
    change (nodupb (dict_keys rest) = true) in Hnodup.
    inversion Hall as [|? ? [Hempty Hvalue] Hrest]; subst.
    cbn [snd] in Hempty, Hvalue.
    assert (Hnext : forall v,
              (snd (_deep_update_items update_with rest
                      (dict_set source key v)) = None
               <-> forallb (entry_mergeable merges source) rest = true)
              /\ forall e,
                  snd (_deep_update_items update_with rest
                         (dict_set source key v)) = Some e ->
                  e = AttributeError \/ e = TypeError).
    { intros v. rewrite <- (@entry_mergeable_set source key v rest Hkey).
      now apply IH. }
    cbn [forallb]. unfold entry_mergeable at 1. cbn [fst snd].
    destruct value as [| | | | | | | |l|[|kv sub]];
      try (cbn [_deep_update_items]; apply Hnext).
    rewrite _deep_update_items_mapping.
    destruct (dict_get source key) as [[| | | | | | | | |update0]|];
      try (cbn [snd]; split;
           [split; discriminate
           |intros e [= <-]; unfold not_a_mapping;
            destruct kv as [k0 [| | | | | | | | |[|? ?]]]; auto]).
    + destruct (Hvalue update0) as [Hiff Hkind].
      destruct (update_with (VDict (kv :: sub)) update0) as [update [e|]];
        cbn [snd] in *.
      * split.
        -- split; [discriminate|]. intros H.
           apply Bool.andb_true_iff in H. destruct H as [H _].
           apply Hiff in H. discriminate.
        -- intros e' [= <-]. now apply Hkind.
      * destruct Hiff as [Hiff _]. rewrite (Hiff eq_refl). apply Hnext.
    + destruct (update_with (VDict (kv :: sub)) []) as [update [e|]];
        cbn [snd] in *; [discriminate | apply Hnext].
Qed.
End DeepUpdateMore.

Lemma _deep_update_with_fresh (v : Value) :
  wf_value v = true ->
  match v with
  | VDict d => _deep_update_with v [] = (d, None)
  | _ => True
  end.
Proof.
  induction v as [| | | | | | | |l _|d IH]; intros Hwf; trivial.
  simpl in Hwf. apply Bool.andb_true_iff in Hwf. destruct Hwf as [Hkeys Hwf].
  rewrite _deep_update_with_dict.
  apply (_deep_update_items_fresh _deep_update_with) with (source := []);
    [assumption| |reflexivity].
  clear Hkeys. induction IH as [|[k x] Hx d Hd IHd]; constructor.
  - simpl in Hwf. apply Bool.andb_true_iff in Hwf.
    inversion Hx as [? _ ? Hx']. subst. cbn [snd].
    destruct x as [| | | | | | | | |[|kv sub]]; trivial.
    apply Hx'. tauto.
  - apply IHd. simpl in Hwf. apply Bool.andb_true_iff in Hwf. tauto.
Qed.

Lemma mergeable_dict (d source : Dict) :
  mergeable (VDict d) source = forallb (entry_mergeable mergeable source) d.
Proof. reflexivity. Qed.

Lemma _deep_update_with_raises (v : Value) :
  wf_value v = true ->
  forall source,
    (snd (_deep_update_with v source) = None <-> mergeable v source = true)
    /\ forall e,
        snd (_deep_update_with v source) = Some e ->
        e = AttributeError \/ e = TypeError.
Proof.
  induction v as [| | | | | | | |l _|d IH]; intros Hwf source;
    try (simpl; split; [tauto | discriminate]).
  pose proof Hwf as Hwf0.
  simpl in Hwf. apply Bool.andb_true_iff in Hwf. destruct Hwf as [Hkeys Hwf].
  rewrite _deep_update_with_dict, mergeable_dict.
  apply _deep_update_items_raises; [assumption|].
  clear Hkeys Hwf0 source. induction IH as [|[k x] Hx d Hd IHd]; constructor.
  - simpl in Hwf. apply Bool.andb_true_iff in Hwf. destruct Hwf as [Hx0 _].
    inversion Hx as [? _ ? Hx']. subst. cbn [snd]. split.
    + pose proof (_deep_update_with_fresh x Hx0) as Hf.
      destruct x; try reflexivity. now rewrite Hf.
    + intros update. now apply Hx'.
  - apply IHd. simpl in Hwf. apply Bool.andb_true_iff in Hwf. tauto.
Qed.

(** X2. Merged into an empty dictionary, the overrides are what is left,
    level by level and in their order, and nothing is raised. *)
Theorem _deep_update_into_empty (overrides : Dict) :
  wf_value (VDict overrides) = true ->
  _deep_update [] overrides = (overrides, None).
Proof. intros Hwf. exact (_deep_update_with_fresh (VDict overrides) Hwf). Qed.

Lemma _deep_update_into_empty_witness :
  _deep_update []
    [("parent", VStr "p");
     ("extend", VDict [("folders", VList [VStr "a"]); ("modify", VDict [])])]
  = ([("parent", VStr "p");
      ("extend", VDict [("folders", VList [VStr "a"]); ("modify", VDict [])])],
     None).
Proof.
  apply (@_deep_update_into_empty
           [("parent", VStr "p");
            ("extend",
             VDict [("folders", VList [VStr "a"]); ("modify", VDict [])])]).
  reflexivity.
Defined.

(** X3. [_deep_update] runs to its end exactly when, wherever the
    overrides hold a non-empty mapping, [source] holds nothing under the
    key or a mapping into which that mapping can be merged in turn; what it
    raises otherwise is an [AttributeError] or a [TypeError], never a
    [KeyError]. *)
Theorem _deep_update_raises (source overrides : Dict) :
  wf_value (VDict overrides) = true ->
  (snd (_deep_update source overrides) = None
   <-> mergeable (VDict overrides) source = true)
  /\ forall e,
      snd (_deep_update source overrides) = Some e ->
      e = AttributeError \/ e = TypeError.
Proof.
  intros Hwf. exact (_deep_update_with_raises (VDict overrides) Hwf source).
Qed.

Lemma _deep_update_raises_witness :
  (snd (_deep_update
          [("parent", VStr "p"); ("extend", VList [VStr "a"])]
          [("extend", VDict [("folders", VList [VStr "b"])])]) = None
   <-> mergeable (VDict [("extend", VDict [("folders", VList [VStr "b"])])])
         [("parent", VStr "p"); ("extend", VList [VStr "a"])] = true)
  /\ forall e,
      snd (_deep_update
             [("parent", VStr "p"); ("extend", VList [VStr "a"])]
             [("extend", VDict [("folders", VList [VStr "b"])])]) = Some e ->
      e = AttributeError \/ e = TypeError.
Proof.
  apply (@_deep_update_raises
           [("parent", VStr "p"); ("extend", VList [VStr "a"])]
           [("extend", VDict [("folders", VList [VStr "b"])])]).
  reflexivity.
Defined.

(** ** [_add_action_safely] *)

Lemma nested_get_set (base first : Dict) (first_key k : string) :
  nested_get (dict_set base first_key (VDict first)) first_key k
  = dict_get first k.
Proof. unfold nested_get. now rewrite dict_get_set_same. Qed.

(** What [_add_action_safely] comes to. *)
Lemma _add_action_safely_eq (base : Dict) (first_key second_key : string)
  (action : Value) :
  _add_action_safely base first_key second_key action
  = match dict_get base first_key with
    | None => Ok (dict_set base first_key (VDict [(second_key, VList [action])]))
    | Some (VDict first) =>
        match dict_get first second_key with
        | None | Some (VList _) =>
            Ok (dict_set base first_key
                  (VDict (dict_set first second_key
                            (VList (slot_elements (dict_get first second_key)
                                    ++ [action])))))
        | Some _ => Raise AttributeError
        end
    | Some _ => Raise TypeError
    end.
Proof.
  unfold _add_action_safely, _deep_update.
  rewrite _deep_update_with_dict, _deep_update_items_mapping.
  destruct (dict_get base first_key) as [[| | | | | | | | |first]|];
    try reflexivity.
  destruct (dict_get first second_key) as [[| | | | | | | |l|]|];
    reflexivity.
Qed.

(** X4. When [_add_action_safely] returns, the slot [second_key] of the
    fragment [first_key] of [base] holds what it held, none when the slot
    or the fragment was not there, and then the action; the other slots of
    the fragment and the other keys of [base] hold what they held. *)
Theorem _add_action_safely_appends (base base' : Dict)
  (first_key second_key : string) (action : Value) :
  _add_action_safely base first_key second_key action = Ok base' ->
  nested_get base' first_key second_key
  = Some (VList (slot_elements (nested_get base first_key second_key)
                 ++ [action]))
  /\ (forall k, k <> second_key ->
        nested_get base' first_key k = nested_get base first_key k)
  /\ (forall k, k <> first_key -> dict_get base' k = dict_get base k).
Proof.
  rewrite _add_action_safely_eq. unfold nested_get at 2 4.
  destruct (dict_get base first_key) as [[| | | | | | | | |first]|] eqn:Hf;
    try discriminate.
  - assert (Hok : forall l,
              slot_elements (dict_get first second_key) = l ->
              Ok (dict_set base first_key
                    (VDict (dict_set first second_key (VList (l ++ [action])))))
              = Ok base' ->
              nested_get base' first_key second_key = Some (VList (l ++ [action]))
              /\ (forall k, k <> second_key ->
                    nested_get base' first_key k = dict_get first k)
              /\ (forall k, k <> first_key -> dict_get base' k = dict_get base k)).
    { intros l _ [= <-]. split; [|split].
      - rewrite nested_get_set. apply dict_get_set_same.
      - intros k Hk. rewrite nested_get_set. now apply dict_get_set_other.
      - intros k Hk. now apply dict_get_set_other. }
    destruct (dict_get first second_key) as [[| | | | | | | |l|]|];
      try discriminate; now apply Hok.
  - intros [= <-]. split; [|split].
    + rewrite nested_get_set. cbn [dict_get]. now rewrite String.eqb_refl.
    + intros k Hk. rewrite nested_get_set. cbn [dict_get].
      destruct (String.eqb_spec k second_key); [contradiction | reflexivity].
    + intros k Hk. now apply dict_get_set_other.
Qed.

Lemma _add_action_safely_appends_witness :
  nested_get
    [("parent", VStr "m");
     ("extend", VDict [("folders", VList [VStr "a"; VStr "b"])])]
    "extend" "folders"
  = Some (VList (slot_elements
                   (nested_get
                      [("parent", VStr "m");
                       ("extend", VDict [("folders", VList [VStr "a"])])]
                      "extend" "folders")
                 ++ [VStr "b"]))
  /\ (forall k, k <> "folders" ->
        nested_get
          [("parent", VStr "m");
           ("extend", VDict [("folders", VList [VStr "a"; VStr "b"])])]
          "extend" k
        = nested_get
            [("parent", VStr "m");
             ("extend", VDict [("folders", VList [VStr "a"])])]
            "extend" k)
  /\ (forall k, k <> "extend" ->
        dict_get
          [("parent", VStr "m");
           ("extend", VDict [("folders", VList [VStr "a"; VStr "b"])])] k
        = dict_get
            [("parent", VStr "m");
             ("extend", VDict [("folders", VList [VStr "a"])])] k).
Proof.
  apply (@_add_action_safely_appends
           [("parent", VStr "m");
            ("extend", VDict [("folders", VList [VStr "a"])])]
           [("parent", VStr "m");
            ("extend", VDict [("folders", VList [VStr "a"; VStr "b"])])]
           "extend" "folders" (VStr "b")).
  reflexivity.
Defined.

(** X5. [_add_action_safely] raises in two cases only: a [TypeError] when
    [base] holds under [first_key] something that is no mapping, and an
    [AttributeError] when the fragment holds under [second_key] something
    that is no list. A missing fragment or slot is made, not reported. *)
Theorem _add_action_safely_raises (base : Dict) (first_key second_key : string)
  (action : Value) (e : Exn) :
  _add_action_safely base first_key second_key action = Raise e
  <-> (exists v,
          dict_get base first_key = Some v
          /\ (forall first, v <> VDict first) /\ e = TypeError)
      \/ (exists v,
            nested_get base first_key second_key = Some v
            /\ (forall l, v <> VList l) /\ e = AttributeError).
Proof.
  rewrite _add_action_safely_eq. unfold nested_get.
  destruct (dict_get base first_key) as [v|].
  - destruct v as [| | | | | | | | |first];
      try (split;
           [intros [= <-]; left; eexists; repeat split; discriminate
           |intros [(v & [= <-] & _ & ->)|(v & H & _)];
            [reflexivity | discriminate]]).
    destruct (dict_get first second_key) as [v|].
    + destruct v as [| | | | | | | |l|];
        try (split;
             [intros [= <-]; right; eexists; repeat split; discriminate
             |intros [(v & [= <-] & H & _)|(v & [= <-] & _ & ->)];
              [now contradiction (H first) | reflexivity]]).
      split; [discriminate|].
      intros [(v & [= <-] & H & _)|(v & [= <-] & H & _)];
        [now contradiction (H first) | now contradiction (H l)].
    + split; [discriminate|].
      intros [(v & [= <-] & H & _)|(v & H & _)];
        [now contradiction (H first) | discriminate].
  - split; [discriminate|].
    intros [(v & H & _)|(v & H & _)]; discriminate.
Qed.

(** ** More on the actions of the type system *)

Lemma sappend_inj_r (a b c : string) : a +++ b = a +++ c -> b = c.
Proof.
  unfold sappend. induction a as [|ch a IH]; simpl; [trivial|].
  intros [= H]. auto.
Qed.

Lemma dedup_In (x : string) (l : list string) : In x (dedup l) <-> In x l.
Proof.
  induction l as [|y l IH]; simpl; [tauto|].
  destruct (str_in y l) eqn:E.
  - rewrite IH. split; [now right|]. intros [<-|H]; [|assumption].
    now apply str_in_In.
  - simpl. now rewrite IH.
Qed.

Lemma filter_nil {A} (f : A -> bool) (l : list A) :
  filter f l = [] <-> forall x, In x l -> f x = false.
Proof.
  induction l as [|y l IH]; simpl; [tauto|].
  destruct (f y) eqn:E.
  - split; [discriminate|]. intros H. specialize (H y (or_introl eq_refl)).
    congruence.
  - rewrite IH. split.
    + intros H x [<-|Hx]; auto.
    + intros H x Hx. apply H. now right.
Qed.

Lemma set_difference_nil (a b : list string) :
  set_difference a b = [] <-> forall x, In x a -> In x b.
Proof.
  unfold set_difference. split.
  - intros H x Hx.
    pose proof (proj1 (filter_nil _ _) H x (proj2 (dedup_In _ _) Hx)) as E.
    apply Bool.negb_false_iff in E. apply (proj1 (str_in_In x b) E).
  - intros H. apply filter_nil. intros x Hx.
    apply (proj1 (dedup_In _ _)) in Hx.
    apply Bool.negb_false_iff. apply (proj2 (str_in_In x b)). auto.
Qed.

Lemma data_type_create_action_promise_ids_eq (name : string)
  (values : list string) :
  promise_ids (VDict (data_type_create_action name values))
  = ("EnumerationDataTypeDefinition" +++ " " +++ name)
    :: map (fun value => "EnumValue " +++ name +++ " " +++ value) values.
Proof.
  unfold data_type_create_action.
  cbn [promise_ids dict_get String.eqb Ascii.eqb Bool.eqb flat_map snd app].
  rewrite !app_nil_r. f_equal.
  induction values as [|value values IH]; [reflexivity|].
  cbn [map flat_map promise_ids dict_get String.eqb Ascii.eqb Bool.eqb
       snd app].
  now rewrite IH.
Qed.

(** X6. The promise identifiers that the creation payload of a data type
    definition declares, its own and those of its values, are pairwise
    distinct when the values are. *)
Theorem data_type_create_action_promise_ids (name : string)
  (values : list string) :
  NoDup values ->
  NoDup (promise_ids (VDict (data_type_create_action name values))).
Proof.
  intros Hvalues. rewrite data_type_create_action_promise_ids_eq.
  constructor.
  - intros Hin. apply in_map_iff in Hin. destruct Hin as (value & E & _).
    discriminate E.
  - induction Hvalues as [|value values Hout _ IH]; cbn [map]; constructor;
      [|exact IH].
    intros Hin. apply in_map_iff in Hin. destruct Hin as (value' & E & Hin).
    apply sappend_inj_r in E.
    apply (sappend_inj_r name) in E. apply (sappend_inj_r " ") in E.
    now subst.
Qed.

Lemma data_type_create_action_promise_ids_witness :
  NoDup (promise_ids
           (VDict (data_type_create_action "Status" ["Open"; "Closed"]))).
Proof.
  apply (@data_type_create_action_promise_ids "Status" ["Open"; "Closed"]).
  repeat constructor; simpl; intuition discriminate.
Defined.

Lemma only_parent_two (k : string) (v w : Value) (rest : Dict) :
  k <> "parent" -> only_parent (("parent", v) :: (k, w) :: rest) = false.
Proof.
  intros Hk. unfold only_parent, dict_keys. cbn [map fst forallb].
  destruct (String.eqb_spec "parent" k) as [E|_]; [now symmetry in E|].
  now rewrite Bool.andb_false_r.
Qed.

(** X7. For a data type definition of the snapshot that the types folder
    holds under its name, once: there is no action exactly when the model
    and the snapshot list the same values; an action has the definition
    as its parent, and never a fragment [modify]. *)
Theorem data_type_mod_action_in_sync (self : TrackerChange)
  (folder : Live.RequirementsTypesFolder) (name : string)
  (values : list string) (dtdef : Live.EnumerationDataTypeDefinition) :
  single (fun d => String.eqb (Live.dtd_long_name d) name)
         (Live.data_type_definitions folder) = Ok dtdef ->
  (data_type_mod_action self folder name values = None
   <-> forall value,
        In value values
        <-> In value (map Live.ev_long_name (Live.dtd_values dtdef)))
  /\ forall action,
      data_type_mod_action self folder name values = Some action ->
      dict_get action "parent" = Some (UUIDReference (Live.dtd_uuid dtdef))
      /\ dict_get action "modify" = None.
Proof.
  intros Hsingle. unfold data_type_mod_action. rewrite Hsingle.
  apply single_Ok in Hsingle. destruct Hsingle as [Hname _].
  rewrite Hname. cbn [negb].
  pose proof (set_difference_nil values
                (map Live.ev_long_name (Live.dtd_values dtdef))) as Hc.
  pose proof (set_difference_nil
                (map Live.ev_long_name (Live.dtd_values dtdef)) values) as Hd.
  destruct (set_difference values _) as [|c creations];
    destruct (set_difference _ values) as [|d deletions];
    cbn [dict_set dict_get String.eqb Ascii.eqb Bool.eqb];
    rewrite ?only_parent_two by discriminate.
  - split.
    + split; [intros _|reflexivity]. intros value. split.
      * apply Hc. reflexivity.
      * apply Hd. reflexivity.
    + discriminate.
  - split.
    + split; [discriminate|]. intros H. exfalso.
      assert (E : d :: deletions = []) by (apply Hd; intros x; apply H).
      discriminate.
    + intros action [= <-]. split; reflexivity.
  - split.
    + split; [discriminate|]. intros H. exfalso.
      assert (E : c :: creations = []) by (apply Hc; intros x; apply H).
      discriminate.
    + intros action [= <-]. split; reflexivity.
  - split.
    + split; [discriminate|]. intros H. exfalso.
      assert (E : c :: creations = []) by (apply Hc; intros x; apply H).
      discriminate.
    + intros action [= <-]. split; reflexivity.
Qed.

Lemma data_type_mod_action_in_sync_witness :
  (data_type_mod_action Examples.Literals.self Samples.Status.types_folder
     "Status" ["Open"; "Closed"] = None
   <-> forall value,
        In value ["Open"; "Closed"] <-> In value ["Closed"; "Open"])
  /\ forall action,
      data_type_mod_action Examples.Literals.self Samples.Status.types_folder
        "Status" ["Open"; "Closed"] = Some action ->
      dict_get action "parent" = Some (UUIDReference "uuid-status")
      /\ dict_get action "modify" = None.
Proof.
  apply (@data_type_mod_action_in_sync
           Examples.Literals.self Samples.Status.types_folder
           "Status" ["Open"; "Closed"] Samples.Status.definition).
  reflexivity.
Defined.

Lemma filter_partition_nil {A} (f : A -> bool) (l : list A) :
  filter f l = [] -> filter (fun x => negb (f x)) l = [] -> l = [].
Proof.
  destruct l as [|x l]; [reflexivity|]. simpl.
  destruct (f x); simpl; discriminate.
Qed.

Lemma flat_map_option_nil {A B} (f : A -> option B) (l : list A) :
  flat_map (fun x => match f x with None => [] | Some y => [y] end) l = []
  <-> forall x, In x l -> f x = None.
Proof.
  induction l as [|x l IH]; simpl; [tauto|].
  destruct (f x) eqn:E; simpl.
  - split; [discriminate|]. intros H.
    specialize (H x (or_introl eq_refl)). congruence.
  - split.
    + intros H y [<-|Hy]; [assumption | now apply IH].
    + intros H. apply IH. intros y Hy. apply H. now right.
Qed.

(** X8. The types folder is given no action on its data type definitions
    exactly when no definition of the snapshot asks for one and every
    definition of the folder is one of the snapshot. *)
Theorem yield_data_type_definition_mod_actions_nil (self : TrackerChange)
  (folder : Live.RequirementsTypesFolder) :
  yield_data_type_definition_mod_actions self folder = []
  <-> (forall name values,
          In (name, values) (data_type_definitions self) ->
          data_type_mod_action self folder name values = None)
      /\ (forall dtdef,
            In dtdef (Live.data_type_definitions folder) ->
            dict_has (data_type_definitions self) (Live.dtd_long_name dtdef)
            = true).
Proof.
  unfold yield_data_type_definition_mod_actions.
  set (actions := flat_map _ (data_type_definitions self)).
  set (dels := filter _ (Live.data_type_definitions folder)).
  assert (Hactions : actions = []
                     <-> forall name values,
                         In (name, values) (data_type_definitions self) ->
                         data_type_mod_action self folder name values = None).
  { unfold actions.
    rewrite (flat_map_option_nil
               (fun nv => data_type_mod_action self folder (fst nv) (snd nv))).
    split.
    - intros H name values Hin. exact (H (name, values) Hin).
    - intros H [name values] Hin. now apply H. }
  assert (Hdels : dels = []
                  <-> forall dtdef,
                      In dtdef (Live.data_type_definitions folder) ->
                      dict_has (data_type_definitions self)
                               (Live.dtd_long_name dtdef) = true).
  { unfold dels. split.
    - intros H dtdef Hin.
      pose proof (proj1 (filter_nil _ _) H dtdef Hin) as E.
      now apply Bool.negb_false_iff in E.
    - intros H. apply filter_nil. intros dtdef Hin.
      apply Bool.negb_false_iff. now apply H. }
  split.
  - intros H. apply app_eq_nil in H. destruct H as [Hbase Hmods].
    assert (Hcreations :
              filter (fun action => negb (dict_has action "parent")) actions
              = []).
    { destruct (filter (fun action => negb (dict_has action "parent")) actions);
        [reflexivity|].
      destruct (map _ dels); discriminate Hbase. }
    split.
    + apply Hactions.
      apply (filter_partition_nil (fun action : Dict => dict_has action "parent"));
        assumption.
    + apply Hdels. rewrite Hcreations in Hbase.
      destruct dels; [reflexivity | discriminate Hbase].
  - intros [Ha Hd]. apply Hactions in Ha. apply Hdels in Hd.
    rewrite Ha, Hd. reflexivity.
Qed.

(** X9. For an attribute definition of the snapshot that the requirement
    type holds under its name, once: when the snapshot does not declare it
    an enumeration there is no action, whatever kind the snapshot gives;
    when it does and the definition of the model is an enumeration, there
    is no action exactly when the definition refers to the data type of
    its own name and the snapshot gives no [multi_values], or [None], or
    what the model holds. *)
Theorem attribute_definition_mod_action_found (self : TrackerChange)
  (reqtype : Live.RequirementType) (name : string)
  (data : Snapshot.AttributeDefinition) (attrdef : Live.AttributeDefinition) :
  single (fun a => String.eqb (Live.ad_long_name a) name)
         (Live.attribute_definitions reqtype) = Ok attrdef ->
  (Snapshot.adef_type data <> "Enum" ->
   attribute_definition_mod_action self reqtype name data = Ok None)
  /\ forall multi_valued,
      Snapshot.adef_type data = "Enum" ->
      Live.ad_multi_valued attrdef = Some multi_valued ->
      exists action,
        attribute_definition_mod_action self reqtype name data = Ok action
        /\ (action = None
            <-> Live.ad_data_type attrdef = Some name
                /\ match Snapshot.multi_values data with
                   | Some multi_values =>
                       multi_values = VNone
                       \/ py_eqb (VBool multi_valued) multi_values = true
                   | None => True
                   end).
Proof.
  intros Hsingle. unfold attribute_definition_mod_action. rewrite Hsingle.
  apply single_Ok in Hsingle. destruct Hsingle as [Hname _].
  rewrite Hname. cbn [negb]. split.
  - intros Hkind.
    destruct (String.eqb_spec (Snapshot.adef_type data) "Enum");
      [contradiction | reflexivity].
  - intros multi_valued Hkind Hmulti. rewrite Hkind, Hmulti.
    cbn [String.eqb Ascii.eqb Bool.eqb bind].
    assert (Hdtype :
              forall mods : Dict,
                mods = match Live.ad_data_type attrdef with
                       | Some dtype =>
                           if negb (String.eqb dtype name)
                           then dict_set [] "data_type" (VStr name) else []
                       | None => dict_set [] "data_type" (VStr name)
                       end ->
                (mods = [] <-> Live.ad_data_type attrdef = Some name)
                /\ forall v, dict_set mods "multi_valued" v <> []).
    { intros mods ->. destruct (Live.ad_data_type attrdef) as [dtype|].
      - destruct (String.eqb_spec dtype name) as [->|Hne]; cbn [negb].
        + split; [tauto | discriminate].
        + split; [|discriminate].
          split; [discriminate | intros [= E]; contradiction].
      - split; [|discriminate]. split; discriminate. }
    specialize (Hdtype _ eq_refl). destruct Hdtype as [Hdtype Hset].
    set (mods := match Live.ad_data_type attrdef with
                 | Some _ => _
                 | None => _
                 end) in *.
    destruct (Snapshot.multi_values data) as [multi_values|].
    + destruct (negb (py_eqb (VBool multi_valued) multi_values)
                && is_not_None (Some multi_values)) eqn:Hdiffers;
        cbn [bind].
      * specialize (Hset multi_values).
        destruct (dict_set mods "multi_valued" multi_values) as [|kv rest];
          [contradiction|].
        eexists. split; [reflexivity|]. split; [discriminate|].
        intros [_ [->|Heq]]; [now rewrite Bool.andb_false_r in Hdiffers|].
        now rewrite Heq in Hdiffers.
      * assert (Hsame : multi_values = VNone
                        \/ py_eqb (VBool multi_valued) multi_values = true).
        { apply Bool.andb_false_iff in Hdiffers.
          destruct Hdiffers as [H|H].
          - right. now apply Bool.negb_false_iff in H.
          - left. now destruct multi_values. }
        destruct mods as [|kv rest].
        -- eexists. split; [reflexivity|]. split; [|reflexivity].
           intros _. split; [now apply Hdtype | assumption].
        -- eexists. split; [reflexivity|]. split; [discriminate|].
           intros [H _]. apply Hdtype in H. discriminate.
    + destruct mods as [|kv rest].
      * eexists. split; [reflexivity|]. split; [|reflexivity].
        intros _. split; [now apply Hdtype | trivial].
      * eexists. split; [reflexivity|]. split; [discriminate|].
        intros [H _]. apply Hdtype in H. discriminate.
Qed.

Lemma attribute_definition_mod_action_found_witness :
  attribute_definition_mod_action Samples.Recount.self
    Samples.Recount.reqtype "Count"
    {| Snapshot.adef_type := "String"; Snapshot.multi_values := None |}
  = Ok None
  /\ (exists action,
        attribute_definition_mod_action Examples.Literals.self
          Samples.Status.reqtype "Status"
          {| Snapshot.adef_type := "Enum"; Snapshot.multi_values := None |}
        = Ok action
        /\ (action = None
            <-> Live.ad_data_type Samples.Status.status_definition
                = Some "Status"
                /\ True))
  /\ (exists action,
        attribute_definition_mod_action Examples.Literals.self
          Samples.Status.reqtype "Status"
          {| Snapshot.adef_type := "Enum";
             Snapshot.multi_values := Some (VBool true) |}
        = Ok action
        /\ (action = None
            <-> Live.ad_data_type Samples.Status.status_definition
                = Some "Status"
                /\ (VBool true = VNone
                    \/ py_eqb (VBool false) (VBool true) = true))).
Proof.
  split; [|split].
  - apply (@attribute_definition_mod_action_found
             Samples.Recount.self Samples.Recount.reqtype "Count"
             {| Snapshot.adef_type := "String";
                Snapshot.multi_values := None |}
             Samples.Recount.count_definition eq_refl).
    discriminate.
  - exact (proj2 (@attribute_definition_mod_action_found
                    Examples.Literals.self Samples.Status.reqtype "Status"
                    {| Snapshot.adef_type := "Enum";
                       Snapshot.multi_values := None |}
                    Samples.Status.status_definition eq_refl)
                 false eq_refl eq_refl).
  - exact (proj2 (@attribute_definition_mod_action_found
                    Examples.Literals.self Samples.Status.reqtype "Status"
                    {| Snapshot.adef_type := "Enum";
                       Snapshot.multi_values := Some (VBool true) |}
                    Samples.Status.status_definition eq_refl)
                 false eq_refl eq_refl).
Defined.

Lemma attribute_definition_mod_actions_nil (self : TrackerChange)
  (reqtype : Live.RequirementType)
  (attrs : list (string * Snapshot.AttributeDefinition)) :
  attribute_definition_mod_actions self reqtype attrs = Ok []
  <-> forall name data,
      In (name, data) attrs ->
      attribute_definition_mod_action self reqtype name data = Ok None.
Proof.
  induction attrs as [|[name data] attrs IH];
    cbn [attribute_definition_mod_actions].
  - split; [intros _ ? ? [] | reflexivity].
  - split.
    + intros H. rstep H as action Haction. rstep H as actions Hactions.
      destruct action as [action|]; [discriminate|]. injection H as ->.
      intros name' data' [[= <- <-]|Hin]; [assumption|].
      now apply IH.
    + intros H. rewrite (H name data) by now left. cbn [bind].
      assert (Hrest : attribute_definition_mod_actions self reqtype attrs
                      = Ok []).
      { apply IH. intros name' data' Hin. apply H. now right. }
      now rewrite Hrest.
Qed.

(** X10. A requirement type of the snapshot brings no action exactly when
    the types folder holds it under its identifier, once, with the name of
    the snapshot, the snapshot gives its attributes, none of them asks for
    an action, and every attribute definition of the model is one of the
    snapshot. *)
Theorem requirement_type_mod_action_nil (self : TrackerChange)
  (folder : Live.RequirementsTypesFolder) (identifier : string)
  (item : Snapshot.RequirementType) :
  requirement_type_mod_action self folder identifier item = Ok []
  <-> exists reqtype attributes,
      single (fun t => String.eqb (Live.rt_identifier t) identifier)
             (Live.requirement_types folder) = Ok reqtype
      /\ Snapshot.rt_attributes item = Some attributes
      /\ Live.rt_long_name reqtype = Snapshot.rt_long_name item
      /\ (forall name data,
            In (name, data) attributes ->
            attribute_definition_mod_action self reqtype name data = Ok None)
      /\ (forall adef,
            In adef (Live.attribute_definitions reqtype) ->
            dict_has attributes (Live.ad_long_name adef) = true).
Proof.
  unfold requirement_type_mod_action.
  destruct (single _ (Live.requirement_types folder)) as [reqtype|e];
    [|split; [discriminate | intros (? & ? & [=] & _)]].
  destruct (Snapshot.rt_attributes item) as [attributes|];
    [|split; [discriminate | intros (? & ? & _ & [=] & _)]].
  split.
  - intros H. rstep H as actions Hactions. injection H as H.
    apply app_eq_nil in H. destruct H as [Hbase Hmods].
    exists reqtype, attributes. split; [reflexivity|]. split; [reflexivity|].
    destruct (String.eqb_spec (Live.rt_long_name reqtype)
                              (Snapshot.rt_long_name item)) as [Hname|Hname];
      cbn [negb] in Hbase.
    + destruct (filter (fun action => negb (dict_has action "parent")) actions)
        as [|c creations] eqn:Hcreations.
      * destruct (map _ (filter _ (Live.attribute_definitions reqtype)))
          as [|d deletions] eqn:Hdeletions.
        -- split; [assumption|]. split.
           ++ apply attribute_definition_mod_actions_nil.
              rewrite Hactions. f_equal.
              apply (filter_partition_nil
                       (fun action : Dict => dict_has action "parent"));
                assumption.
           ++ apply map_eq_nil in Hdeletions. intros adef Hin.
              pose proof (proj1 (filter_nil _ _) Hdeletions adef Hin) as E.
              now apply Bool.negb_false_iff in E.
        -- cbn [dict_set String.eqb Ascii.eqb Bool.eqb] in Hbase.
           rewrite only_parent_two in Hbase by discriminate. discriminate.
      * destruct (map _ (filter _ (Live.attribute_definitions reqtype)));
          cbn [dict_set String.eqb Ascii.eqb Bool.eqb] in Hbase;
          rewrite only_parent_two in Hbase by discriminate; discriminate.
    + destruct (filter (fun action => negb (dict_has action "parent")) actions);
        destruct (map _ (filter _ (Live.attribute_definitions reqtype)));
        cbn [dict_set String.eqb Ascii.eqb Bool.eqb] in Hbase;
        rewrite only_parent_two in Hbase by discriminate; discriminate.
  - intros (reqtype' & attributes' & [= <-] & [= <-] & Hname & Hattrs & Hlive).
    apply attribute_definition_mod_actions_nil in Hattrs.
    rewrite Hattrs. cbn [bind filter]. rewrite Hname, String.eqb_refl.
    cbn [negb].
    assert (Hdeletions :
              filter (fun adef => negb (dict_has attributes
                                          (Live.ad_long_name adef)))
                     (Live.attribute_definitions reqtype) = []).
    { apply filter_nil. intros adef Hin. apply Bool.negb_false_iff.
      now apply Hlive. }
    rewrite Hdeletions. reflexivity.
Qed.

(** ** More on the creation and the modification of work items *)

Section WorkItemsMore.
Variable self : TrackerChange.

Lemma create_attributes_unknown_type (req_type_id : string)
  (attributes : list (string * Primitive)) :
  req_type_id <> EmptyString ->
  dict_get (requirement_types self) req_type_id = None ->
  (exists name value,
      In (name, value) attributes /\ _blacklisted name value = false) ->
  create_attributes self (Some req_type_id) attributes = Raise KeyError.
Proof.
  intros Hid Hunknown (name & value & Hin & Hvalue).
  induction attributes as [|[name' value'] rest IH]; [contradiction|].
  cbn [create_attributes].
  destruct (_blacklisted name' value') eqn:Hb.
  - destruct Hin as [[= -> ->]|Hin]; [congruence|].
    now rewrite (IH Hin).
  - destruct req_type_id as [|c id]; [contradiction|].
    unfold dict_item. now rewrite Hunknown.
Qed.

Lemma mod_attributes_unknown_type (req : Live.WorkItem)
  (req_type : Live.RequirementType)
  (attributes : list (string * Primitive)) :
  Live.type req = Some req_type ->
  dict_get (requirement_types self) (Live.rt_identifier req_type) = None ->
  (exists name value,
      In (name, value) attributes /\ _blacklisted name value = false) ->
  forall creations modifications,
    mod_attributes self req attributes creations modifications
    = Raise KeyError.
Proof.
  intros Htype Hunknown (name & value & Hin & Hvalue).
  assert (Hcheck : forall n v,
            check_attribute_value_is_valid
              self n v (Live.rt_identifier req_type) = Raise KeyError).
  { intros n v. unfold check_attribute_value_is_valid, dict_item.
    now rewrite Hunknown. }
  assert (Haction : forall n v,
            attribute_value_mod_action self req n v = Raise KeyError).
  { intros n v. unfold attribute_value_mod_action. rewrite Htype.
    unfold attribute_value_create_action. now rewrite Hcheck. }
  induction attributes as [|[name' value'] rest IH];
    intros creations modifications; [contradiction|].
  cbn [mod_attributes].
  destruct (match value' with PNone => false | _ => true end
            && _blacklisted name' value') eqn:Hskip.
  - destruct Hin as [[= -> ->]|Hin]; [|now apply IH].
    rewrite Hvalue, Bool.andb_false_r in Hskip. discriminate.
  - now rewrite Haction.
Qed.

End WorkItemsMore.

(** X11. An item that is to be created, of a requirement type that the
    snapshot does not declare and with an attribute that is not passed
    over, raises [KeyError], whatever the state of the run. *)
Theorem creation_needs_declared_type (self : TrackerChange)
  (item : Snapshot.WorkItem) (req_type_id : string) (st : State) :
  Snapshot.type item = Some req_type_id ->
  req_type_id <> EmptyString ->
  dict_get (requirement_types self) req_type_id = None ->
  (exists name value,
      In (name, value) (Snapshot.attributes item)
      /\ _blacklisted name value = false) ->
  requirements_create_actions self item st = Raise KeyError.
Proof.
  intros Htype Hid Hunknown Hattr.
  rewrite requirements_create_actions_eq. unfold bindM, lift.
  rewrite Htype.
  now rewrite (@create_attributes_unknown_type self req_type_id _ Hid Hunknown Hattr).
Qed.

Lemma creation_needs_declared_type_witness :
  requirements_create_actions
    Examples.Unknown.self Examples.Unknown.item initial_state
  = Raise KeyError.
Proof.
  apply (@creation_needs_declared_type
           Examples.Unknown.self Examples.Unknown.item "Ghost" initial_state).
  - reflexivity.
  - discriminate.
  - reflexivity.
  - exists "Priority", (PStr "high"). split; [now left | reflexivity].
Defined.

(** X12. The attributes of an item found in the model are checked against
    the requirement type that the model gives the element, not the one of
    the snapshot: when the snapshot does not declare that type and the item
    has an attribute that is not passed over, the modification raises
    [KeyError], whatever the parent and the state of the run. *)
Theorem modification_needs_declared_live_type (self : TrackerChange)
  (item : Snapshot.WorkItem) (req : Live.WorkItem)
  (req_type : Live.RequirementType) (parent : Parent) (st : State) :
  Live.type req = Some req_type ->
  dict_get (requirement_types self) (Live.rt_identifier req_type) = None ->
  (exists name value,
      In (name, value) (Snapshot.attributes item)
      /\ _blacklisted name value = false) ->
  yield_requirements_mod_actions self item req parent st = Raise KeyError.
Proof.
  intros Htype Hunknown Hattr.
  rewrite yield_requirements_mod_actions_eq. unfold bindM, lift, mod_base.
  now rewrite (@mod_attributes_unknown_type self req req_type _ Htype Hunknown Hattr).
Qed.

Lemma modification_needs_declared_live_type_witness :
  yield_requirements_mod_actions
    Samples.Retyped.self Samples.Retyped.item Samples.Retyped.requirement
    ParentNone initial_state
  = Raise KeyError.
Proof.
  apply (@modification_needs_declared_live_type
           Samples.Retyped.self Samples.Retyped.item
           Samples.Retyped.requirement Samples.Retyped.old_type
           ParentNone initial_state).
  - reflexivity.
  - reflexivity.
  - exists "Priority", (PStr "high"). split; [now left | reflexivity].
Defined.

Lemma create_attributes_hint (self : TrackerChange) (req_type_id : string)
  (attributes : list (string * Primitive)) (actions : list Value)
  (hint : bool) :
  req_type_id <> EmptyString ->
  In ("Type", PStr "Folder") attributes ->
  create_attributes self (Some req_type_id) attributes = Ok (actions, hint) ->
  hint = true.
Proof.
  intros Hid. revert actions hint.
  induction attributes as [|[name value] rest IH]; intros actions hint Hin H;
    [contradiction|].
  cbn [create_attributes] in H.
  destruct Hin as [[= -> ->]|Hin].
  - cbn [_blacklisted _ATTR_BLACKLIST existsb fst snd String.eqb Ascii.eqb
         Bool.eqb andb orb] in H.
    rstep H as r Hrest. destruct r as [actions' hint'].
    now injection H as _ <-.
  - destruct (_blacklisted name value).
    + rstep H as r Hrest. destruct r as [actions' hint'].
      injection H as _ <-. rewrite (IH _ _ Hin Hrest).
      apply Bool.orb_true_r.
    + destruct req_type_id as [|c id]; [contradiction|].
      rstep H as req_type Htype. rstep H as attrs Hattrs.
      rstep H as action Haction. rstep H as r Hrest.
      destruct r as [actions' hint']. injection H as _ <-. eauto.
Qed.

(** X13. An item that is to be created, with a requirement type, the
    attribute [Type: Folder] and no key [children], is never created:
    once the attributes are gone through, [item["children"]] raises
    [KeyError]. *)
Theorem folder_hint_needs_children (self : TrackerChange)
  (item : Snapshot.WorkItem) (req_type_id : string) (st : State) :
  Snapshot.children item = None ->
  Snapshot.type item = Some req_type_id ->
  req_type_id <> EmptyString ->
  In ("Type", PStr "Folder") (Snapshot.attributes item) ->
  requirements_create_actions self item st
  = match create_attributes self (Some req_type_id)
            (Snapshot.attributes item) with
    | Ok _ => Raise KeyError
    | Raise e => Raise e
    end.
Proof.
  intros Hchildren Htype Hid Hin.
  rewrite requirements_create_actions_eq. unfold bindM, lift.
  rewrite Htype, Hchildren.
  destruct (create_attributes self (Some req_type_id)
              (Snapshot.attributes item)) as [[actions hint]|e] eqn:Hattrs;
    [|reflexivity].
  now rewrite (@create_attributes_hint self req_type_id _ _ _ Hid Hin Hattrs).
Qed.

Lemma folder_hint_needs_children_witness :
  requirements_create_actions
    Samples.Flagged.self Samples.Flagged.item initial_state
  = Raise KeyError.
Proof.
  apply (@folder_hint_needs_children
           Samples.Flagged.self Samples.Flagged.item "Req" initial_state).
  - reflexivity.
  - reflexivity.
  - discriminate.
  - now left.
Defined.

(** X14. When the name, the text and the requirement type of an item
    found in the model are those of the snapshot, its action has no
    fragment [modify], whatever values of attributes were found to differ:
    the changed values are put into a mapping that is made for the
    occasion and lost. *)
Theorem attribute_modifications_need_other_modifications
  (self : TrackerChange) (req : Live.WorkItem) (item : Snapshot.WorkItem)
  (req_type : Live.RequirementType) (creations : list Value)
  (modifications : Dict) :
  Live.type req = Some req_type ->
  Live.long_name req = Snapshot.long_name item ->
  (Snapshot.text item = None \/ Snapshot.text item = Some (Live.text req)) ->
  Snapshot.type item = Some (Live.rt_identifier req_type) ->
  mod_attributes self req (Snapshot.attributes item) [] []
  = Ok (creations, modifications) ->
  exists base,
    mod_base self req item = Ok base
    /\ dict_get base "parent" = Some (UUIDReference (Live.uuid req))
    /\ dict_get base "modify" = None.
Proof.
  intros Htype Hname Htext Hitem Hattrs. unfold mod_base.
  rewrite Hattrs, Htype, Hitem. cbn [bind]. rewrite String.eqb_refl.
  assert (Hmods : _compare_simple_attributes req item = []).
  { unfold _compare_simple_attributes. rewrite Hname, String.eqb_refl.
    cbn [negb]. destruct Htext as [->| ->];
      [now destruct (Snapshot.text_first item)|].
    rewrite String.eqb_refl. now destruct (Snapshot.text_first item). }
  rewrite Hmods. cbn [dict_get String.eqb Ascii.eqb Bool.eqb].
  eexists. split; [reflexivity|].
  destruct modifications as [|m modifications];
    destruct creations as [|c creations];
    destruct (map _ (filter _ (Live.attributes req))); split; reflexivity.
Qed.

Lemma attribute_modifications_need_other_modifications_witness :
  mod_attributes Samples.Recount.self Samples.Recount.requirement
    (Snapshot.attributes Samples.Recount.item) [] []
  = Ok ([], [("Count", VInt 2)])
  /\ exists base,
      mod_base Samples.Recount.self Samples.Recount.requirement
        Samples.Recount.item = Ok base
      /\ dict_get base "parent" = Some (UUIDReference "uuid-R1")
      /\ dict_get base "modify" = None.
Proof.
  split; [reflexivity|].
  apply (@attribute_modifications_need_other_modifications
           Samples.Recount.self Samples.Recount.requirement
           Samples.Recount.item Samples.Recount.reqtype
           [] [("Count", VInt 2)]).
  - reflexivity.
  - reflexivity.
  - now left.
  - reflexivity.
  - reflexivity.
Defined.

(** X19. What the validator raises for a value, the modification of the
    attribute raises as well, and so does its creation: the handler of
    [KeyError] in [attribute_value_mod_action] runs the validator again
    and meets the same exception. *)
Theorem validator_exceptions_are_kept (self : TrackerChange)
  (req : Live.WorkItem) (req_type : Live.RequirementType) (name : string)
  (value : Primitive) (e : Exn) :
  Live.type req = Some req_type ->
  check_attribute_value_is_valid self name value (Live.rt_identifier req_type)
  = Raise e ->
  attribute_value_mod_action self req name value = Raise e
  /\ attribute_value_create_action
       self name value (Live.rt_identifier req_type) = Raise e.
Proof.
  intros Htype Hcheck.
  assert (Hcreate : attribute_value_create_action
                      self name value (Live.rt_identifier req_type) = Raise e).
  { unfold attribute_value_create_action. now rewrite Hcheck. }
  split; [|exact Hcreate].
  unfold attribute_value_mod_action. rewrite Htype, Hcheck, Hcreate.
  now destruct e.
Qed.

Lemma validator_exceptions_are_kept_witness :
  attribute_value_mod_action
    Samples.Retyped.self Samples.Retyped.requirement "Priority" (PStr "high")
  = Raise KeyError
  /\ attribute_value_create_action
       Samples.Retyped.self "Priority" (PStr "high") "Old"
     = Raise KeyError.
Proof.
  apply (@validator_exceptions_are_kept
           Samples.Retyped.self Samples.Retyped.requirement
           Samples.Retyped.old_type "Priority" (PStr "high") KeyError);
    reflexivity.
Defined.

(** X20. The children that the snapshot gives an item are not looked at
    when the element found for the item is a requirement and no folder:
    the modification is what it is for the item with any other children,
    or without the key. *)
Theorem children_of_a_requirement_are_ignored (self : TrackerChange)
  (item : Snapshot.WorkItem) (req : Live.WorkItem) (parent : Parent)
  (children : option (list Snapshot.WorkItem)) (st : State) :
  Live.is_folder req = false ->
  yield_requirements_mod_actions self (replace_children item children)
    req parent st
  = yield_requirements_mod_actions self item req parent st.
Proof.
  intros Hreq. rewrite !yield_requirements_mod_actions_eq.
  rewrite Hreq. reflexivity.
Qed.

Lemma children_of_a_requirement_are_ignored_witness :
  yield_requirements_mod_actions Samples.Recount.self
    (replace_children Samples.Recount.item
       (Some [Samples.Tree.leaf "A"]))
    Samples.Recount.requirement ParentNone initial_state
  = yield_requirements_mod_actions Samples.Recount.self
      Samples.Recount.item Samples.Recount.requirement ParentNone
      initial_state.
Proof.
  apply (@children_of_a_requirement_are_ignored
           Samples.Recount.self Samples.Recount.item
           Samples.Recount.requirement ParentNone
           (Some [Samples.Tree.leaf "A"]) initial_state).
  reflexivity.
Defined.

(** X22. The validator accepts [None] for no attribute: whatever the
    requirement type declares, it raises. *)
Theorem none_is_never_valid (self : TrackerChange) (name : string)
  (req_type_id : string) (builder : AttributeValueBuilder.t) :
  check_attribute_value_is_valid self name PNone req_type_id <> Ok builder.
Proof.
  unfold check_attribute_value_is_valid, dict_item.
  destruct (dict_get (requirement_types self) req_type_id) as [req_type|];
    [|discriminate].
  cbn [bind]. destruct (Snapshot.rt_attributes req_type) as [attrs|];
    [|discriminate].
  cbn [bind]. destruct (dict_get attrs name) as [adef|]; [|discriminate].
  cbn [bind].
  destruct (dict_get _ATTR_VALUE_DEFAULT_MAP (Snapshot.adef_type adef))
    as [cls|] eqn:Hcls; [|discriminate].
  cbn [bind].
  assert (Hnone : cls PNone = false).
  { unfold _ATTR_VALUE_DEFAULT_MAP in Hcls. cbn [dict_get] in Hcls.
    repeat match type of Hcls with
           | (if ?c then _ else _) = _ => destruct c
           end;
      try discriminate; now injection Hcls as <-. }
  rewrite Hnone. cbn [negb orb].
  destruct (String.eqb (Snapshot.adef_type adef) "Enum"); [|discriminate].
  destruct (dict_get (data_type_definitions self) name); discriminate.
Qed.

(** ** The payload of a creation *)

Section DictAppend.
Context {A : Type}.
Implicit Types (d : list (string * A)) (k : string) (v : A).

Lemma dict_get_app d d' k :
  dict_get (d ++ d') k
  = match dict_get d k with
    | Some v => Some v
    | None => dict_get d' k
    end.
Proof.
  induction d as [|[k0 v0] d IH]; simpl; [reflexivity|].
  destruct (String.eqb k k0); [reflexivity | exact IH].
Qed.

Lemma dict_del_app d d' k :
  dict_get d k = None -> dict_del (d ++ d') k = d ++ dict_del d' k.
Proof.
  induction d as [|[k0 v0] d IH]; simpl; [reflexivity|].
  destruct (String.eqb k k0); [discriminate|].
  intros H. now rewrite IH.
Qed.
End DictAppend.

Lemma with_children_eq (base : Dict) (requirements folders : list Value) :
  dict_get base "requirements" = None ->
  dict_get base "folders" = None ->
  with_children base requirements folders
  = base
    ++ match requirements with
       | [] => []
       | _ => [("requirements", VList requirements)]
       end
    ++ match folders with
       | [] => []
       | _ => [("folders", VList folders)]
       end.
Proof.
  intros Hr Hf. unfold with_children.
  rewrite (@dict_set_fresh _ base "requirements" (VList requirements) Hr).
  assert (Hf' : dict_get (base ++ [("requirements", VList requirements)])
                         "folders" = None).
  { rewrite dict_get_app, Hf. reflexivity. }
  rewrite dict_set_fresh by exact Hf'.
  destruct folders as [|f folders].
  - rewrite dict_del_app by exact Hf'. cbn [dict_del String.eqb Ascii.eqb Bool.eqb].
    rewrite app_nil_r.
    destruct requirements as [|r requirements]; [|reflexivity].
    rewrite dict_del_app by exact Hr.
    cbn [dict_del String.eqb Ascii.eqb Bool.eqb]. reflexivity.
  - destruct requirements as [|r requirements].
    + rewrite <- app_assoc. rewrite dict_del_app by exact Hr.
      cbn [app dict_del String.eqb Ascii.eqb Bool.eqb]. reflexivity.
    + now rewrite <- app_assoc.
Qed.

Lemma create_base_get (self : TrackerChange) (item : Snapshot.WorkItem)
  (attributes : list Value) :
  dict_get (create_base self item attributes) "identifier"
  = Some (VStr (Snapshot.id item))
  /\ dict_get (create_base self item attributes) "long_name"
     = Some (VStr (Snapshot.long_name item))
  /\ dict_get (create_base self item attributes) "requirements" = None
  /\ dict_get (create_base self item attributes) "folders" = None.
Proof.
  unfold create_base.
  destruct (Snapshot.text item) as [[|c t]|];
    destruct attributes as [|a attributes];
    destruct (Snapshot.type item) as [[|c' id]|];
    repeat split; reflexivity.
Qed.

Lemma mirrors_eq (self : TrackerChange) (item : Snapshot.WorkItem)
  (payload : Dict) :
  mirrors self item payload
  = (dict_get payload "identifier" = Some (VStr (Snapshot.id item))
     /\ dict_get payload "long_name" = Some (VStr (Snapshot.long_name item))
     /\ dict_get payload "requirements" <> Some (VList [])
     /\ dict_get payload "folders" <> Some (VList [])
     /\ match Snapshot.children item with
        | Some children =>
            listed (entry_of self (mirrors self)) children
              (slot_elements (dict_get payload "requirements"))
              (slot_elements (dict_get payload "folders"))
        | None =>
            dict_get payload "requirements" = None
            /\ dict_get payload "folders" = None
        end).
Proof. destruct item; reflexivity. Qed.

Lemma listed_app (entry : Snapshot.WorkItem -> Value -> Prop)
  (child : Snapshot.WorkItem) (v : Value) (children : list Snapshot.WorkItem)
  (requirements folders : list Value) :
  entry child v ->
  listed entry children requirements folders ->
  listed entry (child :: children)
    (if has_children child then requirements else v :: requirements)
    (if has_children child then v :: folders else folders).
Proof. intros Hv Hrest. cbn [listed]. now destruct (has_children child). Qed.

Section ChildrenListed.
Variable self : TrackerChange.
Variable create : Snapshot.WorkItem -> M (Dict * list nat).
Variable modify :
  Snapshot.WorkItem -> Live.WorkItem -> Parent -> M (list nat).
Variable describes : Snapshot.WorkItem -> Dict -> Prop.

(** Each child adds its entry, to the folders when it has children of
    its own and to the requirements otherwise. *)
Lemma create_children_listed children :
  Forall (fun child =>
            forall st payload child_mods st',
              create child st = Ok ((payload, child_mods), st') ->
              describes child payload) children ->
  forall requirements folders child_mods st requirements' folders'
         child_mods' st',
    create_children self create modify children requirements folders
      child_mods st
    = Ok ((requirements', folders', child_mods'), st') ->
    exists more_requirements more_folders,
      requirements' = requirements ++ more_requirements
      /\ folders' = folders ++ more_folders
      /\ listed (entry_of self describes) children
           more_requirements more_folders.
Proof.
  induction children as [|child children IH];
    intros Hcreate requirements folders child_mods st requirements'
           folders' child_mods' st' H;
    cbn [create_children] in H.
  - apply ret_Ok in H. destruct H as [[= -> -> _] _].
    exists [], []. rewrite !app_nil_r. now repeat split.
  - inversion Hcreate as [|? ? Hchild Hrest]; subst.
    mstep H as r st1 Hrun. destruct r as [action child_actions].
    assert (Hentry : entry_of self describes child action).
    { unfold entry_of.
      destruct (work_item_by_identifier (reqfinder self) (Snapshot.id child))
        as [creq|].
      - mstep Hrun as actions st2 Hmod.
        apply ret_Ok in Hrun. now destruct Hrun as [[= -> _] _].
      - mstep Hrun as x st2 Hnew. destruct x as [payload actions].
        apply ret_Ok in Hrun. destruct Hrun as [[= -> _] _].
        exists payload. split; [reflexivity|]. eapply Hchild, Hnew. }
    pose proof (@listed_app (entry_of self describes) child action children)
      as Happ.
    destruct (has_children child);
      apply (IH Hrest) in H;
      destruct H as (rs & fs & -> & -> & Hlisted);
      specialize (Happ _ _ Hentry Hlisted).
    + exists rs, (action :: fs). rewrite <- app_assoc. now repeat split.
    + exists (action :: rs), fs. rewrite <- app_assoc. now repeat split.
Qed.
End ChildrenListed.

(** The payload of every creation mirrors its item. *)
Lemma requirements_create_actions_mirrors (self : TrackerChange)
  (item : Snapshot.WorkItem) :
  forall st payload child_mods st',
    requirements_create_actions self item st
    = Ok ((payload, child_mods), st') ->
    mirrors self item payload.
Proof.
  induction item as [id long_name text text_first type attributes children IH].
  intros st payload child_mods st' H.
  rewrite requirements_create_actions_eq in H. rewrite mirrors_eq.
  mstep H as r st1 Hattrs. destruct r as [attrs hint].
  set (item := {| Snapshot.id := id; Snapshot.long_name := long_name;
                  Snapshot.text := text; Snapshot.text_first := text_first;
                  Snapshot.type := type; Snapshot.attributes := attributes;
                  Snapshot.children := children |}) in *.
  destruct (create_base_get self item attrs) as (Hid & Hname & Hr & Hf).
  cbn [Snapshot.children item] in *. destruct children as [cs|].
  - inversion IH as [? Hall|]; subst. apply list_all_Forall in Hall.
    mstep H as r st2 Hloop. destruct r as [[requirements folders] mods].
    apply ret_Ok in H. destruct H as [[= -> _] _].
    apply create_children_listed with (describes := mirrors self) in Hloop;
      [|exact Hall].
    destruct Hloop as (rs & fs & -> & -> & Hlisted). cbn [app] in *.
    rewrite (@with_children_eq _ rs fs Hr Hf).
    rewrite !dict_get_app, Hid, Hname, Hr, Hf.
    destruct rs as [|r rs]; destruct fs as [|f fs];
      cbn [dict_get String.eqb Ascii.eqb Bool.eqb slot_elements];
      repeat split; try discriminate; try reflexivity; exact Hlisted.
  - destruct hint; [apply lift_Ok in H; destruct H; discriminate|].
    apply ret_Ok in H. destruct H as [[= -> _] _].
    rewrite Hid, Hname, Hr, Hf.
    repeat split; reflexivity || discriminate.
Qed.

(** X15. The payload that creates an item mirrors the item. It carries
    the identifier and the name of the item. Its lists [requirements] and
    [folders] hold one entry for each child of the item and nothing else,
    in the order of the children: the entry of a child with children of
    its own is among the folders, that of any other child among the
    requirements; the entry is a reference to the element that the finder
    gives for the child or, when there is none, a payload that mirrors the
    child in turn. The payload has neither list when the item has no key
    [children], and no list that is empty. *)
Theorem creation_payload_mirrors_item (self : TrackerChange)
  (item : Snapshot.WorkItem) (st st' : State) (payload : Dict)
  (child_mods : list nat) :
  requirements_create_actions self item st = Ok ((payload, child_mods), st') ->
  mirrors self item payload.
Proof. apply requirements_create_actions_mirrors. Qed.

Lemma creation_payload_mirrors_item_witness :
  mirrors Samples.Tree.self Samples.Tree.item Samples.Tree.payload.
Proof.
  apply (@creation_payload_mirrors_item
           Samples.Tree.self Samples.Tree.item initial_state initial_state
           Samples.Tree.payload []).
  reflexivity.
Defined.

(** ** Retracting a deletion *)

Lemma list_remove_present (uuid : string) (uuids : list string) :
  NoDup uuids -> In uuid uuids ->
  list_remove (UUIDReference uuid) (map UUIDReference uuids)
  = Ok (map UUIDReference (remove string_dec uuid uuids)).
Proof.
  induction 1 as [|u uuids Hout Hnodup IH]; intros Hin; [contradiction|].
  cbn [map list_remove]. unfold UUIDReference at 1 2.
  cbn [py_eqb ref_eqb]. cbn [remove].
  destruct (String.eqb_spec u uuid) as [->|Hne].
  - destruct (string_dec uuid uuid) as [_|Hne]; [|contradiction].
    now rewrite notin_remove.
  - destruct (string_dec uuid u) as [E|_]; [now symmetry in E|].
    destruct Hin as [E|Hin]; [contradiction|].
    fold (UUIDReference uuid). rewrite (IH Hin). reflexivity.
Qed.

Lemma list_remove_absent (uuid : string) (uuids : list string) :
  ~ In uuid uuids ->
  list_remove (UUIDReference uuid) (map UUIDReference uuids)
  = Raise ValueError.
Proof.
  induction uuids as [|u uuids IH]; intros Hout; [reflexivity|].
  cbn [map list_remove]. unfold UUIDReference at 1 2.
  cbn [py_eqb ref_eqb].
  destruct (String.eqb_spec u uuid) as [->|Hne].
  - exfalso. apply Hout. now left.
  - fold (UUIDReference uuid). rewrite IH; [reflexivity|].
    intros Hin. apply Hout. now right.
Qed.

(** X16. [_invalidate_deletion] is not to be called twice for an
    element: when the element is recorded for deletion in a list that
    holds other elements too, the first call takes it out of the list and
    the second raises [ValueError], for [list.remove] does not find it. *)
Theorem _invalidate_deletion_twice (requirement : Live.WorkItem)
  (st : State) (address : nat) (deletions : Dict) (uuids : list string) :
  dict_get (_req_deletions st) (Live.uuid requirement) = Some address ->
  address < length (cells st) ->
  dict_get (cell st address) "delete" = Some (VDict deletions) ->
  dict_get deletions
    (if Live.is_folder requirement then "folders" else "requirements")
  = Some (VList (map UUIDReference uuids)) ->
  NoDup uuids ->
  In (Live.uuid requirement) uuids ->
  (exists other, In other uuids /\ other <> Live.uuid requirement) ->
  exists st',
    _invalidate_deletion requirement st = Ok (tt, st')
    /\ nested_get (cell st' address) "delete"
         (if Live.is_folder requirement then "folders" else "requirements")
       = Some (VList (map UUIDReference
                        (remove string_dec (Live.uuid requirement) uuids)))
    /\ _invalidate_deletion requirement st' = Raise ValueError.
Proof.
  intros Hreg Hrange Hdelete Hslot Hnodup Hin (other & Hother & Hne).
  set (key := if Live.is_folder requirement then "folders"
              else "requirements") in *.
  set (rest := remove string_dec (Live.uuid requirement) uuids).
  assert (Hrest : exists r rest', map UUIDReference rest = r :: rest').
  { assert (Hin' : In other rest) by now apply in_in_remove.
    destruct rest as [|r rest']; [contradiction|].
    now exists (UUIDReference r), (map UUIDReference rest'). }
  destruct Hrest as (r & rest' & Hrest).
  set (deletions' := dict_set deletions key (VList (map UUIDReference rest))).
  assert (Hdeletions' : exists kv more, deletions' = kv :: more).
  { unfold deletions'. destruct deletions as [|[k v] more]; [discriminate|].
    cbn [dict_set]. destruct (String.eqb key k); eauto. }
  destruct Hdeletions' as (kv & more & Hdeletions').
  set (action' := dict_set (cell st address) "delete" (VDict deletions')).
  exists {| cells := set_nth (cells st) address action';
            _location_changed := _location_changed st;
            _req_deletions := _req_deletions st |}.
  assert (Hcell : cell {| cells := set_nth (cells st) address action';
                          _location_changed := _location_changed st;
                          _req_deletions := _req_deletions st |} address
                  = action').
  { unfold cell. cbn [cells]. rewrite nth_set_nth, Nat.eqb_refl.
    apply Nat.ltb_lt in Hrange. now rewrite Hrange. }
  split; [|split].
  - unfold _invalidate_deletion. rewrite Hreg, Hdelete. fold key.
    rewrite Hslot, (@list_remove_present _ _ Hnodup Hin). cbn [bind].
    fold rest. rewrite Hrest. rewrite <- Hrest. fold deletions'.
    rewrite Hdeletions'. rewrite <- Hdeletions'. reflexivity.
  - rewrite Hcell. unfold nested_get, action'. rewrite dict_get_set_same.
    unfold deletions'. apply dict_get_set_same.
  - unfold _invalidate_deletion. cbn [_req_deletions]. rewrite Hreg, Hcell.
    unfold action' at 1. rewrite dict_get_set_same. fold key.
    unfold deletions' at 1. rewrite dict_get_set_same.
    rewrite list_remove_absent; [reflexivity|].
    apply remove_In.
Qed.

Lemma _invalidate_deletion_twice_witness :
  exists st',
    _invalidate_deletion (Samples.Recorded.requirement "uuid-R1" "R1")
      Samples.Recorded.state = Ok (tt, st')
    /\ nested_get (cell st' 0) "delete" "requirements"
       = Some (VList [UUIDReference "uuid-R2"])
    /\ _invalidate_deletion (Samples.Recorded.requirement "uuid-R1" "R1") st'
       = Raise ValueError.
Proof.
  apply (@_invalidate_deletion_twice
           (Samples.Recorded.requirement "uuid-R1" "R1")
           Samples.Recorded.state 0 Samples.Recorded.deletions
           ["uuid-R1"; "uuid-R2"]).
  - reflexivity.
  - repeat constructor.
  - reflexivity.
  - reflexivity.
  - repeat constructor; simpl; intuition discriminate.
  - now left.
  - exists "uuid-R2". split; [right; now left | discriminate].
Defined.

(** ** The deletions below the module *)

Lemma _add_action_safely_other (base base' : Dict)
  (first_key second_key k : string) (action : Value) :
  _add_action_safely base first_key second_key action = Ok base' ->
  k <> first_key -> dict_get base' k = dict_get base k.
Proof.
  rewrite _add_action_safely_eq. intros H Hk.
  destruct (dict_get base first_key) as [[| | | | | | | | |first]|];
    try discriminate.
  - destruct (dict_get first second_key) as [[| | | | | | | |l|]|];
      try discriminate; injection H as <-; now apply dict_get_set_other.
  - injection H as <-. now apply dict_get_set_other.
Qed.

Lemma _deep_update_parent_first (base rest : Dict) (r : RefArg) :
  _deep_update base (("parent", VRef r) :: rest)
  = _deep_update (dict_set base "parent" (VRef r)) rest.
Proof. reflexivity. Qed.

Section ModuleDeletions.
Variable self : TrackerChange.

(** What the loop over the items makes of [visited], and what it keeps
    of [base]. *)
Lemma reconcile_items_visited items :
  forall base visited actions st base' visited' actions' st',
    reconcile_items self items base visited actions st
    = Ok ((base', visited', actions'), st') ->
    visited'
    = visited
      ++ flat_map (fun item =>
                     match work_item_by_identifier
                             (reqfinder self) (Snapshot.id item) with
                     | Some req => [Live.identifier req]
                     | None => []
                     end) items
    /\ forall k, k <> "extend" -> dict_get base' k = dict_get base k.
Proof.
  induction items as [|item items IH];
    intros base visited actions st base' visited' actions' st' H;
    cbn [reconcile_items] in H.
  - apply ret_Ok in H. destruct H as [[= -> -> _] _].
    split; [now rewrite app_nil_r | reflexivity].
  - mstep H as r st1 Hstep. destruct r as [[base1 visited1] req_actions].
    apply IH in H. destruct H as [-> Hkeys].
    assert (Hone : visited1
                   = visited
                     ++ match work_item_by_identifier
                                (reqfinder self) (Snapshot.id item) with
                        | Some req => [Live.identifier req]
                        | None => []
                        end
                   /\ forall k, k <> "extend" ->
                                dict_get base1 k = dict_get base k).
    { destruct (work_item_by_identifier (reqfinder self) (Snapshot.id item))
        as [req|].
      - mstep Hstep as base2 st2 Hmoved. mstep Hstep as mods st3 Hmod.
        apply ret_Ok in Hstep. destruct Hstep as [[= -> -> _] _].
        split; [reflexivity|].
        destruct (parent_differs self req ParentNone).
        + mstep Hmoved as base3 st4 Hadd.
          apply lift_Ok in Hadd. destruct Hadd as [Hadd _].
          mstep Hmoved as u st5 Hloc. mstep Hmoved as u' st6 Hinv.
          apply ret_Ok in Hmoved. destruct Hmoved as [-> _].
          intros k Hk. eapply _add_action_safely_other; eassumption.
        + apply ret_Ok in Hmoved. destruct Hmoved as [-> _]. reflexivity.
      - mstep Hstep as r st2 Hnew. destruct r as [payload mods].
        mstep Hstep as base2 st3 Hadd.
        apply lift_Ok in Hadd. destruct Hadd as [Hadd _].
        apply ret_Ok in Hstep. destruct Hstep as [[= -> -> _] _].
        split; [now rewrite app_nil_r|].
        intros k Hk. eapply _add_action_safely_other; eassumption. }
    destruct Hone as [-> Hkeys1]. split.
    + now rewrite <- app_assoc.
    + intros k Hk. rewrite Hkeys by assumption. now apply Hkeys1.
Qed.

(** Merging the deletions of one kind into the action on the module. *)
Lemma req_delete_actions_merged visited elements attr_name base base' :
  raised (_deep_update base
            (req_delete_actions self visited elements attr_name))
  = Ok base' ->
  dict_get base' "parent"
  = Some (UUIDReference (Live.m_uuid (req_module self)))
  /\ match unvisited visited elements with
     | [] => dict_get base' "delete" = dict_get base "delete"
     | _ =>
         exists existing,
           (dict_get base "delete" = None /\ existing = []
            \/ dict_get base "delete" = Some (VDict existing))
           /\ dict_get base' "delete"
              = Some (VDict (dict_set existing attr_name
                               (VList (map VRef
                                         (unvisited visited elements)))))
     end.
Proof.
  unfold req_delete_actions, unvisited, UUIDReference.
  set (gone := filter _ elements).
  assert (Hrefs : map (fun req => VRef (ByUUID (Live.c_uuid req))) gone
                  = map VRef (map (fun element =>
                                     ByUUID (Live.c_uuid element)) gone))
    by now rewrite map_map.
  rewrite Hrefs.
  destruct (map (fun element => ByUUID (Live.c_uuid element)) gone)
    as [|r refs]; cbn [map]; rewrite _deep_update_parent_first.
  - cbn [_deep_update _deep_update_with _deep_update_items raised].
    intros [= <-].
    split; [apply dict_get_set_same|].
    now apply dict_get_set_other.
  - intros H. apply raised_Ok in H. apply _deep_update_slots in H;
      [|constructor; [eexists; reflexivity | constructor] | discriminate].
    destruct H as (existing & Hexisting & ->).
    rewrite dict_get_set_other in Hexisting by discriminate.
    split.
    + rewrite dict_get_set_other by discriminate. apply dict_get_set_same.
    + exists existing. split; [exact Hexisting|].
      rewrite dict_get_set_same. reflexivity.
Qed.
End ModuleDeletions.

Lemma references_of_refs (refs : list RefArg) :
  flat_map (fun v => match v with VRef r => [r] | _ => [] end)
           (map VRef refs) = refs.
Proof. induction refs as [|r refs IH]; simpl; [|rewrite IH]; reflexivity. Qed.

Lemma slot_references_none (action : Dict) (k : string) :
  dict_get action k = None -> slot_references action k = [].
Proof. unfold slot_references. now intros ->. Qed.



(** ** The removal of the actions that were left void *)

Section RemovalMore.
Implicit Types (action : Dict) (actions : list Dict).

Lemma actions_remove_raises action actions e :
  actions_remove action actions = Raise e -> e = ValueError.
Proof.
  induction actions as [|a actions IH]; cbn [actions_remove].
  - now intros [= <-].
  - destruct (py_eqb (VDict a) (VDict action)); [discriminate|].
    destruct (actions_remove action actions); [discriminate|].
    intros [= <-]. now apply IH.
Qed.

Lemma actions_remove_absent action actions :
  occurrences action actions = 0 ->
  actions_remove action actions = Raise ValueError.
Proof.
  unfold occurrences.
  induction actions as [|a actions IH]; cbn [actions_remove filter];
    [reflexivity|].
  destruct (py_eqb (VDict a) (VDict action)); [discriminate|].
  intros H. now rewrite IH.
Qed.

Lemma actions_remove_one action actions actions' :
  actions_remove action actions = Ok actions' ->
  occurrences action actions = S (occurrences action actions').
Proof.
  unfold occurrences. revert actions'.
  induction actions as [|a actions IH]; intros actions';
    cbn [actions_remove filter]; [discriminate|].
  destruct (py_eqb (VDict a) (VDict action)) eqn:E.
  - now intros [= <-].
  - intros H. rstep H as r Hr. injection H as <-.
    cbn [filter]. rewrite E. now apply IH.
Qed.

Lemma actions_remove_fewer action other actions actions' :
  actions_remove action actions = Ok actions' ->
  occurrences other actions' <= occurrences other actions.
Proof.
  unfold occurrences. revert actions'.
  induction actions as [|a actions IH]; intros actions';
    cbn [actions_remove]; [discriminate|].
  destruct (py_eqb (VDict a) (VDict action)).
  - intros [= <-]. cbn [filter].
    destruct (py_eqb (VDict a) (VDict other)); cbn [length]; auto.
  - intros H. rstep H as r Hr. injection H as <-.
    cbn [filter]. specialize (IH _ Hr).
    destruct (py_eqb (VDict a) (VDict other)); cbn [length];
      [now apply le_n_S | assumption].
Qed.

Lemma remove_void_deletions_step st uuid address deletions actions :
  remove_void_deletions st ((uuid, address) :: deletions) actions
  = bind (if only_parent (cell st address)
          then actions_remove (cell st address) actions
          else Ok actions)
      (remove_void_deletions st deletions).
Proof. reflexivity. Qed.

(** When a recorded action is void and the action list holds no equal
    action, the loop raises. *)
Lemma remove_void_deletions_absent st before uuid address after actions :
  only_parent (cell st address) = true ->
  occurrences (cell st address) actions = 0 ->
  remove_void_deletions st (before ++ (uuid, address) :: after) actions
  = Raise ValueError.
Proof.
  intros Hvoid. revert actions.
  induction before as [|[uuid' address'] before IH]; intros actions Hnone;
    cbn [app]; rewrite remove_void_deletions_step.
  - rewrite Hvoid. now rewrite actions_remove_absent.
  - destruct (only_parent (cell st address')).
    + destruct (actions_remove (cell st address') actions)
        as [actions'|e] eqn:Hremove; cbn [bind].
      * apply IH.
        pose proof (actions_remove_fewer _ (cell st address) _ Hremove).
        rewrite Hnone in *. now apply Nat.le_0_r.
      * now rewrite (actions_remove_raises _ _ Hremove).
    + cbn [bind]. now apply IH.
Qed.
End RemovalMore.

(** X18. When two deletions are recorded for one action, that action was
    left void, and the action list holds it no more than once, the loop
    that removes the void actions raises [ValueError]: the action is
    removed for the first record and not found for the second. *)
Theorem void_action_removed_once (st : State)
  (before between after : list (string * nat)) (uuid uuid' : string)
  (address : nat) (actions : list Dict) :
  only_parent (cell st address) = true ->
  occurrences (cell st address) actions <= 1 ->
  remove_void_deletions st
    (before ++ (uuid, address) :: between ++ (uuid', address) :: after)
    actions
  = Raise ValueError.
Proof.
  intros Hvoid. revert actions.
  induction before as [|[uuid0 address0] before IH]; intros actions Hcount;
    cbn [app]; rewrite remove_void_deletions_step.
  - rewrite Hvoid.
    destruct (actions_remove (cell st address) actions)
      as [actions'|e] eqn:Hremove; cbn [bind].
    + apply remove_void_deletions_absent; [assumption|].
      apply actions_remove_one in Hremove. rewrite Hremove in Hcount.
      apply le_S_n in Hcount. now apply Nat.le_0_r.
    + now rewrite (actions_remove_raises _ _ Hremove).
  - destruct (only_parent (cell st address0)).
    + destruct (actions_remove (cell st address0) actions)
        as [actions'|e] eqn:Hremove; cbn [bind].
      * apply IH.
        pose proof (actions_remove_fewer _ (cell st address) _ Hremove).
        eapply Nat.le_trans; eassumption.
      * now rewrite (actions_remove_raises _ _ Hremove).
    + cbn [bind]. now apply IH.
Qed.

Lemma void_action_removed_once_witness :
  remove_void_deletions Samples.Recorded.emptied
    [("uuid-R1", 0); ("uuid-R2", 0)] [[("parent", UUIDReference "uuid-F")]]
  = Raise ValueError.
Proof.
  apply (@void_action_removed_once
           Samples.Recorded.emptied [] [] [] "uuid-R1" "uuid-R2" 0
           [[("parent", UUIDReference "uuid-F")]]).
  - reflexivity.
  - apply le_n.
Defined.

(** ** The changes of the children of a folder *)

Lemma fold_left_dict_set_get (slots existing : Dict) (k : string) :
  nodupb (dict_keys slots) = true ->
  dict_get (fold_left (fun s kv => dict_set s (fst kv) (snd kv))
                      slots existing) k
  = match dict_get slots k with
    | Some v => Some v
    | None => dict_get existing k
    end.
Proof.
  revert existing. induction slots as [|[k0 v0] slots IH];
    intros existing Hnodup; [reflexivity|].
  apply nodupb_cons in Hnodup. destruct Hnodup as [Hfresh Hnodup].
  change (str_in k0 (dict_keys slots) = false) in Hfresh.
  change (nodupb (dict_keys slots) = true) in Hnodup.
  cbn [fold_left fst snd dict_get]. rewrite IH by assumption.
  destruct (String.eqb_spec k k0) as [->|Hne].
  - apply dict_get_None_keys in Hfresh. rewrite Hfresh.
    apply dict_get_set_same.
  - destruct (dict_get slots k); [reflexivity|].
    now apply dict_get_set_other.
Qed.

(** Merging the fragment [{fragment: slots}] of lists into an action, when
    there is a slot to merge. *)
Lemma merge_fragment (base base' slots : Dict) (fragment : string) :
  Forall (fun kv => exists l, snd kv = VList l) slots ->
  nodupb (dict_keys slots) = true ->
  match slots with
  | [] => Ok base
  | _ => raised (_deep_update base [(fragment, VDict slots)])
  end = Ok base' ->
  (forall k, k <> fragment -> dict_get base' k = dict_get base k)
  /\ forall k,
      nested_get base' fragment k
      = match dict_get slots k with
        | Some v => Some v
        | None => nested_get base fragment k
        end.
Proof.
  intros Hflat Hnodup H. destruct slots as [|kv slots].
  - injection H as <-. split; reflexivity.
  - apply raised_Ok in H. apply _deep_update_slots in H;
      [|assumption|discriminate].
    destruct H as (existing & Hexisting & ->). split.
    + intros k Hk. now apply dict_get_set_other.
    + intros k. rewrite nested_get_set, fold_left_dict_set_get by assumption.
      unfold nested_get.
      destruct Hexisting as [[-> ->] | ->]; reflexivity.
Qed.

(** X21. When the children of a folder are gone through, what they add
    and what is to be deleted is merged into the action of the folder
    slot by slot: the requirements and the folders to add and to delete
    are put under [extend] and [delete], each list when it is not empty,
    and the creations and deletions of attributes that the action held,
    its parent and its modifications stay. The elements to delete are the
    children of the folder in the model that the snapshot does not list
    under it and that were not found to have moved so far. *)
Theorem children_changes_are_merged (req : Live.WorkItem)
  (base base' : Dict) (cr_creations cf_creations dels : list Value)
  (child_req_ids child_folder_ids location_changed : list string) :
  with_folder_changes req base cr_creations cf_creations child_req_ids
    child_folder_ids location_changed = Ok (base', dels) ->
  let req_dels :=
    make_requirement_delete_actions
      (Live.requirements req) (child_req_ids ++ location_changed) in
  let fold_dels :=
    make_requirement_delete_actions
      (Live.folders req) (child_folder_ids ++ location_changed) in
  let merged (fragment slot : string) (elements : list Value) :=
    nested_get base' fragment slot
    = match elements with
      | [] => nested_get base fragment slot
      | _ => Some (VList elements)
      end in
  dels = req_dels ++ fold_dels
  /\ merged "extend" "requirements" cr_creations
  /\ merged "extend" "folders" cf_creations
  /\ merged "delete" "requirements" req_dels
  /\ merged "delete" "folders" fold_dels
  /\ (forall fragment slot,
        slot <> "requirements" -> slot <> "folders" ->
        nested_get base' fragment slot = nested_get base fragment slot)
  /\ (forall k, k <> "extend" -> k <> "delete" ->
        dict_get base' k = dict_get base k).
Proof.
  unfold with_folder_changes. intros H. cbv zeta.
  set (req_dels := make_requirement_delete_actions (Live.requirements req) _)
    in *.
  set (fold_dels := make_requirement_delete_actions (Live.folders req) _)
    in *.
  rstep H as base1 Hextend. rstep H as base2 Hdelete.
  injection H as <- <-.
  apply merge_fragment in Hextend;
    [|destruct cr_creations, cf_creations;
      repeat constructor; eexists; reflexivity
     |now destruct cr_creations, cf_creations].
  apply merge_fragment in Hdelete;
    [|destruct fold_dels, req_dels;
      repeat constructor; eexists; reflexivity
     |now destruct fold_dels, req_dels].
  destruct Hextend as [Hkeys1 Hextend], Hdelete as [Hkeys2 Hdelete].
  assert (Hextend2 : forall k,
            nested_get base2 "extend" k = nested_get base1 "extend" k).
  { intros k. unfold nested_get. now rewrite Hkeys2 by discriminate. }
  assert (Hdelete1 : forall k,
            nested_get base1 "delete" k = nested_get base "delete" k).
  { intros k. unfold nested_get. now rewrite Hkeys1 by discriminate. }
  split; [reflexivity|].
  split; [|split; [|split; [|split; [|split]]]].
  - rewrite Hextend2, Hextend.
    now destruct cr_creations, cf_creations.
  - rewrite Hextend2, Hextend.
    now destruct cr_creations, cf_creations.
  - rewrite Hdelete, Hdelete1.
    now destruct fold_dels, req_dels.
  - rewrite Hdelete, Hdelete1.
    now destruct fold_dels, req_dels.
  - intros fragment slot Hr Hf.
    destruct (String.eqb_spec fragment "extend") as [->|He];
      [|destruct (String.eqb_spec fragment "delete") as [->|Hd]].
    + rewrite Hextend2, Hextend.
      destruct cr_creations, cf_creations;
        cbn [dict_set dict_get String.eqb Ascii.eqb Bool.eqb];
        repeat match goal with
               | |- context [String.eqb slot ?s] =>
                   destruct (String.eqb_spec slot s); [contradiction|]
               end; reflexivity.
    + rewrite Hdelete, Hdelete1.
      destruct fold_dels, req_dels;
        cbn [dict_set dict_get String.eqb Ascii.eqb Bool.eqb];
        repeat match goal with
               | |- context [String.eqb slot ?s] =>
                   destruct (String.eqb_spec slot s); [contradiction|]
               end; reflexivity.
    + unfold nested_get. now rewrite Hkeys2, Hkeys1.
  - intros k He Hd. now rewrite Hkeys2, Hkeys1.
Qed.

Lemma children_changes_are_merged_witness :
  [UUIDReference "uuid-R3"] = [UUIDReference "uuid-R3"] ++ []
  /\ nested_get Samples.Merged.merged "extend" "requirements"
     = Some (VList [UUIDReference "uuid-R4"])
  /\ nested_get Samples.Merged.merged "extend" "folders"
     = nested_get Samples.Merged.base "extend" "folders"
  /\ nested_get Samples.Merged.merged "delete" "requirements"
     = Some (VList [UUIDReference "uuid-R3"])
  /\ nested_get Samples.Merged.merged "delete" "folders"
     = nested_get Samples.Merged.base "delete" "folders"
  /\ (forall fragment slot,
        slot <> "requirements" -> slot <> "folders" ->
        nested_get Samples.Merged.merged fragment slot
        = nested_get Samples.Merged.base fragment slot)
  /\ (forall k, k <> "extend" -> k <> "delete" ->
        dict_get Samples.Merged.merged k = dict_get Samples.Merged.base k).
Proof.
  apply (@children_changes_are_merged
           Samples.Merged.folder Samples.Merged.base Samples.Merged.merged
           [UUIDReference "uuid-R4"] [] [UUIDReference "uuid-R3"]
           ["R1"] [] ["R2"]).
  reflexivity.
Defined.

(** ** What the module is extended with *)

Lemma _add_action_safely_added (base base' : Dict) (slot : string)
  (action : Value) :
  _add_action_safely base "extend" slot action = Ok base' ->
  In action (slot_elements (nested_get base' "extend" slot))
  /\ forall k x,
      In x (slot_elements (nested_get base "extend" k)) ->
      In x (slot_elements (nested_get base' "extend" k)).
Proof.
  rewrite _add_action_safely_eq. unfold nested_get at 2.
  destruct (dict_get base "extend") as [[| | | | | | | | |first]|];
    try discriminate.
  - assert (Hok : forall l,
              slot_elements (dict_get first slot) = l ->
              Ok (dict_set base "extend"
                    (VDict (dict_set first slot (VList (l ++ [action])))))
              = Ok base' ->
              In action (slot_elements (nested_get base' "extend" slot))
              /\ forall k x,
                  In x (slot_elements (dict_get first k)) ->
                  In x (slot_elements (nested_get base' "extend" k))).
    { intros l Hl [= <-]. split.
      - rewrite nested_get_set, dict_get_set_same. cbn [slot_elements].
        apply in_or_app. right. now left.
      - intros k x Hx. rewrite nested_get_set.
        destruct (String.eqb_spec k slot) as [->|Hne].
        + rewrite dict_get_set_same. cbn [slot_elements].
          apply in_or_app. left. now rewrite <- Hl.
        + now rewrite dict_get_set_other. }
    destruct (dict_get first slot) as [[| | | | | | | |l|]|];
      try discriminate; now apply Hok.
  - intros [= <-]. split.
    + rewrite nested_get_set. cbn [dict_get]. rewrite String.eqb_refl.
      now left.
    + intros k x [].
Qed.

Lemma requirements_create_actions_identifier (self : TrackerChange)
  (item : Snapshot.WorkItem) (st st' : State) (payload : Dict)
  (child_mods : list nat) :
  requirements_create_actions self item st = Ok ((payload, child_mods), st') ->
  dict_get payload "identifier" = Some (VStr (Snapshot.id item)).
Proof.
  intros H. rewrite requirements_create_actions_eq in H.
  mstep H as r st1 Hattrs. destruct r as [attributes hint].
  destruct (create_base_get self item attributes) as (Hid & _ & Hr & Hf).
  destruct (Snapshot.children item) as [children|].
  - mstep H as r st2 Hloop. destruct r as [[requirements folders] mods].
    apply ret_Ok in H. destruct H as [[= -> _] _].
    rewrite (@with_children_eq _ requirements folders Hr Hf).
    now rewrite dict_get_app, Hid.
  - destruct hint; [apply lift_Ok in H; destruct H; discriminate|].
    apply ret_Ok in H. destruct H as [[= -> _] _]. exact Hid.
Qed.

Section ModuleExtend.
Variable self : TrackerChange.

Lemma parent_differs_module (req : Live.WorkItem) :
  parent_differs self req ParentNone = true
  <-> Live.parent req <> Live.m_uuid (req_module self).
Proof.
  cbn [parent_differs].
  destruct (String.eqb_spec (Live.parent req) (Live.m_uuid (req_module self)));
    cbn [negb]; split; congruence.
Qed.

Lemma extends_module_with_kept (base base' : Dict)
  (item : Snapshot.WorkItem) :
  (forall k x,
      In x (slot_elements (nested_get base "extend" k)) ->
      In x (slot_elements (nested_get base' "extend" k))) ->
  extends_module_with self base item ->
  extends_module_with self base' item.
Proof.
  intros Hkept. unfold extends_module_with. cbv zeta.
  destruct (work_item_by_identifier (reqfinder self) (Snapshot.id item))
    as [req|].
  - intros H Hparent. apply Hkept. now apply H.
  - intros (payload & Hin & Hid). exists payload. split; [|exact Hid].
    now apply Hkept.
Qed.

Lemma reconcile_items_extend items :
  forall base visited actions st base' visited' actions' st',
    reconcile_items self items base visited actions st
    = Ok ((base', visited', actions'), st') ->
    (forall k x,
        In x (slot_elements (nested_get base "extend" k)) ->
        In x (slot_elements (nested_get base' "extend" k)))
    /\ forall item, In item items -> extends_module_with self base' item.
Proof.
  induction items as [|item items IH];
    intros base visited actions st base' visited' actions' st' H;
    cbn [reconcile_items] in H.
  - apply ret_Ok in H. destruct H as [[= -> _ _] _].
    split; [auto | intros item []].
  - mstep H as r st1 Hstep. destruct r as [[base1 visited1] req_actions].
    apply IH in H. destruct H as [Hkept Hrest].
    fold (second_key item) in Hstep.
    assert (Hone : (forall k x,
                       In x (slot_elements (nested_get base "extend" k)) ->
                       In x (slot_elements (nested_get base1 "extend" k)))
                   /\ extends_module_with self base1 item).
    { unfold extends_module_with. cbv zeta.
      destruct (work_item_by_identifier (reqfinder self) (Snapshot.id item))
        as [req|].
      - mstep Hstep as base2 st2 Hmoved. mstep Hstep as mods st3 Hmod.
        apply ret_Ok in Hstep. destruct Hstep as [[= -> _ _] _].
        destruct (parent_differs self req ParentNone) eqn:Hdiffers.
        + mstep Hmoved as base3 st4 Hadd.
          apply lift_Ok in Hadd. destruct Hadd as [Hadd _].
          mstep Hmoved as u st5 Hloc. mstep Hmoved as u' st6 Hinv.
          apply ret_Ok in Hmoved. destruct Hmoved as [-> _].
          apply _add_action_safely_added in Hadd.
          destruct Hadd as [Hin Hkept1]. split; [exact Hkept1|].
          intros _. exact Hin.
        + apply ret_Ok in Hmoved. destruct Hmoved as [-> _].
          split; [auto|]. intros Hparent.
          apply parent_differs_module in Hparent. congruence.
      - mstep Hstep as r st2 Hnew. destruct r as [payload mods].
        mstep Hstep as base2 st3 Hadd.
        apply lift_Ok in Hadd. destruct Hadd as [Hadd _].
        apply ret_Ok in Hstep. destruct Hstep as [[= -> _ _] _].
        apply requirements_create_actions_identifier in Hnew.
        apply _add_action_safely_added in Hadd.
        destruct Hadd as [Hin Hkept1]. split; [exact Hkept1|].
        now exists payload. }
    destruct Hone as [Hkept1 Hitem]. split; [auto|].
    intros item' [<-|Hin]; [|now apply Hrest].
    now apply extends_module_with_kept with base1.
Qed.

Lemma req_delete_actions_extend visited elements attr_name base base' :
  raised (_deep_update base
            (req_delete_actions self visited elements attr_name))
  = Ok base' ->
  dict_get base' "extend" = dict_get base "extend".
Proof.
  intros H. apply raised_Ok in H. unfold _deep_update in H.
  rewrite _deep_update_with_dict in H.
  change base' with (fst (base', @None Exn)). rewrite <- H.
  apply _deep_update_items_other.
  unfold req_delete_actions. now destruct (map _ _).
Qed.
End ModuleExtend.

(** X23. The action on the module, which comes last, extends the module
    with every item at the top level of the snapshot that is new, by a
    payload that carries the identifier of the item, and with every such
    item that is found in the model under another owner, by reference:
    under [folders] when the item has the key [children] and under
    [requirements] otherwise. *)
Theorem module_action_extends_with_items (self : TrackerChange)
  (actions : list Dict) (item : Snapshot.WorkItem) :
  calculate_change self = Ok actions ->
  In item (Snapshot.items (tracker self)) ->
  match work_item_by_identifier (reqfinder self) (Snapshot.id item) with
  | Some req => Live.parent req <> Live.m_uuid (req_module self)
  | None => True
  end ->
  exists front base,
    actions = front ++ [base]
    /\ module_action self base
    /\ extends_module_with self base item.
Proof.
  unfold calculate_change. intros H Hin Hadds.
  rstep H as r Htypes. destruct r as [base0 type_actions].
  rstep H as r Hitems. destruct r as [[[base1 visited] item_actions] st].
  rstep H as kept Hkept. rstep H as base2 Hreqs. rstep H as base3 Hfolders.
  injection H as <-.
  apply reconcile_items_extend in Hitems. destruct Hitems as [_ Hitems].
  specialize (Hitems item Hin).
  pose proof (req_delete_actions_extend _ _ _ _ _ Hreqs) as Hextend2.
  pose proof (req_delete_actions_extend _ _ _ _ _ Hfolders) as Hextend3.
  apply req_delete_actions_merged in Hfolders. destruct Hfolders as [Hparent _].
  assert (Hitem3 : extends_module_with self base3 item).
  { apply extends_module_with_kept with base1; [|exact Hitems].
    intros k x. unfold nested_get. now rewrite Hextend3, Hextend2. }
  assert (Hkeep : only_parent base3 = false).
  { assert (Hsome : exists x,
              In x (slot_elements (nested_get base3 "extend" (second_key item)))).
    { unfold extends_module_with in Hitem3. cbv zeta in Hitem3.
      destruct (work_item_by_identifier (reqfinder self) (Snapshot.id item)).
      - eexists. now apply Hitem3.
      - destruct Hitem3 as (payload & Hp & _). now exists (VDict payload). }
    destruct Hsome as (x & Hx). unfold nested_get in Hx.
    destruct (dict_get base3 "extend") as [v|] eqn:He; [|contradiction].
    eapply only_parent_other; [exact He | discriminate]. }
  rewrite Hkeep. cbn [negb]. exists kept, base3.
  split; [reflexivity|]. split; [exact Hparent | exact Hitem3].
Qed.

Lemma module_action_extends_with_items_witness :
  exists front base,
    [Samples.Tree.action] = front ++ [base]
    /\ module_action Samples.Tree.self base
    /\ extends_module_with Samples.Tree.self base Samples.Tree.item.
Proof.
  apply (@module_action_extends_with_items
           Samples.Tree.self [Samples.Tree.action] Samples.Tree.item).
  - reflexivity.
  - now left.
  - exact I.
Defined.

(** ** A model that holds the snapshot already *)

Section Settled.
Variable self : TrackerChange.

Lemma settled_eq owner item :
  settled self owner item
  = match work_item_by_identifier (reqfinder self) (Snapshot.id item) with
    | None => False
    | Some req =>
        Live.parent req = owner
        /\ mod_base self req item
           = Ok [("parent", UUIDReference (Live.uuid req))]
        /\ (Live.is_folder req = true ->
            match Snapshot.children item with
            | Some children =>
                (fix all (l : list Snapshot.WorkItem) : Prop :=
                   match l with
                   | [] => True
                   | child :: l' =>
                       settled self (Live.uuid req) child /\ all l'
                   end) children
                /\ (forall element,
                      In element (Live.requirements req) ->
                      In (Live.c_identifier element)
                         (requirement_ids children))
                /\ (forall element,
                      In element (Live.folders req) ->
                      In (Live.c_identifier element) (folder_ids children))
            | None => Live.requirements req = [] /\ Live.folders req = []
            end)
    end.
Proof. destruct item; reflexivity. Qed.

Lemma all_settled owner (children : list Snapshot.WorkItem) :
  (fix all (l : list Snapshot.WorkItem) : Prop :=
     match l with
     | [] => True
     | child :: l' => settled self owner child /\ all l'
     end) children
  <-> Forall (settled self owner) children.
Proof.
  induction children as [|child children IH]; [split; constructor|].
  split.
  - intros [Hc Hcs]. constructor; [assumption | now apply IH].
  - intros H. inversion H; subst. split; [assumption | now apply IH].
Qed.

Lemma finish_mod_void (v : Value) (st : State) :
  quiet st ->
  exists st',
    finish_mod [("parent", v)] [] [] st = Ok ([], st') /\ quiet st'.
Proof.
  intros [Hl Hd]. eexists. split; [reflexivity|]. split; assumption.
Qed.

Lemma make_requirement_delete_actions_nil elements child_ids :
  (forall element,
      In element elements -> In (Live.c_identifier element) child_ids) ->
  make_requirement_delete_actions elements (child_ids ++ []) = [].
Proof.
  intros H. unfold make_requirement_delete_actions. rewrite app_nil_r.
  replace (filter _ elements) with (@nil Live.Child); [reflexivity|].
  symmetry. apply filter_nil. intros element Hin.
  apply Bool.negb_false_iff. apply str_in_In. now apply H.
Qed.

Section SettledChildren.
Variable req : Live.WorkItem.

Local Abbreviation create := (requirements_create_actions self).
Local Abbreviation modify := (yield_requirements_mod_actions self).

(** The children of a folder, when each of them is settled under it
    and brings no action. *)
Lemma mod_children_settled children :
  Forall (settled self (Live.uuid req)) children ->
  Forall (fun child =>
            forall owner parent creq st,
              settled self owner child ->
              work_item_by_identifier (reqfinder self) (Snapshot.id child)
              = Some creq ->
              parent_differs self creq parent = false ->
              quiet st ->
              exists st',
                modify child creq parent st = Ok ([], st') /\ quiet st')
         children ->
  forall cr cf child_req_ids child_folder_ids child_mods st,
    quiet st ->
    exists st',
      mod_children self create modify req children cr cf child_req_ids
        child_folder_ids child_mods st
      = Ok ((cr, cf, child_req_ids ++ requirement_ids children,
             child_folder_ids ++ folder_ids children, child_mods), st')
      /\ quiet st'.
Proof.
  unfold requirement_ids, folder_ids.
  induction children as [|child children IH];
    intros Hsettled Hnothing cr cf child_req_ids child_folder_ids
           child_mods st Hquiet.
  - exists st. cbn [mod_children filter map]. rewrite !app_nil_r.
    split; [reflexivity | assumption].
  - inversion Hsettled as [|? ? Hchild Hrest]; subst.
    inversion Hnothing as [|? ? Hrun Hruns]; subst.
    cbn [mod_children]. unfold bindM at 1.
    pose proof Hchild as Hfound. rewrite settled_eq in Hfound.
    destruct (work_item_by_identifier (reqfinder self) (Snapshot.id child))
      as [creq|] eqn:Hfind; [|contradiction].
    destruct Hfound as (Hparent & _).
    assert (Hsame : parent_differs self creq
                      (ParentElement (Live.uuid req)) = false).
    { cbn [parent_differs]. rewrite Hparent, String.eqb_refl.
      reflexivity. }
    destruct (Hrun _ (ParentElement (Live.uuid req)) creq st Hchild
                eq_refl Hsame Hquiet) as (st1 & Hmod & Hquiet1).
    unfold bindM at 1. rewrite Hmod. unfold ret at 1.
    rewrite Hparent, String.eqb_refl. cbn [negb filter].
    destruct (has_children child); cbn [negb map].
    + destruct (IH Hrest Hruns cr (cf ++ []) child_req_ids
                  (child_folder_ids ++ [Snapshot.id child])
                  (child_mods ++ []) st1 Hquiet1) as (st' & Hloop & Hq).
      exists st'. split; [|assumption]. rewrite Hloop.
      rewrite !app_nil_r, <- app_assoc. reflexivity.
    + destruct (IH Hrest Hruns (cr ++ []) cf
                  (child_req_ids ++ [Snapshot.id child])
                  child_folder_ids
                  (child_mods ++ []) st1 Hquiet1) as (st' & Hloop & Hq).
      exists st'. split; [|assumption]. rewrite Hloop.
      rewrite !app_nil_r, <- app_assoc. reflexivity.
Qed.
End SettledChildren.

(** A settled item brings no action, and the run stays quiet. *)
Lemma settled_yields_nothing item :
  forall owner parent req st,
    settled self owner item ->
    work_item_by_identifier (reqfinder self) (Snapshot.id item) = Some req ->
    parent_differs self req parent = false ->
    quiet st ->
    exists st',
      yield_requirements_mod_actions self item req parent st = Ok ([], st')
      /\ quiet st'.
Proof.
  induction item as [id long_name text text_first type attributes children IH].
  intros owner parent req st Hsettled Hfind Hsame Hquiet.
  rewrite settled_eq, Hfind in Hsettled.
  destruct Hsettled as (_ & Hbase & Hfolder).
  rewrite yield_requirements_mod_actions_eq.
  unfold bindM at 1. unfold lift at 1. rewrite Hbase.
  unfold bindM at 1. rewrite Hsame. unfold ret at 1.
  destruct (Live.is_folder req); [|now apply finish_mod_void].
  specialize (Hfolder eq_refl). cbn [Snapshot.children] in *.
  destruct children as [children|].
  - destruct Hfolder as (Hall & Hreqs & Hfolders).
    apply all_settled in Hall.
    assert (Hruns :
              Forall (fun child =>
                        forall owner parent creq st,
                          settled self owner child ->
                          work_item_by_identifier
                            (reqfinder self) (Snapshot.id child)
                          = Some creq ->
                          parent_differs self creq parent = false ->
                          quiet st ->
                          exists st',
                            yield_requirements_mod_actions
                              self child creq parent st = Ok ([], st')
                            /\ quiet st') children).
    { inversion IH as [? Hchildren|]; subst.
      now apply list_all_Forall in Hchildren. }
    destruct (mod_children_settled req Hall Hruns [] [] [] [] [] Hquiet)
      as (st1 & Hloop & Hquiet1).
    unfold bindM at 1. rewrite Hloop. cbn [app].
    destruct Hquiet1 as [Hmoved Hdeleted]. rewrite Hmoved.
    unfold with_folder_changes. cbn [bind].
    rewrite (make_requirement_delete_actions_nil _ _ Hfolders).
    rewrite (make_requirement_delete_actions_nil _ _ Hreqs).
    cbn [bind app]. apply finish_mod_void. now split.
  - destruct Hfolder as [Hreqs Hfolders].
    unfold bindM at 1. unfold ret at 1.
    destruct Hquiet as [Hmoved Hdeleted]. rewrite Hmoved.
    unfold with_folder_changes. cbn [bind app].
    unfold make_requirement_delete_actions. rewrite Hreqs, Hfolders.
    cbn [filter map bind app]. apply finish_mod_void. now split.
Qed.

(** The loop over the items at the top level, when each is settled
    under the module. *)
Lemma reconcile_items_settled items :
  Forall (settled self (Live.m_uuid (req_module self))) items ->
  forall base visited actions st,
    quiet st ->
    exists visited' st',
      reconcile_items self items base visited actions st
      = Ok ((base, visited', actions), st')
      /\ quiet st'.
Proof.
  induction 1 as [|item items Hitem _ IH]; intros base visited actions st
                                                   Hquiet.
  - exists visited, st. split; [reflexivity | assumption].
  - cbn [reconcile_items].
    pose proof Hitem as Hfound. rewrite settled_eq in Hfound.
    destruct (work_item_by_identifier (reqfinder self) (Snapshot.id item))
      as [req|] eqn:Hfind; [|contradiction].
    destruct Hfound as (Hparent & _).
    assert (Hsame : parent_differs self req ParentNone = false).
    { cbn [parent_differs]. rewrite Hparent, String.eqb_refl.
      reflexivity. }
    destruct (@settled_yields_nothing item _ ParentNone req st Hitem Hfind
                Hsame Hquiet) as (st1 & Hmod & Hquiet1).
    unfold bindM at 1. rewrite Hsame. unfold bindM at 1. unfold ret at 1.
    unfold bindM at 1. rewrite Hmod. unfold ret at 1.
    rewrite app_nil_r.
    apply (IH base (visited ++ [Live.identifier req]) actions st1 Hquiet1).
Qed.
End Settled.

Lemma unvisited_nil (self : TrackerChange) (visited : list string)
  (elements : list Live.Child) (attr_name : string) :
  unvisited visited elements = [] ->
  req_delete_actions self visited elements attr_name
  = [("parent", UUIDReference (Live.m_uuid (req_module self)))].
Proof.
  unfold unvisited, req_delete_actions. intros H.
  apply map_eq_nil in H. now rewrite H.
Qed.

(** X24. When the work items of the model hold the snapshot already,
    they bring no action: if the module has no types folder, every item at
    the top level of the snapshot is settled under the module, and the
    module owns nothing else, then the action list is the one action on
    the module that creates the types folder. *)
Theorem settled_module_gets_the_types_folder_only (self : TrackerChange) :
  reqt_folder self = None ->
  Forall (settled self (Live.m_uuid (req_module self)))
         (Snapshot.items (tracker self)) ->
  module_deletions self = [] ->
  calculate_change self = Ok [requirement_types_folder_create_action self].
Proof.
  intros Hfolder Hitems Hgone.
  unfold calculate_change. rewrite Hfolder. cbn [bind app negb].
  destruct (@reconcile_items_settled self _ Hitems
              (requirement_types_folder_create_action self)
              [] [] initial_state (conj eq_refl eq_refl))
    as (visited & st & Hloop & Hquiet).
  rewrite Hloop. cbn [bind map app].
  apply reconcile_items_visited in Hloop. destruct Hloop as [Hvisited _].
  cbn [app] in Hvisited. fold (top_level_found self) in Hvisited.
  subst visited.
  destruct Hquiet as [_ Hdeleted]. rewrite Hdeleted.
  cbn [remove_void_deletions bind].
  unfold module_deletions in Hgone. apply app_eq_nil in Hgone.
  destruct Hgone as [Hreqs Hfolders].
  rewrite (@unvisited_nil self _ _ "requirements" Hreqs).
  rewrite (@unvisited_nil self _ _ "folders" Hfolders).
  reflexivity.
Qed.

Lemma settled_module_gets_the_types_folder_only_witness :
  calculate_change Samples.Same.self
  = Ok [[("parent", UUIDReference "uuid-module");
         ("extend",
          VDict
            [("requirement_types_folders",
              VList
                [VDict
                   [("long_name", VStr "Types"); ("identifier", VStr "-2");
                    ("data_type_definitions", VList []);
                    ("requirement_types",
                     VList
                       [VDict
                          [("identifier", VStr "Req");
                           ("long_name", VStr "Requirement");
                           ("promise_id", VStr "RequirementType Req");
                           ("attribute_definitions", VList [])]])]])])]].
Proof.
  apply (@settled_module_gets_the_types_folder_only Samples.Same.self);
    try reflexivity.
  constructor; [|constructor].
  cbn. split; [reflexivity|]. split; [reflexivity|]. intros _.
  split; [|split].
  - split; [|exact I].
    split; [reflexivity|]. split; [reflexivity | discriminate].
  - intros element [<-|[]]. now left.
  - intros element [].
Defined.

(** ** The record of the elements that moved *)

Lemma grows_refl (st : State) : grows st st.
Proof. apply incl_refl. Qed.

Lemma grows_trans (st1 st2 st3 : State) :
  grows st1 st2 -> grows st2 st3 -> grows st1 st3.
Proof. apply incl_tran. Qed.

Lemma grows_same (st st' : State) :
  _location_changed st' = _location_changed st -> grows st st'.
Proof. unfold grows. intros ->. apply incl_refl. Qed.

Lemma location_changed_add_grows (identifier : string) (st st' : State)
  (u : unit) :
  location_changed_add identifier st = Ok (u, st') ->
  grows st st' /\ In identifier (_location_changed st').
Proof.
  unfold location_changed_add, grows. intros [= _ <-]. cbn [_location_changed].
  destruct (str_in identifier (_location_changed st)) eqn:E.
  - split; [apply incl_refl | now apply str_in_In].
  - split; [now apply incl_appl, incl_refl|].
    apply in_or_app. right. now left.
Qed.

Lemma _invalidate_deletion_moved (requirement : Live.WorkItem)
  (st st' : State) (u : unit) :
  _invalidate_deletion requirement st = Ok (u, st') ->
  _location_changed st' = _location_changed st.
Proof.
  unfold _invalidate_deletion.
  destruct (dict_get (_req_deletions st) (Live.uuid requirement))
    as [address|]; [|now intros [= _ <-]].
  destruct (dict_get (cell st address) "delete")
    as [[| | | | | | | | |deletions]|];
    try discriminate; try (now intros [= _ <-]).
  destruct (dict_get deletions _) as [[| | | | | | | |refs|]|];
    try discriminate; try (now intros [= _ <-]).
  intros H. rstep H as refs' Hremove. now injection H as _ <-.
Qed.

Lemma finish_mod_moved (base : Dict) (dels : list Value)
  (child_mods addresses : list nat) (st st' : State) :
  finish_mod base dels child_mods st = Ok (addresses, st') ->
  _location_changed st' = _location_changed st.
Proof. unfold finish_mod. now intros [= _ <-]. Qed.

Section Moves.
Variable self : TrackerChange.

Section MovesOfChildren.
Variable create : Snapshot.WorkItem -> M (Dict * list nat).
Variable modify :
  Snapshot.WorkItem -> Live.WorkItem -> Parent -> M (list nat).

Lemma create_children_grows children :
  Forall (fun child =>
            forall st r st', create child st = Ok (r, st') ->
                             grows st st') children ->
  Forall (fun child =>
            forall req parent st a st',
              modify child req parent st = Ok (a, st') ->
              grows st st') children ->
  forall requirements folders child_mods st r st',
    create_children self create modify children requirements folders
      child_mods st = Ok (r, st') ->
    grows st st'.
Proof.
  induction children as [|child children IH];
    intros Hcreate Hmodify requirements folders child_mods st r st' H;
    cbn [create_children] in H.
  - apply ret_Ok in H. destruct H as [_ ->]. apply grows_refl.
  - inversion Hcreate as [|? ? Hc Hcs]; subst.
    inversion Hmodify as [|? ? Hm Hms]; subst.
    mstep H as x st1 Hchild. destruct x as [action child_actions].
    assert (Hstep : grows st st1).
    { destruct (work_item_by_identifier (reqfinder self) (Snapshot.id child))
        as [creq|].
      - mstep Hchild as actions st2 Hmod.
        apply ret_Ok in Hchild. destruct Hchild as [_ ->]. eauto.
      - mstep Hchild as x st2 Hnew. destruct x as [payload actions].
        apply ret_Ok in Hchild. destruct Hchild as [_ ->]. eauto. }
    destruct (has_children child);
      (eapply grows_trans; [exact Hstep | eapply IH; eassumption]).
Qed.

Lemma mod_children_grows req children :
  Forall (fun child =>
            forall st r st', create child st = Ok (r, st') ->
                             grows st st') children ->
  Forall (fun child =>
            forall req parent st a st',
              modify child req parent st = Ok (a, st') ->
              grows st st') children ->
  forall cr cf child_req_ids child_folder_ids child_mods st r st',
    mod_children self create modify req children cr cf child_req_ids
      child_folder_ids child_mods st = Ok (r, st') ->
    grows st st'.
Proof.
  induction children as [|child children IH];
    intros Hcreate Hmodify cr cf child_req_ids child_folder_ids
           child_mods st r st' H;
    cbn [mod_children] in H.
  - apply ret_Ok in H. destruct H as [_ ->]. apply grows_refl.
  - inversion Hcreate as [|? ? Hc Hcs]; subst.
    inversion Hmodify as [|? ? Hm Hms]; subst.
    mstep H as x st1 Hchild. destruct x as [container child_actions].
    assert (Hstep : grows st st1).
    { destruct (work_item_by_identifier (reqfinder self) (Snapshot.id child))
        as [creq|].
      - mstep Hchild as actions st2 Hmod.
        apply ret_Ok in Hchild. destruct Hchild as [_ ->]. eauto.
      - mstep Hchild as x st2 Hnew. destruct x as [payload actions].
        apply ret_Ok in Hchild. destruct Hchild as [_ ->]. eauto. }
    destruct (has_children child);
      (eapply grows_trans; [exact Hstep | eapply IH; eassumption]).
Qed.
End MovesOfChildren.

(** Neither generator takes an identifier out of the record; the
    modification of an element that is not where it is expected puts
    its identifier in. *)
Lemma generators_grow item :
  (forall st r st',
      requirements_create_actions self item st = Ok (r, st') ->
      grows st st')
  /\ (forall req parent st addresses st',
        yield_requirements_mod_actions self item req parent st
        = Ok (addresses, st') ->
        grows st st'
        /\ (parent_differs self req parent = true ->
            In (Live.identifier req) (_location_changed st'))).
Proof.
  induction item as [id long_name text text_first type attributes children IH].
  assert (Hchildren : forall cs,
             children = Some cs ->
             Forall (fun child =>
                       forall st r st',
                         requirements_create_actions self child st
                         = Ok (r, st') -> grows st st') cs
             /\ Forall (fun child =>
                          forall req parent st a st',
                            yield_requirements_mod_actions
                              self child req parent st = Ok (a, st') ->
                            grows st st') cs).
  { intros cs ->. inversion IH as [? Hall|]; subst.
    apply list_all_Forall in Hall. split.
    - eapply Forall_impl; [|exact Hall]. now intros c [Hc _].
    - eapply Forall_impl; [|exact Hall]. intros c [_ Hc].
      intros req parent st a st' H. now apply Hc in H. }
  split.
  - intros st r st' H. rewrite requirements_create_actions_eq in H.
    mstep H as x st1 Hattrs. destruct x as [attrs hint].
    apply lift_Ok in Hattrs. destruct Hattrs as [_ ->].
    cbn [Snapshot.children] in H. destruct children as [cs|].
    + destruct (Hchildren cs eq_refl) as [Hc Hm].
      mstep H as x st1 Hloop. destruct x as [[requirements folders] mods].
      apply ret_Ok in H. destruct H as [_ ->].
      eapply create_children_grows; eassumption.
    + destruct hint; [apply lift_Ok in H; destruct H; discriminate|].
      apply ret_Ok in H. destruct H as [_ ->]. apply grows_refl.
  - intros req parent st addresses st' H.
    rewrite yield_requirements_mod_actions_eq in H.
    mstep H as base st1 Hbase.
    apply lift_Ok in Hbase. destruct Hbase as [_ ->].
    mstep H as u st1 Hmoved.
    assert (H1 : grows st st1
                 /\ (parent_differs self req parent = true ->
                     In (Live.identifier req) (_location_changed st1))).
    { destruct (parent_differs self req parent).
      - mstep Hmoved as u' st2 Hadd.
        apply location_changed_add_grows in Hadd.
        apply _invalidate_deletion_moved in Hmoved.
        destruct Hadd as [Hg Hin]. unfold grows in *.
        rewrite Hmoved. tauto.
      - apply ret_Ok in Hmoved. destruct Hmoved as [_ ->].
        split; [apply grows_refl | discriminate]. }
    assert (H2 : grows st1 st').
    { destruct (Live.is_folder req).
      - mstep H as x st2 Hloop.
        destruct x as [[[[cr cf] child_req_ids] child_folder_ids] mods].
        assert (Hg : grows st1 st2).
        { cbn [Snapshot.children] in Hloop. destruct children as [cs|].
          - destruct (Hchildren cs eq_refl) as [Hc Hm].
            eapply mod_children_grows; eassumption.
          - apply ret_Ok in Hloop. destruct Hloop as [_ ->].
            apply grows_refl. }
        destruct (with_folder_changes req base cr cf child_req_ids
                    child_folder_ids (_location_changed st2))
          as [[base' dels]|]; [|discriminate].
        apply finish_mod_moved in H.
        eapply grows_trans; [exact Hg | now apply grows_same]. 
      - apply finish_mod_moved in H. now apply grows_same. }
    destruct H1 as [Hg Hin]. split.
    + eapply grows_trans; eassumption.
    + intros Hd. apply H2. now apply Hin.
Qed.
End Moves.

(** X25. The record of the elements that moved only grows while items
    are created and modified, and the modification of an element puts the
    identifier of the element into it whenever the element is not owned by
    the parent it is expected under: the module, the folder whose children
    are gone through, or a folder that is yet to be created. *)
Theorem moves_are_recorded (self : TrackerChange) (item : Snapshot.WorkItem)
  (req : Live.WorkItem) (parent : Parent) (st st' : State)
  (addresses : list nat) :
  yield_requirements_mod_actions self item req parent st
  = Ok (addresses, st') ->
  grows st st'
  /\ (parent_differs self req parent = true ->
      In (Live.identifier req) (_location_changed st')).
Proof. apply generators_grow. Qed.

Lemma moves_are_recorded_witness :
  grows initial_state
    {| cells :=
         [[("parent", UUIDReference "uuid-R1")]];
       _location_changed := ["R1"];
       _req_deletions := [] |}
  /\ (parent_differs Examples.Moved.self Examples.Moved.requirement
        (ParentElement "uuid-F1") = true ->
      In (Live.identifier Examples.Moved.requirement)
         (_location_changed
            {| cells := [[("parent", UUIDReference "uuid-R1")]];
               _location_changed := ["R1"];
               _req_deletions := [] |})).
Proof.
  apply (@moves_are_recorded
           Examples.Moved.self
           {| Snapshot.id := "R1"; Snapshot.long_name := "Requirement 1";
              Snapshot.text := None; Snapshot.text_first := false;
              Snapshot.type := Some "Req";
              Snapshot.attributes := []; Snapshot.children := None |}
           Examples.Moved.requirement (ParentElement "uuid-F1")
           initial_state
           {| cells := [[("parent", UUIDReference "uuid-R1")]];
              _location_changed := ["R1"];
              _req_deletions := [] |}
           []).
  reflexivity.
Defined.
(** ** No void action is left in the action list *)

Lemma fragment_dict_get (rest : Dict) (k : string) (v : Value) :
  Forall fragment rest -> In (k, v) rest ->
  exists v', dict_get rest k = Some v' /\ truthy v' = true.
Proof.
  induction 1 as [|[k0 v0] rest [_ Hv0] _ IH]; intros Hin; [contradiction|].
  cbn [dict_get]. destruct (String.eqb_spec k k0) as [->|Hne].
  - now exists v0.
  - destruct Hin as [[= <- _]|Hin]; [contradiction | auto].
Qed.

Section Shaped.
Implicit Types (action : Dict).

Lemma shaped_set action k v :
  In k ["extend"; "modify"; "delete"] -> truthy v = true ->
  shaped action -> shaped (dict_set action k v).
Proof.
  intros Hk Hv (uuid & rest & -> & Hrest).
  exists uuid, (dict_set rest k v). split.
  - cbn [dict_set].
    destruct (String.eqb_spec k "parent") as [->|_]; [|reflexivity].
    exfalso. cbn in Hk. intuition discriminate.
  - apply Forall_dict_set; [assumption | now split].
Qed.

Lemma shaped_del action k :
  k <> "parent" -> shaped action -> shaped (dict_del action k).
Proof.
  intros Hk (uuid & rest & -> & Hrest).
  exists uuid, (dict_del rest k). split.
  - cbn [dict_del]. destruct (String.eqb_spec k "parent"); [contradiction|].
    reflexivity.
  - clear Hk. induction Hrest as [|[k' v'] rest Hkv Hrest IH]; simpl;
      [constructor|].
    destruct (String.eqb k k'); [assumption | now constructor].
Qed.

Lemma shaped_opt_set {A} (l : list A) action k v :
  In k ["extend"; "modify"; "delete"] -> (l <> [] -> truthy v = true) ->
  shaped action ->
  shaped (match l with [] => action | _ :: _ => dict_set action k v end).
Proof.
  intros Hk Hv Haction. destruct l; [assumption|].
  apply shaped_set; [assumption | now apply Hv | assumption].
Qed.

Lemma shaped_get action k v :
  shaped action -> k <> "parent" -> dict_get action k = Some v ->
  truthy v = true.
Proof.
  intros (uuid & rest & -> & Hrest) Hk Hget. cbn [dict_get] in Hget.
  destruct (String.eqb_spec k "parent"); [contradiction|].
  apply dict_get_In in Hget. rewrite Forall_forall in Hrest.
  apply Hrest in Hget. now destruct Hget.
Qed.

(** A shaped action carries no change exactly when it is void. *)
Lemma shaped_void action :
  shaped action -> carries_change action = false ->
  exists uuid, action = [("parent", UUIDReference uuid)].
Proof.
  intros (uuid & rest & -> & Hrest) Hnone. exists uuid.
  destruct rest as [|[k v] rest]; [reflexivity|]. exfalso.
  inversion Hrest as [|? ? [Hk Hv] _]; subst. cbn [fst snd] in Hk, Hv.
  assert (Hpop : populated (("parent", UUIDReference uuid) :: (k, v) :: rest) k
                 = true).
  { unfold populated. cbn [dict_get].
    destruct (String.eqb_spec k "parent") as [->|_].
    - cbn in Hk. intuition discriminate.
    - now rewrite String.eqb_refl. }
  unfold carries_change in Hnone.
  destruct Hk as [<-|[<-|[<-|[]]]]; rewrite Hpop in Hnone;
    rewrite ?Bool.orb_true_r in Hnone; discriminate.
Qed.

Lemma is_void_shaped uuid action :
  shaped action -> is_void uuid action = true ->
  action = [("parent", UUIDReference uuid)].
Proof.
  intros (u & rest & -> & Hrest) H. unfold is_void in H.
  cbn [py_eqb] in H. apply Bool.andb_true_iff in H. destruct H as [Hlen H].
  destruct rest; [|discriminate Hlen].
  cbn [dict_get String.eqb Ascii.eqb Bool.eqb] in H.
  rewrite Bool.andb_true_r in H.
  unfold UUIDReference in H. cbn [py_eqb ref_eqb] in H.
  apply String.eqb_eq in H. now subst u.
Qed.

Lemma is_void_refl uuid : is_void uuid [("parent", UUIDReference uuid)] = true.
Proof.
  unfold is_void, UUIDReference.
  cbn [py_eqb length Nat.eqb dict_get String.eqb Ascii.eqb Bool.eqb ref_eqb
       andb].
  now rewrite String.eqb_refl.
Qed.

Lemma is_void_carries uuid action :
  is_void uuid action = true -> shaped action ->
  carries_change action = false.
Proof.
  intros H Hshaped. now rewrite (@is_void_shaped uuid action Hshaped H).
Qed.

Lemma only_parent_shaped action :
  shaped action -> only_parent action = true ->
  exists uuid, action = [("parent", UUIDReference uuid)].
Proof.
  intros Hshaped Hvoid. apply shaped_void; [assumption|].
  destruct (carries_change action) eqn:E; [|reflexivity]. exfalso.
  unfold carries_change in E.
  assert (Hkey : exists k v, k <> "parent" /\ dict_get action k = Some v).
  { apply Bool.orb_true_iff in E.
    destruct E as [E|E]; [apply Bool.orb_true_iff in E; destruct E as [E|E]|];
      apply populated_get in E; destruct E as [v Hv];
      eexists; exists v; (split; [|exact Hv]); discriminate. }
  destruct Hkey as (k & v & Hk & Hv).
  rewrite (only_parent_other _ Hv Hk) in Hvoid. discriminate.
Qed.
End Shaped.

(** *** The states of a run *)

Lemma carries_change_nil : carries_change [] = false.
Proof. reflexivity. Qed.

Lemma cell_carries_in_range (st : State) (a : nat) :
  carries_change (cell st a) = true -> a < length (cells st).
Proof.
  intros H. destruct (Nat.lt_ge_cases a (length (cells st))) as [|Hge];
    [assumption|].
  unfold cell in H. rewrite nth_overflow in H by assumption. discriminate.
Qed.

Lemma cell_shaped (st : State) (a : nat) :
  shaped_cells st -> a < length (cells st) -> shaped (cell st a).
Proof.
  intros Hst Hlt. apply (proj1 (Forall_forall _ _) Hst). now apply nth_In.
Qed.

Lemma register_deletions_other (dels : list Value) (address : nat)
  (deletions : list (string * nat)) (k : string) :
  ~ In (UUIDReference k) dels ->
  dict_get (register_deletions dels address deletions) k
  = dict_get deletions k.
Proof.
  revert deletions. induction dels as [|d dels IH]; intros deletions Hout;
    [reflexivity|].
  assert (Hrest : ~ In (UUIDReference k) dels)
    by (intros H; apply Hout; now right).
  destruct d as [| | | | | |[uuid]| | |]; cbn [register_deletions];
    try now apply IH.
  rewrite IH by assumption. apply dict_get_set_other.
  intros ->. apply Hout. now left.
Qed.

Section Tracking.
Variable self : TrackerChange.

Local Abbreviation keeps := (lasting self).
Local Abbreviation gives := (yielded self).

Lemma lasting_refl st : keeps st st.
Proof. split; [apply le_n|]. split; [apply incl_refl | auto]. Qed.

Lemma lasting_trans st1 st2 st3 :
  keeps st1 st2 -> keeps st2 st3 -> keeps st1 st3.
Proof.
  intros (Hl1 & Hi1 & Ht1) (Hl2 & Hi2 & Ht2). split; [|split].
  - eapply Nat.le_trans; eassumption.
  - eapply incl_tran; eassumption.
  - auto.
Qed.

Lemma yielded_nil st st' : gives st st' [].
Proof. split; [constructor|]. split; constructor. Qed.

Lemma yielded_app st0 st1 st2 l1 l2 :
  keeps st0 st1 -> gives st0 st1 l1 -> keeps st1 st2 -> gives st1 st2 l2 ->
  gives st0 st2 (l1 ++ l2).
Proof.
  intros (Hlen1 & _ & _) (Hn1 & Hr1 & Ht1) (Hlen2 & _ & Hkeep)
         (Hn2 & Hr2 & Ht2).
  rewrite Forall_forall in Hr1, Hr2.
  split; [|split].
  - apply NoDup_app; try assumption.
    intros a Ha1 Ha2. apply Hr1 in Ha1. apply Hr2 in Ha2.
    destruct Ha1 as [_ Hlt], Ha2 as [Hge _].
    apply (Nat.lt_irrefl a). eapply Nat.lt_le_trans; eassumption.
  - apply Forall_app. split; apply Forall_forall; intros a Ha.
    + apply Hr1 in Ha. destruct Ha as [Hge Hlt]. split; [assumption|].
      eapply Nat.lt_le_trans; eassumption.
    + apply Hr2 in Ha. destruct Ha as [Hge Hlt]. split; [|assumption].
      eapply Nat.le_trans; eassumption.
  - apply Forall_app. split; [|assumption].
    eapply Forall_impl; [|exact Ht1]. auto.
Qed.

Lemma yielded_later st0 st1 st2 l :
  gives st0 st1 l -> keeps st1 st2 -> gives st0 st2 l.
Proof.
  intros (Hn & Hr & Ht) (Hlen & _ & Hkeep). split; [assumption|]. split.
  - eapply Forall_impl; [|exact Hr]. intros a [Hge Hlt].
    split; [assumption|]. eapply Nat.lt_le_trans; eassumption.
  - eapply Forall_impl; [|exact Ht]. auto.
Qed.

Lemma yielded_earlier st0 st1 st2 l :
  keeps st0 st1 -> gives st1 st2 l -> gives st0 st2 l.
Proof.
  intros (Hlen & _ & _) (Hn & Hr & Ht). split; [assumption|].
  split; [|assumption].
  eapply Forall_impl; [|exact Hr]. intros a [Hge Hlt].
  split; [|assumption]. eapply Nat.le_trans; eassumption.
Qed.

(** Storing an action and recording what it deletes. *)
Lemma finish_mod_tracked base dels child_mods st addresses st' :
  shaped base -> shaped_cells st ->
  (forall r,
      found self r -> In (Live.identifier r) (_location_changed st) ->
      ~ In (UUIDReference (Live.uuid r)) dels) ->
  finish_mod base dels child_mods st = Ok (addresses, st') ->
  shaped_cells st' /\ keeps st st'
  /\ exists own, addresses = own ++ child_mods /\ gives st st' own.
Proof.
  intros Hbase Hst Hdels H. unfold finish_mod in H.
  mstep H as address st1 Halloc. mstep H as u st2 Hupdate.
  apply ret_Ok in H. destruct H as [-> ->].
  unfold allocate in Halloc. injection Halloc as <- <-.
  unfold req_deletions_update in Hupdate. injection Hupdate as _ <-.
  cbn [cells _location_changed _req_deletions] in *.
  assert (Hold : forall a, a < length (cells st) ->
                           nth a (cells st ++ [base]) [] = cell st a).
  { intros a Ha. unfold cell. now apply app_nth1. }
  split; [|split].
  - unfold shaped_cells. cbn [cells]. apply Forall_app.
    split; [assumption | now constructor].
  - split; [|split]; cbn [cells _location_changed].
    + rewrite length_app. cbn [length]. apply Nat.le_add_r.
    + apply incl_refl.
    + intros a [Hcarries|(r & Hfound & Hentry & Hmoved)].
      * left. unfold cell. cbn [cells].
        rewrite Hold by now apply cell_carries_in_range. exact Hcarries.
      * right. exists r. split; [assumption|].
        cbn [_req_deletions _location_changed]. split; [|assumption].
        rewrite register_deletions_other; [assumption | auto].
  - eexists. split; [reflexivity|].
    fold (carries_change base).
    destruct (carries_change base) eqn:Hcarries; [|apply yielded_nil].
    split; [repeat constructor; intros []|].
    split; (constructor; [|constructor]); cbn [cells].
    + rewrite length_app. cbn [length]. split; [apply le_n|].
      rewrite Nat.add_1_r. apply Nat.lt_succ_diag_r.
    + left. unfold cell. cbn [cells]. now rewrite nth_middle.
Qed.

Lemma location_changed_add_tracked identifier st u st' :
  location_changed_add identifier st = Ok (u, st') ->
  cells st' = cells st
  /\ _req_deletions st' = _req_deletions st
  /\ In identifier (_location_changed st')
  /\ keeps st st'.
Proof.
  unfold location_changed_add. intros [= _ <-].
  cbn [cells _req_deletions _location_changed].
  assert (Hincl : incl (_location_changed st)
                    (if str_in identifier (_location_changed st)
                     then _location_changed st
                     else _location_changed st ++ [identifier])).
  { destruct (str_in _ _); [apply incl_refl | now apply incl_appl, incl_refl]. }
  split; [reflexivity|]. split; [reflexivity|]. split.
  - destruct (str_in identifier (_location_changed st)) eqn:E.
    + now apply str_in_In.
    + apply in_or_app. right. now left.
  - split; [apply le_n|]. split; [exact Hincl|].
    intros a [Hcarries|(r & Hfound & Hentry & Hmoved)]; [now left|].
    right. exists r. split; [assumption|]. split; [assumption|].
    now apply Hincl.
Qed.

Lemma cell_set_nth st address action a :
  nth a (set_nth (cells st) address action) []
  = if Nat.eqb a address && Nat.ltb address (length (cells st))
    then action else cell st a.
Proof. unfold cell. apply nth_set_nth. Qed.

Lemma length_set_nth {A} (l : list A) (n : nat) (x : A) :
  length (set_nth l n x) = length l.
Proof.
  revert n. induction l as [|y l IH]; intros [|n]; simpl; auto.
Qed.

Lemma _invalidate_deletion_tracked requirement st u st' :
  found self requirement ->
  In (Live.identifier requirement) (_location_changed st) ->
  shaped_cells st ->
  _invalidate_deletion requirement st = Ok (u, st') ->
  shaped_cells st' /\ keeps st st'.
Proof.
  intros Hfound Hmoved Hst. unfold _invalidate_deletion.
  destruct (dict_get (_req_deletions st) (Live.uuid requirement))
    as [address|] eqn:Hentry;
    [|intros [= _ <-]; split; [assumption | apply lasting_refl]].
  destruct (dict_get (cell st address) "delete")
    as [[| | | | | | | | |deletions]|] eqn:Hdelete;
    try discriminate;
    try (intros [= _ <-]; split; [assumption | apply lasting_refl]).
  destruct (dict_get deletions _) as [[| | | | | | | |refs|]|] eqn:Hrefs;
    try discriminate;
    try (intros [= _ <-]; split; [assumption | apply lasting_refl]).
  intros H. rstep H as refs' Hremove. injection H as _ <-.
  assert (Hrange : address < length (cells st)).
  { destruct (Nat.lt_ge_cases address (length (cells st))) as [|Hge];
      [assumption|].
    unfold cell in Hdelete. rewrite nth_overflow in Hdelete by assumption.
    discriminate. }
  pose proof (cell_shaped Hst Hrange) as Hcell.
  match goal with
  | |- context [set_nth _ _ ?action] => set (action' := action)
  end.
  assert (Hshaped : shaped action').
  { subst action'.
    match goal with
    | |- shaped match ?d with [] => _ | _ => _ end => destruct d
    end.
    - apply shaped_del; [discriminate | assumption].
    - apply shaped_set; [cbn; tauto | reflexivity | assumption]. }
  split.
  - unfold shaped_cells. cbn [cells]. now apply Forall_set_nth.
  - split; [|split]; cbn [cells _location_changed].
    + now rewrite length_set_nth.
    + apply incl_refl.
    + intros a Ha.
      destruct (Nat.eq_dec a address) as [->|Hne].
      * destruct (carries_change action') eqn:Hcarries.
        -- left. unfold cell. cbn [cells]. rewrite cell_set_nth.
           rewrite Nat.eqb_refl.
           apply Nat.ltb_lt in Hrange. now rewrite Hrange.
        -- right. exists requirement. now repeat split.
      * destruct Ha as [Hcarries|(r & Hr & He & Hm)].
        -- left. unfold cell. cbn [cells]. rewrite cell_set_nth.
           apply Nat.eqb_neq in Hne. now rewrite Hne.
        -- right. exists r. now repeat split.
Qed.
End Tracking.

(** *** The actions that the generators build *)

Lemma dict_set_not_nil {A} (d : list (string * A)) (k : string) (v : A) :
  dict_set d k v <> [].
Proof.
  destruct d as [|[k' v'] d]; cbn [dict_set]; [discriminate|].
  destruct (String.eqb k k'); discriminate.
Qed.

Lemma truthy_dict (d : Dict) : d <> [] -> truthy (VDict d) = true.
Proof. destruct d; [contradiction | reflexivity]. Qed.

Lemma fold_left_dict_set_not_nil (slots existing : Dict) :
  slots <> [] \/ existing <> [] ->
  fold_left (fun s kv => dict_set s (fst kv) (snd kv)) slots existing <> [].
Proof.
  revert existing. induction slots as [|kv slots IH]; intros existing H.
  - destruct H as [H|H]; [contradiction | exact H].
  - cbn [fold_left]. apply IH. right. apply dict_set_not_nil.
Qed.

Lemma merge_fragment_shaped (base base' slots : Dict) (k : string) :
  In k ["extend"; "modify"; "delete"] ->
  Forall (fun kv => exists l, snd kv = VList l) slots ->
  shaped base ->
  match slots with
  | [] => Ok base
  | _ => raised (_deep_update base [(k, VDict slots)])
  end = Ok base' ->
  shaped base'.
Proof.
  intros Hk Hflat Hbase H. destruct slots as [|kv slots].
  - now injection H as <-.
  - apply raised_Ok in H. apply _deep_update_slots in H;
      [|assumption|discriminate].
    destruct H as (existing & _ & ->).
    apply shaped_set; [assumption| |assumption].
    apply truthy_dict, fold_left_dict_set_not_nil. left. discriminate.
Qed.

Section Built.
Variable self : TrackerChange.

Lemma mod_base_shaped req item base :
  mod_base self req item = Ok base -> shaped base.
Proof.
  intros H. unfold mod_base in H.
  rstep H as r Hattrs. destruct r as [creations modifications].
  rstep H as mods Hmods. injection H as <-.
  apply shaped_opt_set; [cbn; tauto | reflexivity|].
  apply shaped_opt_set; [cbn; tauto | reflexivity|].
  set (base0 := [("parent", UUIDReference (Live.uuid req))]).
  assert (H0 : shaped base0) by (exists (Live.uuid req), []; now split).
  assert (H1 : shaped match mods with
                      | [] => base0
                      | _ => dict_set base0 "modify" (VDict mods)
                      end).
  { apply shaped_opt_set; [cbn; tauto| |exact H0].
    intros Hne. now apply truthy_dict. }
  set (base1 := match mods with [] => _ | _ => _ end) in *.
  destruct modifications as [|m modifications]; [exact H1|].
  destruct (dict_get base1 "modify") as [[| | | | | | | | |modify]|];
    try exact H1.
  apply shaped_set; [cbn; tauto| |exact H1].
  apply truthy_dict, dict_set_not_nil.
Qed.

Lemma with_folder_changes_shaped req base cr cf child_req_ids
  child_folder_ids location_changed base' dels :
  shaped base ->
  with_folder_changes req base cr cf child_req_ids child_folder_ids
    location_changed = Ok (base', dels) ->
  shaped base'
  /\ dels
     = make_requirement_delete_actions
         (Live.requirements req) (child_req_ids ++ location_changed)
       ++ make_requirement_delete_actions
            (Live.folders req) (child_folder_ids ++ location_changed).
Proof.
  intros Hbase H. unfold with_folder_changes in H.
  rstep H as base1 Hextend. rstep H as base2 Hdelete.
  injection H as <- <-. split; [|reflexivity].
  apply merge_fragment_shaped in Hextend;
    [|cbn; tauto
     |destruct cr, cf; repeat constructor; eexists; reflexivity
     |assumption].
  apply merge_fragment_shaped in Hdelete;
    [assumption|cbn; tauto| |assumption].
  match goal with
  | |- Forall _ match ?r with [] => ?d | _ => _ end =>
      assert (Hd : Forall (fun kv : string * Value =>
                             exists l, snd kv = VList l) d);
      [|destruct r; [exact Hd|];
        apply Forall_dict_set; [exact Hd | eexists; reflexivity]]
  end.
  match goal with
  | |- Forall _ match ?f with [] => _ | _ => _ end =>
      destruct f; repeat constructor; eexists; reflexivity
  end.
Qed.

(** The deletions recorded for a folder hold no element that has
    moved. *)
Lemma make_requirement_delete_actions_moved req r elements child_ids
  location_changed :
  consistent self -> found self req -> found self r ->
  incl elements (Live.folders req ++ Live.requirements req) ->
  In (Live.identifier r) location_changed ->
  ~ In (UUIDReference (Live.uuid r))
       (make_requirement_delete_actions
          elements (child_ids ++ location_changed)).
Proof.
  intros Hconsistent Hreq Hr Hincl Hmoved Hin.
  unfold make_requirement_delete_actions in Hin.
  apply in_map_iff in Hin. destruct Hin as (creq & Href & Hcreq).
  apply filter_In in Hcreq. destruct Hcreq as [Hcreq Hfresh].
  injection Href as Huuid.
  pose proof (Hconsistent req creq r Hreq Hr (Hincl _ Hcreq) Huuid) as Hid.
  apply Bool.negb_true_iff in Hfresh.
  apply Bool.not_true_iff_false in Hfresh. apply Hfresh.
  apply str_in_In. rewrite Hid. apply in_or_app. now right.
Qed.

Section ChildrenTracked.
Variable create : Snapshot.WorkItem -> M (Dict * list nat).
Variable modify :
  Snapshot.WorkItem -> Live.WorkItem -> Parent -> M (list nat).

Local Abbreviation creates := (creates_tracked self create).
Local Abbreviation modifies := (modifies_tracked self modify).

Lemma create_children_tracked children :
  Forall creates children -> Forall modifies children ->
  forall requirements folders child_mods st0 st requirements' folders'
         child_mods' st',
    shaped_cells st -> lasting self st0 st ->
    yielded self st0 st child_mods ->
    create_children self create modify children requirements folders
      child_mods st
    = Ok ((requirements', folders', child_mods'), st') ->
    shaped_cells st' /\ lasting self st st'
    /\ yielded self st0 st' child_mods'.
Proof.
  induction children as [|child children IH];
    intros Hcreate Hmodify requirements folders child_mods st0 st
           requirements' folders' child_mods' st' Hst Hkeep Hmods H;
    simpl in H.
  - apply ret_Ok in H. destruct H as [[= _ _ ->] ->].
    split; [assumption|]. split; [apply lasting_refl | assumption].
  - inversion Hcreate as [|? ? Hc Hcs]; subst.
    inversion Hmodify as [|? ? Hmd Hmds]; subst.
    mstep H as r st1 Hchild. destruct r as [action child_actions].
    assert (Hstep : shaped_cells st1 /\ lasting self st st1
                    /\ yielded self st st1 child_actions).
    { destruct (work_item_by_identifier (reqfinder self) (Snapshot.id child))
        as [creq|] eqn:Hfind.
      - mstep Hchild as actions st2 Hmod.
        apply ret_Ok in Hchild. destruct Hchild as [[= _ ->] ->].
        apply Hmd in Hmod; [assumption| |assumption].
        now exists (Snapshot.id child).
      - mstep Hchild as r st2 Hnew. destruct r as [payload actions].
        apply ret_Ok in Hchild. destruct Hchild as [[= _ ->] ->].
        now apply Hc in Hnew. }
    destruct Hstep as (Hst1 & Hkeep1 & Hactions).
    assert (Hmods1 : yielded self st0 st1 (child_mods ++ child_actions))
      by (eapply yielded_app; eassumption).
    assert (Hkeep01 : lasting self st0 st1)
      by (eapply lasting_trans; eassumption).
    destruct (has_children child);
      (eapply IH in H; [|eassumption..]);
      destruct H as (Hst' & Hkeep' & Hmods');
      (split; [assumption|]);
      (split; [eapply lasting_trans; eassumption | assumption]).
Qed.

Lemma mod_children_tracked req children :
  Forall creates children -> Forall modifies children ->
  forall cr cf child_req_ids child_folder_ids child_mods st0 st cr' cf'
         child_req_ids' child_folder_ids' child_mods' st',
    shaped_cells st -> lasting self st0 st ->
    yielded self st0 st child_mods ->
    mod_children self create modify req children cr cf child_req_ids
      child_folder_ids child_mods st
    = Ok ((cr', cf', child_req_ids', child_folder_ids', child_mods'), st') ->
    shaped_cells st' /\ lasting self st st'
    /\ yielded self st0 st' child_mods'.
Proof.
  induction children as [|child children IH];
    intros Hcreate Hmodify cr cf child_req_ids child_folder_ids child_mods
           st0 st cr' cf' child_req_ids' child_folder_ids' child_mods' st'
           Hst Hkeep Hmods H;
    simpl in H.
  - apply ret_Ok in H. destruct H as [[= _ _ _ _ ->] ->].
    split; [assumption|]. split; [apply lasting_refl | assumption].
  - inversion Hcreate as [|? ? Hc Hcs]; subst.
    inversion Hmodify as [|? ? Hmd Hmds]; subst.
    mstep H as r st1 Hchild. destruct r as [container child_actions].
    assert (Hstep : shaped_cells st1 /\ lasting self st st1
                    /\ yielded self st st1 child_actions).
    { destruct (work_item_by_identifier (reqfinder self) (Snapshot.id child))
        as [creq|] eqn:Hfind.
      - mstep Hchild as actions st2 Hmod.
        apply ret_Ok in Hchild. destruct Hchild as [[= _ ->] ->].
        apply Hmd in Hmod; [assumption| |assumption].
        now exists (Snapshot.id child).
      - mstep Hchild as r st2 Hnew. destruct r as [payload actions].
        apply ret_Ok in Hchild. destruct Hchild as [[= _ ->] ->].
        now apply Hc in Hnew. }
    destruct Hstep as (Hst1 & Hkeep1 & Hactions).
    assert (Hmods1 : yielded self st0 st1 (child_mods ++ child_actions))
      by (eapply yielded_app; eassumption).
    assert (Hkeep01 : lasting self st0 st1)
      by (eapply lasting_trans; eassumption).
    destruct (has_children child);
      (eapply IH in H; [|eassumption..]);
      destruct H as (Hst' & Hkeep' & Hmods');
      (split; [assumption|]);
      (split; [eapply lasting_trans; eassumption | assumption]).
Qed.
End ChildrenTracked.
End Built.

(** *** The two generators and the loop over the items *)

Section Generators.
Variable self : TrackerChange.
Hypothesis Hconsistent : consistent self.

Lemma yielded_own st0 st1 st2 own mods :
  lasting self st0 st1 -> yielded self st0 st1 mods ->
  lasting self st1 st2 -> yielded self st1 st2 own ->
  yielded self st0 st2 (own ++ mods).
Proof.
  intros Hk1 Hmods Hk2 Hown.
  pose proof (yielded_app Hk1 Hmods Hk2 Hown) as (_ & Hr & Ht).
  destruct Hmods as (Hn1 & Hr1 & _), Hown as (Hn2 & Hr2 & _).
  split; [|split].
  - apply NoDup_app; try assumption.
    rewrite Forall_forall in Hr1, Hr2.
    intros a Ha2 Ha1. apply Hr1 in Ha1. apply Hr2 in Ha2.
    destruct Ha1 as [_ Hlt], Ha2 as [Hge _].
    apply (Nat.lt_irrefl a). eapply Nat.lt_le_trans; eassumption.
  - apply Forall_app in Hr. apply Forall_app. tauto.
  - apply Forall_app in Ht. apply Forall_app. tauto.
Qed.

Lemma moved_tracked req st u st' :
  found self req -> shaped_cells st ->
  (_ <- location_changed_add (Live.identifier req) ;;
   _invalidate_deletion req) st = Ok (u, st') ->
  shaped_cells st' /\ lasting self st st'.
Proof.
  intros Hfound Hst H. mstep H as u' st1 Hadd.
  apply location_changed_add_tracked with (self := self) in Hadd.
  destruct Hadd as (Hcells & _ & Hin & Hkeep).
  assert (Hst1 : shaped_cells st1)
    by (unfold shaped_cells; now rewrite Hcells).
  apply _invalidate_deletion_tracked with (self := self) in H;
    try assumption.
  destruct H as [Hst' Hkeep']. split; [assumption|].
  eapply lasting_trans; eassumption.
Qed.

Lemma generators_tracked item :
  creates_tracked self (requirements_create_actions self) item
  /\ modifies_tracked self (yield_requirements_mod_actions self) item.
Proof.
  induction item as [id long_name text text_first type attributes children IH].
  assert (Hchildren : forall cs,
             children = Some cs ->
             Forall (creates_tracked
                       self (requirements_create_actions self)) cs
             /\ Forall (modifies_tracked
                          self (yield_requirements_mod_actions self)) cs).
  { intros cs ->. inversion IH as [? Hall|]; subst.
    apply list_all_Forall in Hall. split.
    - eapply Forall_impl; [|exact Hall]. now intros c [Hc _].
    - eapply Forall_impl; [|exact Hall]. now intros c [_ Hc]. }
  split.
  - (* creation *)
    intros st payload addresses st' Hst H.
    rewrite requirements_create_actions_eq in H.
    mstep H as r st1 Hattrs. destruct r as [attrs hint].
    apply lift_Ok in Hattrs. destruct Hattrs as [_ ->].
    cbn [Snapshot.children] in H.
    destruct children as [cs|].
    + destruct (Hchildren cs eq_refl) as [Hc Hm].
      mstep H as r st1 Hloop. destruct r as [[requirements folders] mods].
      apply ret_Ok in H. destruct H as [[= _ ->] ->].
      eapply create_children_tracked in Hloop;
        [exact Hloop|eassumption|eassumption|assumption
        |apply lasting_refl|apply yielded_nil].
    + destruct hint; [apply lift_Ok in H; destruct H; discriminate|].
      apply ret_Ok in H. destruct H as [[= _ ->] ->].
      split; [assumption|]. split; [apply lasting_refl | apply yielded_nil].
  - (* modification *)
    intros req parent st addresses st' Hfound Hst H.
    rewrite yield_requirements_mod_actions_eq in H.
    mstep H as base st1 Hbase.
    apply lift_Ok in Hbase. destruct Hbase as [Hbase ->].
    apply mod_base_shaped in Hbase.
    mstep H as u st1 Hmoved.
    assert (H1 : shaped_cells st1 /\ lasting self st st1).
    { destruct (parent_differs self req parent).
      - eapply moved_tracked; eassumption.
      - apply ret_Ok in Hmoved. destruct Hmoved as [_ ->].
        split; [assumption | apply lasting_refl]. }
    destruct H1 as [Hst1 Hkeep1].
    destruct (Live.is_folder req).
    + mstep H as r st2 Hloop.
      destruct r as [[[[cr cf] child_req_ids] child_folder_ids] mods].
      assert (H2 : shaped_cells st2 /\ lasting self st1 st2
                   /\ yielded self st1 st2 mods).
      { cbn [Snapshot.children] in Hloop. destruct children as [cs|].
        - destruct (Hchildren cs eq_refl) as [Hc Hm].
          eapply mod_children_tracked in Hloop;
            [exact Hloop|eassumption|eassumption|assumption
            |apply lasting_refl|apply yielded_nil].
        - apply ret_Ok in Hloop. destruct Hloop as [[= _ _ _ _ ->] ->].
          split; [assumption|].
          split; [apply lasting_refl | apply yielded_nil]. }
      destruct H2 as (Hst2 & Hkeep2 & Hmods).
      destruct (with_folder_changes req base cr cf child_req_ids
                  child_folder_ids (_location_changed st2))
        as [[base' dels]|] eqn:Hfolder; [|discriminate].
      apply with_folder_changes_shaped in Hfolder; [|assumption].
      destruct Hfolder as [Hbase' Hdels].
      apply finish_mod_tracked with (self := self) in H; try assumption.
      * destruct H as (Hst' & Hkeep' & own & -> & Hown).
        split; [assumption|]. split.
        -- eapply lasting_trans; [exact Hkeep1|].
           eapply lasting_trans; eassumption.
        -- eapply yielded_earlier; [exact Hkeep1|].
           eapply yielded_own; eassumption.
      * intros r Hr Hmoved' Hin. subst dels.
        apply in_app_or in Hin. destruct Hin as [Hin|Hin];
          (eapply (@make_requirement_delete_actions_moved self req r);
           [exact Hconsistent | exact Hfound | exact Hr|
           |exact Hmoved' | exact Hin]).
        -- now apply incl_appr, incl_refl.
        -- now apply incl_appl, incl_refl.
    + apply finish_mod_tracked with (self := self) in H; try assumption;
        [|now intros r _ _ []].
      destruct H as (Hst' & Hkeep' & own & -> & Hown).
      split; [assumption|]. split.
      * eapply lasting_trans; eassumption.
      * rewrite app_nil_r. eapply yielded_earlier; eassumption.
Qed.

Lemma reconcile_items_tracked items :
  forall base visited actions st0 st base' visited' actions' st',
    shaped_cells st -> lasting self st0 st ->
    yielded self st0 st actions ->
    reconcile_items self items base visited actions st
    = Ok ((base', visited', actions'), st') ->
    shaped_cells st' /\ yielded self st0 st' actions'.
Proof.
  induction items as [|item items IH];
    intros base visited actions st0 st base' visited' actions' st'
           Hst Hkeep Hactions H;
    cbn [reconcile_items] in H.
  - apply ret_Ok in H. destruct H as [[= _ _ ->] ->]. tauto.
  - destruct (generators_tracked item) as [Hcreate Hmodify].
    mstep H as r st1 Hstep. destruct r as [[base1 visited1] req_actions].
    assert (Hone : shaped_cells st1 /\ lasting self st st1
                   /\ yielded self st st1 req_actions).
    { destruct (work_item_by_identifier (reqfinder self) (Snapshot.id item))
        as [req|] eqn:Hfind.
      - assert (Hfound : found self req) by now exists (Snapshot.id item).
        mstep Hstep as base2 st2 Hmoved.
        mstep Hstep as mods st3 Hmod.
        apply ret_Ok in Hstep. destruct Hstep as [[= _ _ ->] ->].
        assert (H2 : shaped_cells st2 /\ lasting self st st2).
        { destruct (parent_differs self req ParentNone).
          - mstep Hmoved as base3 st4 Hadd.
            apply lift_Ok in Hadd. destruct Hadd as [_ ->].
            assert (Hrun :
                      (_ <- location_changed_add (Live.identifier req) ;;
                       _invalidate_deletion req) st
                      = Ok (tt, st2)).
            { mstep Hmoved as u st5 Hloc. mstep Hmoved as u' st6 Hinv.
              apply ret_Ok in Hmoved. destruct Hmoved as [_ ->].
              unfold bindM. rewrite Hloc. now destruct u'. }
            eapply moved_tracked; eassumption.
          - apply ret_Ok in Hmoved. destruct Hmoved as [_ ->].
            split; [assumption | apply lasting_refl]. }
        destruct H2 as [Hst2 Hkeep2].
        apply Hmodify in Hmod; try assumption.
        destruct Hmod as (Hst1 & Hkeep1 & Hmods).
        split; [assumption|]. split.
        + eapply lasting_trans; eassumption.
        + eapply yielded_earlier; eassumption.
      - mstep Hstep as r st2 Hnew. destruct r as [payload mods].
        mstep Hstep as base2 st3 Hadd.
        apply lift_Ok in Hadd. destruct Hadd as [_ ->].
        apply ret_Ok in Hstep. destruct Hstep as [[= _ _ ->] ->].
        now apply Hcreate in Hnew. }
    destruct Hone as (Hst1 & Hkeep1 & Hreq).
    eapply IH in H; [exact H | assumption|..].
    + eapply lasting_trans; eassumption.
    + eapply yielded_app; eassumption.
Qed.
End Generators.

(** *** The loop that removes the void actions *)

Lemma is_void_void (u v : string) :
  is_void u [("parent", UUIDReference v)] = String.eqb v u.
Proof.
  unfold is_void, UUIDReference.
  cbn [py_eqb length Nat.eqb dict_get String.eqb Ascii.eqb Bool.eqb ref_eqb
       andb].
  now rewrite Bool.andb_true_r.
Qed.

Lemma is_void_nil (u : string) : is_void u [] = false.
Proof. reflexivity. Qed.

Lemma actions_remove_void (v : string) (actions actions' : list Dict) :
  Forall shaped actions ->
  actions_remove [("parent", UUIDReference v)] actions = Ok actions' ->
  Forall shaped actions'
  /\ forall u,
      length (filter (is_void u) actions')
      + (if String.eqb v u then 1 else 0)
      = length (filter (is_void u) actions).
Proof.
  intros Hall. revert actions'.
  induction Hall as [|a actions Ha Hall IH]; intros actions' H;
    cbn [actions_remove] in H; [discriminate|].
  fold (is_void v a) in H. destruct (is_void v a) eqn:Hvoid.
  - injection H as <-. split; [assumption|]. intros u.
    rewrite (is_void_shaped v Ha Hvoid). cbn [filter].
    rewrite is_void_void.
    destruct (String.eqb v u); cbn [length];
      [apply Nat.add_1_r | apply Nat.add_0_r].
  - rstep H as rest Hrest. injection H as <-.
    destruct (IH _ Hrest) as [Hshaped Hcount].
    split; [now constructor|]. intros u. cbn [filter].
    destruct (is_void u a); cbn [length]; rewrite <- Hcount; reflexivity.
Qed.

Lemma remove_void_deletions_count (st : State)
  (deletions : list (string * nat)) :
  shaped_cells st ->
  forall actions kept,
    Forall shaped actions ->
    remove_void_deletions st deletions actions = Ok kept ->
    Forall shaped kept
    /\ forall u,
        length (filter (is_void u) kept)
        + length (filter (fun e => is_void u (cell st (snd e))) deletions)
        = length (filter (is_void u) actions).
Proof.
  intros Hst.
  induction deletions as [|[k address] deletions IH]; intros actions kept
                                                            Hall H;
    cbn [remove_void_deletions] in H.
  - injection H as <-. split; [assumption|]. intros u. apply Nat.add_0_r.
  - rstep H as actions1 Hstep. cbn [filter snd].
    destruct (Nat.lt_ge_cases address (length (cells st))) as [Hlt|Hge].
    + pose proof (cell_shaped Hst Hlt) as Hcell.
      destruct (only_parent (cell st address)) eqn:Hvoid.
      * destruct (only_parent_shaped Hcell Hvoid) as (v & Hv).
        rewrite Hv in Hstep. apply actions_remove_void in Hstep;
          [|assumption].
        destruct Hstep as [Hall1 Hcount1].
        destruct (IH _ _ Hall1 H) as [Hkept Hcount].
        split; [assumption|]. intros u. rewrite Hv, is_void_void.
        rewrite <- Hcount1, <- Hcount.
        destruct (String.eqb v u); cbn [length].
        -- now rewrite <- Nat.add_assoc, Nat.add_1_r.
        -- now rewrite Nat.add_0_r.
      * injection Hstep as <-.
        destruct (IH _ _ Hall H) as [Hkept Hcount].
        split; [assumption|]. intros u.
        destruct (is_void u (cell st address)) eqn:Hu; [|apply Hcount].
        rewrite (is_void_shaped u Hcell Hu) in Hvoid. discriminate.
    + assert (Hnil : cell st address = [])
        by (unfold cell; now apply nth_overflow).
      rewrite Hnil in Hstep. cbn in Hstep. injection Hstep as <-.
      destruct (IH _ _ Hall H) as [Hkept Hcount].
      split; [assumption|]. intros u. rewrite Hnil, is_void_nil.
      apply Hcount.
Qed.

Lemma filter_map_length {A B} (p : B -> bool) (f : A -> B) (l : list A) :
  length (filter p (map f l)) = length (filter (fun x => p (f x)) l).
Proof.
  induction l as [|x l IH]; [reflexivity|]. cbn [map filter].
  destruct (p (f x)); cbn [length]; now rewrite IH.
Qed.

(** There are no more void actions among the actions yielded than there
    are records that lead to them. *)
Lemma void_actions_recorded (st : State) (deletions : list (string * nat))
  (addresses : list nat) (u : string) :
  NoDup addresses ->
  (forall a,
      In a addresses -> is_void u (cell st a) = true ->
      exists k, In (k, a) deletions) ->
  length (filter (is_void u) (map (cell st) addresses))
  <= length (filter (fun e => is_void u (cell st (snd e))) deletions).
Proof.
  intros Hnodup Hrecorded. rewrite filter_map_length.
  rewrite <- (length_map snd
                (filter (fun e => is_void u (cell st (snd e))) deletions)).
  apply NoDup_incl_length; [now apply NoDup_filter|].
  intros a Ha. apply filter_In in Ha. destruct Ha as [Ha Hvoid].
  destruct (Hrecorded a Ha Hvoid) as (k & Hk).
  apply in_map_iff. exists (k, a). split; [reflexivity|].
  apply filter_In. now split.
Qed.

(** C5. Every action of the action list has one of [extend], [modify]
    and [delete] with something in it: an action on a work item is put
    into the list only when it has, an action that the withdrawal of its
    deletions has left with its parent only is taken out of the list again,
    and the action on the module creates the types folder. The model is
    taken to be consistent: a UUID stands for one element. *)
Theorem final_actions_carry_change (self : TrackerChange)
  (actions : list Dict) :
  consistent self ->
  calculate_change self = Ok actions ->
  Forall (fun action => carries_change action = true) actions.
Proof.
  intros Hconsistent H.
  pose proof (calculate_change_shape self H) as Hshape.
  destruct Hshape as (Hnone & items' & base & Heq & _ & _ & Hslot).
  assert (Hbase : carries_change base = true).
  { unfold extend_slot in Hslot.
    cbn [requirement_types_folder_create_action dict_get String.eqb
         Ascii.eqb Bool.eqb] in Hslot.
    unfold carries_change, populated.
    destruct (dict_get base "extend") as [[| | | | | | | | |[|kv slots]]|];
      try discriminate.
    reflexivity. }
  unfold calculate_change in H. rewrite Hnone in H. cbn [bind] in H.
  rstep H as r Hitems. destruct r as [[[base1 visited] item_actions] st].
  rstep H as kept Hkept. rstep H as base2 Hreqs. rstep H as base3 Hfolders.
  injection H as H.
  apply reconcile_items_tracked with (st0 := initial_state) in Hitems;
    [|assumption|constructor|apply lasting_refl|apply yielded_nil].
  destruct Hitems as (Hst & Hnodup & Hrange & Htracked).
  cbn [app] in Hkept.
  assert (Hall : Forall shaped (map (cell st) item_actions)).
  { apply Forall_map. eapply Forall_impl; [|exact Hrange].
    intros a [_ Hlt]. now apply cell_shaped. }
  apply remove_void_deletions_count in Hkept; try assumption.
  destruct Hkept as [Hshaped Hcount].
  assert (Hcarry : Forall (fun action => carries_change action = true) kept).
  { apply Forall_forall. intros x Hx.
    destruct (carries_change x) eqn:Hnone'; [reflexivity|]. exfalso.
    pose proof (proj1 (Forall_forall _ _) Hshaped x Hx) as Hx'.
    destruct (shaped_void Hx' Hnone') as (u & ->).
    assert (Hin : In [("parent", UUIDReference u)] (filter (is_void u) kept)).
    { apply filter_In. split; [assumption | apply is_void_refl]. }
    assert (Hle : length (filter (is_void u) (map (cell st) item_actions))
                  <= length (filter (fun e => is_void u (cell st (snd e)))
                                    (_req_deletions st))).
    { apply void_actions_recorded; [assumption|].
      intros a Ha Hvoid.
      pose proof (proj1 (Forall_forall _ _) Htracked a Ha) as Ht.
      pose proof (proj1 (Forall_forall _ _) Hrange a Ha) as [_ Hlt].
      destruct Ht as [Hcarries|(r & _ & Hentry & _)].
      - rewrite (is_void_carries u) in Hcarries;
          [discriminate | assumption | now apply cell_shaped].
      - exists (Live.uuid r). now apply dict_get_In. }
    specialize (Hcount u).
    destruct (filter (is_void u) kept) as [|y l]; [contradiction|].
    cbn [length] in Hcount. rewrite <- Hcount in Hle.
    apply (Nat.lt_irrefl
             (length (filter (fun e => is_void u (cell st (snd e)))
                             (_req_deletions st)))).
    eapply Nat.lt_le_trans; [|exact Hle].
    cbn [Nat.add]. apply Nat.lt_succ_r, Nat.le_add_l. }
  destruct (negb (only_parent base3)); subst actions; [|exact Hcarry].
  apply app_inj_tail in Heq. destruct Heq as [_ ->].
  apply Forall_app. split; [assumption | now constructor].
Qed.

Lemma retracted_consistent : consistent Samples.Retracted.self.
Proof.
  intros req creq r (i & Hi) (j & Hj) Hin Huuid.
  cbn [work_item_by_identifier reqfinder Samples.Retracted.self
       Examples.table_finder] in Hi, Hj.
  apply find_some in Hi, Hj. destruct Hi as [Hi _], Hj as [Hj _].
  destruct Hi as [<-|[<-|[<-|[]]]]; cbn in Hin;
    try contradiction; destruct Hin as [<-|[]];
    destruct Hj as [<-|[<-|[<-|[]]]]; try discriminate Huuid; reflexivity.
Qed.

Lemma final_actions_carry_change_witness :
  Forall (fun action => carries_change action = true)
    [[("parent", UUIDReference "uuid-F2");
      ("extend", VDict [("requirements", VList [UUIDReference "uuid-R1"])])];
     [("parent", UUIDReference "uuid-module");
      ("extend",
       VDict
         [("requirement_types_folders",
           VList
             [VDict
                [("long_name", VStr "Types"); ("identifier", VStr "-2");
                 ("data_type_definitions", VList []);
                 ("requirement_types",
                  VList
                    [VDict
                       [("identifier", VStr "Req");
                        ("long_name", VStr "Requirement");
                        ("promise_id", VStr "RequirementType Req");
                        ("attribute_definitions", VList [])]])]])])]].
Proof.
  apply (@final_actions_carry_change Samples.Retracted.self);
    [apply retracted_consistent | reflexivity].
Defined.
